(** * rr: the ticks counter, the diversion controller and the replay loop

    A shallow embedding of [src/PerfCounters.cc], [src/diverter.cc] and
    [src/replayer/replayer.c], followed by the properties established on it.

    Conventions of the embedding:
    - C integers are [Z]; conversions between 64-bit signed and unsigned
      values are written out with [to_int64] and [to_uint64];
    - a function that can terminate the process returns an [Outcome]:
      [Fatal] for FATAL()/fatal(), [AssertFailed] for assert()/ASSERT(),
      [Blocked] when it waits for the debugger or the tracee for ever;
    - the kernel, the debugger and the tracee are explicit state: a table of
      perf events, a queue of debugger requests, a queue of wait statuses. *)

From Stdlib Require Import ZArith Lia Bool List String Ascii.
From stdpp Require Import base option list gmap.
Import ListNotations.
Local Open Scope Z_scope.

(** ** Outcomes of code that may not return *)

Inductive Outcome (A : Type) : Type :=
| Done (a : A)                  (* the function returned [a] *)
| Fatal (msg : string)          (* FATAL() / fatal(): the process exits *)
| AssertFailed (cond : string)  (* assert() / ASSERT() failed: the process aborts *)
| Crashed (why : string)        (* a null pointer was dereferenced *)
| Blocked.                      (* waiting for an input that never comes *)

Arguments Done {A} a.
Arguments Fatal {A} msg.
Arguments AssertFailed {A} cond.
Arguments Crashed {A} why.
Arguments Blocked {A}.

Definition returned {A} (o : Outcome A) : bool :=
  match o with Done _ => true | _ => false end.

(** ** Code that threads a state and may not return *)

Definition StateM (S A : Type) : Type := S -> Outcome (A * S).

Definition ret {S A} (a : A) : StateM S A := fun s => Done (a, s).

Definition bind {S A B} (m : StateM S A) (f : A -> StateM S B) : StateM S B :=
  fun s =>
    match m s with
    | Done (a, s') => f a s'
    | Fatal msg => Fatal msg
    | AssertFailed c => AssertFailed c
    | Crashed w => Crashed w
    | Blocked => Blocked
    end.

Notation "'run' x <- m ; f" := (bind m (fun x => f))
  (at level 10, x name, m at level 100, f at level 200, only parsing).

Definition FATAL {S A} (msg : string) : StateM S A := fun _ => Fatal msg.
Definition assert_failed {S A} (cond : string) : StateM S A := fun _ => AssertFailed cond.

(** The outcome of code that calls a function that never returns. *)
Definition no_return {S A} (o : Outcome (Empty_set * S)) : Outcome A :=
  match o with
  | Done (never, _) => match never with end
  | Fatal msg => Fatal msg
  | AssertFailed c => AssertFailed c
  | Crashed w => Crashed w
  | Blocked => Blocked
  end.

(** ** Machine integers *)

Definition to_uint64 (z : Z) : Z := z mod 2 ^ 64.
Definition to_int64 (z : Z) : Z := (z + 2 ^ 63) mod 2 ^ 64 - 2 ^ 63.
Definition INT_MAX : Z := 2 ^ 31 - 1.

(** * Part I: the embedding *)

(** ** src/PerfCounters.cc *)

Module PerfCounters_cc.

Inductive CpuMicroarch :=
| UnknownCpu | IntelMerom | IntelPenryn | IntelNehalem | IntelWestmere
| IntelSandyBridge | IntelIvyBridge | IntelHaswell | IntelBroadwell
| IntelSkylake | IntelSilvermont | IntelKabylake.

#[global] Instance CpuMicroarch_eq_dec : EqDecision CpuMicroarch.
Proof. solve_decision. Defined.

Record PmuConfig := {
  uarch : CpuMicroarch;
  name : string;
  rcb_cntr_event : Z;
  rinsn_cntr_event : Z;
  hw_intr_cntr_event : Z;
  supported : bool;
  benefits_from_useless_counter : bool
}.

Definition pmu_configs : list PmuConfig := [
  Build_PmuConfig IntelKabylake "Intel Kabylake" 0x5101c4 0x5100c0 0x5301cb true false;
  Build_PmuConfig IntelSilvermont "Intel Silvermont" 0x517ec4 0x5100c0 0x5301cb true true;
  Build_PmuConfig IntelSkylake "Intel Skylake" 0x5101c4 0x5100c0 0x5301cb true false;
  Build_PmuConfig IntelBroadwell "Intel Broadwell" 0x5101c4 0x5100c0 0x5301cb true false;
  Build_PmuConfig IntelHaswell "Intel Haswell" 0x5101c4 0x5100c0 0x5301cb true false;
  Build_PmuConfig IntelIvyBridge "Intel Ivy Bridge" 0x5101c4 0x5100c0 0x5301cb true false;
  Build_PmuConfig IntelSandyBridge "Intel Sandy Bridge" 0x5101c4 0x5100c0 0x5301cb true false;
  Build_PmuConfig IntelNehalem "Intel Nehalem" 0x5101c4 0x5100c0 0x50011d true false;
  Build_PmuConfig IntelWestmere "Intel Westmere" 0x5101c4 0x5100c0 0x50011d true false;
  Build_PmuConfig IntelPenryn "Intel Penryn" 0 0 0 false false;
  Build_PmuConfig IntelMerom "Intel Merom" 0 0 0 false false
].

Definition tolower (c : ascii) : ascii :=
  let n := nat_of_ascii c in
  if ((65 <=? n) && (n <=? 90))%nat then ascii_of_nat (n + 32) else c.

Fixpoint lowercase (s : string) : string :=
  match s with
  | EmptyString => EmptyString
  | String c s' => String (tolower c) (lowercase s')
  end.

(** What the process observes of its surroundings: the command-line flags
    of [Flags::get()], the CPUID leaf, whether it is itself being recorded,
    and what the two bug probes measured the one time they ran (their
    results are cached in function-local statics). *)
Record Env := {
  forced_uarch : string;
  suppress_environment_warnings : bool;
  force_things : bool;
  extra_perf_counters_enabled : bool;
  cpuid_getfeatures_eax : Z;
  running_under_rr : bool;
  kvm_probe_count : Z;      (* [count] read by has_kvm_in_txcp_bug *)
  ioc_probe_revents : Z;    (* [poll_bug_fd.revents] in has_ioc_period_bug *)
  TIME_SLICE_SIGNAL : Z     (* PerfCounters::TIME_SLICE_SIGNAL, declared in the header *)
}.

Definition find_forced (forced : string) : option PmuConfig :=
  List.find (fun pmu => bool_decide (is_Some (index 0 forced (lowercase (name pmu)))))
            pmu_configs.

Definition get_cpu_microarch (env : Env) : Outcome CpuMicroarch :=
  let forced := lowercase (forced_uarch env) in
  if negb (String.eqb forced EmptyString) then
    match find_forced forced with
    | Some pmu => Done (uarch pmu)
    | None => Fatal "Forced uarch isn't known."
    end
  else
    let cpu_type := Z.land (cpuid_getfeatures_eax env) 0xF0FF0 in
    if (cpu_type =? 0x006F0) || (cpu_type =? 0x10660) then Done IntelMerom
    else if (cpu_type =? 0x10670) || (cpu_type =? 0x106D0) then Done IntelPenryn
    else if (cpu_type =? 0x106A0) || (cpu_type =? 0x106E0) || (cpu_type =? 0x206E0)
      then Done IntelNehalem
    else if (cpu_type =? 0x20650) || (cpu_type =? 0x206C0) || (cpu_type =? 0x206F0)
      then Done IntelWestmere
    else if (cpu_type =? 0x206A0) || (cpu_type =? 0x206D0) || (cpu_type =? 0x306e0)
      then Done IntelSandyBridge
    else if (cpu_type =? 0x306A0) then Done IntelIvyBridge
    else if (cpu_type =? 0x306C0) || (cpu_type =? 0x306F0) || (cpu_type =? 0x40650)
            || (cpu_type =? 0x40660) then Done IntelHaswell
    else if (cpu_type =? 0x306D0) || (cpu_type =? 0x406F0) || (cpu_type =? 0x50660)
      then Done IntelBroadwell
    else if (cpu_type =? 0x406e0) || (cpu_type =? 0x506e0) then Done IntelSkylake
    else if (cpu_type =? 0x50670) then Done IntelSilvermont
    else if (cpu_type =? 0x806e0) || (cpu_type =? 0x906e0) then Done IntelKabylake
    else Fatal "CPU unknown.".

(** *** perf_event_attr *)

Inductive perf_type_id := PERF_TYPE_HARDWARE | PERF_TYPE_SOFTWARE | PERF_TYPE_RAW.

#[global] Instance perf_type_id_eq_dec : EqDecision perf_type_id.
Proof. solve_decision. Defined.

Definition PERF_COUNT_HW_CPU_CYCLES : Z := 0.
Definition PERF_COUNT_SW_PAGE_FAULTS : Z := 2.

Record perf_event_attr := {
  attr_type : perf_type_id;
  config : Z;
  sample_period : Z;
  exclude_kernel : bool;
  exclude_guest : bool;
  exclude_hv : bool
}.

Definition set_sample_period (p : Z) (a : perf_event_attr) : perf_event_attr :=
  {| attr_type := attr_type a; config := config a; sample_period := p;
     exclude_kernel := exclude_kernel a; exclude_guest := exclude_guest a;
     exclude_hv := exclude_hv a |}.

Definition set_config (c : Z) (a : perf_event_attr) : perf_event_attr :=
  {| attr_type := attr_type a; config := c; sample_period := sample_period a;
     exclude_kernel := exclude_kernel a; exclude_guest := exclude_guest a;
     exclude_hv := exclude_hv a |}.

Definition set_exclude_hv (b : bool) (a : perf_event_attr) : perf_event_attr :=
  {| attr_type := attr_type a; config := config a; sample_period := sample_period a;
     exclude_kernel := exclude_kernel a; exclude_guest := exclude_guest a;
     exclude_hv := b |}.

Definition init_perf_event_attr (type : perf_type_id) (cfg : Z) : perf_event_attr :=
  {| attr_type := type; config := cfg; sample_period := 0;
     (* rr requires that its events count userspace tracee code only. *)
     exclude_kernel := true; exclude_guest := true; exclude_hv := false |}.

Definition IN_TX : Z := Z.shiftl 1 32.
Definition IN_TXCP : Z := Z.shiftl 1 33.
Definition NUM_BRANCHES : Z := 500.

(** *** The bug probes, once they have run

    Each probe runs once per process and caches its verdict in its static
    [bug_detected]; every later call returns that static.  These are the
    later calls: the verdict as a function of what the probe measured that
    one time.  The first call of each probe, with its system calls and the
    ways it can end the process, is in [PerfCounters_process] below; the
    two agree on statics that are settled, which is proved in
    [PerfCounters_facts]. *)

Definition has_kvm_in_txcp_bug (env : Env) : bool :=
  if running_under_rr env then false
  else kvm_probe_count env <? NUM_BRANCHES.

Definition has_ioc_period_bug (env : Env) : bool :=
  if running_under_rr env then false
  else ioc_probe_revents env =? 0.

Definition always_recreate_counters (env : Env) : bool :=
  has_ioc_period_bug env || has_kvm_in_txcp_bug env.

(** *** The file's statics, as init_attributes leaves them

    [init_attributes] here gives the attributes the first call of
    init_attributes() writes, or the way that call ends at the table of
    PMUs; the call itself, which runs the IOC_PERIOD probe before it
    writes them, is [PerfCounters_process.init_attributes]. *)

Record Attrs := {
  ticks_attr : perf_event_attr;
  cycles_attr : perf_event_attr;
  page_faults_attr : perf_event_attr;
  hw_interrupts_attr : perf_event_attr;
  instructions_retired_attr : perf_event_attr;
  activate_useless_counter : bool
}.

Definition init_attributes (env : Env) : Outcome Attrs :=
  match get_cpu_microarch env with
  | Done ua =>
    match List.find (fun p => bool_decide (ua = uarch p)) pmu_configs with
    | None => AssertFailed "pmu"
    | Some pmu =>
      if negb (supported pmu) then Fatal "Microarchitecture currently unsupported."
      else Done {|
        activate_useless_counter :=
          has_ioc_period_bug env && negb (running_under_rr env);
        ticks_attr := init_perf_event_attr PERF_TYPE_RAW (rcb_cntr_event pmu);
        cycles_attr := init_perf_event_attr PERF_TYPE_HARDWARE PERF_COUNT_HW_CPU_CYCLES;
        instructions_retired_attr :=
          init_perf_event_attr PERF_TYPE_RAW (rinsn_cntr_event pmu);
        (* libpfm encodes the event with this bit set *)
        hw_interrupts_attr :=
          set_exclude_hv true (init_perf_event_attr PERF_TYPE_RAW (hw_intr_cntr_event pmu));
        page_faults_attr :=
          init_perf_event_attr PERF_TYPE_SOFTWARE PERF_COUNT_SW_PAGE_FAULTS |}
    end
  | Fatal m => Fatal m
  | AssertFailed c => AssertFailed c
  | Crashed w => Crashed w
  | Blocked => Blocked
  end.

#[global] Instance perf_event_attr_eq_dec : EqDecision perf_event_attr.
Proof. solve_decision. Defined.

(** bool PerfCounters::is_ticks_attr(const perf_event_attr& attr), once
    init_attributes has run.  memcmp compares the whole struct; the fields
    this file never sets are zero in every attribute it builds (memset) and
    are not part of the record. *)
Definition is_ticks_attr (g : Attrs) (attr : perf_event_attr) : bool :=
  let tmp_attr := set_sample_period 0 attr in
  let tmp_attr :=
    set_config (Z.land (config tmp_attr) (to_uint64 (Z.lnot IN_TXCP))) tmp_attr in
  bool_decide (ticks_attr g = tmp_attr).

(** *** The kernel's side: perf events behind file descriptors

    The model keeps, for every open perf-event descriptor, the attributes it
    was opened with and what the later ioctl/fcntl calls set.  A request on
    an open descriptor is granted; a request on any other descriptor fails.
    [perf_open_errno] is the error every perf_event_open meets on a system
    where perf events are not usable, [supports_in_txcp] tells whether the
    kernel knows the IN_TXCP bit. *)

Inductive Errno := EINVAL | EACCES | ENOENT | EBADF.

Record perf_event := {
  pe_attr : perf_event_attr;
  pe_tid : Z;
  pe_group_fd : Z;
  pe_enabled : bool;
  pe_count : Z;            (* the count read() delivers *)
  pe_owner : option Z;     (* F_SETOWN_EX *)
  pe_async : bool;         (* O_ASYNC *)
  pe_sig : Z               (* F_SETSIG *)
}.

Record Kernel := {
  events : gmap Z perf_event;
  next_fd : Z;
  supports_in_txcp : bool;
  perf_open_errno : option Errno
}.

Definition with_events (ev : gmap Z perf_event) (k : Kernel) : Kernel :=
  {| events := ev; next_fd := next_fd k;
     supports_in_txcp := supports_in_txcp k; perf_open_errno := perf_open_errno k |}.

Definition new_event (attr : perf_event_attr) (tid group_fd : Z) : perf_event :=
  {| pe_attr := attr; pe_tid := tid; pe_group_fd := group_fd; pe_enabled := true;
     pe_count := 0; pe_owner := None; pe_async := false; pe_sig := 0 |}.

(** The kernel after it granted a perf_event_open: the new event sits
    behind the next free descriptor. *)
Definition opened (attr : perf_event_attr) (tid group_fd : Z) (k : Kernel) : Kernel :=
  {| events := <[next_fd k := new_event attr tid group_fd]> (events k);
     next_fd := next_fd k + 1;
     supports_in_txcp := supports_in_txcp k;
     perf_open_errno := perf_open_errno k |}.

Definition sys_perf_event_open (attr : perf_event_attr) (tid group_fd : Z)
    (k : Kernel) : (Z + Errno) * Kernel :=
  match perf_open_errno k with
  | Some e => (inr e, k)
  | None =>
    if Z.testbit (config attr) 33 && negb (supports_in_txcp k) then (inr EINVAL, k)
    else if negb (group_fd =? -1) && negb (bool_decide (is_Some (events k !! group_fd)))
    then (inr EBADF, k)
    else (inl (next_fd k), opened attr tid group_fd k)
  end.

Inductive ioctl_request :=
| PERF_EVENT_IOC_ENABLE
| PERF_EVENT_IOC_DISABLE
| PERF_EVENT_IOC_RESET
| PERF_EVENT_IOC_PERIOD (period : Z).

Definition ioctl_event (req : ioctl_request) (e : perf_event) : perf_event :=
  match req with
  | PERF_EVENT_IOC_ENABLE =>
    {| pe_attr := pe_attr e; pe_tid := pe_tid e; pe_group_fd := pe_group_fd e;
       pe_enabled := true; pe_count := pe_count e; pe_owner := pe_owner e;
       pe_async := pe_async e; pe_sig := pe_sig e |}
  | PERF_EVENT_IOC_DISABLE =>
    {| pe_attr := pe_attr e; pe_tid := pe_tid e; pe_group_fd := pe_group_fd e;
       pe_enabled := false; pe_count := pe_count e; pe_owner := pe_owner e;
       pe_async := pe_async e; pe_sig := pe_sig e |}
  | PERF_EVENT_IOC_RESET =>
    {| pe_attr := pe_attr e; pe_tid := pe_tid e; pe_group_fd := pe_group_fd e;
       pe_enabled := pe_enabled e; pe_count := 0; pe_owner := pe_owner e;
       pe_async := pe_async e; pe_sig := pe_sig e |}
  | PERF_EVENT_IOC_PERIOD p =>
    {| pe_attr := set_sample_period p (pe_attr e); pe_tid := pe_tid e;
       pe_group_fd := pe_group_fd e; pe_enabled := pe_enabled e;
       pe_count := pe_count e; pe_owner := pe_owner e;
       pe_async := pe_async e; pe_sig := pe_sig e |}
  end.

Inductive fcntl_request :=
| F_SETOWN_EX (owner_tid : Z)
| F_SETFL_O_ASYNC
| F_SETSIG (sig : Z).

Definition fcntl_event (req : fcntl_request) (e : perf_event) : perf_event :=
  match req with
  | F_SETOWN_EX t =>
    {| pe_attr := pe_attr e; pe_tid := pe_tid e; pe_group_fd := pe_group_fd e;
       pe_enabled := pe_enabled e; pe_count := pe_count e; pe_owner := Some t;
       pe_async := pe_async e; pe_sig := pe_sig e |}
  | F_SETFL_O_ASYNC =>
    {| pe_attr := pe_attr e; pe_tid := pe_tid e; pe_group_fd := pe_group_fd e;
       pe_enabled := pe_enabled e; pe_count := pe_count e; pe_owner := pe_owner e;
       pe_async := true; pe_sig := pe_sig e |}
  | F_SETSIG s =>
    {| pe_attr := pe_attr e; pe_tid := pe_tid e; pe_group_fd := pe_group_fd e;
       pe_enabled := pe_enabled e; pe_count := pe_count e; pe_owner := pe_owner e;
       pe_async := pe_async e; pe_sig := s |}
  end.

(** ioctl and fcntl return 0 on success and -1 on failure. *)
Definition sys_ioctl (fd : Z) (req : ioctl_request) (k : Kernel) : Z * Kernel :=
  match events k !! fd with
  | Some e => (0, with_events (<[fd := ioctl_event req e]> (events k)) k)
  | None => (-1, k)
  end.

Definition sys_fcntl (fd : Z) (req : fcntl_request) (k : Kernel) : Z * Kernel :=
  match events k !! fd with
  | Some e => (0, with_events (<[fd := fcntl_event req e]> (events k)) k)
  | None => (-1, k)
  end.

(** read(fd, &val, 8): the eight bytes of the count, or nothing. *)
Definition sys_read (fd : Z) (k : Kernel) : option Z :=
  pe_count <$> events k !! fd.

Definition sys_close (fd : Z) (k : Kernel) : Kernel :=
  with_events (delete fd (events k)) k.

(** *** Code that talks to the kernel and may not return *)

Abbreviation KM := (StateM Kernel).

(** A call whose status the caller checks. *)
Definition ioctl (fd : Z) (req : ioctl_request) : KM Z :=
  fun k => Done (sys_ioctl fd req k).

Definition fcntl (fd : Z) (req : fcntl_request) : KM Z :=
  fun k => Done (sys_fcntl fd req k).

(** *** ScopedFd

    Modelled from the spec: ScopedFd.h is not among the sources; the file
    descriptors are "owned, scoped file descriptors; closing the counter
    releases them".  A closed ScopedFd holds -1; closing an open one closes
    the descriptor; assigning to one closes what it held. *)

Abbreviation ScopedFd := Z (only parsing).

Definition is_open (fd : ScopedFd) : bool := 0 <=? fd.

Definition ScopedFd_close (fd : ScopedFd) : KM ScopedFd :=
  fun k => if is_open fd then Done (-1, sys_close fd k) else Done (-1, k).

Definition ScopedFd_assign (old : ScopedFd) (new : KM ScopedFd) : KM ScopedFd :=
  run fd <- new;
  run _ <- ScopedFd_close old;
  ret fd.

(** *** start_counter and read_counter *)

Definition start_counter (tid group_fd : Z) (attr : perf_event_attr) : KM ScopedFd :=
  fun k =>
    let '(r, k1) := sys_perf_event_open attr tid group_fd k in
    let '(r, k2) :=
      match r with
      | inr EINVAL =>
        if bool_decide (attr_type attr = PERF_TYPE_RAW)
           && negb (Z.land (config attr) IN_TXCP =? 0)
        then
          (* The kernel might not support IN_TXCP, so try again without it. *)
          let tmp_attr :=
            set_config (Z.land (config attr) (to_uint64 (Z.lnot IN_TXCP))) attr in
          sys_perf_event_open tmp_attr tid group_fd k1
        else (r, k1)
      | _ => (r, k1)
      end in
    match r with
    | inl fd => Done (fd, k2)
    | inr EACCES =>
      Fatal "Permission denied to use 'perf_event_open'; are perf events enabled? Try 'perf record'."
    | inr ENOENT =>
      Fatal "Unable to open performance counter with 'perf_event_open'; are perf events enabled? Try 'perf record'."
    | inr _ => Fatal "Failed to initialize counter"
    end.

(** [int64_t val; nread = read(fd, &val, sizeof(val)); assert(nread == sizeof(val))] *)
Definition read_counter (fd : ScopedFd) : KM Z :=
  fun k =>
    match sys_read fd k with
    | Some v => Done (to_int64 v, k)
    | None => AssertFailed "nread == sizeof(val)"
    end.

(** *** class PerfCounters *)

Record PerfCounters := {
  counting : bool;
  tid : Z;
  started : bool;
  fd_hw_interrupts : ScopedFd;
  fd_instructions_retired : ScopedFd;
  fd_page_faults : ScopedFd;
  fd_ticks_interrupt : ScopedFd;
  fd_ticks_measure : ScopedFd;
  fd_ticks_in_transaction : ScopedFd;
  fd_useless_counter : ScopedFd
}.

(** PerfCounters::PerfCounters(tid); init_attributes() has produced the
    [Attrs] the other operations take. *)
Definition new (t : Z) : PerfCounters :=
  {| counting := false; tid := t; started := false;
     fd_hw_interrupts := -1; fd_instructions_retired := -1; fd_page_faults := -1;
     fd_ticks_interrupt := -1; fd_ticks_measure := -1;
     fd_ticks_in_transaction := -1; fd_useless_counter := -1 |}.

Definition make_counter_async (fd : ScopedFd) (signal : Z) : KM unit :=
  run r1 <- fcntl fd F_SETFL_O_ASYNC;
  if negb (r1 =? 0) then FATAL "Failed to make ticks counter ASYNC with sig"
  else
    run r2 <- fcntl fd (F_SETSIG signal);
    if negb (r2 =? 0) then FATAL "Failed to make ticks counter ASYNC with sig"
    else ret tt.

(** The branch of reset taken when [!started]: every counter is opened anew. *)
Definition reset_recreate (env : Env) (g : Attrs) (ticks_period : Z)
    (pc : PerfCounters) : KM PerfCounters :=
  let attr := set_sample_period (to_uint64 ticks_period) (ticks_attr g) in
  run fd_int <- ScopedFd_assign (fd_ticks_interrupt pc) (start_counter (tid pc) (-1) attr);
  run fds <-
    (if has_kvm_in_txcp_bug env then
       (* IN_TXCP isn't going to work reliably. Assume that HLE/RTM are not
          used, and check that. *)
       let attr := set_config (Z.lor (config attr) IN_TX) (set_sample_period 0 attr) in
       run fd <- ScopedFd_assign (fd_ticks_in_transaction pc)
                                (start_counter (tid pc) fd_int attr);
       ret (fd_ticks_measure pc, fd)
     else
       (* A separate counter for measuring ticks, which does not have a
          sample period and does not count events during aborted
          transactions. *)
       let attr := set_config (Z.lor (config attr) IN_TXCP) (set_sample_period 0 attr) in
       run fd <- ScopedFd_assign (fd_ticks_measure pc)
                                (start_counter (tid pc) fd_int attr);
       ret (fd, fd_ticks_in_transaction pc));
  run fd_useless <-
    (if activate_useless_counter g && negb (is_open (fd_useless_counter pc)) then
       (* deliberately not in the same group as the other counters *)
       ScopedFd_assign (fd_useless_counter pc) (start_counter (tid pc) (-1) (cycles_attr g))
     else ret (fd_useless_counter pc));
  run r <- fcntl fd_int (F_SETOWN_EX (tid pc));
  if negb (r =? 0) then FATAL "Failed to SETOWN_EX ticks event fd"
  else
    run _ <- make_counter_async fd_int (TIME_SLICE_SIGNAL env);
    run extra <-
      (if extra_perf_counters_enabled env then
         let group_leader := fd_int in
         run fd_hw <- ScopedFd_assign (fd_hw_interrupts pc)
                       (start_counter (tid pc) group_leader (hw_interrupts_attr g));
         run fd_insn <- ScopedFd_assign (fd_instructions_retired pc)
                       (start_counter (tid pc) group_leader (instructions_retired_attr g));
         run fd_pf <- ScopedFd_assign (fd_page_faults pc)
                       (start_counter (tid pc) group_leader (page_faults_attr g));
         ret (fd_hw, fd_insn, fd_pf)
       else ret (fd_hw_interrupts pc, fd_instructions_retired pc, fd_page_faults pc));
    ret {| counting := counting pc; tid := tid pc; started := started pc;
           fd_hw_interrupts := extra.1.1;
           fd_instructions_retired := extra.1.2;
           fd_page_faults := extra.2;
           fd_ticks_interrupt := fd_int;
           fd_ticks_measure := fds.1;
           fd_ticks_in_transaction := fds.2;
           fd_useless_counter := fd_useless |}.

Definition ioctl_or_FATAL (fd : ScopedFd) (req : ioctl_request) (msg : string) : KM unit :=
  run r <- ioctl fd req;
  if negb (r =? 0) then FATAL msg else ret tt.

(** The branch of reset taken when [started]: the open counters are
    reprogrammed. *)
Definition reset_reprogram (ticks_period : Z) (pc : PerfCounters) : KM PerfCounters :=
  run _ <- ioctl_or_FATAL (fd_ticks_interrupt pc) PERF_EVENT_IOC_RESET
            "ioctl(PERF_EVENT_IOC_RESET) failed";
  run _ <- ioctl_or_FATAL (fd_ticks_interrupt pc)
            (PERF_EVENT_IOC_PERIOD (to_uint64 ticks_period))
            "ioctl(PERF_EVENT_IOC_PERIOD) failed with period";
  run _ <- ioctl_or_FATAL (fd_ticks_interrupt pc) PERF_EVENT_IOC_ENABLE
            "ioctl(PERF_EVENT_IOC_ENABLE) failed";
  run _ <-
    (if is_open (fd_ticks_measure pc) then
       run _ <- ioctl_or_FATAL (fd_ticks_measure pc) PERF_EVENT_IOC_RESET
                 "ioctl(PERF_EVENT_IOC_RESET) failed";
       ioctl_or_FATAL (fd_ticks_measure pc) PERF_EVENT_IOC_ENABLE
                 "ioctl(PERF_EVENT_IOC_ENABLE) failed"
     else ret tt);
  run _ <-
    (if is_open (fd_ticks_in_transaction pc) then
       run _ <- ioctl_or_FATAL (fd_ticks_in_transaction pc) PERF_EVENT_IOC_RESET
                 "ioctl(PERF_EVENT_IOC_RESET) failed";
       ioctl_or_FATAL (fd_ticks_in_transaction pc) PERF_EVENT_IOC_ENABLE
                 "ioctl(PERF_EVENT_IOC_ENABLE) failed"
     else ret tt);
  ret pc.

Definition set_started_counting (s c : bool) (pc : PerfCounters) : PerfCounters :=
  {| counting := c; tid := tid pc; started := s;
     fd_hw_interrupts := fd_hw_interrupts pc;
     fd_instructions_retired := fd_instructions_retired pc;
     fd_page_faults := fd_page_faults pc;
     fd_ticks_interrupt := fd_ticks_interrupt pc;
     fd_ticks_measure := fd_ticks_measure pc;
     fd_ticks_in_transaction := fd_ticks_in_transaction pc;
     fd_useless_counter := fd_useless_counter pc |}.

(** The period reset programs: 0 becomes a very big number unless the
    counters are recreated every time. *)
Definition effective_period (env : Env) (ticks_period : Z) : Z :=
  if (ticks_period =? 0) && negb (always_recreate_counters env)
  then to_int64 (to_uint64 (Z.shiftl 1 60))
  else ticks_period.

(** void PerfCounters::reset(Ticks ticks_period) *)
Definition reset (env : Env) (g : Attrs) (ticks_period : Z)
    (pc : PerfCounters) : KM PerfCounters :=
  if negb (0 <=? ticks_period) then assert_failed "ticks_period >= 0"
  else
    let ticks_period := effective_period env ticks_period in
    run pc' <- (if negb (started pc) then reset_recreate env g ticks_period pc
               else reset_reprogram ticks_period pc);
    ret (set_started_counting true true pc').

(** void PerfCounters::stop() *)
Definition stop (pc : PerfCounters) : KM PerfCounters :=
  if negb (started pc) then ret pc
  else
    run f1 <- ScopedFd_close (fd_ticks_interrupt pc);
    run f2 <- ScopedFd_close (fd_ticks_measure pc);
    run f3 <- ScopedFd_close (fd_page_faults pc);
    run f4 <- ScopedFd_close (fd_hw_interrupts pc);
    run f5 <- ScopedFd_close (fd_instructions_retired pc);
    run f6 <- ScopedFd_close (fd_useless_counter pc);
    run f7 <- ScopedFd_close (fd_ticks_in_transaction pc);
    ret {| counting := counting pc; tid := tid pc; started := false;
           fd_hw_interrupts := f4; fd_instructions_retired := f5;
           fd_page_faults := f3; fd_ticks_interrupt := f1;
           fd_ticks_measure := f2; fd_ticks_in_transaction := f7;
           fd_useless_counter := f6 |}.


(** void PerfCounters::stop_counting() *)
Definition stop_counting (env : Env) (pc : PerfCounters) : KM PerfCounters :=
  let pc := set_started_counting (started pc) false pc in
  if always_recreate_counters env then stop pc
  else
    run _ <- ioctl (fd_ticks_interrupt pc) PERF_EVENT_IOC_DISABLE;
    run _ <- (if is_open (fd_ticks_measure pc)
             then ioctl (fd_ticks_measure pc) PERF_EVENT_IOC_DISABLE else ret 0);
    run _ <- (if is_open (fd_ticks_in_transaction pc)
             then ioctl (fd_ticks_in_transaction pc) PERF_EVENT_IOC_DISABLE else ret 0);
    ret pc.

(** Ticks PerfCounters::read_ticks(Task* t).  The counts are read into
    [uint64_t] locals; the result is converted to [Ticks], a signed 64-bit
    integer (reset asserts [ticks_period >= 0]).  ASSERT(t, false) ends the
    process: its message reads "Aborting. Retry with -F to override". *)
Definition read_ticks (env : Env) (pc : PerfCounters) : KM Z :=
  if negb (started pc) || negb (counting pc) then ret 0
  else
    run _ <-
      (if is_open (fd_ticks_in_transaction pc) then
         run v <- read_counter (fd_ticks_in_transaction pc);
         let transaction_ticks := to_uint64 v in
         if (0 <? transaction_ticks) && negb (force_things env) then
           assert_failed
             "IN_TX ticks detected while HLE not supported due to KVM PMU virtualization bug"
         else ret tt
       else ret tt);
    run v <- read_counter (fd_ticks_interrupt pc);
    let interrupt_val := to_uint64 v in
    if negb (is_open (fd_ticks_measure pc)) then ret (to_int64 interrupt_val)
    else
      run v <- read_counter (fd_ticks_measure pc);
      let measure_val := to_uint64 v in
      if interrupt_val <? measure_val then
        (* These are clearly spurious events; work around it by returning
           the interrupt_val. *)
        ret (to_int64 interrupt_val)
      else ret (to_int64 measure_val).



(** *** Vocabulary of the properties *)

(** What read() delivers from the counter behind [fd], if it is open. *)
Definition counter_value (k : Kernel) (fd : ScopedFd) : option Z := sys_read fd k.

(** The Ticks a count stands for: a non-negative signed 64-bit integer. *)
Definition is_Ticks (v : Z) : Prop := 0 <= v < 2 ^ 63.

(** The HLE check of read_ticks fires: the in-transaction counter is open,
    counted something, and -F (force_things) was not given. *)
Definition in_tx_check_fires (env : Env) (pc : PerfCounters) (k : Kernel) : Prop :=
  is_open (fd_ticks_in_transaction pc) = true /\
  exists v, counter_value k (fd_ticks_in_transaction pc) = Some v /\
            0 < to_uint64 (to_int64 v) /\ force_things env = false.

(** The HLE check passes. *)
Definition in_tx_check_passes (env : Env) (pc : PerfCounters) (k : Kernel) : Prop :=
  is_open (fd_ticks_in_transaction pc) = false \/
  exists v, counter_value k (fd_ticks_in_transaction pc) = Some v /\
            (to_uint64 (to_int64 v) = 0 \/ force_things env = true).

(** The tie-break rule in the spec's words: with I the interrupt counter's
    value and M the measure counter's, if that one is open. *)
Definition tie_break (I : Z) (M : option Z) : Z :=
  match M with
  | None => I
  | Some m => if m >? I then I else m
  end.

(** Every descriptor of the table lies below the next one handed out. *)
Definition kernel_wf (k : Kernel) : Prop :=
  0 <= next_fd k /\ forall fd e, events k !! fd = Some e -> 0 <= fd < next_fd k.

(** The perf events of this machine can be opened. *)
Definition perf_usable (k : Kernel) : Prop := perf_open_errno k = None.

(** Every descriptor of the counter is closed, as after the constructor
    and after stop. *)
Definition all_closed (pc : PerfCounters) : Prop :=
  is_open (fd_hw_interrupts pc) = false /\
  is_open (fd_instructions_retired pc) = false /\
  is_open (fd_page_faults pc) = false /\
  is_open (fd_ticks_interrupt pc) = false /\
  is_open (fd_ticks_measure pc) = false /\
  is_open (fd_ticks_in_transaction pc) = false /\
  is_open (fd_useless_counter pc) = false.

(** The descriptors a started counter works with are open in the kernel. *)
Definition counters_open (pc : PerfCounters) (k : Kernel) : Prop :=
  is_Some (events k !! fd_ticks_interrupt pc) /\
  (is_open (fd_ticks_measure pc) = true -> is_Some (events k !! fd_ticks_measure pc)) /\
  (is_open (fd_ticks_in_transaction pc) = true ->
     is_Some (events k !! fd_ticks_in_transaction pc)).







(** The attributes the kernel grants an event with: a kernel that does not
    know IN_TXCP is asked again without the bit. *)
Definition attr_granted (k : Kernel) (attr : perf_event_attr) : perf_event_attr :=
  if Z.testbit (config attr) 33 && negb (supports_in_txcp k)
  then set_config (Z.land (config attr) (to_uint64 (Z.lnot IN_TXCP))) attr
  else attr.

(** The event behind the interrupt counter once reset has made it signal
    its task: owned by [t], asynchronous, delivering [sig]. *)
Definition signalling (t sig : Z) (e : perf_event) : perf_event :=
  {| pe_attr := pe_attr e; pe_tid := pe_tid e; pe_group_fd := pe_group_fd e;
     pe_enabled := pe_enabled e; pe_count := pe_count e; pe_owner := Some t;
     pe_async := true; pe_sig := sig |}.

(** The attributes reset opens its counters with. *)
Definition interrupt_attr (g : Attrs) (period : Z) : perf_event_attr :=
  set_sample_period (to_uint64 period) (ticks_attr g).

Definition in_transaction_attr (g : Attrs) : perf_event_attr :=
  set_config (Z.lor (config (ticks_attr g)) IN_TX) (set_sample_period 0 (ticks_attr g)).

Definition measure_attr (g : Attrs) : perf_event_attr :=
  set_config (Z.lor (config (ticks_attr g)) IN_TXCP) (set_sample_period 0 (ticks_attr g)).

(** What reset leaves when it has opened every counter of [pc] anew on the
    kernel [k]: which descriptors [pc'] holds, and which events sit behind
    them in [k'].  Every descriptor below or above the new ones is as it was. *)
Definition recreate_layout (env : Env) (g : Attrs) (period : Z)
    (pc : PerfCounters) (k : Kernel) (pc' : PerfCounters) (k' : Kernel) : Prop :=
  let n := next_fd k in
  let u := if activate_useless_counter g then 1 else 0 in
  let x := if extra_perf_counters_enabled env then 3 else 0 in
  next_fd k' = n + 2 + u + x /\
  perf_open_errno k' = perf_open_errno k /\
  supports_in_txcp k' = supports_in_txcp k /\
  (forall fd, fd < n \/ n + 2 + u + x <= fd -> events k' !! fd = events k !! fd) /\
  fd_ticks_interrupt pc' = n /\
  events k' !! n =
    Some (signalling (tid pc) (TIME_SLICE_SIGNAL env)
            (new_event (interrupt_attr g period) (tid pc) (-1))) /\
  (if has_kvm_in_txcp_bug env
   then fd_ticks_in_transaction pc' = n + 1 /\
        fd_ticks_measure pc' = fd_ticks_measure pc /\
        events k' !! (n + 1) = Some (new_event (in_transaction_attr g) (tid pc) n)
   else fd_ticks_measure pc' = n + 1 /\
        fd_ticks_in_transaction pc' = fd_ticks_in_transaction pc /\
        events k' !! (n + 1) =
          Some (new_event (attr_granted k (measure_attr g)) (tid pc) n)) /\
  (if activate_useless_counter g
   then fd_useless_counter pc' = n + 2 /\
        events k' !! (n + 2) = Some (new_event (cycles_attr g) (tid pc) (-1))
   else fd_useless_counter pc' = fd_useless_counter pc) /\
  (if extra_perf_counters_enabled env
   then fd_hw_interrupts pc' = n + 2 + u /\
        fd_instructions_retired pc' = n + 3 + u /\
        fd_page_faults pc' = n + 4 + u /\
        events k' !! (n + 2 + u) = Some (new_event (hw_interrupts_attr g) (tid pc) n) /\
        events k' !! (n + 3 + u) =
          Some (new_event (instructions_retired_attr g) (tid pc) n) /\
        events k' !! (n + 4 + u) = Some (new_event (page_faults_attr g) (tid pc) n)
   else fd_hw_interrupts pc' = fd_hw_interrupts pc /\
        fd_instructions_retired pc' = fd_instructions_retired pc /\
        fd_page_faults pc' = fd_page_faults pc) /\
  tid pc' = tid pc.


(** *** Sample machines *)

(** A Skylake host; the arguments are what the probes measured and the -F
    flag. *)
Definition skylake_env (under_rr : bool) (kvm_count revents : Z) (force : bool) : Env :=
  {| forced_uarch := ""; suppress_environment_warnings := false;
     force_things := force; extra_perf_counters_enabled := false;
     cpuid_getfeatures_eax := 0x406e3; running_under_rr := under_rr;
     kvm_probe_count := kvm_count; ioc_probe_revents := revents;
     TIME_SLICE_SIGNAL := 16 |}.

(** No bug on this host: both probes came out clean. *)
Definition clean_env : Env := skylake_env false 500 1 false.
(** The KVM IN_TXCP bug: the probe counted fewer than 500 branches. *)
Definition kvm_bug_env : Env := skylake_env false 0 1 false.

Definition skylake_attrs (env : Env) : Attrs :=
  {| ticks_attr := init_perf_event_attr PERF_TYPE_RAW 0x5101c4;
     cycles_attr := init_perf_event_attr PERF_TYPE_HARDWARE PERF_COUNT_HW_CPU_CYCLES;
     page_faults_attr := init_perf_event_attr PERF_TYPE_SOFTWARE PERF_COUNT_SW_PAGE_FAULTS;
     hw_interrupts_attr :=
       set_exclude_hv true (init_perf_event_attr PERF_TYPE_RAW 0x5301cb);
     instructions_retired_attr := init_perf_event_attr PERF_TYPE_RAW 0x5100c0;
     activate_useless_counter := has_ioc_period_bug env && negb (running_under_rr env) |}.

(** A kernel with no perf event open yet; descriptors 0 to 2 are taken. *)
Definition boot_kernel : Kernel :=
  {| events := ∅; next_fd := 3; supports_in_txcp := true; perf_open_errno := None |}.


(** A counter of task 1 that a first reset on [env] has started, and the
    kernel that reset leaves. *)
Definition started_counter (env : Env) : PerfCounters * Kernel :=
  match reset env (skylake_attrs env) 0 (new 1) boot_kernel with
  | Done r => r
  | _ => (new 1, boot_kernel)
  end.

(** The tracee ran: the counter behind [fd] counted [n] more events. *)
Definition count_events (fd n : Z) (k : Kernel) : Kernel :=
  with_events
    (alter (fun e =>
       {| pe_attr := pe_attr e; pe_tid := pe_tid e; pe_group_fd := pe_group_fd e;
          pe_enabled := pe_enabled e; pe_count := pe_count e + n;
          pe_owner := pe_owner e; pe_async := pe_async e; pe_sig := pe_sig e |})
       fd (events k)) k.

End PerfCounters_cc.

(** ** src/PerfCounters.cc, with its statics

    The definitions of [PerfCounters_cc] take the attributes and the
    verdicts of the two bug probes as given: they are the functions of the
    file once init_attributes and the probes have run and their results sit
    in the statics.  Here are the same functions on the statics themselves,
    so that a first call, which runs a probe, is a call like any other. *)

Module PerfCounters_process.
Import PerfCounters_cc.

(** The statics of the file: [attributes_initialized] and the attributes
    it guards, and the [did_test] and [bug_detected] of each probe. *)
Record Statics := {
  attributes_initialized : bool;
  attributes : Attrs;
  ioc_did_test : bool;
  ioc_bug_detected : bool;
  kvm_did_test : bool;
  kvm_bug_detected : bool
}.

Definition set_attributes_initialized (b : bool) (st : Statics) : Statics :=
  {| attributes_initialized := b; attributes := attributes st;
     ioc_did_test := ioc_did_test st; ioc_bug_detected := ioc_bug_detected st;
     kvm_did_test := kvm_did_test st; kvm_bug_detected := kvm_bug_detected st |}.

Definition set_attributes (g : Attrs) (st : Statics) : Statics :=
  {| attributes_initialized := attributes_initialized st; attributes := g;
     ioc_did_test := ioc_did_test st; ioc_bug_detected := ioc_bug_detected st;
     kvm_did_test := kvm_did_test st; kvm_bug_detected := kvm_bug_detected st |}.

Definition set_ioc_did_test (b : bool) (st : Statics) : Statics :=
  {| attributes_initialized := attributes_initialized st; attributes := attributes st;
     ioc_did_test := b; ioc_bug_detected := ioc_bug_detected st;
     kvm_did_test := kvm_did_test st; kvm_bug_detected := kvm_bug_detected st |}.

Definition set_ioc_bug_detected (b : bool) (st : Statics) : Statics :=
  {| attributes_initialized := attributes_initialized st; attributes := attributes st;
     ioc_did_test := ioc_did_test st; ioc_bug_detected := b;
     kvm_did_test := kvm_did_test st; kvm_bug_detected := kvm_bug_detected st |}.

Definition set_kvm_did_test (b : bool) (st : Statics) : Statics :=
  {| attributes_initialized := attributes_initialized st; attributes := attributes st;
     ioc_did_test := ioc_did_test st; ioc_bug_detected := ioc_bug_detected st;
     kvm_did_test := b; kvm_bug_detected := kvm_bug_detected st |}.

Definition set_kvm_bug_detected (b : bool) (st : Statics) : Statics :=
  {| attributes_initialized := attributes_initialized st; attributes := attributes st;
     ioc_did_test := ioc_did_test st; ioc_bug_detected := ioc_bug_detected st;
     kvm_did_test := kvm_did_test st; kvm_bug_detected := b |}.

(** A perf_event_attr in static storage, before anything is written to it:
    all zero, and PERF_TYPE_HARDWARE is 0. *)
Definition zeroed_attr : perf_event_attr :=
  {| attr_type := PERF_TYPE_HARDWARE; config := 0; sample_period := 0;
     exclude_kernel := false; exclude_guest := false; exclude_hv := false |}.

(** The statics when the program is loaded. *)
Definition at_load : Statics :=
  {| attributes_initialized := false;
     attributes := {| ticks_attr := zeroed_attr; cycles_attr := zeroed_attr;
                      page_faults_attr := zeroed_attr; hw_interrupts_attr := zeroed_attr;
                      instructions_retired_attr := zeroed_attr;
                      activate_useless_counter := false |};
     ioc_did_test := false; ioc_bug_detected := true;
     kvm_did_test := false; kvm_bug_detected := true |}.

(** The process: its statics and the kernel's side of its descriptors. *)
Definition Process : Type := Statics * Kernel.

Abbreviation PM := (StateM Process).

(** Code that talks to the kernel and leaves the statics alone. *)
Definition lift {A} (m : KM A) : PM A :=
  fun s =>
    match m s.2 with
    | Done (a, k) => Done (a, (s.1, k))
    | Fatal msg => Fatal msg
    | AssertFailed c => AssertFailed c
    | Crashed w => Crashed w
    | Blocked => Blocked
    end.

(** Code that needs neither. *)
Definition pure {A} (o : Outcome A) : PM A :=
  fun s =>
    match o with
    | Done a => Done (a, s)
    | Fatal msg => Fatal msg
    | AssertFailed c => AssertFailed c
    | Crashed w => Crashed w
    | Blocked => Blocked
    end.

Definition get_statics : PM Statics := fun s => Done (s.1, s).

Definition modify_statics (f : Statics -> Statics) : PM unit :=
  fun s => Done (tt, (f s.1, s.2)).

Definition set_exclude_kernel (b : bool) (a : perf_event_attr) : perf_event_attr :=
  {| attr_type := attr_type a; config := config a; sample_period := sample_period a;
     exclude_kernel := b; exclude_guest := exclude_guest a; exclude_hv := exclude_hv a |}.

(** static bool has_ioc_period_bug(), calling [init_attributes] where the
    source calls init_attributes().  The descriptor [bug_fd] is a local
    ScopedFd: it is closed when the function returns. *)
Definition has_ioc_period_bug_calling (init_attributes : PM unit) (env : Env) : PM bool :=
  run st <- get_statics;
  if ioc_did_test st then ret (ioc_bug_detected st)
  else
    run _ <- modify_statics (set_ioc_did_test true);
    if running_under_rr env then
      (* Under rr we emulate an idealized performance counter: just say we
         don't have the bug. *)
      run _ <- modify_statics (set_ioc_bug_detected false);
      ret false
    else
      run _ <- init_attributes;
      (* Start a cycles counter *)
      run st <- get_statics;
      let attr :=
        set_exclude_kernel true
          (set_sample_period 0xffffffff (ticks_attr (attributes st))) in
      run bug_fd <- lift (start_counter 0 (-1) attr);
      let new_period := 1 in
      run r <- lift (ioctl bug_fd (PERF_EVENT_IOC_PERIOD new_period));
      if negb (r =? 0) then FATAL "ioctl(PERF_EVENT_IOC_PERIOD) failed"
      else
        (* poll(&poll_bug_fd, 1, 0) *)
        let bug := ioc_probe_revents env =? 0 in
        run _ <- modify_statics (set_ioc_bug_detected bug);
        run _ <- lift (ScopedFd_close bug_fd);
        ret bug.

(** static void init_attributes().  It and has_ioc_period_bug call each
    other; each sets its flag before it calls the other and returns at once
    when it finds its flag set, so no chain of calls is more than three
    calls long and [depth] is never used up. *)
Fixpoint init_attributes_upto (depth : nat) (env : Env) : PM unit :=
  run st <- get_statics;
  if attributes_initialized st then ret tt
  else
    match depth with
    | O => fun _ => Blocked
    | S depth =>
      run _ <- modify_statics (set_attributes_initialized true);
      run ua <- pure (get_cpu_microarch env);
      match List.find (fun p => bool_decide (ua = uarch p)) pmu_configs with
      | None => assert_failed "pmu"
      | Some pmu =>
        if negb (supported pmu) then FATAL "Microarchitecture currently unsupported."
        else
          run bug <- has_ioc_period_bug_calling (init_attributes_upto depth env) env;
          modify_statics (set_attributes {|
            activate_useless_counter := bug && negb (running_under_rr env);
            ticks_attr := init_perf_event_attr PERF_TYPE_RAW (rcb_cntr_event pmu);
            cycles_attr :=
              init_perf_event_attr PERF_TYPE_HARDWARE PERF_COUNT_HW_CPU_CYCLES;
            instructions_retired_attr :=
              init_perf_event_attr PERF_TYPE_RAW (rinsn_cntr_event pmu);
            (* libpfm encodes the event with this bit set *)
            hw_interrupts_attr :=
              set_exclude_hv true
                (init_perf_event_attr PERF_TYPE_RAW (hw_intr_cntr_event pmu));
            page_faults_attr :=
              init_perf_event_attr PERF_TYPE_SOFTWARE PERF_COUNT_SW_PAGE_FAULTS |})
      end
    end.

Definition init_attributes (env : Env) : PM unit := init_attributes_upto 3 env.

Definition has_ioc_period_bug (env : Env) : PM bool :=
  has_ioc_period_bug_calling (init_attributes env) env.

(** static bool has_kvm_in_txcp_bug().  The event is opened with the bare
    system call, not with start_counter: a failure leaves [fd] closed and
    is not looked at.  Between the ioctls and the read the function runs
    its 500 branches, and the counter, if there is one, counts what this
    host counts for them. *)
Definition has_kvm_in_txcp_bug (env : Env) : PM bool :=
  run st <- get_statics;
  if kvm_did_test st then ret (kvm_bug_detected st)
  else
    run _ <- modify_statics (set_kvm_did_test true);
    if running_under_rr env then
      (* Under rr we emulate an idealized performance counter: just say we
         don't have the bug. *)
      run _ <- modify_statics (set_kvm_bug_detected false);
      ret false
    else
      run _ <- init_attributes env;
      run st <- get_statics;
      let attr := ticks_attr (attributes st) in
      let attr := set_config (Z.lor (config attr) IN_TXCP) attr in
      let attr := set_sample_period 0 attr in
      run fd <- lift (fun k =>
                  let '(r, k1) := sys_perf_event_open attr 0 (-1) k in
                  Done (match r with inl fd => fd | inr _ => -1 end, k1));
      run _ <- lift (ioctl fd PERF_EVENT_IOC_DISABLE);
      run _ <- lift (ioctl fd PERF_EVENT_IOC_ENABLE);
      run _ <- lift (fun k => Done (tt, count_events fd (kvm_probe_count env) k));
      run count <- lift (read_counter fd);
      let bug := count <? NUM_BRANCHES in
      run _ <- modify_statics (set_kvm_bug_detected bug);
      run _ <- lift (ScopedFd_close fd);
      ret bug.

(** static bool always_recreate_counters() *)
Definition always_recreate_counters (env : Env) : PM bool :=
  run ioc <- has_ioc_period_bug env;
  if ioc then ret true else has_kvm_in_txcp_bug env.

(** PerfCounters::PerfCounters(pid_t tid) *)
Definition PerfCounters_ctor (env : Env) (t : Z) : PM PerfCounters :=
  run _ <- init_attributes env;
  ret (new t).

(** bool PerfCounters::is_ticks_attr(const perf_event_attr& attr) *)
Definition is_ticks_attr (env : Env) (attr : perf_event_attr) : PM bool :=
  run _ <- init_attributes env;
  run st <- get_statics;
  ret (PerfCounters_cc.is_ticks_attr (attributes st) attr).

(** The branch of reset taken when [!started]. *)
Definition reset_recreate (env : Env) (ticks_period : Z) (pc : PerfCounters)
    : PM PerfCounters :=
  run st <- get_statics;
  let attr := set_sample_period (to_uint64 ticks_period) (ticks_attr (attributes st)) in
  run fd_int <- lift (ScopedFd_assign (fd_ticks_interrupt pc)
                                      (start_counter (tid pc) (-1) attr));
  run bug <- has_kvm_in_txcp_bug env;
  run fds <- lift
    (if bug then
       (* IN_TXCP isn't going to work reliably. Assume that HLE/RTM are not
          used, and check that. *)
       let attr := set_config (Z.lor (config attr) IN_TX) (set_sample_period 0 attr) in
       run fd <- ScopedFd_assign (fd_ticks_in_transaction pc)
                                (start_counter (tid pc) fd_int attr);
       ret (fd_ticks_measure pc, fd)
     else
       (* A separate counter for measuring ticks, which does not have a
          sample period and does not count events during aborted
          transactions. *)
       let attr := set_config (Z.lor (config attr) IN_TXCP) (set_sample_period 0 attr) in
       run fd <- ScopedFd_assign (fd_ticks_measure pc)
                                (start_counter (tid pc) fd_int attr);
       ret (fd, fd_ticks_in_transaction pc));
  run st <- get_statics;
  let g := attributes st in
  run fd_useless <- lift
    (if activate_useless_counter g && negb (is_open (fd_useless_counter pc)) then
       (* deliberately not in the same group as the other counters *)
       ScopedFd_assign (fd_useless_counter pc) (start_counter (tid pc) (-1) (cycles_attr g))
     else ret (fd_useless_counter pc));
  run r <- lift (fcntl fd_int (F_SETOWN_EX (tid pc)));
  if negb (r =? 0) then FATAL "Failed to SETOWN_EX ticks event fd"
  else
    run _ <- lift (make_counter_async fd_int (TIME_SLICE_SIGNAL env));
    run extra <- lift
      (if extra_perf_counters_enabled env then
         let group_leader := fd_int in
         run fd_hw <- ScopedFd_assign (fd_hw_interrupts pc)
                       (start_counter (tid pc) group_leader (hw_interrupts_attr g));
         run fd_insn <- ScopedFd_assign (fd_instructions_retired pc)
                       (start_counter (tid pc) group_leader (instructions_retired_attr g));
         run fd_pf <- ScopedFd_assign (fd_page_faults pc)
                       (start_counter (tid pc) group_leader (page_faults_attr g));
         ret (fd_hw, fd_insn, fd_pf)
       else ret (fd_hw_interrupts pc, fd_instructions_retired pc, fd_page_faults pc));
    ret {| counting := counting pc; tid := tid pc; started := started pc;
           fd_hw_interrupts := extra.1.1;
           fd_instructions_retired := extra.1.2;
           fd_page_faults := extra.2;
           fd_ticks_interrupt := fd_int;
           fd_ticks_measure := fds.1;
           fd_ticks_in_transaction := fds.2;
           fd_useless_counter := fd_useless |}.

(** void PerfCounters::reset(Ticks ticks_period) *)
Definition reset (env : Env) (ticks_period : Z) (pc : PerfCounters) : PM PerfCounters :=
  if negb (0 <=? ticks_period) then assert_failed "ticks_period >= 0"
  else
    run ticks_period <-
      (if ticks_period =? 0 then
         run always <- always_recreate_counters env;
         (* We can't switch a counter between sampling and non-sampling via
            PERF_EVENT_IOC_PERIOD so just turn 0 into a very big number. *)
         ret (if negb always then to_int64 (to_uint64 (Z.shiftl 1 60)) else ticks_period)
       else ret ticks_period);
    run pc' <- (if negb (started pc) then reset_recreate env ticks_period pc
               else lift (reset_reprogram ticks_period pc));
    ret (set_started_counting true true pc').

(** void PerfCounters::stop_counting() *)
Definition stop_counting (env : Env) (pc : PerfCounters) : PM PerfCounters :=
  let pc := set_started_counting (started pc) false pc in
  run always <- always_recreate_counters env;
  if always then lift (stop pc)
  else
    lift (run _ <- ioctl (fd_ticks_interrupt pc) PERF_EVENT_IOC_DISABLE;
          run _ <- (if is_open (fd_ticks_measure pc)
                   then ioctl (fd_ticks_measure pc) PERF_EVENT_IOC_DISABLE else ret 0);
          run _ <- (if is_open (fd_ticks_in_transaction pc)
                   then ioctl (fd_ticks_in_transaction pc) PERF_EVENT_IOC_DISABLE
                   else ret 0);
          ret pc).

(** *** Vocabulary of the properties *)

(** The statics once init_attributes and both probes have run on the host
    [env]: the attributes are [g], the verdicts are cached. *)
Definition settled (env : Env) (g : Attrs) (st : Statics) : Prop :=
  attributes_initialized st = true /\ attributes st = g /\
  PerfCounters_cc.init_attributes env = Done g /\
  ioc_did_test st = true /\
  ioc_bug_detected st = PerfCounters_cc.has_ioc_period_bug env /\
  kvm_did_test st = true /\
  kvm_bug_detected st = PerfCounters_cc.has_kvm_in_txcp_bug env.

(** The statics after the constructor of the first counter, before the
    KVM probe has run. *)
Definition constructed (env : Env) (g : Attrs) (st : Statics) : Prop :=
  attributes_initialized st = true /\ attributes st = g /\
  PerfCounters_cc.init_attributes env = Done g /\
  ioc_did_test st = true /\
  ioc_bug_detected st = PerfCounters_cc.has_ioc_period_bug env /\
  kvm_did_test st = false.

(** The attributes init_attributes writes for the entry [pmu] of
    pmu_configs when the IOC_PERIOD probe said [bug]. *)
Definition attributes_of (env : Env) (pmu : PmuConfig) (bug : bool) : Attrs :=
  {| activate_useless_counter := bug && negb (running_under_rr env);
     ticks_attr := init_perf_event_attr PERF_TYPE_RAW (rcb_cntr_event pmu);
     cycles_attr := init_perf_event_attr PERF_TYPE_HARDWARE PERF_COUNT_HW_CPU_CYCLES;
     instructions_retired_attr :=
       init_perf_event_attr PERF_TYPE_RAW (rinsn_cntr_event pmu);
     hw_interrupts_attr :=
       set_exclude_hv true (init_perf_event_attr PERF_TYPE_RAW (hw_intr_cntr_event pmu));
     page_faults_attr :=
       init_perf_event_attr PERF_TYPE_SOFTWARE PERF_COUNT_SW_PAGE_FAULTS |}.

(** The statics as the first init_attributes leaves them. *)
Definition first_statics (env : Env) (g : Attrs) : Statics :=
  {| attributes_initialized := true; attributes := g;
     ioc_did_test := true;
     ioc_bug_detected := PerfCounters_cc.has_ioc_period_bug env;
     kvm_did_test := false; kvm_bug_detected := true |}.

(** The event the IOC_PERIOD probe opens: the ticks attribute is still
    zero when the probe runs, so this is the hardware cycles event. *)
Definition ioc_probe_attr : perf_event_attr :=
  set_exclude_kernel true (set_sample_period 0xffffffff zeroed_attr).

(** The kernel after a probe opened an event on it and closed it again:
    a descriptor was used up, and nothing sits behind it. *)
Definition probed (k : Kernel) : Kernel :=
  {| events := delete (next_fd k) (events k); next_fd := next_fd k + 1;
     supports_in_txcp := supports_in_txcp k; perf_open_errno := perf_open_errno k |}.

(** The message start_counter ends with when perf_event_open fails. *)
Definition start_counter_failure (e : Errno) : string :=
  match e with
  | EACCES =>
    "Permission denied to use 'perf_event_open'; are perf events enabled? Try 'perf record'."
  | ENOENT =>
    "Unable to open performance counter with 'perf_event_open'; are perf events enabled? Try 'perf record'."
  | _ => "Failed to initialize counter"
  end.

(** What the branch of reset that opens the counters leaves of the ticks
    counters, when the interrupt counter got the descriptor [n] and the
    counter opened after the call of has_kvm_in_txcp_bug the descriptor
    [m]: which descriptors [pc'] holds, and which events sit behind them
    in [k'].  [k] is the kernel the branch started on. *)
Definition ticks_layout (env : Env) (g : Attrs) (period : Z) (k : Kernel)
    (pc : PerfCounters) (n m : Z) (pc' : PerfCounters) (k' : Kernel) : Prop :=
  tid pc' = tid pc /\
  fd_ticks_interrupt pc' = n /\
  events k' !! n =
    Some (signalling (tid pc) (TIME_SLICE_SIGNAL env)
            (new_event (interrupt_attr g period) (tid pc) (-1))) /\
  (if PerfCounters_cc.has_kvm_in_txcp_bug env
   then fd_ticks_in_transaction pc' = m /\
        fd_ticks_measure pc' = fd_ticks_measure pc /\
        events k' !! m = Some (new_event (in_transaction_attr g) (tid pc) n)
   else fd_ticks_measure pc' = m /\
        fd_ticks_in_transaction pc' = fd_ticks_in_transaction pc /\
        events k' !! m = Some (new_event (attr_granted k (measure_attr g)) (tid pc) n)) /\
  (if activate_useless_counter g
   then fd_useless_counter pc' = m + 1 /\
        events k' !! (m + 1) = Some (new_event (cycles_attr g) (tid pc) (-1))
   else fd_useless_counter pc' = fd_useless_counter pc).

(** The statics and the kernel at which a reset returns: either both
    probes have run, or the KVM probe has not and will be granted its
    event, the process being recorded itself or the kernel knowing
    IN_TXCP. *)
Definition probes_pass (env : Env) (g : Attrs) (st : Statics) (k : Kernel) : Prop :=
  settled env g st \/
  (constructed env g st /\
   (running_under_rr env = true \/ supports_in_txcp k = true)).

(** *** Sample statics *)

(** Settled statics of the host [env] with the attributes [g]. *)
Definition warm (env : Env) (g : Attrs) : Statics :=
  {| attributes_initialized := true; attributes := g;
     ioc_did_test := true;
     ioc_bug_detected := PerfCounters_cc.has_ioc_period_bug env;
     kvm_did_test := true;
     kvm_bug_detected := PerfCounters_cc.has_kvm_in_txcp_bug env |}.

(** A Skylake host that is itself being recorded. *)
Definition recorded_env : Env := skylake_env true 500 1 false.

(** A kernel on which perf events cannot be opened, for want of permission. *)
Definition locked_kernel : Kernel :=
  {| events := ∅; next_fd := 3; supports_in_txcp := true;
     perf_open_errno := Some EACCES |}.

(** A kernel that does not know the IN_TXCP bit. *)
Definition old_kernel : Kernel :=
  {| events := ∅; next_fd := 3; supports_in_txcp := false; perf_open_errno := None |}.

End PerfCounters_process.

(** ** src/diverter.cc *)

Module diverter_cc.

(** The request types of debugger_gdb.h that diverter.cc names; every other
    type of the enumeration is a [DREQ_OTHER]. *)
Inductive dbg_request_type :=
| DREQ_CONTINUE
| DREQ_STEP
| DREQ_RESTART
| DREQ_READ_SIGINFO
| DREQ_SET_QUERY_THREAD
| DREQ_WRITE_SIGINFO
| DREQ_REMOVE_SW_BREAK
| DREQ_REMOVE_HW_BREAK
| DREQ_REMOVE_RD_WATCH
| DREQ_REMOVE_WR_WATCH
| DREQ_REMOVE_RDWR_WATCH
| DREQ_SET_SW_BREAK
| DREQ_SET_HW_BREAK
| DREQ_SET_RD_WATCH
| DREQ_SET_WR_WATCH
| DREQ_SET_RDWR_WATCH
| DREQ_OTHER (code : Z).

#[global] Instance dbg_request_type_eq_dec : EqDecision dbg_request_type.
Proof. solve_decision. Defined.

Record dbg_threadid_t := { pid : Z; tid : Z }.

#[global] Instance dbg_threadid_t_eq_dec : EqDecision dbg_threadid_t.
Proof. solve_decision. Defined.

Record dbg_request := {
  type : dbg_request_type;
  target : dbg_threadid_t;
  mem_len : Z
}.

(** A task of a session, as far as this file looks at it. *)
Record Task := { tgid : Z; rec_tid : Z }.

(** A session is the tasks it holds; [find_task] looks one up by its tid. *)
Record Session := { tasks : list Task }.

Definition find_task (s : Session) (t : Z) : option Task :=
  List.find (fun tk => rec_tid tk =? t) (tasks s).

(** ReplaySession::clone_diversion(): the diversion starts with the tasks
    of the replay. *)
Definition clone_diversion (replay : Session) : Session := replay.

Inductive RunCommand := RUN_CONTINUE | RUN_SINGLESTEP.

Inductive DiversionStatus := DIVERSION_CONTINUE | DIVERSION_EXITED | DIVERSION_STATUS_OTHER.

Inductive BreakReason := BREAK_NONE | BREAK_SIGNAL | BREAK_WATCHPOINT | BREAK_REASON_OTHER.

Record BreakStatus := {
  reason : BreakReason;
  task : Task;
  signal : Z;
  watch_address : Z
}.

Record DiversionResult := { status : DiversionStatus; break_status : BreakStatus }.

(** What the file does to the debugger connection and to the session. *)
Inductive Event :=
| dbg_reply_read_siginfo (len : Z)
| dbg_reply_write_siginfo
| dispatch_debugger_request (t : option Task) (req : dbg_request)
| diversion_step (t : Task) (command : RunCommand)
| dbg_notify_exit_code (code : Z)
| dbg_notify_stop (thread : dbg_threadid_t) (sig : Z) (watch_addr : Z)
| kill_all_tasks.

(** The file's two statics, and the trace of what it did. *)
Record State := {
  session : option Session;
  diversion_refcount : Z;
  trace : list Event
}.

Definition set_refcount (n : Z) (st : State) : State :=
  {| session := session st; diversion_refcount := n; trace := trace st |}.

Definition emit (e : Event) (st : State) : State :=
  {| session := session st; diversion_refcount := diversion_refcount st;
     trace := trace st ++ [e] |}.

(** [int] arithmetic wraps around. *)
Definition to_int (z : Z) : Z := (z + 2 ^ 31) mod 2 ^ 32 - 2 ^ 31.

Definition SIGTRAP : Z := 5.

Section Debugger.

(** dbg_is_resume_request is declared in debugger_gdb.h; which requests
    are resume requests is for the debugger interface to say. *)
Variable dbg_is_resume_request : dbg_request -> bool.

(** What process_debugger_requests hands back: the task to resume (or
    nullptr), the request received last, the requests not yet read and the
    state. *)
Definition Returned : Type := option Task * dbg_request * list dbg_request * State.

(** The requests that set or remove a breakpoint or a watchpoint. *)
Definition is_break_request (ty : dbg_request_type) : bool :=
  match ty with
  | DREQ_REMOVE_SW_BREAK | DREQ_REMOVE_HW_BREAK | DREQ_REMOVE_RD_WATCH
  | DREQ_REMOVE_WR_WATCH | DREQ_REMOVE_RDWR_WATCH | DREQ_SET_SW_BREAK
  | DREQ_SET_HW_BREAK | DREQ_SET_RD_WATCH | DREQ_SET_WR_WATCH
  | DREQ_SET_RDWR_WATCH => true
  | _ => false
  end.

(** static Task* process_debugger_requests(dbg, t, req).  [reqs] is what
    dbg_get_request will deliver, in order; with none left the function
    waits. *)
Fixpoint process_debugger_requests (t : option Task) (reqs : list dbg_request)
    (st : State) : Outcome Returned :=
  match reqs with
  | [] => Blocked
  | req :: reqs' =>
    if dbg_is_resume_request req then
      if diversion_refcount st =? 0 then Done (None, req, reqs', st)
      else Done (t, req, reqs', st)
    else
      match type req with
      | DREQ_RESTART => Done (None, req, reqs', st)
      | DREQ_READ_SIGINFO =>
        (* Adding ref to diversion session *)
        let st := set_refcount (to_int (diversion_refcount st + 1)) st in
        process_debugger_requests t reqs' (emit (dbg_reply_read_siginfo (mem_len req)) st)
      | DREQ_SET_QUERY_THREAD =>
        match t, session st with
        | Some tk, Some s =>
          let next_task := find_task s (tid (target req)) in
          let t := match next_task with Some n => Some n | None => Some tk end in
          process_debugger_requests t reqs' (emit (dispatch_debugger_request t req) st)
        | _, _ => Crashed "t->session()"
        end
      | DREQ_WRITE_SIGINFO =>
        (* Removing reference to diversion session *)
        if negb (0 <? diversion_refcount st) then AssertFailed "diversion_refcount > 0"
        else
          let st := set_refcount (to_int (diversion_refcount st - 1)) st in
          process_debugger_requests t reqs' (emit dbg_reply_write_siginfo st)
      | ty =>
        if is_break_request ty && (diversion_refcount st =? 0) then
          (* Setting breakpoints in a dying diversion is assumed to be a
             user action intended for the replay session, so return to it
             now. *)
          Done (None, req, reqs', st)
        else
          process_debugger_requests t reqs' (emit (dispatch_debugger_request t req) st)
      end
  end.

Definition get_threadid (t : Task) : dbg_threadid_t :=
  {| pid := tgid t; tid := rec_tid t |}.

(** The end of divert, after its loop. *)
Definition divert_end (st : State) : Outcome State :=
  if negb (diversion_refcount st =? 0) then AssertFailed "diversion_refcount == 0"
  else
    Done {| session := None; diversion_refcount := diversion_refcount st;
            trace := trace st ++ [kill_all_tasks] |}.

(** The loop of divert.  [steps] is what the successive diversion_step
    calls will return; with none left the diversion runs for ever.  Every
    turn reads at least one request, so [fuel] beyond the number of
    requests is never used up. *)
Fixpoint divert_loop (fuel : nat) (t : option Task) (reqs : list dbg_request)
    (steps : list DiversionResult) (st : State) : Outcome State :=
  match fuel with
  | O => Blocked
  | S fuel =>
    match process_debugger_requests t reqs st with
    | Done (None, _, _, st) => divert_end st
    | Done (Some t, req, reqs, st) =>
      let command :=
        if bool_decide (type req = DREQ_STEP) && bool_decide (get_threadid t = target req)
        then RUN_SINGLESTEP else RUN_CONTINUE in
      match steps with
      | [] => Blocked
      | result :: steps =>
        let st := emit (diversion_step t command) st in
        match status result with
        | DIVERSION_EXITED =>
          divert_end (emit (dbg_notify_exit_code 0) (set_refcount 0 st))
        | DIVERSION_CONTINUE =>
          match reason (break_status result) with
          | BREAK_NONE => divert_loop fuel (Some t) reqs steps st
          | r =>
            let sig :=
              match r with BREAK_SIGNAL => signal (break_status result) | _ => SIGTRAP end in
            let watch_addr :=
              match r with
              | BREAK_WATCHPOINT => watch_address (break_status result)
              | _ => 0
              end in
            (* Notify the debugger and process any new requests that might
               have triggered before resuming. *)
            divert_loop fuel (Some t) reqs steps
              (emit (dbg_notify_stop (get_threadid (task (break_status result))) sig watch_addr)
                    st)
          end
        | DIVERSION_STATUS_OTHER =>
          AssertFailed "result.status == DiversionSession::DIVERSION_CONTINUE"
        end
      end
    | Fatal m => Fatal m
    | AssertFailed c => AssertFailed c
    | Crashed w => Crashed w
    | Blocked => Blocked
    end
  end.

(** The start of divert, up to its loop: the diversion is cloned and holds
    one reference. *)
Definition divert_begin (replay : Session) (st : State) : Outcome State :=
  if negb (bool_decide (session st = None) && (diversion_refcount st =? 0))
  then AssertFailed "!session && diversion_refcount == 0"
  else Done {| session := Some (clone_diversion replay); diversion_refcount := 1;
               trace := trace st |}.

(** void divert(ReplaySession& replay, dbg, pid_t task, req) *)
Definition divert (replay : Session) (task : Z) (reqs : list dbg_request)
    (steps : list DiversionResult) (st : State) : Outcome State :=
  match divert_begin replay st with
  | Done st =>
    let t := match session st with Some s => find_task s task | None => None end in
    divert_loop (S (length reqs)) t reqs steps st
  | Fatal m => Fatal m
  | AssertFailed c => AssertFailed c
  | Crashed w => Crashed w
  | Blocked => Blocked
  end.

End Debugger.

(** *** Vocabulary of the properties *)

Definition is_read_siginfo (req : dbg_request) : Prop := type req = DREQ_READ_SIGINFO.
Definition is_write_siginfo (req : dbg_request) : Prop := type req = DREQ_WRITE_SIGINFO.

(** The state divert leaves when it ends: the tasks of the diversion are
    killed and the global handle is cleared. *)
Definition ended (st : State) : State :=
  {| session := None; diversion_refcount := diversion_refcount st;
     trace := trace st ++ [kill_all_tasks] |}.

(** How many of the requests [l] have the type [ty]. *)
Definition count_type (ty : dbg_request_type) (l : list dbg_request) : Z :=
  Z.of_nat (length (filter (fun r => type r = ty) l)).

(** The state after the READ_SIGINFO requests [reads] were answered. *)
Definition after_reads (reads : list dbg_request) (st : State) : State :=
  {| session := session st;
     diversion_refcount := diversion_refcount st + Z.of_nat (length reads);
     trace := trace st ++ map (fun r => dbg_reply_read_siginfo (mem_len r)) reads |}.

(** The requests process_debugger_requests hands to
    dispatch_debugger_request whatever the count, and with the task it
    has: not a restart, not a siginfo request, not the choice of a thread,
    not a breakpoint or watchpoint. *)
Definition passes_through (ty : dbg_request_type) : bool :=
  match ty with
  | DREQ_RESTART | DREQ_READ_SIGINFO | DREQ_SET_QUERY_THREAD | DREQ_WRITE_SIGINFO => false
  | ty => negb (is_break_request ty)
  end.

(** The state after the requests [reqs] were dispatched for the task [t]. *)
Definition dispatched (t : option Task) (reqs : list dbg_request) (st : State) : State :=
  fold_left (fun st req => emit (dispatch_debugger_request t req) st) reqs st.

(** The state before any diversion: no session, no reference. *)
Definition idle : State := {| session := None; diversion_refcount := 0; trace := [] |}.

(** *** A sample debugger and sample sessions *)

(** Modelled from the spec: the resume-class requests are ResumeContinue
    and ResumeStep. *)
Definition gdb_is_resume_request (req : dbg_request) : bool :=
  match type req with
  | DREQ_CONTINUE | DREQ_STEP => true
  | _ => false
  end.

Definition request (ty : dbg_request_type) : dbg_request :=
  {| type := ty; target := {| pid := 100; tid := 100 |}; mem_len := 128 |}.

Definition one_task : Session := {| tasks := [ {| tgid := 100; rec_tid := 100 |} ] |}.

Definition step_result (s : DiversionStatus) (r : BreakReason) : DiversionResult :=
  {| status := s;
     break_status := {| reason := r; task := {| tgid := 100; rec_tid := 100 |};
                        signal := 11; watch_address := 0 |} |}.

End diverter_cc.
(** ** src/replayer/replayer.c *)

Module replayer_c.

Definition MAX_NUM_BREAKPOINTS : nat := 128.

Definition int_3_insn : Z := 0xCC.
Definition sizeof_int_3_insn : Z := 1.

Definition NULL : Z := 0.

(** Conversion to [unsigned int]. *)
Definition to_uint32 (z : Z) : Z := z mod 2 ^ 32.

(** <signal.h> and <sys/syscall.h> on x86 Linux. *)
Definition SIGTRAP : Z := 5.
Definition SIGCHLD : Z := 17.
Definition SYS_execve : Z := 11.
Definition SYS_mmap2 : Z := 192.
Definition PROT_NONE : Z := 0.
Definition MAP_PRIVATE : Z := 2.
Definition MAP_ANONYMOUS : Z := 32.

(** An entry of breakpoint_table; a free entry has a null address. *)
Record breakpoint := { addr : Z; overwritten_data : Z }.

Definition zeroed : breakpoint := {| addr := NULL; overwritten_data := 0 |}.

(** The table as the loader leaves it: 128 zeroed entries. *)
Definition empty_table : list breakpoint := replicate MAX_NUM_BREAKPOINTS zeroed.

(** The request types and the registers of dbg_gdb.h that replayer.c
    names; any other is an [_OTHER]. *)
Inductive dbg_request_type :=
| DREQ_CONTINUE
| DREQ_STEP
| DREQ_GET_CURRENT_THREAD
| DREQ_GET_IS_THREAD_ALIVE
| DREQ_GET_MEM
| DREQ_GET_OFFSETS
| DREQ_GET_REG
| DREQ_GET_REGS
| DREQ_GET_STOP_REASON
| DREQ_GET_THREAD_LIST
| DREQ_INTERRUPT
| DREQ_SET_SW_BREAK
| DREQ_REMOVE_SW_BREAK
| DREQ_REMOVE_HW_BREAK
| DREQ_REMOVE_RD_WATCH
| DREQ_REMOVE_WR_WATCH
| DREQ_REMOVE_RDWR_WATCH
| DREQ_SET_HW_BREAK
| DREQ_SET_RD_WATCH
| DREQ_SET_WR_WATCH
| DREQ_SET_RDWR_WATCH
| DREQ_OTHER (code : Z).

#[global] Instance dbg_request_type_eq_dec : EqDecision dbg_request_type.
Proof. solve_decision. Defined.

Inductive dbg_register :=
| DREG_EAX | DREG_ECX | DREG_EDX | DREG_EBX | DREG_ESP | DREG_EBP | DREG_ESI
| DREG_EDI | DREG_EIP | DREG_EFLAGS | DREG_CS | DREG_SS | DREG_DS | DREG_ES
| DREG_FS | DREG_GS | DREG_ORIG_EAX | DREG_OTHER (n : Z).

(** A request: its type, the thread it targets and the member of the
    [params] union it uses. *)
Record dbg_request := {
  type : dbg_request_type;
  target : Z;
  mem_addr : Z;
  mem_len : Z;
  reg : dbg_register
}.

Definition continue_all_tasks : dbg_request :=
  {| type := DREQ_CONTINUE; target := -1; mem_addr := 0; mem_len := 0; reg := DREG_EAX |}.

Record user_regs_struct := {
  ebx : Z; ecx : Z; edx : Z; esi : Z; edi : Z; ebp : Z; eax : Z;
  xds : Z; xes : Z; xfs : Z; xgs : Z; orig_eax : Z; eip : Z; xcs : Z;
  eflags : Z; esp : Z; xss : Z
}.

#[global] Instance user_regs_struct_eq_dec : EqDecision user_regs_struct.
Proof. solve_decision. Defined.

(** static long get_reg(regs, reg, int* defined): the value and [*defined]. *)
Definition get_reg (regs : user_regs_struct) (r : dbg_register) : Z * bool :=
  match r with
  | DREG_EAX => (eax regs, true)
  | DREG_ECX => (ecx regs, true)
  | DREG_EDX => (edx regs, true)
  | DREG_EBX => (ebx regs, true)
  | DREG_ESP => (esp regs, true)
  | DREG_EBP => (ebp regs, true)
  | DREG_ESI => (esi regs, true)
  | DREG_EDI => (edi regs, true)
  | DREG_EIP => (eip regs, true)
  | DREG_EFLAGS => (eflags regs, true)
  | DREG_CS => (xcs regs, true)
  | DREG_SS => (xss regs, true)
  | DREG_DS => (xds regs, true)
  | DREG_ES => (xes regs, true)
  | DREG_FS => (xfs regs, true)
  | DREG_GS => (xgs regs, true)
  | DREG_ORIG_EAX => (orig_eax regs, true)
  | DREG_OTHER _ => (0, false)
  end.

(** DREG_EAX up to, and without, DREG_NUM_USER_REGS. *)
Definition user_registers : list dbg_register :=
  [DREG_EAX; DREG_ECX; DREG_EDX; DREG_EBX; DREG_ESP; DREG_EBP; DREG_ESI; DREG_EDI;
   DREG_EIP; DREG_EFLAGS; DREG_CS; DREG_SS; DREG_DS; DREG_ES; DREG_FS; DREG_GS].

Inductive tstep_action :=
| TSTEP_RETIRE | TSTEP_ENTER_SYSCALL | TSTEP_EXIT_SYSCALL | TSTEP_OTHER (n : Z).

Record rep_trace_step := {
  action : tstep_action;
  syscall_no : Z;
  syscall_emu : bool;
  syscall_emu_ret : bool;
  syscall_num_emu_args : nat
}.

Record mmapped_file := { file_start : Z; file_end : Z }.

(** The current frame of the trace.  The last three fields are what the
    trace collaborators will answer for this frame: the step
    rep_process_syscall makes of it, the statistics
    read_next_mmapped_file_stats reads, and the bytes recorded for the
    i-th emulated memory argument of the system call, by address. *)
Record trace_frame := {
  global_time : Z;
  stop_reason : Z;
  state : Z;
  recorded_regs : user_regs_struct;
  syscall_step : rep_trace_step;
  scratch_file : mmapped_file;
  child_data : nat -> Z -> option Z
}.

(** struct context *)
Record context := {
  child_tid : Z;
  rec_tid : Z;
  child_sig : Z;
  replay_sig : Z;
  status : Z;
  trace : trace_frame
}.

Definition set_child_sig (s : Z) (c : context) : context :=
  {| child_tid := child_tid c; rec_tid := rec_tid c; child_sig := s;
     replay_sig := replay_sig c; status := status c; trace := trace c |}.

Definition set_status (s : Z) (c : context) : context :=
  {| child_tid := child_tid c; rec_tid := rec_tid c; child_sig := child_sig c;
     replay_sig := replay_sig c; status := s; trace := trace c |}.

Definition set_replay_sig (s : Z) (c : context) : context :=
  {| child_tid := child_tid c; rec_tid := rec_tid c; child_sig := child_sig c;
     replay_sig := s; status := status c; trace := trace c |}.

(** struct flags, as far as this file reads it. *)
Record flags := {
  dump_on : Z;
  dump_at : Z;
  checksum : Z;
  redirect : bool;
  autopilot : bool;
  dbgport : Z
}.

(** What the headers that are not among the sources define: constants of
    trace.h and util.h, signal_pending of util.h, dbg_is_resume_request of
    dbg_gdb.h. *)
Class Headers := {
  USR_INIT_SCRATCH_MEM : Z;
  USR_EXIT : Z;
  USR_FLUSH : Z;
  STATE_SYSCALL_ENTRY : Z;
  STATE_SYSCALL_EXIT : Z;
  DUMP_ON_ALL : Z;
  CHECKSUM_ALL : Z;
  CHECKSUM_SYSCALL : Z;
  signal_pending : Z -> Z;
  dbg_is_resume_request : dbg_request -> bool
}.

(** What the file has its collaborators do, in order. *)
Inductive Event :=
| dbg_reply_get_current_thread (thread : Z)
| dbg_reply_get_is_thread_alive (alive : bool)
| dbg_reply_get_mem (mem : list Z)
| dbg_reply_get_offsets
| dbg_reply_get_reg (value : Z) (defined : bool)
| dbg_reply_get_regs (file : list (Z * bool))
| dbg_reply_get_stop_reason (thread sig : Z)
| dbg_reply_get_thread_list (threads : list Z)
| dbg_notify_stop (thread sig : Z)
| dbg_reply_watchpoint_request (code : Z)
| dbg_await_client_connection (port : Z)
| warn (msg : string) (a : Z)
| log_err (msg : string) (sig : Z)
| progress (time : Z)
| sys_ptrace_sysemu_singlestep (tid sig : Z)
| sys_ptrace_sysemu (tid : Z)
| sys_ptrace_singlestep (tid sig : Z)
| sys_ptrace_syscall_sig (tid sig : Z)
| rep_child_buffer0 (tid : Z)
| wrote_child_data (tid : Z)
| wrote_return_value (tid : Z)
| rep_process_flush (tid : Z)
| rep_process_signal (tid : Z) (validate : bool)
| rep_process_syscall (tid : Z) (redirect : bool)
| rep_sched_deregister_thread (tid : Z)
| inject_and_execute_syscall (tid : Z) (call : user_regs_struct)
| add_scratch (a len : Z)
| reset_hpc (tid period : Z)
| print_process_memory (tid time : Z)
| validate_process_memory (tid : Z).

(** What a sys_waitpid finds: the wait status and the registers the tracee
    stopped with. *)
Record Stop := { stop_status : Z; stop_regs : user_regs_struct }.

(** The file's statics ([validate], [breakpoint_table]) and its
    surroundings: the memory and registers of the tracees (by tid), the
    scheduler's threads, the stops the coming waits will find, what a
    debugger attaching in an emergency will ask, and the trace of what was
    done.  Memory changes here by write_child_data_n and by
    set_child_data. *)
Record World := {
  validate : bool;
  breakpoint_table : list breakpoint;
  child_mem : Z -> Z -> Z;
  child_regs : Z -> user_regs_struct;
  sched : list context;
  stops : list Stop;
  emergency_client : list dbg_request;
  out : list Event
}.

Definition set_validate (v : bool) (w : World) : World :=
  {| validate := v; breakpoint_table := breakpoint_table w; child_mem := child_mem w;
     child_regs := child_regs w; sched := sched w; stops := stops w;
     emergency_client := emergency_client w; out := out w |}.

Definition set_breakpoint_table (t : list breakpoint) (w : World) : World :=
  {| validate := validate w; breakpoint_table := t; child_mem := child_mem w;
     child_regs := child_regs w; sched := sched w; stops := stops w;
     emergency_client := emergency_client w; out := out w |}.

Definition set_child_mem (m : Z -> Z -> Z) (w : World) : World :=
  {| validate := validate w; breakpoint_table := breakpoint_table w; child_mem := m;
     child_regs := child_regs w; sched := sched w; stops := stops w;
     emergency_client := emergency_client w; out := out w |}.

Definition set_child_regs (r : Z -> user_regs_struct) (w : World) : World :=
  {| validate := validate w; breakpoint_table := breakpoint_table w;
     child_mem := child_mem w; child_regs := r; sched := sched w; stops := stops w;
     emergency_client := emergency_client w; out := out w |}.

Definition set_sched (s : list context) (w : World) : World :=
  {| validate := validate w; breakpoint_table := breakpoint_table w;
     child_mem := child_mem w; child_regs := child_regs w; sched := s;
     stops := stops w; emergency_client := emergency_client w; out := out w |}.

Definition set_stops (s : list Stop) (w : World) : World :=
  {| validate := validate w; breakpoint_table := breakpoint_table w;
     child_mem := child_mem w; child_regs := child_regs w; sched := sched w;
     stops := s; emergency_client := emergency_client w; out := out w |}.

Definition emit (e : Event) (w : World) : World :=
  {| validate := validate w; breakpoint_table := breakpoint_table w;
     child_mem := child_mem w; child_regs := child_regs w; sched := sched w;
     stops := stops w; emergency_client := emergency_client w; out := out w ++ [e] |}.

Abbreviation WM := (StateM World).

Definition call (e : Event) : WM unit := fun w => Done (tt, emit e w).

(** *** Tracee memory and registers *)

(** write_child_data_n(tid, 1, addr, &byte) *)
Definition write_child_byte (tid a b : Z) (w : World) : World :=
  set_child_mem
    (fun t x => if (t =? tid) && (x =? a) then b else child_mem w t x) w.

(** read_child_data_tid(tid, len, addr) *)
Definition read_child_data (tid : Z) (len : nat) (a : Z) (w : World) : list Z :=
  map (fun i => child_mem w tid (a + Z.of_nat i)) (seq 0 len).

Definition write_child_registers (tid : Z) (regs : user_regs_struct) (w : World) : World :=
  set_child_regs (fun t => if t =? tid then regs else child_regs w t) w.

Definition set_eax (v : Z) (r : user_regs_struct) : user_regs_struct :=
  {| eax := v; ebx := ebx r; ecx := ecx r; edx := edx r; esi := esi r; edi := edi r;
     ebp := ebp r; xds := xds r; xes := xes r; xfs := xfs r; xgs := xgs r;
     orig_eax := orig_eax r; eip := eip r; xcs := xcs r; eflags := eflags r;
     esp := esp r; xss := xss r |}.

(** set_child_data(ctx) and set_return_value(ctx).

    Modelled from the spec: the two functions are not among the sources.
    At the exit of a system call the replayer is to "push the recorded
    data into the child" for each emulated memory argument, and to "inject
    the recorded return value" before the registers are verified.  The
    i-th call of set_child_data for a frame writes the bytes the trace
    holds for the i-th argument; set_return_value writes the recorded eax
    into the registers of the tracee. *)
Definition set_child_data (ctx : context) (i : nat) : WM unit :=
  fun w =>
    let tid := child_tid ctx in
    let mem := child_mem w in
    Done (tt,
          set_child_mem
            (fun t x => if t =? tid then default (mem t x) (child_data (trace ctx) i x)
                        else mem t x)
            (emit (wrote_child_data tid) w)).

Definition set_return_value (ctx : context) : WM unit :=
  fun w =>
    let tid := child_tid ctx in
    let regs := set_eax (eax (recorded_regs (trace ctx))) (child_regs w tid) in
    Done (tt, write_child_registers tid regs (emit (wrote_return_value tid) w)).

Definition get_threadid (ctx : context) : Z := rec_tid ctx.

Definition read_mem (ctx : context) (a : Z) (len : Z) (w : World) : list Z :=
  read_child_data (child_tid ctx) (Z.to_nat len) a w.

(** rep_sched_lookup_thread(tid) *)
Definition rep_sched_lookup_thread (t : Z) (w : World) : option context :=
  List.find (fun c => rec_tid c =? t) (sched w).

(** *** The breakpoint table *)

(** static struct breakpoint* find_breakpoint(void* addr): the first entry
    with that address, as its index. *)
Definition find_breakpoint (table : list breakpoint) (a : Z) : option nat :=
  fst <$> list_find (fun bp => a = addr bp) (take MAX_NUM_BREAKPOINTS table).

Definition set_sw_breakpoint (ctx : context) (req : dbg_request) : WM unit :=
  fun w =>
    if negb (sizeof_int_3_insn =? mem_len req)
    then AssertFailed "sizeof(int_3_insn) == req->params.mem.len"
    else
      match find_breakpoint (breakpoint_table w) NULL (* unallocated *) with
      | None => AssertFailed "bp && 'Sorry, ran out of breakpoints'"
      | Some i =>
        let a := mem_addr req in
        let orig_data := child_mem w (child_tid ctx) a in
        let bp := {| addr := a; overwritten_data := orig_data |} in
        Done (tt,
              write_child_byte (child_tid ctx) a int_3_insn
                (set_breakpoint_table (<[i := bp]> (breakpoint_table w)) w))
      end.

Definition remove_sw_breakpoint (ctx : context) (req : dbg_request) : WM unit :=
  fun w =>
    if negb (sizeof_int_3_insn =? mem_len req)
    then AssertFailed "sizeof(int_3_insn) == req->params.mem.len"
    else
      match find_breakpoint (breakpoint_table w) (mem_addr req) with
      | None => Done (tt, emit (warn "Couldn't find breakpoint to remove" (mem_addr req)) w)
      | Some i =>
        match breakpoint_table w !! i with
        | None => Crashed "bp"
        | Some bp =>
          Done (tt,
                set_breakpoint_table (<[i := zeroed]> (breakpoint_table w))
                  (write_child_byte (child_tid ctx) (addr bp) (overwritten_data bp) w))
        end
      end.

(** [uintptr_t] is 32 bits wide on the x86 this file is written for. *)
Definition eip_is_breakpoint (ip : Z) (w : World) : bool :=
  let ip := (ip - sizeof_int_3_insn) mod 2 ^ 32 in
  bool_decide (is_Some (find_breakpoint (breakpoint_table w) ip)).

Section Replayer.

Context {hdr : Headers}.
Variable rr_flags : flags.

(** *** Serving the debugger *)

(** A debugger connection is the requests it will deliver. *)
Definition dbg_context : Type := list dbg_request.

(** The loop of process_debugger_requests over the requests of the
    connection; with none left it waits. *)
Fixpoint serve_requests (reqs : dbg_context) (ctx : context)
    : WM (dbg_request * dbg_context) :=
  match reqs with
  | [] => fun _ => Blocked
  | req :: reqs =>
    if dbg_is_resume_request req then ret (req, reqs)
    else
      match type req with
      | DREQ_GET_CURRENT_THREAD =>
        run _ <- call (dbg_reply_get_current_thread (get_threadid ctx));
        serve_requests reqs ctx
      | DREQ_GET_IS_THREAD_ALIVE =>
        run _ <- (fun w => call (dbg_reply_get_is_thread_alive
                    (bool_decide (is_Some (rep_sched_lookup_thread (target req) w)))) w);
        serve_requests reqs ctx
      | DREQ_GET_MEM =>
        run _ <- (fun w => call (dbg_reply_get_mem
                    (read_mem ctx (mem_addr req) (mem_len req) w)) w);
        serve_requests reqs ctx
      | DREQ_GET_OFFSETS =>
        run _ <- call dbg_reply_get_offsets;
        serve_requests reqs ctx
      | DREQ_GET_REG =>
        run _ <- (fun w =>
                    let regs := child_regs w (child_tid ctx) in
                    let val := get_reg regs (reg req) in
                    call (dbg_reply_get_reg val.1 val.2) w);
        serve_requests reqs ctx
      | DREQ_GET_REGS =>
        run _ <- (fun w =>
                    let regs := child_regs w (child_tid ctx) in
                    call (dbg_reply_get_regs
                            (map (get_reg regs) (user_registers ++ [DREG_ORIG_EAX]))) w);
        serve_requests reqs ctx
      | DREQ_GET_STOP_REASON =>
        run _ <- (fun w =>
                    let t := if 0 <? target req
                             then rep_sched_lookup_thread (target req) w else Some ctx in
                    call (dbg_reply_get_stop_reason
                            (match t with Some t => rec_tid t | None => -1 end)
                            (match t with Some t => child_sig t | None => -1 end)) w);
        serve_requests reqs ctx
      | DREQ_GET_THREAD_LIST =>
        run _ <- call (dbg_reply_get_thread_list [get_threadid ctx]);
        serve_requests reqs ctx
      | DREQ_INTERRUPT =>
        (* Tell the debugger we stopped and await further instructions. *)
        run _ <- call (dbg_notify_stop (get_threadid ctx) 0);
        serve_requests reqs ctx
      | DREQ_SET_SW_BREAK =>
        run _ <- set_sw_breakpoint ctx req;
        run _ <- call (dbg_reply_watchpoint_request 0);
        serve_requests reqs ctx
      | DREQ_REMOVE_SW_BREAK =>
        run _ <- remove_sw_breakpoint ctx req;
        run _ <- call (dbg_reply_watchpoint_request 0);
        serve_requests reqs ctx
      | DREQ_REMOVE_HW_BREAK | DREQ_REMOVE_RD_WATCH | DREQ_REMOVE_WR_WATCH
      | DREQ_REMOVE_RDWR_WATCH | DREQ_SET_HW_BREAK | DREQ_SET_RD_WATCH
      | DREQ_SET_WR_WATCH | DREQ_SET_RDWR_WATCH =>
        run _ <- call (dbg_reply_watchpoint_request (-1));
        serve_requests reqs ctx
      | _ => FATAL "Unknown debugger request"
      end
  end.

(** static struct dbg_request process_debugger_requests(dbg, ctx): the
    request that resumes execution, and the connection after it. *)
Definition process_debugger_requests (dbg : option dbg_context) (ctx : context)
    : WM (dbg_request * option dbg_context) :=
  match dbg with
  | None => ret (continue_all_tasks, None)
  | Some reqs =>
    run r <- serve_requests reqs ctx;
    ret (r.1, Some r.2)
  end.

(** void emergency_debug(struct context* ctx): it never returns. *)
Definition emergency_debug (ctx : context) : WM Empty_set :=
  run _ <- call (dbg_await_client_connection (child_tid ctx));
  run _ <- (fun w => process_debugger_requests (Some (emergency_client w)) ctx w);
  FATAL "Can't resume execution from invalid state".

(** *** Advancing the tracee *)

(** compare_register_files(name1, reg1, name2, reg2, 1, 0).

    Modelled from the spec: the comparator of register files is not among
    the sources.  The replayer is to "verify the register file matches the
    recorded snapshot"; the comparator answers nonzero when the two files
    differ in some register. *)
Definition compare_register_files (a b : user_regs_struct) : bool :=
  negb (bool_decide (a = b)).

(** static void validate_args(int syscall, int state, struct context* ctx) *)
Definition validate_args (syscall st : Z) (ctx : context) : WM unit :=
  fun w =>
    (* don't validate anything before execve is done *)
    if negb (validate w) then Done (tt, w)
    else
      let cur_reg := child_regs w (child_tid ctx) in
      if compare_register_files cur_reg (recorded_regs (trace ctx))
      then Fatal "[syscall number, state, trace file line]"
      else Done (tt, w).

(** sys_waitpid(tid, &ctx->status): the next stop of the tracee. *)
Definition sys_waitpid (ctx : context) (w : World) : option (context * World) :=
  match stops w with
  | [] => None
  | s :: rest =>
    Some (set_status (stop_status s) ctx,
          write_child_registers (child_tid ctx) (stop_regs s) (set_stops rest w))
  end.

Definition ptrace_request (ctx : context) (emu stepi : bool) : Event :=
  let tid := child_tid ctx in
  if emu then
    if stepi then sys_ptrace_sysemu_singlestep tid (replay_sig ctx)
    else sys_ptrace_sysemu tid
  else
    if stepi then sys_ptrace_singlestep tid (replay_sig ctx)
    else sys_ptrace_syscall_sig tid (replay_sig ctx).

(** The body of cont_syscall_boundary; [pending] is what the coming waits
    will find, so a SIGCHLD that is swallowed leaves one stop fewer. *)
Fixpoint cont_syscall_boundary_from (pending : list Stop) (ctx : context)
    (emu stepi : bool) : WM (Z * context) :=
  fun w =>
    if negb (replay_sig ctx =? 0) then AssertFailed "ctx->replay_sig == 0"
    else
      match pending with
      | [] => Blocked
      | s :: rest =>
        let w := emit (ptrace_request ctx emu stepi) w in
        let ctx := set_status (stop_status s) ctx in
        let w := write_child_registers (child_tid ctx) (stop_regs s) (set_stops rest w) in
        let ctx := set_child_sig (signal_pending (status ctx)) ctx in
        if child_sig ctx =? 0 then
          if negb (child_sig ctx =? 0) then AssertFailed "ctx->child_sig == 0"
          else Done ((0, ctx), emit (rep_child_buffer0 (child_tid ctx)) w)
        else if child_sig ctx =? SIGCHLD then
          (* SIGCHLD is pending, do not deliver it, wait for it to appear
             in the trace *)
          cont_syscall_boundary_from rest ctx emu stepi w
        else if child_sig ctx =? SIGTRAP then Done ((1, ctx), w)
        else
          no_return
            (emergency_debug ctx
               (emit (log_err "Replay got unrecorded signal" (child_sig ctx)) w))
      end.

(** static int cont_syscall_boundary(ctx, emu, stepi) *)
Definition cont_syscall_boundary (ctx : context) (emu stepi : bool) : WM (Z * context) :=
  fun w => cont_syscall_boundary_from (stops w) ctx emu stepi w.

Definition step_exit_syscall_emu (ctx : context) : WM context :=
  fun w =>
    if negb (replay_sig ctx =? 0) then AssertFailed "ctx->replay_sig == 0"
    else
      let regs := child_regs w (child_tid ctx) in
      let w := emit (sys_ptrace_sysemu_singlestep (child_tid ctx) (replay_sig ctx)) w in
      match sys_waitpid ctx w with
      | None => Blocked
      | Some (ctx, w) =>
        let w := write_child_registers (child_tid ctx) regs w in
        Done (set_status 0 (set_replay_sig 0 ctx), w)
      end.

Definition enter_syscall (ctx : context) (step : rep_trace_step) (stepi : bool)
    : WM (Z * context) :=
  run r <- cont_syscall_boundary ctx (syscall_emu step) stepi;
  if negb (r.1 =? 0) then ret r
  else
    run _ <- validate_args (syscall_no step) STATE_SYSCALL_ENTRY r.2;
    ret r.

(** [for (i = from; i < from + n; ++i) set_child_data(ctx);] *)
Fixpoint set_child_data_loop (ctx : context) (from n : nat) : WM unit :=
  match n with
  | O => ret tt
  | S n => run _ <- set_child_data ctx from; set_child_data_loop ctx (S from) n
  end.

Definition exit_syscall (ctx : context) (step : rep_trace_step) (stepi : bool)
    : WM (Z * context) :=
  let emu := syscall_emu step in
  run r <- (if negb emu then cont_syscall_boundary ctx emu stepi else ret (0, ctx));
  if negb (r.1 =? 0) then ret r
  else
    let ctx := r.2 in
    run _ <- set_child_data_loop ctx 0 (syscall_num_emu_args step);
    run _ <- (if syscall_emu_ret step then set_return_value ctx else ret tt);
    run _ <- validate_args (syscall_no step) STATE_SYSCALL_EXIT ctx;
    run ctx <- (if emu then step_exit_syscall_emu ctx else ret ctx);
    ret (0, ctx).

Definition try_one_trace_step (ctx : context) (step : rep_trace_step)
    (req : dbg_request) : WM (Z * context) :=
  let stepi := bool_decide (type req = DREQ_STEP)
               && (get_threadid ctx =? target req) in
  match action step with
  | TSTEP_RETIRE => ret (0, ctx)
  | TSTEP_ENTER_SYSCALL => enter_syscall ctx step stepi
  | TSTEP_EXIT_SYSCALL => exit_syscall ctx step stepi
  | TSTEP_OTHER _ => FATAL "Unhandled step type"
  end.

(** *** One frame of the trace *)

(** static void debug_memory(struct context* ctx).  The flags are [int]s
    and the global time of a frame is unsigned (it is printed with %u): a
    flag compared with it is converted to unsigned first. *)
Definition debug_memory (ctx : context) : WM unit :=
  let tr := trace ctx in
  run _ <-
    (* dump memory as user requested *)
    (if (dump_on rr_flags =? stop_reason tr) || (dump_on rr_flags =? DUMP_ON_ALL)
        || (to_uint32 (dump_at rr_flags) =? global_time tr)
     then call (print_process_memory (child_tid ctx) (global_time tr))
     else ret tt);
  (* check memory checksum *)
  fun w =>
    if validate w
       && ((checksum rr_flags =? CHECKSUM_ALL)
           || ((checksum rr_flags =? CHECKSUM_SYSCALL) && (state tr =? STATE_SYSCALL_EXIT))
           || (to_uint32 (checksum rr_flags) <=? global_time tr))
    then call (validate_process_memory (child_tid ctx)) w
    else ret tt w.

Definition replay_init_scratch_memory (ctx : context) (file : mmapped_file) : WM unit :=
  fun w =>
    let orig_regs := child_regs w (child_tid ctx) in
    let mmap_call :=
      {| eax := SYS_mmap2; ebx := file_start file;
         ecx := file_end file - file_start file; edx := PROT_NONE;
         esi := Z.lor MAP_PRIVATE MAP_ANONYMOUS; edi := -1; ebp := 0;
         xds := xds orig_regs; xes := xes orig_regs; xfs := xfs orig_regs;
         xgs := xgs orig_regs; orig_eax := orig_eax orig_regs; eip := eip orig_regs;
         xcs := xcs orig_regs; eflags := eflags orig_regs; esp := esp orig_regs;
         xss := xss orig_regs |} in
    let w := emit (inject_and_execute_syscall (child_tid ctx) mmap_call) w in
    Done (tt, write_child_registers (child_tid ctx) orig_regs w).

(** The loop "advance until |step| has been fulfilled".  Every turn that
    goes round again has waited for the tracee, so [fuel] beyond the number
    of pending stops is never used up. *)
Fixpoint advance (fuel : nat) (dbg : option dbg_context) (ctx : context)
    (step : rep_trace_step) (req : dbg_request)
    : WM (option dbg_context * context) :=
  match fuel with
  | O => fun _ => Blocked
  | S fuel =>
    run r <- try_one_trace_step ctx step req;
    let ctx := r.2 in
    if r.1 =? 0 then ret (dbg, ctx)
    else
      if negb (SIGTRAP =? child_sig ctx)
      then assert_failed "SIGTRAP == ctx->child_sig && 'Unknown trap'"
      else
        run ok <- (fun w =>
          ret (eip_is_breakpoint (eip (child_regs w (child_tid ctx))) w
               || (bool_decide (type req = DREQ_STEP)
                   && (target req =? get_threadid ctx))) w);
        if negb ok
        then assert_failed "eip_is_breakpoint(read_child_eip(tid)) || stepi was requested"
        else
          (* Notify the debugger and process any new requests that might
             have triggered before resuming. *)
          run _ <- call (dbg_notify_stop (get_threadid ctx) 0x05);
          run r <- process_debugger_requests dbg ctx;
          if negb (dbg_is_resume_request r.1)
          then assert_failed "dbg_is_resume_request(&req)"
          else advance fuel r.2 ctx step r.1
  end.

(** What replay_one_trace_frame leaves: the frame was processed to its
    end, or the task exited and the function returned early. *)
Inductive frame_end := Retired (ctx : context) | TaskExited.

(** The step of a frame that needs no more work. *)
Definition retire : rep_trace_step :=
  {| action := TSTEP_RETIRE; syscall_no := 0; syscall_emu := false;
     syscall_emu_ret := false; syscall_num_emu_args := 0 |}.

(** The end of replay_one_trace_frame, once [step] is known: advance until
    it is fulfilled, then reset the hpc and check the memory. *)
Definition retire_frame (dbg : option dbg_context) (ctx : context)
    (step : rep_trace_step) (req : dbg_request)
    : WM (option dbg_context * frame_end) :=
  run r <- (fun w => advance (S (length (stops w))) dbg ctx step req w);
  let dbg := r.1 in
  let ctx := r.2 in
  run _ <- (if negb (stop_reason (trace ctx) =? USR_FLUSH)
            then call (reset_hpc (child_tid ctx) 0) else ret tt);
  run _ <- debug_memory ctx;
  ret (dbg, Retired ctx).

(** static void replay_one_trace_frame(dbg, ctx).  [stack_req] is what the
    uninitialised local [req] holds when no request is read into it. *)
Definition replay_one_trace_frame (dbg : option dbg_context) (ctx : context)
    (stack_req : dbg_request) : WM (option dbg_context * frame_end) :=
  run r <-
    (* Advance the trace until we've exec()'d the tracee before processing
       debugger requests. *)
    (fun w =>
       if validate w then
         (run r <- process_debugger_requests dbg ctx;
          if negb (dbg_is_resume_request r.1)
          then assert_failed "dbg_is_resume_request(&req)"
          else ret r) w
       else ret (stack_req, dbg) w);
  let req := r.1 in
  let dbg := r.2 in
  (* print some kind of progress *)
  run _ <- (if global_time (trace ctx) mod 10000 =? 0
            then call (progress (global_time (trace ctx))) else ret tt);
  if negb (child_sig ctx =? 0) && negb (stop_reason (trace ctx) =? - child_sig ctx)
  then assert_failed "ctx->trace.stop_reason == -ctx->child_sig"
  else
    let ctx := if negb (child_sig ctx =? 0) then set_child_sig 0 ctx else ctx in
    let reason := stop_reason (trace ctx) in
    (* Ask the trace-interpretation code what to do next in order to
       retire the current frame. *)
    if reason =? USR_INIT_SCRATCH_MEM then
      (* for checksumming: make a note that this area is scratch and need
         not be validated. *)
      let file := scratch_file (trace ctx) in
      run _ <- replay_init_scratch_memory ctx file;
      run _ <- call (add_scratch (eax (recorded_regs (trace ctx)))
                                 (file_end file - file_start file));
      retire_frame dbg ctx retire req
    else if reason =? USR_EXIT then
      run _ <- call (rep_sched_deregister_thread (rec_tid ctx));
      run _ <- (fun w =>
        ret tt (set_sched (filter (fun c => rec_tid c <> rec_tid ctx) (sched w)) w));
      (* Early-return because |ctx| is gone now. *)
      ret (dbg, TaskExited)
    else if reason =? USR_FLUSH then
      run _ <- call (rep_process_flush (child_tid ctx));
      retire_frame dbg ctx retire req
    else if reason <? 0 then
      (* stop reason is a signal - use HPC *)
      run _ <- (fun w => call (rep_process_signal (child_tid ctx) (validate w)) w);
      retire_frame dbg ctx retire req
    else
      run _ <- (fun w =>
        ret tt (set_validate
                  (validate w
                   || ((state (trace ctx) =? STATE_SYSCALL_EXIT)
                       && (reason =? SYS_execve))) w));
      (* stop reason is a system call - can be done with ptrace *)
      run _ <- call (rep_process_syscall (child_tid ctx) (redirect rr_flags));
      retire_frame dbg ctx (syscall_step (trace ctx)) req.

End Replayer.

(** *** Vocabulary of the properties *)

(** At most one entry of the table per non-null address. *)
Definition unique_addrs (table : list breakpoint) : Prop :=
  forall i j bi bj,
    table !! i = Some bi -> table !! j = Some bj ->
    addr bi = addr bj -> addr bi <> NULL -> i = j.

(** Every entry of the table is occupied. *)
Definition table_full (table : list breakpoint) : Prop :=
  length table = MAX_NUM_BREAKPOINTS /\ Forall (fun bp => addr bp <> NULL) table.

(** Some entry of the table is free. *)
Definition has_free_entry (table : list breakpoint) : Prop :=
  Exists (fun bp => addr bp = NULL) table.

(** Two entries of the table are free. *)
Definition two_free_entries (table : list breakpoint) : Prop :=
  exists i j bi bj,
    i <> j /\ table !! i = Some bi /\ addr bi = NULL /\
    table !! j = Some bj /\ addr bj = NULL.

(** The world [w] after the collaborators were called with [events] and
    nothing else happened. *)
Definition replied (events : list Event) (w : World) : World :=
  {| validate := validate w; breakpoint_table := breakpoint_table w;
     child_mem := child_mem w; child_regs := child_regs w; sched := sched w;
     stops := stops w; emergency_client := emergency_client w;
     out := out w ++ events |}.

(** A request that neither sets nor removes a software breakpoint. *)
Definition is_query (req : dbg_request) : Prop :=
  type req <> DREQ_SET_SW_BREAK /\ type req <> DREQ_REMOVE_SW_BREAK.

(** A request to set a software breakpoint at a non-null address. *)
Definition sets_breakpoint (req : dbg_request) : Prop :=
  type req = DREQ_SET_SW_BREAK /\ mem_len req = sizeof_int_3_insn /\
  mem_addr req <> NULL.

(** No entry of the table has the address [a]. *)
Definition absent (a : Z) (table : list breakpoint) : Prop :=
  Forall (fun bp => addr bp <> a) table.

(** Two contexts of the same task at the same frame. *)
Definition same_task (ctx ctx' : context) : Prop :=
  trace ctx' = trace ctx /\ child_tid ctx' = child_tid ctx /\ rec_tid ctx' = rec_tid ctx.

(** The events debug_memory leaves. *)
Definition is_memory_check (e : Event) : Prop :=
  match e with
  | print_process_memory _ _ | validate_process_memory _ => True
  | _ => False
  end.

Definition is_reset_hpc (e : Event) : Prop :=
  match e with reset_hpc _ _ => True | _ => False end.

(** *** Sample headers, tracees and requests *)

(** A sample of what the missing headers could define: pseudo-signals
    below every real signal for the USR_ stop reasons, the stop signal of
    a wait status for signal_pending (a syscall stop counting as no
    signal), continue and step as the resume requests. *)
#[global] Instance sample_headers : Headers := {|
  USR_INIT_SCRATCH_MEM := -1027;
  USR_EXIT := -1024;
  USR_FLUSH := -1028;
  STATE_SYSCALL_ENTRY := 0;
  STATE_SYSCALL_EXIT := 1;
  DUMP_ON_ALL := 10000;
  CHECKSUM_ALL := -3;
  CHECKSUM_SYSCALL := -2;
  signal_pending := fun status =>
    let sig := Z.land (Z.shiftr status 8) 0xff in
    if sig =? Z.lor SIGTRAP 0x80 then 0 else sig;
  dbg_is_resume_request := fun req =>
    match type req with DREQ_CONTINUE | DREQ_STEP => true | _ => false end
|}.

Definition no_flags : flags :=
  {| dump_on := -9999; dump_at := -1; checksum := 2 ^ 31; redirect := true;
     autopilot := false; dbgport := 1111 |}.

Definition zero_regs : user_regs_struct :=
  {| ebx := 0; ecx := 0; edx := 0; esi := 0; edi := 0; ebp := 0; eax := 0;
     xds := 0; xes := 0; xfs := 0; xgs := 0; orig_eax := 0; eip := 0; xcs := 0;
     eflags := 0; esp := 0; xss := 0 |}.

(** A frame with the stop reason [r] at time 1. *)
Definition frame (r : Z) : trace_frame :=
  {| global_time := 1; stop_reason := r; state := 0; recorded_regs := zero_regs;
     syscall_step := retire; scratch_file := {| file_start := 0; file_end := 0 |};
     child_data := fun _ _ => None |}.

(** The context of task 100 at a frame with the stop reason [r]. *)
Definition task_at (r : Z) : context :=
  {| child_tid := 100; rec_tid := 100; child_sig := 0; replay_sig := 0; status := 0;
     trace := frame r |}.

(** The context of task 100 at the frame of the exit of its execve. *)
Definition execve_exit : context :=
  {| child_tid := 100; rec_tid := 100; child_sig := 0; replay_sig := 0; status := 0;
     trace := {| global_time := 1; stop_reason := SYS_execve; state := 1;
                 recorded_regs := zero_regs; syscall_step := retire;
                 scratch_file := {| file_start := 0; file_end := 0 |};
                 child_data := fun _ _ => None |} |}.

(** The context of task 100 at the exit of an emulated read that returned
    42 and filled the byte at 0x2000 with 7. *)
Definition read_exit : context :=
  {| child_tid := 100; rec_tid := 100; child_sig := 0; replay_sig := 0; status := 0;
     trace := {| global_time := 1; stop_reason := 3; state := 1;
                 recorded_regs := set_eax 42 zero_regs; syscall_step := retire;
                 scratch_file := {| file_start := 0; file_end := 0 |};
                 child_data := fun i x =>
                   if Nat.eqb i 0 && (x =? 0x2000) then Some 7 else None |} |}.

(** A request of type [ty] about the byte at [a]. *)
Definition request (ty : dbg_request_type) (a : Z) : dbg_request :=
  {| type := ty; target := 100; mem_addr := a; mem_len := 1; reg := DREG_EAX |}.

(** Requests to set breakpoints at [n] addresses, from 0x1000 on. *)
Definition breakpoints_at (n : nat) : list dbg_request :=
  map (fun i => request DREQ_SET_SW_BREAK (0x1000 + Z.of_nat i)) (seq 0 n).

(** The exit of an emulated read: two buffers to write, and a return value. *)
Definition emulated_exit : rep_trace_step :=
  {| action := TSTEP_EXIT_SYSCALL; syscall_no := 3; syscall_emu := true;
     syscall_emu_ret := true; syscall_num_emu_args := 2 |}.

(** A wait status that stops with the signal [sig]. *)
Definition stopped_with (sig : Z) : Stop :=
  {| stop_status := Z.lor (Z.shiftl sig 8) 0x7f; stop_regs := zero_regs |}.

(** A world before the first exec: an empty table, memory holding 0x55
    everywhere, and the stops [ss] to come. *)
Definition fresh_world (ss : list Stop) : World :=
  {| validate := false; breakpoint_table := empty_table;
     child_mem := fun _ _ => 0x55; child_regs := fun _ => zero_regs;
     sched := [task_at 0]; stops := ss; emergency_client := []; out := [] |}.

(** The entry of an emulated read. *)
Definition emulated_entry : rep_trace_step :=
  {| action := TSTEP_ENTER_SYSCALL; syscall_no := 3; syscall_emu := true;
     syscall_emu_ret := true; syscall_num_emu_args := 2 |}.

(** A stop with the signal [sig], the instruction pointer at [a]. *)
Definition stopped_at (sig a : Z) : Stop :=
  {| stop_status := Z.lor (Z.shiftl sig 8) 0x7f;
     stop_regs :=
       {| ebx := 0; ecx := 0; edx := 0; esi := 0; edi := 0; ebp := 0; eax := 0;
          xds := 0; xes := 0; xfs := 0; xgs := 0; orig_eax := 0; eip := a; xcs := 0;
          eflags := 0; esp := 0; xss := 0 |} |}.

(** A world before the first exec with one breakpoint, at [a]. *)
Definition world_with_breakpoint (a : Z) (ss : list Stop) : World :=
  {| validate := false;
     breakpoint_table := <[0%nat := {| addr := a; overwritten_data := 0x55 |}]> empty_table;
     child_mem := fun _ _ => 0x55; child_regs := fun _ => zero_regs;
     sched := [task_at 0]; stops := ss; emergency_client := []; out := [] |}.

(** A world after the first exec, where registers are validated. *)
Definition validating_world (ss : list Stop) : World :=
  {| validate := true; breakpoint_table := empty_table;
     child_mem := fun _ _ => 0x55; child_regs := fun _ => zero_regs;
     sched := [task_at 0]; stops := ss; emergency_client := []; out := [] |}.

(** A table whose 128 entries are all taken, by the addresses 0x1000 on. *)
Definition full_table : list breakpoint :=
  map (fun i => {| addr := 0x1000 + Z.of_nat i; overwritten_data := 0x55 |})
      (seq 0 MAX_NUM_BREAKPOINTS).

End replayer_c.
(** * Part II: the properties *)

(** ** Machine integers *)

Lemma to_int64_small v : 0 <= v < 2 ^ 63 -> to_int64 v = v.
Proof.
  intros H. unfold to_int64.
  rewrite Z.mod_small by lia. lia.
Qed.

Lemma to_uint64_small v : 0 <= v < 2 ^ 64 -> to_uint64 v = v.
Proof. intros H. unfold to_uint64. now rewrite Z.mod_small. Qed.

Lemma uint64_of_int64_Ticks v : 0 <= v < 2 ^ 63 -> to_uint64 (to_int64 v) = v.
Proof.
  intros H. rewrite to_int64_small by exact H.
  apply to_uint64_small. lia.
Qed.

(** ** The ticks counter *)

Module PerfCounters_facts.
Import PerfCounters_cc.

Lemma read_counter_value k fd v :
  counter_value k fd = Some v -> read_counter fd k = Done (to_int64 v, k).
Proof. unfold counter_value, read_counter. now intros ->. Qed.

(** read_ticks of a counter that is not started or not counting. *)
Lemma read_ticks_idle env pc k :
  started pc && counting pc = false -> read_ticks env pc k = Done (0, k).
Proof.
  intros H. unfold read_ticks.
  destruct (started pc), (counting pc); simpl in *; try discriminate; reflexivity.
Qed.

(** When the HLE check fires, read_ticks does not return. *)
Lemma read_ticks_in_tx_abort env pc k :
  started pc && counting pc = true ->
  in_tx_check_fires env pc k ->
  read_ticks env pc k =
    AssertFailed "IN_TX ticks detected while HLE not supported due to KVM PMU virtualization bug".
Proof.
  intros Hsc (Hopen & v & Hv & Hpos & Hforce).
  apply andb_true_iff in Hsc as [Hs Hc].
  unfold read_ticks. rewrite Hs, Hc, Hopen. simpl.
  unfold bind at 1. unfold bind at 1.
  rewrite (read_counter_value _ _ _ Hv).
  apply Z.ltb_lt in Hpos. rewrite Hpos, Hforce. reflexivity.
Qed.

(** When the HLE check passes, read_ticks goes on to the tie-break. *)
Lemma read_ticks_tie_break env pc k I :
  started pc && counting pc = true ->
  in_tx_check_passes env pc k ->
  counter_value k (fd_ticks_interrupt pc) = Some I -> is_Ticks I ->
  (is_open (fd_ticks_measure pc) = false ->
     read_ticks env pc k = Done (tie_break I None, k)) /\
  (forall M, is_open (fd_ticks_measure pc) = true ->
     counter_value k (fd_ticks_measure pc) = Some M -> is_Ticks M ->
     read_ticks env pc k = Done (tie_break I (Some M), k)).
Proof.
  intros Hsc Hpass HI HIr.
  apply andb_true_iff in Hsc as [Hs Hc].
  assert (Hpre : forall (f : unit -> KM Z),
    bind (if is_open (fd_ticks_in_transaction pc) then
            bind (read_counter (fd_ticks_in_transaction pc)) (fun v =>
              if (0 <? to_uint64 v) && negb (force_things env) then
                assert_failed
                  "IN_TX ticks detected while HLE not supported due to KVM PMU virtualization bug"
              else ret tt)
          else ret tt) f k = f tt k).
  { intros f. destruct Hpass as [Hclosed | (v & Hv & Hq)].
    - rewrite Hclosed. reflexivity.
    - destruct (is_open (fd_ticks_in_transaction pc)); [|reflexivity].
      unfold bind. rewrite (read_counter_value _ _ _ Hv).
      destruct Hq as [Hz | Hf].
      + rewrite Hz. reflexivity.
      + rewrite Hf, andb_false_r. reflexivity. }
  split.
  - intros Hm. unfold read_ticks. rewrite Hs, Hc. simpl. rewrite Hpre.
    unfold bind. rewrite (read_counter_value _ _ _ HI).
    rewrite (uint64_of_int64_Ticks I HIr), Hm. simpl.
    unfold ret. now rewrite to_int64_small.
  - intros M Hm HM HMr. unfold read_ticks. rewrite Hs, Hc. simpl. rewrite Hpre.
    unfold bind. rewrite (read_counter_value _ _ _ HI).
    rewrite (uint64_of_int64_Ticks I HIr), Hm. simpl.
    rewrite (read_counter_value _ _ _ HM).
    rewrite (uint64_of_int64_Ticks M HMr).
    unfold ret. rewrite !to_int64_small by assumption.
    rewrite Z.gtb_ltb. destruct (I <? M); reflexivity.
Qed.

(** ** read_ticks *)

(** C1 (amended): read_ticks returns 0 when the counter is not started or
    not counting.  Otherwise, when the in-transaction counter is open, has
    counted something and force_things is off, read_ticks fails its
    assertion and returns nothing.  In every other case, with I the value
    of the interrupt counter and M the value of the measure counter (both
    in the range of Ticks), it returns I if the measure counter is not
    open, I if M > I, and M otherwise. *)
Theorem read_ticks_value env pc k :
  (started pc && counting pc = false -> read_ticks env pc k = Done (0, k)) /\
  (started pc && counting pc = true -> in_tx_check_fires env pc k ->
     read_ticks env pc k =
       AssertFailed
         "IN_TX ticks detected while HLE not supported due to KVM PMU virtualization bug") /\
  (forall I, started pc && counting pc = true -> in_tx_check_passes env pc k ->
     counter_value k (fd_ticks_interrupt pc) = Some I -> is_Ticks I ->
     (is_open (fd_ticks_measure pc) = false -> read_ticks env pc k = Done (I, k)) /\
     (forall M, is_open (fd_ticks_measure pc) = true ->
        counter_value k (fd_ticks_measure pc) = Some M -> is_Ticks M ->
        (M > I -> read_ticks env pc k = Done (I, k)) /\
        (M <= I -> read_ticks env pc k = Done (M, k)))).
Proof.
  split; [apply read_ticks_idle|]. split; [apply read_ticks_in_tx_abort|].
  intros I Hsc Hpass HI HIr.
  destruct (read_ticks_tie_break env pc k I Hsc Hpass HI HIr) as [Hclosed Hopen].
  split; [exact Hclosed|].
  intros M Hm HM HMr. specialize (Hopen M Hm HM HMr). unfold tie_break in Hopen.
  split; intros Hcmp; rewrite Hopen.
  - apply Z.gtb_gt in Hcmp. now rewrite Hcmp.
  - destruct (M >? I) eqn:E; [apply Z.gtb_gt in E; lia | reflexivity].
Qed.

(** On a host without bugs: the measure counter counted 90 events, the
    interrupt counter 100 (HLE was used); then the measure counter counted
    more than the interrupt counter. *)
Lemma read_ticks_value_witness :
  exists pc k,
    reset clean_env (skylake_attrs clean_env) 0 (new 1) boot_kernel = Done (pc, k) /\
    read_ticks clean_env pc
      (count_events (fd_ticks_measure pc) 90 (count_events (fd_ticks_interrupt pc) 100 k))
    = Done (90, count_events (fd_ticks_measure pc) 90
                  (count_events (fd_ticks_interrupt pc) 100 k)) /\
    read_ticks clean_env pc
      (count_events (fd_ticks_measure pc) 101 (count_events (fd_ticks_interrupt pc) 100 k))
    = Done (100, count_events (fd_ticks_measure pc) 101
                   (count_events (fd_ticks_interrupt pc) 100 k)).
Proof.
  eexists _, _. split; [vm_compute; reflexivity|]. split.
  - apply (read_ticks_value clean_env) with (I := 100) (M := 90);
      [reflexivity | left; reflexivity | reflexivity | unfold is_Ticks; lia
      | reflexivity | reflexivity | unfold is_Ticks; lia | lia].
  - apply (read_ticks_value clean_env) with (I := 100) (M := 101);
      [reflexivity | left; reflexivity | reflexivity | unfold is_Ticks; lia
      | reflexivity | reflexivity | unfold is_Ticks; lia | lia].
Defined.

(** C1 as stated fails: on a host with the KVM IN_TXCP bug the counter is
    started and counting, the measure counter is not open and the interrupt
    counter holds 100, yet read_ticks does not return 100: the
    in-transaction counter counted 7 events and the assertion fails. *)
Lemma read_ticks_counterexample :
  exists pc k,
    reset kvm_bug_env (skylake_attrs kvm_bug_env) 0 (new 1) boot_kernel = Done (pc, k) /\
    let k' := count_events (fd_ticks_in_transaction pc) 7
                (count_events (fd_ticks_interrupt pc) 100 k) in
    started pc && counting pc = true /\
    is_open (fd_ticks_measure pc) = false /\
    counter_value k' (fd_ticks_interrupt pc) = Some 100 /\
    read_ticks kvm_bug_env pc k' =
      AssertFailed
        "IN_TX ticks detected while HLE not supported due to KVM PMU virtualization bug".
Proof.
  eexists _, _. split; [vm_compute; reflexivity|].
  repeat split; vm_compute; reflexivity.
Qed.

(** ** reset, stop and stop_counting *)




(** init_attributes *)
Lemma init_attributes_Done env g :
  init_attributes env = Done g ->
  attr_type (ticks_attr g) = PERF_TYPE_RAW /\
  Z.testbit (config (ticks_attr g)) 33 = false /\
  Z.testbit (config (cycles_attr g)) 33 = false /\
  Z.testbit (config (hw_interrupts_attr g)) 33 = false /\
  Z.testbit (config (instructions_retired_attr g)) 33 = false /\
  Z.testbit (config (page_faults_attr g)) 33 = false /\
  activate_useless_counter g = (has_ioc_period_bug env && negb (running_under_rr env)).
Proof.
  unfold init_attributes.
  destruct (get_cpu_microarch env) as [ua| | | |]; try discriminate.
  destruct ua; simpl; intros H; inversion H; subst; clear H; simpl;
    repeat split; reflexivity.
Qed.

Lemma testbit_lor_IN_TX c : Z.testbit (Z.lor c IN_TX) 33 = Z.testbit c 33.
Proof. rewrite Z.lor_spec. change (Z.testbit IN_TX 33) with false. apply orb_false_r. Qed.

Lemma testbit_lor_IN_TXCP c : Z.testbit (Z.lor c IN_TXCP) 33 = true.
Proof. rewrite Z.lor_spec. change (Z.testbit IN_TXCP 33) with true. apply orb_true_r. Qed.

Lemma land_IN_TXCP_nonzero c : Z.testbit c 33 = true -> (Z.land c IN_TXCP =? 0) = false.
Proof.
  intros H. apply Z.eqb_neq. intros E.
  assert (Z.testbit (Z.land c IN_TXCP) 33 = true).
  { rewrite Z.land_spec, H. reflexivity. }
  rewrite E in H0. discriminate.
Qed.

Lemma testbit_clear_IN_TXCP c :
  Z.testbit (Z.land c (to_uint64 (Z.lnot IN_TXCP))) 33 = false.
Proof. rewrite Z.land_spec. change (Z.testbit (to_uint64 (Z.lnot IN_TXCP)) 33) with false. apply andb_false_r. Qed.


(** ** Running KM code forward *)



Lemma bind_assoc {A B C} (m : KM A) (f : A -> KM B) (g : B -> KM C) k :
  bind (bind m f) g k = bind m (fun a => bind (f a) g) k.
Proof. unfold bind. destruct (m k) as [[a k1]| | | |]; reflexivity. Qed.





Lemma bind_ret_l {A B} (a : A) (f : A -> KM B) k : bind (ret a) f k = f a k.
Proof. reflexivity. Qed.






Lemma ioctl_or_FATAL_open fd req msg k :
  is_Some (events k !! fd) ->
  ioctl_or_FATAL fd req msg k = Done (tt, (sys_ioctl fd req k).2).
Proof.
  intros [e He]. unfold ioctl_or_FATAL, bind, ioctl, sys_ioctl. rewrite He. reflexivity.
Qed.


Lemma is_Some_events_ioctl fd req k fd' :
  is_Some (events (sys_ioctl fd req k).2 !! fd') <-> is_Some (events k !! fd').
Proof.
  unfold sys_ioctl. destruct (events k !! fd) as [e|] eqn:E; [|reflexivity].
  simpl. destruct (decide (fd = fd')) as [->|Hne].
  - rewrite lookup_insert_eq, E. split; eauto.
  - now rewrite lookup_insert_ne.
Qed.

Lemma next_fd_ioctl fd req k : next_fd (sys_ioctl fd req k).2 = next_fd k.
Proof. unfold sys_ioctl. now destruct (events k !! fd). Qed.







Lemma bind_ioctl {B} fd req (f : Z -> KM B) k :
  bind (ioctl fd req) f k = f (sys_ioctl fd req k).1 (sys_ioctl fd req k).2.
Proof. unfold bind, ioctl. now destruct (sys_ioctl fd req k). Qed.





Lemma reset_unfold_p env g p pc k :
  0 <= p ->
  reset env g p pc k =
    bind (if negb (started pc) then reset_recreate env g (effective_period env p) pc
          else reset_reprogram (effective_period env p) pc)
         (fun pc' => ret (set_started_counting true true pc')) k.
Proof.
  intros Hp. unfold reset. apply Z.leb_le in Hp. now rewrite Hp.
Qed.







(** ** The descriptors of a counter, event by event *)

Lemma bind_run {S A B} (m : StateM S A) (f : A -> StateM S B) s a s1 :
  m s = Done (a, s1) -> bind m f s = f a s1.
Proof. intros H. unfold bind. now rewrite H. Qed.

Lemma lookup_opened attr t g k fd :
  events (opened attr t g k) !! fd =
    if bool_decide (fd = next_fd k) then Some (new_event attr t g) else events k !! fd.
Proof.
  unfold opened. cbn [events]. case_bool_decide as H.
  - subst. apply lookup_insert_eq.
  - apply lookup_insert_ne. congruence.
Qed.

Lemma lookup_fcntl fd req k fd' :
  events (sys_fcntl fd req k).2 !! fd' =
    if bool_decide (fd' = fd) then fcntl_event req <$> events k !! fd
    else events k !! fd'.
Proof.
  unfold sys_fcntl. destruct (events k !! fd) as [e|] eqn:E; cbn.
  - case_bool_decide as H.
    + subst. now rewrite lookup_insert_eq.
    + rewrite lookup_insert_ne by congruence. reflexivity.
  - case_bool_decide as H; [subst; exact E | reflexivity].
Qed.

Lemma lookup_ioctl fd req k fd' :
  events (sys_ioctl fd req k).2 !! fd' =
    if bool_decide (fd' = fd) then ioctl_event req <$> events k !! fd
    else events k !! fd'.
Proof.
  unfold sys_ioctl. destruct (events k !! fd) as [e|] eqn:E; cbn.
  - case_bool_decide as H.
    + subst. now rewrite lookup_insert_eq.
    + rewrite lookup_insert_ne by congruence. reflexivity.
  - case_bool_decide as H; [subst; exact E | reflexivity].
Qed.


Lemma next_fd_fcntl fd req k : next_fd (sys_fcntl fd req k).2 = next_fd k.
Proof. unfold sys_fcntl. now destruct (events k !! fd). Qed.

Lemma perf_open_errno_fcntl fd req k :
  perf_open_errno (sys_fcntl fd req k).2 = perf_open_errno k.
Proof. unfold sys_fcntl. now destruct (events k !! fd). Qed.

Lemma supports_in_txcp_fcntl fd req k :
  supports_in_txcp (sys_fcntl fd req k).2 = supports_in_txcp k.
Proof. unfold sys_fcntl. now destruct (events k !! fd). Qed.

Lemma attr_granted_id k attr :
  Z.testbit (config attr) 33 = false -> attr_granted k attr = attr.
Proof. unfold attr_granted. now intros ->. Qed.

(** start_counter on a machine whose perf events are usable: the event
    sits behind the next descriptor, with the attributes the kernel grants. *)
Lemma start_counter_exact tid group attr k :
  perf_usable k ->
  group = -1 \/ is_Some (events k !! group) ->
  attr_type attr = PERF_TYPE_RAW \/ Z.testbit (config attr) 33 = false ->
  start_counter tid group attr k =
    Done (next_fd k, opened (attr_granted k attr) tid group k).
Proof.
  intros Hu Hg Ht. unfold perf_usable in Hu.
  assert (Hgrp : (negb (group =? -1)) && negb (bool_decide (is_Some (events k !! group))) = false).
  { destruct Hg as [->|Hs]; [reflexivity|].
    rewrite (bool_decide_eq_true_2 _ Hs). apply andb_false_r. }
  unfold start_counter, sys_perf_event_open, attr_granted. rewrite Hu.
  destruct (Z.testbit (config attr) 33 && negb (supports_in_txcp k)) eqn:E.
  - apply andb_true_iff in E as [Hbit Hsup].
    destruct Ht as [Hraw|Hno]; [|congruence].
    rewrite Hraw, (land_IN_TXCP_nonzero _ Hbit).
    rewrite bool_decide_eq_true_2 by reflexivity. cbn [negb andb].
    rewrite Hu. cbn [config set_config]. rewrite testbit_clear_IN_TXCP.
    cbn [andb]. rewrite Hgrp. reflexivity.
  - rewrite Hgrp. reflexivity.
Qed.

Lemma assign_start_counter_exact old tid group attr k :
  is_open old = false ->
  perf_usable k ->
  group = -1 \/ is_Some (events k !! group) ->
  attr_type attr = PERF_TYPE_RAW \/ Z.testbit (config attr) 33 = false ->
  ScopedFd_assign old (start_counter tid group attr) k =
    Done (next_fd k, opened (attr_granted k attr) tid group k).
Proof.
  intros Hold Hu Hg Ht. unfold ScopedFd_assign.
  rewrite (bind_run _ _ _ _ _ (start_counter_exact tid group attr k Hu Hg Ht)).
  unfold bind, ScopedFd_close. rewrite Hold. reflexivity.
Qed.


(** The attributes init_attributes builds: the ticks event is one of the
    two retired-conditional-branches events of the table. *)
Lemma init_attributes_ticks env g :
  init_attributes env = Done g ->
  (ticks_attr g = init_perf_event_attr PERF_TYPE_RAW 0x5101c4 \/
   ticks_attr g = init_perf_event_attr PERF_TYPE_RAW 0x517ec4) /\
  cycles_attr g = init_perf_event_attr PERF_TYPE_HARDWARE PERF_COUNT_HW_CPU_CYCLES.
Proof.
  unfold init_attributes.
  destruct (get_cpu_microarch env) as [ua| | | |]; try discriminate.
  destruct ua; simpl; intros H; inversion H; subst; clear H; simpl; auto.
Qed.

Lemma attr_granted_opened a t grp k attr :
  attr_granted (opened a t grp k) attr = attr_granted k attr.
Proof. reflexivity. Qed.

Lemma attr_granted_fcntl fd req k attr :
  attr_granted (sys_fcntl fd req k).2 attr = attr_granted k attr.
Proof. unfold attr_granted. now rewrite supports_in_txcp_fcntl. Qed.

Lemma fcntl_exact fd req k :
  is_Some (events k !! fd) -> fcntl fd req k = Done (0, (sys_fcntl fd req k).2).
Proof. intros [e He]. unfold fcntl, sys_fcntl. now rewrite He. Qed.

Lemma make_counter_async_exact fd sig k :
  is_Some (events k !! fd) ->
  make_counter_async fd sig k =
    Done (tt, (sys_fcntl fd (F_SETSIG sig) (sys_fcntl fd F_SETFL_O_ASYNC k).2).2).
Proof.
  intros H. unfold make_counter_async.
  rewrite (bind_run _ _ _ _ _ (fcntl_exact fd F_SETFL_O_ASYNC k H)). cbn [Z.eqb negb].
  assert (H1 : is_Some (events (sys_fcntl fd F_SETFL_O_ASYNC k).2 !! fd)).
  { rewrite lookup_fcntl, bool_decide_eq_true_2 by reflexivity.
    destruct H as [e ->]. cbn. eauto. }
  rewrite (bind_run _ _ _ _ _ (fcntl_exact fd (F_SETSIG sig) _ H1)). reflexivity.
Qed.

Ltac fd_lookup :=
  repeat first
    [ rewrite lookup_opened
    | rewrite lookup_fcntl
    | rewrite next_fd_fcntl
    | rewrite perf_open_errno_fcntl
    | rewrite supports_in_txcp_fcntl
    | rewrite attr_granted_opened
    | rewrite attr_granted_fcntl
    | progress cbn [next_fd opened perf_open_errno supports_in_txcp fmap option_fmap option_map]
    | rewrite bool_decide_eq_true_2 by lia
    | rewrite bool_decide_eq_false_2 by lia ].

Ltac open_counter :=
  rewrite ?bind_assoc;
  erewrite bind_run;
  [| apply assign_start_counter_exact;
     [ assumption
     | unfold perf_usable in *; fd_lookup; assumption
     | first [ left; reflexivity | right; fd_lookup; eauto ]
     | first [ left; assumption | right; assumption
             | right; unfold in_transaction_attr; cbn [config set_config];
               rewrite testbit_lor_IN_TX; assumption ] ] ];
  cbv beta; fd_lookup.

Ltac signal_setup :=
  erewrite bind_run; [| apply fcntl_exact; fd_lookup; eauto ];
  cbv beta; cbn [Z.eqb negb];
  erewrite bind_run; [| apply make_counter_async_exact; fd_lookup; eauto ];
  cbv beta.
(** reset on a counter whose descriptors are all closed: which events it
    leaves behind which descriptors. *)
Lemma reset_recreate_layout env g p pc k :
  init_attributes env = Done g ->
  all_closed pc -> perf_usable k -> 0 <= next_fd k ->
  exists pc' k', reset_recreate env g p pc k = Done (pc', k') /\
    started pc' = started pc /\ counting pc' = counting pc /\
    recreate_layout env g p pc k pc' k'.
Proof.
  intros Hg (C1 & C2 & C3 & C4 & C5 & C6 & C7) Hu Hn.
  destruct (init_attributes_Done _ _ Hg) as (Traw & Tbit & Cbit & Hbit & Ibit & Pbit & Hact).
  assert (Traw' : attr_type (interrupt_attr g p) = PERF_TYPE_RAW) by exact Traw.
  unfold reset_recreate. fold (interrupt_attr g p).
  change (set_config (Z.lor (config (interrupt_attr g p)) IN_TX)
            (set_sample_period 0 (interrupt_attr g p))) with (in_transaction_attr g).
  change (set_config (Z.lor (config (interrupt_attr g p)) IN_TXCP)
            (set_sample_period 0 (interrupt_attr g p))) with (measure_attr g).
  assert (G1 : attr_granted k (interrupt_attr g p) = interrupt_attr g p).
  { apply attr_granted_id. exact Tbit. }
  assert (Hgr : forall ka, attr_granted ka (interrupt_attr g p) = interrupt_attr g p).
  { intros ka. apply attr_granted_id. exact Tbit. }
  assert (Hgt : forall ka, attr_granted ka (in_transaction_attr g) = in_transaction_attr g).
  { intros ka. apply attr_granted_id. unfold in_transaction_attr.
    cbn [config set_config]. now rewrite testbit_lor_IN_TX. }
  assert (Hgc : forall ka, attr_granted ka (cycles_attr g) = cycles_attr g).
  { intros ka. now apply attr_granted_id. }
  assert (Hgh : forall ka, attr_granted ka (hw_interrupts_attr g) = hw_interrupts_attr g).
  { intros ka. now apply attr_granted_id. }
  assert (Hgi : forall ka, attr_granted ka (instructions_retired_attr g)
                           = instructions_retired_attr g).
  { intros ka. now apply attr_granted_id. }
  assert (Hgp : forall ka, attr_granted ka (page_faults_attr g) = page_faults_attr g).
  { intros ka. now apply attr_granted_id. }
  rewrite C7. cbn [negb]. rewrite andb_true_r.
  destruct (has_kvm_in_txcp_bug env) eqn:Hkvm;
    destruct (activate_useless_counter g) eqn:Hau;
    destruct (extra_perf_counters_enabled env) eqn:Hex.
  all: open_counter; rewrite ?Hgr.
  all: open_counter; rewrite ?Hgt; rewrite bind_ret_l; cbv beta.
  all: first [ open_counter; rewrite ?Hgc | rewrite bind_ret_l; cbv beta ].
  all: signal_setup.
  all: first [ open_counter; rewrite ?Hgh; open_counter; rewrite ?Hgi;
               open_counter; rewrite ?Hgp; rewrite bind_ret_l
             | rewrite bind_ret_l ]; cbv beta.
  all: eexists _, _; split; [reflexivity|].
  all: unfold recreate_layout; rewrite ?Hkvm, ?Hau, ?Hex.
  all: cbn [fst snd fd_hw_interrupts fd_instructions_retired fd_page_faults
            fd_ticks_interrupt fd_ticks_measure fd_ticks_in_transaction
            fd_useless_counter started counting tid].
  all: repeat apply conj; try (intros fd [Hfd|Hfd]); fd_lookup; try reflexivity; try lia.
Qed.


(** ** Finding the CPU *)

Lemma pmu_configs_known pmu :
  In pmu pmu_configs ->
  uarch pmu <> UnknownCpu /\
  List.find (fun p => bool_decide (uarch pmu = uarch p)) pmu_configs = Some pmu.
Proof.
  unfold pmu_configs. cbn [In].
  intros [<-|[<-|[<-|[<-|[<-|[<-|[<-|[<-|[<-|[<-|[<-|[]]]]]]]]]]]];
    (split; [discriminate | reflexivity]).
Qed.

(** What get_cpu_microarch returns is the microarchitecture of an entry of
    pmu_configs, the one a search by microarchitecture finds. *)
Lemma get_cpu_microarch_known_aux env ua :
  get_cpu_microarch env = Done ua ->
  exists pmu,
    List.find (fun p => bool_decide (ua = uarch p)) pmu_configs = Some pmu /\
    In pmu pmu_configs /\ uarch pmu = ua.
Proof.
  unfold get_cpu_microarch.
  destruct (negb (String.eqb (lowercase (forced_uarch env)) EmptyString)).
  - unfold find_forced.
    destruct (List.find _ pmu_configs) as [pmu|] eqn:E; [|discriminate].
    intros [= <-]. apply find_some in E as [Hin _].
    destruct (pmu_configs_known pmu Hin) as [Hk Hf]. eauto.
  - repeat match goal with
           | |- (if ?c then _ else _) = _ -> _ => destruct c
           end;
      intros [= <-];
      first [ discriminate
            | eexists; split; [reflexivity|]; split; [|reflexivity];
              unfold pmu_configs; cbn [In]; tauto ].
Qed.

Lemma get_cpu_microarch_no_assert env c : get_cpu_microarch env <> AssertFailed c.
Proof.
  unfold get_cpu_microarch.
  destruct (negb (String.eqb (lowercase (forced_uarch env)) EmptyString)).
  - destruct (find_forced _); discriminate.
  - repeat match goal with
           | |- (if ?c then _ else _) <> _ => destruct c
           end; discriminate.
Qed.

(** X1: get_cpu_microarch never returns UnknownCpu, whether the
    microarchitecture is forced by name or read from CPUID, and pmu_configs
    has an entry for whatever it returns: the first entry of that
    microarchitecture, which is the one init_attributes picks. *)
Theorem get_cpu_microarch_known env ua :
  get_cpu_microarch env = Done ua ->
  ua <> UnknownCpu /\
  exists pmu,
    List.find (fun p => bool_decide (ua = uarch p)) pmu_configs = Some pmu /\
    uarch pmu = ua.
Proof.
  intros E.
  destruct (get_cpu_microarch_known_aux env ua E) as (pmu & Hf & Hin & Hua).
  split; [|eauto]. rewrite <- Hua. now apply pmu_configs_known.
Qed.

(** A Skylake by CPUID, and a Silvermont forced by (part of) its name. *)
Lemma get_cpu_microarch_known_witness :
  (IntelSkylake <> UnknownCpu /\
   exists pmu,
     List.find (fun p => bool_decide (IntelSkylake = uarch p)) pmu_configs = Some pmu /\
     uarch pmu = IntelSkylake) /\
  (IntelSilvermont <> UnknownCpu /\
   exists pmu,
     List.find (fun p => bool_decide (IntelSilvermont = uarch p)) pmu_configs = Some pmu /\
     uarch pmu = IntelSilvermont).
Proof.
  split.
  - apply (get_cpu_microarch_known clean_env). reflexivity.
  - apply (get_cpu_microarch_known
             {| forced_uarch := "SilverMont"; suppress_environment_warnings := false;
                force_things := false; extra_perf_counters_enabled := false;
                cpuid_getfeatures_eax := 0; running_under_rr := false;
                kvm_probe_count := 500; ioc_probe_revents := 1;
                TIME_SLICE_SIGNAL := 16 |}).
    reflexivity.
Defined.


(** ** Opening a counter *)

(** X3: on a kernel that does not know IN_TXCP, start_counter on a raw
    event with the IN_TXCP bit asks again without the bit and returns the
    descriptor of that event: same attributes, the bit cleared, every other
    bit of the configuration as it was.  An event that is not raw is not
    asked for again: start_counter ends with a fatal error. *)
Theorem start_counter_in_txcp_fallback tid group attr k :
  perf_usable k -> supports_in_txcp k = false ->
  group = -1 \/ is_Some (events k !! group) ->
  Z.testbit (config attr) 33 = true ->
  (attr_type attr = PERF_TYPE_RAW ->
     exists k' attr',
       start_counter tid group attr k = Done (next_fd k, k') /\
       events k' !! next_fd k = Some (new_event attr' tid group) /\
       attr' = set_config (config attr') attr /\
       Z.testbit (config attr') 33 = false /\
       (forall i, 0 <= i < 64 -> i <> 33 ->
          Z.testbit (config attr') i = Z.testbit (config attr) i)) /\
  (attr_type attr <> PERF_TYPE_RAW ->
     start_counter tid group attr k = Fatal "Failed to initialize counter").
Proof.
  intros Hu Hs Hg Hbit. split.
  - intros Hraw.
    rewrite (start_counter_exact tid group attr k Hu Hg (or_introl Hraw)).
    unfold attr_granted. rewrite Hbit, Hs. cbn [negb andb].
    eexists _, _. split; [reflexivity|].
    split; [rewrite lookup_opened; now rewrite bool_decide_eq_true_2|].
    split; [reflexivity|]. cbn [config set_config].
    split; [apply testbit_clear_IN_TXCP|].
    intros i Hi Hne. rewrite Z.land_spec.
    replace (Z.testbit (to_uint64 (Z.lnot IN_TXCP)) i) with true; [apply andb_true_r|].
    unfold to_uint64. rewrite Z.mod_pow2_bits_low by lia.
    rewrite Z.lnot_spec by lia. unfold IN_TXCP.
    rewrite Z.shiftl_spec by lia. symmetry. apply negb_true_iff.
    destruct (Z.eq_dec (i - 33) 0); [lia|].
    destruct (Z.lt_ge_cases (i - 33) 0) as [Hlt|Hge].
    + now apply Z.testbit_neg_r.
    + apply (Z.bits_above_log2 1 (i - 33)); cbn; lia.
  - intros Hnraw. unfold start_counter, sys_perf_event_open.
    unfold perf_usable in Hu. rewrite Hu, Hbit, Hs. cbn [negb andb].
    rewrite bool_decide_eq_false_2 by assumption. reflexivity.
Qed.

Lemma start_counter_in_txcp_fallback_witness :
  exists k' attr',
    start_counter 1 (-1) (measure_attr (skylake_attrs clean_env))
      {| events := ∅; next_fd := 3; supports_in_txcp := false;
         perf_open_errno := None |} = Done (3, k') /\
    events k' !! 3 = Some (new_event attr' 1 (-1)) /\
    attr' = set_config (config attr') (measure_attr (skylake_attrs clean_env)) /\
    Z.testbit (config attr') 33 = false /\
    (forall i, 0 <= i < 64 -> i <> 33 ->
       Z.testbit (config attr') i =
       Z.testbit (config (measure_attr (skylake_attrs clean_env))) i).
Proof.
  apply (start_counter_in_txcp_fallback 1 (-1) (measure_attr (skylake_attrs clean_env))
           {| events := ∅; next_fd := 3; supports_in_txcp := false;
              perf_open_errno := None |});
    [reflexivity | reflexivity | left; reflexivity | reflexivity | reflexivity].
Defined.

(** reset of a counter that is not started, whose descriptors are all
    closed, on a machine whose perf events can be opened. *)
Lemma reset_fresh_layout env g p pc k :
  init_attributes env = Done g -> perf_usable k -> 0 <= next_fd k -> 0 <= p ->
  started pc = false -> all_closed pc ->
  exists pc' k', reset env g p pc k = Done (pc', k') /\
    started pc' = true /\ counting pc' = true /\
    recreate_layout env g (effective_period env p) pc k pc' k'.
Proof.
  intros Hg Hu Hn Hp Hs Hc.
  rewrite (reset_unfold_p _ _ _ _ _ Hp), Hs. cbn [negb].
  destruct (reset_recreate_layout env g (effective_period env p) pc k Hg Hc Hu Hn)
    as (pc1 & k1 & E & _ & _ & L).
  rewrite (bind_run _ _ _ _ _ E).
  eexists _, _. split; [reflexivity|]. split; [reflexivity|]. split; [reflexivity|].
  exact L.
Qed.



Lemma is_open_nonneg fd : 0 <= fd -> is_open fd = true.
Proof. intros H. unfold is_open. now apply Z.leb_le. Qed.

(** ** What reset opens *)



Lemma ticks_config_bits g :
  ticks_attr g = init_perf_event_attr PERF_TYPE_RAW 0x5101c4 \/
  ticks_attr g = init_perf_event_attr PERF_TYPE_RAW 0x517ec4 ->
  forall s,
    (Z.testbit (config (in_transaction_attr g)) 32 = true /\
     Z.testbit (config (in_transaction_attr g)) 33 = false) /\
    (Z.testbit (config (attr_granted s (measure_attr g))) 32 = false /\
     Z.testbit (config (attr_granted s (measure_attr g))) 33 = supports_in_txcp s).
Proof.
  intros Ht s. unfold attr_granted, in_transaction_attr, measure_attr.
  destruct (supports_in_txcp s); destruct Ht as [-> | ->]; repeat split.
Qed.

(** The second counter of a reset, with the verdict of the KVM probe given. *)
Lemma second_counter_with_verdict env g p pc k :
  init_attributes env = Done g -> perf_usable k -> 0 <= next_fd k -> 0 <= p ->
  started pc = false -> all_closed pc ->
  exists pc' k' e,
    reset env g p pc k = Done (pc', k') /\
    is_open (fd_ticks_measure pc') = negb (has_kvm_in_txcp_bug env) /\
    is_open (fd_ticks_in_transaction pc') = has_kvm_in_txcp_bug env /\
    events k' !! (if has_kvm_in_txcp_bug env then fd_ticks_in_transaction pc'
                  else fd_ticks_measure pc') = Some e /\
    pe_tid e = tid pc /\
    pe_group_fd e = fd_ticks_interrupt pc' /\
    sample_period (pe_attr e) = 0 /\
    Z.testbit (config (pe_attr e)) 32 = has_kvm_in_txcp_bug env /\
    Z.testbit (config (pe_attr e)) 33 =
      negb (has_kvm_in_txcp_bug env) && supports_in_txcp k /\
    (forall eu, is_open (fd_useless_counter pc') = true ->
       events k' !! fd_useless_counter pc' = Some eu -> pe_group_fd eu = -1).
Proof.
  intros Hg Hu Hn Hp Hs Hc.
  destruct (reset_fresh_layout env g p pc k Hg Hu Hn Hp Hs Hc)
    as (pc' & k' & E & Hst & Hco & L).
  destruct L as (_ & _ & _ & _ & Hi & _ & H2 & Hul & _).
  destruct Hc as (_ & _ & _ & _ & C5 & C6 & C7).
  destruct (init_attributes_ticks _ _ Hg) as [Ht _].
  destruct (ticks_config_bits g Ht k) as [[T32 T33] [M32 M33]].
  assert (Huseless : forall eu, is_open (fd_useless_counter pc') = true ->
            events k' !! fd_useless_counter pc' = Some eu -> pe_group_fd eu = -1).
  { intros eu Ho He. destruct (activate_useless_counter g).
    - destruct Hul as [Hf Hev]. rewrite Hf, Hev in He. now injection He as <-.
    - rewrite Hul in Ho. congruence. }
  destruct (has_kvm_in_txcp_bug env).
  - destruct H2 as (F1 & F2 & Hev).
    eexists pc', k', _. split; [exact E|]. rewrite F1, F2, Hi.
    split; [exact C5|]. split; [apply is_open_nonneg; lia|].
    split; [exact Hev|]. cbn [pe_tid pe_group_fd pe_attr new_event negb andb].
    repeat apply conj; try reflexivity; assumption.
  - destruct H2 as (F1 & F2 & Hev).
    eexists pc', k', _. split; [exact E|]. rewrite F1, F2, Hi.
    split; [apply is_open_nonneg; lia|]. split; [exact C6|].
    split; [exact Hev|]. cbn [pe_tid pe_group_fd pe_attr new_event negb andb].
    repeat apply conj; try reflexivity; try assumption.
    unfold attr_granted. now destruct (_ && _).
Qed.

(** ** Closing *)









(** ** Reprogramming *)

Lemma perf_open_errno_ioctl fd req k :
  perf_open_errno (sys_ioctl fd req k).2 = perf_open_errno k.
Proof. unfold sys_ioctl. now destruct (events k !! fd). Qed.

(** A reset that reprograms, ioctl by ioctl. *)
Lemma reset_reprogram_exact p pc k :
  counters_open pc k ->
  let again := fun fd ka =>
    if is_open fd
    then (sys_ioctl fd PERF_EVENT_IOC_ENABLE (sys_ioctl fd PERF_EVENT_IOC_RESET ka).2).2
    else ka in
  reset_reprogram p pc k =
    Done (pc,
          again (fd_ticks_in_transaction pc)
            (again (fd_ticks_measure pc)
               (sys_ioctl (fd_ticks_interrupt pc) PERF_EVENT_IOC_ENABLE
                  (sys_ioctl (fd_ticks_interrupt pc)
                     (PERF_EVENT_IOC_PERIOD (to_uint64 p))
                     (sys_ioctl (fd_ticks_interrupt pc) PERF_EVENT_IOC_RESET k).2).2).2)).
Proof.
  intros (Hi & Hm & Ht) again. unfold reset_reprogram.
  erewrite bind_run; [|apply ioctl_or_FATAL_open; exact Hi].
  erewrite bind_run;
    [|apply ioctl_or_FATAL_open; rewrite !is_Some_events_ioctl; exact Hi].
  erewrite bind_run;
    [|apply ioctl_or_FATAL_open; rewrite !is_Some_events_ioctl; exact Hi].
  unfold again.
  destruct (is_open (fd_ticks_measure pc)) eqn:Om.
  - rewrite bind_assoc.
    erewrite bind_run;
      [|apply ioctl_or_FATAL_open; rewrite !is_Some_events_ioctl; now apply Hm].
    erewrite bind_run;
      [|apply ioctl_or_FATAL_open; rewrite !is_Some_events_ioctl; now apply Hm].
    destruct (is_open (fd_ticks_in_transaction pc)) eqn:Ot.
    + rewrite bind_assoc.
      erewrite bind_run;
        [|apply ioctl_or_FATAL_open; rewrite !is_Some_events_ioctl; now apply Ht].
      erewrite bind_run;
        [|apply ioctl_or_FATAL_open; rewrite !is_Some_events_ioctl; now apply Ht].
      reflexivity.
    + reflexivity.
  - rewrite bind_ret_l.
    destruct (is_open (fd_ticks_in_transaction pc)) eqn:Ot.
    + rewrite bind_assoc.
      erewrite bind_run;
        [|apply ioctl_or_FATAL_open; rewrite !is_Some_events_ioctl; now apply Ht].
      erewrite bind_run;
        [|apply ioctl_or_FATAL_open; rewrite !is_Some_events_ioctl; now apply Ht].
      reflexivity.
    + reflexivity.
Qed.

(** An event that is enabled and has counted nothing stays so under the
    ioctls reset issues after it has reprogrammed the interrupt counter. *)
Lemma again_keeps fd ka fd' e :
  events ka !! fd' = Some e -> pe_enabled e = true -> pe_count e = 0 ->
  exists e',
    events (if is_open fd
            then (sys_ioctl fd PERF_EVENT_IOC_ENABLE
                    (sys_ioctl fd PERF_EVENT_IOC_RESET ka).2).2
            else ka) !! fd' = Some e' /\
    pe_enabled e' = true /\ pe_count e' = 0 /\ pe_attr e' = pe_attr e.
Proof.
  intros He Hen Hc. destruct (is_open fd); [|eauto].
  rewrite !lookup_ioctl. case_bool_decide as H.
  - subst. rewrite bool_decide_eq_true_2 by reflexivity. rewrite He. cbn. eauto.
  - eauto.
Qed.

(** The counter behind an open descriptor is enabled and at zero after
    the two ioctls. *)
Lemma again_zeroes fd ka :
  is_open fd = true -> is_Some (events ka !! fd) ->
  exists e',
    events (if is_open fd
            then (sys_ioctl fd PERF_EVENT_IOC_ENABLE
                    (sys_ioctl fd PERF_EVENT_IOC_RESET ka).2).2
            else ka) !! fd = Some e' /\
    pe_enabled e' = true /\ pe_count e' = 0.
Proof.
  intros Ho [e He]. rewrite Ho, !lookup_ioctl.
  rewrite !bool_decide_eq_true_2 by reflexivity. rewrite He. cbn. eauto.
Qed.

Lemma again_is_Some fd ka fd' :
  is_Some (events (if is_open fd
                   then (sys_ioctl fd PERF_EVENT_IOC_ENABLE
                           (sys_ioctl fd PERF_EVENT_IOC_RESET ka).2).2
                   else ka) !! fd') <-> is_Some (events ka !! fd').
Proof. destruct (is_open fd); [|reflexivity]. now rewrite !is_Some_events_ioctl. Qed.

Lemma again_frame fd ka :
  let k' := if is_open fd
            then (sys_ioctl fd PERF_EVENT_IOC_ENABLE
                    (sys_ioctl fd PERF_EVENT_IOC_RESET ka).2).2
            else ka in
  next_fd k' = next_fd ka /\ perf_open_errno k' = perf_open_errno ka.
Proof.
  cbv zeta. destruct (is_open fd); [|now split].
  now rewrite !next_fd_ioctl, !perf_open_errno_ioctl.
Qed.

(** What a reset that reprograms leaves: no new descriptor, the interrupt
    counter enabled with the period asked for, and every counter read_ticks
    reads enabled and at zero. *)
Lemma reset_reprogram_zeroes p pc k :
  counters_open pc k ->
  exists k',
    reset_reprogram p pc k = Done (pc, k') /\
    next_fd k' = next_fd k /\ perf_open_errno k' = perf_open_errno k /\
    (forall fd, is_Some (events k' !! fd) <-> is_Some (events k !! fd)) /\
    (exists e, events k' !! fd_ticks_interrupt pc = Some e /\
       pe_enabled e = true /\ pe_count e = 0 /\
       sample_period (pe_attr e) = to_uint64 p) /\
    (is_open (fd_ticks_measure pc) = true ->
       exists e, events k' !! fd_ticks_measure pc = Some e /\
         pe_enabled e = true /\ pe_count e = 0) /\
    (is_open (fd_ticks_in_transaction pc) = true ->
       exists e, events k' !! fd_ticks_in_transaction pc = Some e /\
         pe_enabled e = true /\ pe_count e = 0).
Proof.
  intros Hco. pose proof (reset_reprogram_exact p pc k Hco) as E. cbv zeta in E.
  destruct Hco as (Hi & Hm & Ht).
  eexists. split; [exact E|].
  set (k3 := (sys_ioctl (fd_ticks_interrupt pc) PERF_EVENT_IOC_ENABLE
                (sys_ioctl (fd_ticks_interrupt pc) (PERF_EVENT_IOC_PERIOD (to_uint64 p))
                   (sys_ioctl (fd_ticks_interrupt pc) PERF_EVENT_IOC_RESET k).2).2).2).
  assert (S3 : forall fd, is_Some (events k3 !! fd) <-> is_Some (events k !! fd)).
  { intros fd. unfold k3. now rewrite !is_Some_events_ioctl. }
  assert (I3 : exists e, events k3 !! fd_ticks_interrupt pc = Some e /\
                 pe_enabled e = true /\ pe_count e = 0 /\
                 sample_period (pe_attr e) = to_uint64 p).
  { destruct Hi as [e He]. unfold k3. rewrite !lookup_ioctl.
    rewrite !bool_decide_eq_true_2 by reflexivity. rewrite He. cbn. eauto. }
  set (k4 := if is_open (fd_ticks_measure pc)
             then (sys_ioctl (fd_ticks_measure pc) PERF_EVENT_IOC_ENABLE
                     (sys_ioctl (fd_ticks_measure pc) PERF_EVENT_IOC_RESET k3).2).2
             else k3).
  assert (S4 : forall fd, is_Some (events k4 !! fd) <-> is_Some (events k !! fd)).
  { intros fd. unfold k4. rewrite again_is_Some. apply S3. }
  destruct (again_frame (fd_ticks_measure pc) k3) as [N4 P4]. fold k4 in N4, P4.
  destruct (again_frame (fd_ticks_in_transaction pc) k4) as [N5 P5].
  split; [|split; [|split; [|split; [|split]]]].
  - rewrite N5, N4. unfold k3. now rewrite !next_fd_ioctl.
  - rewrite P5, P4. unfold k3. now rewrite !perf_open_errno_ioctl.
  - intros fd. rewrite again_is_Some. apply S4.
  - destruct I3 as (e3 & He3 & En3 & Co3 & Pe3).
    destruct (again_keeps (fd_ticks_measure pc) k3 _ e3 He3 En3 Co3)
      as (e4 & He4 & En4 & Co4 & At4).
    destruct (again_keeps (fd_ticks_in_transaction pc) k4 _ e4 He4 En4 Co4)
      as (e5 & He5 & En5 & Co5 & At5).
    exists e5. repeat split; try assumption. congruence.
  - intros Om.
    destruct (again_zeroes (fd_ticks_measure pc) k3 Om) as (e4 & He4 & En4 & Co4).
    { apply S3. now apply Hm. }
    destruct (again_keeps (fd_ticks_in_transaction pc) k4 _ e4 He4 En4 Co4)
      as (e5 & He5 & En5 & Co5 & _).
    eauto.
  - intros Ot.
    destruct (again_zeroes (fd_ticks_in_transaction pc) k4 Ot) as (e5 & He5 & En5 & Co5).
    { apply S4. now apply Ht. }
    eauto.
Qed.


(** ** Reading after a reset *)

Lemma counter_value_event k fd e :
  events k !! fd = Some e -> counter_value k fd = Some (pe_count e).
Proof. unfold counter_value, sys_read. now intros ->. Qed.

(** With every counter it reads at zero, read_ticks returns 0. *)
Lemma read_ticks_all_zero env pc k :
  started pc = true -> counting pc = true ->
  counter_value k (fd_ticks_interrupt pc) = Some 0 ->
  (is_open (fd_ticks_measure pc) = true ->
     counter_value k (fd_ticks_measure pc) = Some 0) ->
  (is_open (fd_ticks_in_transaction pc) = true ->
     counter_value k (fd_ticks_in_transaction pc) = Some 0) ->
  read_ticks env pc k = Done (0, k).
Proof.
  intros Hs Hc Hi Hm Ht.
  assert (Hsc : started pc && counting pc = true) by now rewrite Hs, Hc.
  assert (Hpass : in_tx_check_passes env pc k).
  { destruct (is_open (fd_ticks_in_transaction pc)) eqn:Ot.
    - right. exists 0. split; [now apply Ht | now left].
    - now left. }
  assert (H0 : is_Ticks 0) by (unfold is_Ticks; lia).
  destruct (read_ticks_tie_break env pc k 0 Hsc Hpass Hi H0) as [Hclosed Hopen].
  destruct (is_open (fd_ticks_measure pc)) eqn:Om.
  - exact (Hopen 0 eq_refl (Hm eq_refl) H0).
  - exact (Hclosed eq_refl).
Qed.




(** ** Pausing and resuming *)

(** stop_counting where the counters are kept: one ioctl per counter. *)
Lemma stop_counting_exact env pc k :
  always_recreate_counters env = false ->
  let off := fun fd ka =>
    if is_open fd then (sys_ioctl fd PERF_EVENT_IOC_DISABLE ka).2 else ka in
  stop_counting env pc k =
    Done (set_started_counting (started pc) false pc,
          off (fd_ticks_in_transaction pc)
            (off (fd_ticks_measure pc)
               (sys_ioctl (fd_ticks_interrupt pc) PERF_EVENT_IOC_DISABLE k).2)).
Proof.
  intros Har off. unfold stop_counting, off. rewrite Har. rewrite bind_ioctl.
  cbn [fd_ticks_measure fd_ticks_in_transaction fd_ticks_interrupt set_started_counting].
  destruct (is_open (fd_ticks_measure pc)), (is_open (fd_ticks_in_transaction pc));
    rewrite ?bind_ioctl, ?bind_ret_l; rewrite ?bind_ioctl, ?bind_ret_l; reflexivity.
Qed.

Lemma off_keeps fd ka fd' e :
  events ka !! fd' = Some e -> pe_enabled e = false ->
  exists e',
    events (if is_open fd then (sys_ioctl fd PERF_EVENT_IOC_DISABLE ka).2 else ka) !! fd'
      = Some e' /\ pe_enabled e' = false.
Proof.
  intros He Hen. destruct (is_open fd); [|eauto].
  rewrite lookup_ioctl. case_bool_decide as H.
  - subst. rewrite He. cbn. eauto.
  - eauto.
Qed.

Lemma off_is_Some fd ka fd' :
  is_Some (events (if is_open fd then (sys_ioctl fd PERF_EVENT_IOC_DISABLE ka).2
                   else ka) !! fd') <-> is_Some (events ka !! fd').
Proof. destruct (is_open fd); [|reflexivity]. now rewrite is_Some_events_ioctl. Qed.

Lemma off_next_fd fd ka :
  next_fd (if is_open fd then (sys_ioctl fd PERF_EVENT_IOC_DISABLE ka).2 else ka)
  = next_fd ka.
Proof. destruct (is_open fd); [|reflexivity]. now rewrite next_fd_ioctl. Qed.

(** X9: where the counters are not recreated at every reset, stop_counting
    pauses a started counter and the next reset resumes it on the same
    descriptors.  After stop_counting the interrupt counter is disabled and
    read_ticks returns 0; the reset that follows opens no descriptor,
    leaves the interrupt counter enabled and at zero, and read_ticks
    returns 0 again. *)
Theorem stop_counting_pauses env g p pc k :
  always_recreate_counters env = false -> 0 <= p ->
  started pc = true -> counters_open pc k ->
  exists pc1 k1 e1 pc2 k2 e2,
    stop_counting env pc k = Done (pc1, k1) /\
    read_ticks env pc1 k1 = Done (0, k1) /\
    events k1 !! fd_ticks_interrupt pc = Some e1 /\ pe_enabled e1 = false /\
    reset env g p pc1 k1 = Done (pc2, k2) /\
    fd_ticks_interrupt pc2 = fd_ticks_interrupt pc /\
    next_fd k2 = next_fd k /\
    events k2 !! fd_ticks_interrupt pc = Some e2 /\
    pe_enabled e2 = true /\ pe_count e2 = 0 /\
    read_ticks env pc2 k2 = Done (0, k2).
Proof.
  intros Har Hp Hs (Hi & Hm & Ht).
  pose proof (stop_counting_exact env pc k Har) as E1. cbv zeta in E1.
  set (pc1 := set_started_counting (started pc) false pc) in *.
  set (ka := (sys_ioctl (fd_ticks_interrupt pc) PERF_EVENT_IOC_DISABLE k).2) in *.
  set (kb := if is_open (fd_ticks_measure pc)
             then (sys_ioctl (fd_ticks_measure pc) PERF_EVENT_IOC_DISABLE ka).2
             else ka) in *.
  set (k1 := if is_open (fd_ticks_in_transaction pc)
             then (sys_ioctl (fd_ticks_in_transaction pc) PERF_EVENT_IOC_DISABLE kb).2
             else kb) in *.
  assert (S1 : forall fd, is_Some (events k1 !! fd) <-> is_Some (events k !! fd)).
  { intros fd. unfold k1, kb, ka.
    now rewrite !off_is_Some, is_Some_events_ioctl. }
  assert (N1 : next_fd k1 = next_fd k).
  { unfold k1, kb, ka. now rewrite !off_next_fd, next_fd_ioctl. }
  assert (D1 : exists e1, events k1 !! fd_ticks_interrupt pc = Some e1 /\
                          pe_enabled e1 = false).
  { destruct Hi as [e He].
    assert (Ha : exists ea, events ka !! fd_ticks_interrupt pc = Some ea /\
                            pe_enabled ea = false).
    { unfold ka. rewrite lookup_ioctl, bool_decide_eq_true_2 by reflexivity.
      rewrite He. cbn. eauto. }
    destruct Ha as (ea & Hea & Da).
    destruct (off_keeps (fd_ticks_measure pc) ka _ ea Hea Da) as (eb & Heb & Db).
    exact (off_keeps (fd_ticks_in_transaction pc) kb _ eb Heb Db). }
  destruct D1 as (e1 & He1 & D1).
  assert (Hco1 : counters_open pc1 k1).
  { repeat split; cbn; intros; apply S1; auto. }
  destruct (reset_reprogram_zeroes (effective_period env p) pc1 k1 Hco1)
    as (k2 & E2 & N2 & _ & _ & (e2 & He2 & En2 & Co2 & _) & Hm2 & Ht2).
  exists pc1, k1, e1, (set_started_counting true true pc1), k2, e2.
  split; [exact E1|].
  split; [apply read_ticks_idle; unfold pc1; cbn; apply andb_false_r|].
  split; [exact He1|]. split; [exact D1|].
  split.
  { rewrite (reset_unfold_p _ _ _ _ _ Hp). unfold pc1 at 1. cbn [started set_started_counting].
    rewrite Hs. cbn [negb]. now rewrite (bind_run _ _ _ _ _ E2). }
  split; [reflexivity|]. split; [congruence|].
  split; [exact He2|]. split; [exact En2|]. split; [exact Co2|].
  apply read_ticks_all_zero; try reflexivity; cbn.
  - change (fd_ticks_interrupt pc) with (fd_ticks_interrupt pc1).
    rewrite (counter_value_event _ _ _ He2). now rewrite Co2.
  - intros Om. destruct (Hm2 Om) as (e & He & _ & Ce).
    change (fd_ticks_measure pc) with (fd_ticks_measure pc1).
    rewrite (counter_value_event _ _ _ He). now rewrite Ce.
  - intros Ot. destruct (Ht2 Ot) as (e & He & _ & Ce).
    change (fd_ticks_in_transaction pc) with (fd_ticks_in_transaction pc1).
    rewrite (counter_value_event _ _ _ He). now rewrite Ce.
Qed.


Lemma stop_counting_pauses_witness :
  exists pc1 k1 e1 pc2 k2 e2,
    stop_counting clean_env (started_counter clean_env).1 (started_counter clean_env).2
      = Done (pc1, k1) /\
    read_ticks clean_env pc1 k1 = Done (0, k1) /\
    events k1 !! fd_ticks_interrupt (started_counter clean_env).1 = Some e1 /\
    pe_enabled e1 = false /\
    reset clean_env (skylake_attrs clean_env) 0 pc1 k1 = Done (pc2, k2) /\
    fd_ticks_interrupt pc2 = fd_ticks_interrupt (started_counter clean_env).1 /\
    next_fd k2 = next_fd (started_counter clean_env).2 /\
    events k2 !! fd_ticks_interrupt (started_counter clean_env).1 = Some e2 /\
    pe_enabled e2 = true /\ pe_count e2 = 0 /\
    read_ticks clean_env pc2 k2 = Done (0, k2).
Proof.
  apply (stop_counting_pauses clean_env (skylake_attrs clean_env) 0
           (started_counter clean_env).1 (started_counter clean_env).2);
    [reflexivity | lia | reflexivity
    | split; [vm_compute; eauto
             | split; [intros _; vm_compute; eauto | intros H; discriminate H]]].
Defined.


(** ** Moving a counter to another task *)



(** ** The extra counters *)



(** ** The statics: first calls and later calls *)

Module Proc := PerfCounters_process.

Lemma lift_run {A} (m : KM A) st k a k1 :
  m k = Done (a, k1) -> Proc.lift m (st, k) = Done (a, (st, k1)).
Proof. intros H. unfold Proc.lift. cbn [fst snd]. now rewrite H. Qed.

(** A call of kernel code, followed in the process as on the kernel. *)
Lemma bind_lift_agree {A B} (m : KM A) (F : A -> Proc.PM B) (f : A -> KM B) st k :
  (forall a k1, m k = Done (a, k1) -> F a (st, k1) = Proc.lift (f a) (st, k1)) ->
  bind (Proc.lift m) F (st, k) = Proc.lift (bind m f) (st, k).
Proof.
  intros H. unfold bind, Proc.lift. cbn [fst snd].
  destruct (m k) as [[a k1]| | | |] eqn:E; try reflexivity.
  rewrite (H a k1 eq_refl). unfold Proc.lift. reflexivity.
Qed.

Lemma get_statics_run {B} (F : Proc.Statics -> Proc.PM B) st k :
  bind Proc.get_statics F (st, k) = F st (st, k).
Proof. reflexivity. Qed.

(** With its flag set, each of the three returns what the statics hold and
    touches nothing. *)
Lemma init_attributes_again depth env st k :
  Proc.attributes_initialized st = true ->
  Proc.init_attributes_upto depth env (st, k) = Done (tt, (st, k)).
Proof.
  intros H. destruct depth; cbn [Proc.init_attributes_upto];
    rewrite get_statics_run, H; reflexivity.
Qed.

Lemma has_ioc_period_bug_again init env st k :
  Proc.ioc_did_test st = true ->
  Proc.has_ioc_period_bug_calling init env (st, k)
    = Done (Proc.ioc_bug_detected st, (st, k)).
Proof.
  intros H. unfold Proc.has_ioc_period_bug_calling.
  rewrite get_statics_run, H. reflexivity.
Qed.

Lemma has_kvm_in_txcp_bug_again env st k :
  Proc.kvm_did_test st = true ->
  Proc.has_kvm_in_txcp_bug env (st, k) = Done (Proc.kvm_bug_detected st, (st, k)).
Proof.
  intros H. unfold Proc.has_kvm_in_txcp_bug.
  rewrite get_statics_run, H. reflexivity.
Qed.

Lemma always_recreate_counters_again env st k :
  Proc.ioc_did_test st = true -> Proc.kvm_did_test st = true ->
  Proc.always_recreate_counters env (st, k)
    = Done (Proc.ioc_bug_detected st || Proc.kvm_bug_detected st, (st, k)).
Proof.
  intros Hi Hk. unfold Proc.always_recreate_counters, Proc.has_ioc_period_bug.
  rewrite (bind_run _ _ _ _ _ (has_ioc_period_bug_again _ env st k Hi)).
  destruct (Proc.ioc_bug_detected st); [reflexivity|].
  now rewrite has_kvm_in_txcp_bug_again.
Qed.

Lemma always_recreate_counters_settled env g st k :
  Proc.settled env g st ->
  Proc.always_recreate_counters env (st, k) = Done (always_recreate_counters env, (st, k)).
Proof.
  intros (_ & _ & _ & Hi & Hib & Hk & Hkb).
  rewrite always_recreate_counters_again by assumption.
  now rewrite Hib, Hkb.
Qed.

(** On settled statics the branch of reset that opens the counters is the
    one of [PerfCounters_cc]. *)
Lemma reset_recreate_settled env g p pc st k :
  Proc.settled env g st ->
  Proc.reset_recreate env p pc (st, k) = Proc.lift (reset_recreate env g p pc) (st, k).
Proof.
  intros (_ & Hg & _ & _ & _ & Hk & Hkb).
  unfold Proc.reset_recreate, reset_recreate.
  rewrite get_statics_run, Hg.
  apply bind_lift_agree. intros fd_int k1 _.
  rewrite (bind_run _ _ _ _ _ (has_kvm_in_txcp_bug_again env st k1 Hk)), Hkb.
  apply bind_lift_agree. intros fds k2 _.
  rewrite get_statics_run, Hg.
  apply bind_lift_agree. intros fd_useless k3 _.
  apply bind_lift_agree. intros r k4 _.
  destruct (negb (r =? 0)); [reflexivity|].
  apply bind_lift_agree. intros u k5 _.
  apply bind_lift_agree. intros extra k6 _.
  reflexivity.
Qed.

Lemma reset_settled env g p pc st k :
  Proc.settled env g st ->
  Proc.reset env p pc (st, k) = Proc.lift (reset env g p pc) (st, k).
Proof.
  intros Hs. unfold Proc.reset, reset.
  destruct (negb (0 <=? p)); [reflexivity|].
  assert (Hp : (if p =? 0
                then bind (Proc.always_recreate_counters env)
                       (fun always =>
                          ret (if negb always then to_int64 (to_uint64 (Z.shiftl 1 60))
                               else p))
                else ret p) (st, k) = Done (effective_period env p, (st, k))).
  { unfold effective_period. destruct (p =? 0); [|reflexivity].
    rewrite (bind_run _ _ _ _ _ (always_recreate_counters_settled env g st k Hs)).
    reflexivity. }
  rewrite (bind_run _ _ _ _ _ Hp).
  destruct (negb (started pc)).
  - unfold bind at 1. rewrite (reset_recreate_settled env g _ pc st k Hs).
    unfold Proc.lift, bind. cbn [fst snd].
    now destruct (reset_recreate env g (effective_period env p) pc k) as [[pc1 k1]| | | |].
  - unfold Proc.lift, bind. cbn [fst snd].
    now destruct (reset_reprogram (effective_period env p) pc k) as [[pc1 k1]| | | |].
Qed.

Lemma stop_counting_settled env g pc st k :
  Proc.settled env g st ->
  Proc.stop_counting env pc (st, k) = Proc.lift (stop_counting env pc) (st, k).
Proof.
  intros Hs. unfold Proc.stop_counting, stop_counting.
  rewrite (bind_run _ _ _ _ _ (always_recreate_counters_settled env g st k Hs)).
  now destruct (always_recreate_counters env).
Qed.

Lemma is_ticks_attr_settled env g attr st k :
  Proc.settled env g st ->
  Proc.is_ticks_attr env attr (st, k) = Done (is_ticks_attr g attr, (st, k)).
Proof.
  intros (Hi & Hg & _). unfold Proc.is_ticks_attr, Proc.init_attributes.
  rewrite (bind_run _ _ _ _ _ (init_attributes_again _ env st k Hi)).
  rewrite get_statics_run, Hg. reflexivity.
Qed.

Lemma warm_settled env g : init_attributes env = Done g -> Proc.settled env g (Proc.warm env g).
Proof. intros H. repeat split. exact H. Qed.

(** X29: once init_attributes and both probes have run, the statics are
    only read.  With the attributes set and both verdicts cached, reset,
    stop_counting, always_recreate_counters and is_ticks_attr leave the
    statics as they are, make no system call of a probe, and do to the
    kernel and to the counter what the functions of [PerfCounters_cc] do
    with those attributes and verdicts; init_attributes does nothing. *)
Theorem settled_statics_are_read_only env g st k :
  Proc.settled env g st ->
  (forall p pc,
     Proc.reset env p pc (st, k) = Proc.lift (reset env g p pc) (st, k)) /\
  (forall pc,
     Proc.stop_counting env pc (st, k) = Proc.lift (stop_counting env pc) (st, k)) /\
  Proc.always_recreate_counters env (st, k) = Done (always_recreate_counters env, (st, k)) /\
  Proc.has_kvm_in_txcp_bug env (st, k) = Done (has_kvm_in_txcp_bug env, (st, k)) /\
  Proc.has_ioc_period_bug env (st, k) = Done (has_ioc_period_bug env, (st, k)) /\
  (forall attr,
     Proc.is_ticks_attr env attr (st, k) = Done (is_ticks_attr g attr, (st, k))) /\
  Proc.init_attributes env (st, k) = Done (tt, (st, k)).
Proof.
  intros Hs. split; [|split; [|split; [|split; [|split; [|split]]]]].
  - intros p pc. now apply reset_settled.
  - intros pc. now apply stop_counting_settled with (g := g).
  - now apply always_recreate_counters_settled with (g := g).
  - destruct Hs as (_ & _ & _ & _ & _ & Hk & Hkb).
    rewrite has_kvm_in_txcp_bug_again by exact Hk. now rewrite Hkb.
  - destruct Hs as (_ & _ & _ & Hi & Hib & _).
    unfold Proc.has_ioc_period_bug.
    rewrite has_ioc_period_bug_again by exact Hi. now rewrite Hib.
  - intros attr. now apply is_ticks_attr_settled.
  - destruct Hs as (Hi & _). now apply init_attributes_again.
Qed.

(** *** The first calls *)

Lemma start_counter_unavailable tid group attr k e :
  perf_open_errno k = Some e ->
  attr_type attr <> PERF_TYPE_RAW \/ Z.testbit (config attr) 33 = false ->
  start_counter tid group attr k = Fatal (Proc.start_counter_failure e).
Proof.
  intros He Ha. unfold start_counter, sys_perf_event_open. rewrite He.
  destruct e; try reflexivity.
  assert (Hc : bool_decide (attr_type attr = PERF_TYPE_RAW)
               && negb (Z.land (config attr) IN_TXCP =? 0) = false).
  { destruct Ha as [Ha|Ha].
    - now rewrite bool_decide_eq_false_2.
    - assert (Hz : Z.land (config attr) IN_TXCP = 0).
      { apply Z.bits_inj'. intros i Hi.
        rewrite Z.land_spec, Z.bits_0. unfold IN_TXCP.
        destruct (Z.eq_dec i 33) as [->|Hne]; [now rewrite Ha|].
        rewrite Z.shiftl_spec by lia.
        replace (Z.testbit 1 (i - 33)) with false; [apply andb_false_r|].
        symmetry. destruct (Z.lt_ge_cases (i - 33) 0) as [Hlt|Hge].
        - now apply Z.testbit_neg_r.
        - apply (Z.bits_above_log2 1 (i - 33)); cbn; lia. }
      rewrite Hz. cbn. apply andb_false_r. }
  rewrite Hc. reflexivity.
Qed.

Lemma probed_spec attr t k req :
  0 <= next_fd k ->
  sys_close (next_fd k) (sys_ioctl (next_fd k) req (opened attr t (-1) k)).2 = Proc.probed k.
Proof.
  intros Hn. unfold sys_close, sys_ioctl, opened, with_events, Proc.probed.
  cbn [events next_fd supports_in_txcp perf_open_errno].
  rewrite lookup_insert_eq. cbn [snd events next_fd supports_in_txcp perf_open_errno].
  f_equal. rewrite insert_insert_eq. apply delete_insert_eq.
Qed.

Lemma ioctl_exact fd req k :
  is_Some (events k !! fd) -> ioctl fd req k = Done (0, (sys_ioctl fd req k).2).
Proof. intros [e He]. unfold ioctl, sys_ioctl. now rewrite He. Qed.

Lemma start_counter_plain tid attr k :
  perf_usable k -> Z.testbit (config attr) 33 = false ->
  start_counter tid (-1) attr k = Done (next_fd k, opened attr tid (-1) k).
Proof.
  intros Hu Hb.
  rewrite (start_counter_exact tid (-1) attr k Hu (or_introl eq_refl) (or_intror Hb)).
  now rewrite attr_granted_id.
Qed.

(** The IOC_PERIOD probe at its first call, made by init_attributes. *)
Lemma has_ioc_period_bug_first init env st k :
  Proc.ioc_did_test st = false ->
  (forall st1 k1, Proc.attributes_initialized st1 = true ->
                  init (st1, k1) = Done (tt, (st1, k1))) ->
  Proc.attributes_initialized st = true ->
  Z.testbit (config (ticks_attr (Proc.attributes st))) 33 = false ->
  attr_type (ticks_attr (Proc.attributes st)) <> PERF_TYPE_RAW ->
  0 <= next_fd k ->
  Proc.has_ioc_period_bug_calling init env (st, k) =
    if running_under_rr env
    then Done (false,
               (Proc.set_ioc_bug_detected false (Proc.set_ioc_did_test true st), k))
    else match perf_open_errno k with
         | Some e => Fatal (Proc.start_counter_failure e)
         | None =>
           Done (ioc_probe_revents env =? 0,
                 (Proc.set_ioc_bug_detected (ioc_probe_revents env =? 0)
                    (Proc.set_ioc_did_test true st), Proc.probed k))
         end.
Proof.
  intros Ht Hinit Hi Hbit Hty Hn. unfold Proc.has_ioc_period_bug_calling.
  rewrite get_statics_run, Ht.
  unfold bind at 1. cbn [Proc.modify_statics fst snd].
  destruct (running_under_rr env); [reflexivity|].
  erewrite bind_run; [|apply Hinit; exact Hi].
  rewrite get_statics_run. cbn [Proc.attributes Proc.set_ioc_did_test].
  set (attr := Proc.set_exclude_kernel true
                 (set_sample_period 4294967295 (ticks_attr (Proc.attributes st)))).
  destruct (perf_open_errno k) as [e|] eqn:He.
  - unfold bind at 1, Proc.lift. cbn [fst snd].
    rewrite (start_counter_unavailable 0 (-1) attr k e He); [reflexivity|].
    left. exact Hty.
  - erewrite bind_run; [|apply lift_run; apply start_counter_plain; [exact He | exact Hbit]].
    erewrite bind_run.
    2:{ apply lift_run. apply ioctl_exact. rewrite lookup_opened.
        rewrite bool_decide_eq_true_2 by reflexivity. eauto. }
    cbn [Z.eqb negb].
    unfold bind at 1. cbn [Proc.modify_statics fst snd].
    erewrite bind_run.
    2:{ apply lift_run. unfold ScopedFd_close. rewrite is_open_nonneg by exact Hn.
        reflexivity. }
    rewrite probed_spec by exact Hn. reflexivity.
Qed.

Lemma init_attributes_first env k ua pmu :
  get_cpu_microarch env = Done ua ->
  List.find (fun p => bool_decide (ua = uarch p)) pmu_configs = Some pmu ->
  supported pmu = true -> 0 <= next_fd k ->
  let g := Proc.attributes_of env pmu (has_ioc_period_bug env) in
  Proc.init_attributes env (Proc.at_load, k) =
    if running_under_rr env then Done (tt, (Proc.first_statics env g, k))
    else match perf_open_errno k with
         | Some e => Fatal (Proc.start_counter_failure e)
         | None => Done (tt, (Proc.first_statics env g, Proc.probed k))
         end.
Proof.
  intros Eua Epmu Hsup Hn g.
  unfold Proc.init_attributes.
  change (Proc.init_attributes_upto 3 env) with
    (bind Proc.get_statics (fun st =>
       if Proc.attributes_initialized st then ret tt
       else
         bind (Proc.modify_statics (Proc.set_attributes_initialized true)) (fun _ =>
         bind (Proc.pure (get_cpu_microarch env)) (fun ua =>
           match List.find (fun p => bool_decide (ua = uarch p)) pmu_configs with
           | None => assert_failed "pmu"
           | Some pmu =>
             if negb (supported pmu)
             then FATAL "Microarchitecture currently unsupported."
             else
               bind (Proc.has_ioc_period_bug_calling (Proc.init_attributes_upto 2 env) env)
                 (fun bug => Proc.modify_statics
                    (Proc.set_attributes (Proc.attributes_of env pmu bug)))
           end)))).
  rewrite get_statics_run. cbn [Proc.attributes_initialized Proc.at_load].
  unfold bind at 1. cbn [Proc.modify_statics fst snd].
  unfold bind at 1. unfold Proc.pure at 1. rewrite Eua, Epmu, Hsup. cbn [negb].
  unfold bind at 1.
  rewrite has_ioc_period_bug_first;
    [ | reflexivity | intros st1 k1 H1; now apply init_attributes_again
      | reflexivity | reflexivity | discriminate | exact Hn ].
  unfold g, Proc.first_statics, Proc.attributes_of, has_ioc_period_bug.
  destruct (running_under_rr env); [reflexivity|].
  destruct (perf_open_errno k); reflexivity.
Qed.

Lemma init_attributes_at_load env k :
  Proc.init_attributes env (Proc.at_load, k) =
    match get_cpu_microarch env with
    | Done ua =>
      match List.find (fun p => bool_decide (ua = uarch p)) pmu_configs with
      | None => AssertFailed "pmu"
      | Some pmu =>
        if negb (supported pmu) then Fatal "Microarchitecture currently unsupported."
        else
          bind (Proc.has_ioc_period_bug_calling (Proc.init_attributes_upto 2 env) env)
            (fun bug => Proc.modify_statics
               (Proc.set_attributes (Proc.attributes_of env pmu bug)))
            (Proc.set_attributes_initialized true Proc.at_load, k)
      end
    | Fatal m => Fatal m
    | AssertFailed c => AssertFailed c
    | Crashed w => Crashed w
    | Blocked => Blocked
    end.
Proof.
  unfold Proc.init_attributes.
  change (Proc.init_attributes_upto 3 env) with
    (bind Proc.get_statics (fun st =>
       if Proc.attributes_initialized st then ret tt
       else
         bind (Proc.modify_statics (Proc.set_attributes_initialized true)) (fun _ =>
         bind (Proc.pure (get_cpu_microarch env)) (fun ua =>
           match List.find (fun p => bool_decide (ua = uarch p)) pmu_configs with
           | None => assert_failed "pmu"
           | Some pmu =>
             if negb (supported pmu)
             then FATAL "Microarchitecture currently unsupported."
             else
               bind (Proc.has_ioc_period_bug_calling (Proc.init_attributes_upto 2 env) env)
                 (fun bug => Proc.modify_statics
                    (Proc.set_attributes (Proc.attributes_of env pmu bug)))
           end)))).
  rewrite get_statics_run. cbn [Proc.attributes_initialized Proc.at_load].
  unfold bind at 1. cbn [Proc.modify_statics fst snd].
  unfold bind at 1. unfold Proc.pure at 1.
  destruct (get_cpu_microarch env) as [ua| | | |]; try reflexivity.
  destruct (List.find _ pmu_configs) as [pmu|]; [|reflexivity].
  now destruct (negb (supported pmu)).
Qed.

(** What [PerfCounters_cc] takes for the attributes is what the first
    init_attributes writes. *)
Lemma init_attributes_of env ua pmu :
  get_cpu_microarch env = Done ua ->
  List.find (fun p => bool_decide (ua = uarch p)) pmu_configs = Some pmu ->
  supported pmu = true ->
  init_attributes env = Done (Proc.attributes_of env pmu (has_ioc_period_bug env)).
Proof.
  intros Eua Epmu Hsup. unfold init_attributes. now rewrite Eua, Epmu, Hsup.
Qed.

Lemma init_attributes_inv env g :
  init_attributes env = Done g ->
  exists ua pmu,
    get_cpu_microarch env = Done ua /\
    List.find (fun p => bool_decide (ua = uarch p)) pmu_configs = Some pmu /\
    supported pmu = true /\
    g = Proc.attributes_of env pmu (has_ioc_period_bug env).
Proof.
  unfold init_attributes.
  destruct (get_cpu_microarch env) as [ua| | | |] eqn:Eua; try discriminate.
  destruct (List.find _ pmu_configs) as [pmu|] eqn:Ef; [|discriminate].
  destruct (supported pmu) eqn:Hs; [|discriminate].
  intros [= <-]. now exists ua, pmu.
Qed.

Lemma first_statics_constructed env g :
  init_attributes env = Done g -> Proc.constructed env g (Proc.first_statics env g).
Proof. intros H. repeat split. exact H. Qed.

(** X2: the first init_attributes.  It never fails its assertion on
    [pmu], and passes on a failure of get_cpu_microarch.  For Merom and
    Penryn it ends with the fatal error of an unsupported
    microarchitecture, before any system call.  For every other
    microarchitecture get_cpu_microarch finds, it runs the IOC_PERIOD
    probe unless the process is itself recorded: where perf_event_open
    fails the probe ends with the fatal error of start_counter;
    otherwise init_attributes returns with one descriptor used up and
    closed again, the verdict of the probe cached and the KVM probe not
    run yet.  Every event it has prepared counts user space only
    (exclude_kernel and exclude_guest) with no sample period, and only the
    hardware interrupts event excludes the hypervisor. *)
Theorem init_attributes_outcome env k :
  0 <= next_fd k ->
  (forall c, Proc.init_attributes env (Proc.at_load, k) <> AssertFailed c) /\
  (forall m, get_cpu_microarch env = Fatal m ->
     Proc.init_attributes env (Proc.at_load, k) = Fatal m) /\
  (forall ua, get_cpu_microarch env = Done ua ->
     if bool_decide (ua = IntelMerom \/ ua = IntelPenryn)
     then Proc.init_attributes env (Proc.at_load, k)
          = Fatal "Microarchitecture currently unsupported."
     else
       exists g,
         Proc.init_attributes env (Proc.at_load, k) =
           (if running_under_rr env then Done (tt, (Proc.first_statics env g, k))
            else match perf_open_errno k with
                 | Some e => Fatal (Proc.start_counter_failure e)
                 | None => Done (tt, (Proc.first_statics env g, Proc.probed k))
                 end) /\
         Proc.constructed env g (Proc.first_statics env g) /\
         Forall (fun a => exclude_kernel a = true /\ exclude_guest a = true /\
                          sample_period a = 0)
                [ticks_attr g; cycles_attr g; page_faults_attr g; hw_interrupts_attr g;
                 instructions_retired_attr g] /\
         exclude_hv (hw_interrupts_attr g) = true /\
         Forall (fun a => exclude_hv a = false)
                [ticks_attr g; cycles_attr g; page_faults_attr g;
                 instructions_retired_attr g]).
Proof.
  intros Hn. split; [|split].
  - intros c.
    destruct (get_cpu_microarch env) as [ua| | | |] eqn:E;
      try (rewrite init_attributes_at_load, E; discriminate).
    + destruct (get_cpu_microarch_known_aux env ua E) as (pmu & Hf & _).
      destruct (supported pmu) eqn:Hs.
      * rewrite (init_attributes_first env k ua pmu E Hf Hs Hn).
        destruct (running_under_rr env); [discriminate|].
        destruct (perf_open_errno k); discriminate.
      * rewrite init_attributes_at_load, E, Hf, Hs. discriminate.
    + exfalso. revert E. apply get_cpu_microarch_no_assert.
  - intros m E. rewrite init_attributes_at_load. now rewrite E.
  - intros ua E.
    destruct (get_cpu_microarch_known_aux env ua E) as (pmu & Hf & Hin & Hua).
    destruct (supported pmu) eqn:Hs.
    + assert (Hb : bool_decide (ua = IntelMerom \/ ua = IntelPenryn) = false).
      { apply bool_decide_eq_false_2. subst ua. revert Hin Hs.
        unfold pmu_configs. cbn [In].
        intros [<-|[<-|[<-|[<-|[<-|[<-|[<-|[<-|[<-|[<-|[<-|[]]]]]]]]]]]]; cbn;
          intros Hs [H|H]; discriminate. }
      rewrite Hb.
      exists (Proc.attributes_of env pmu (has_ioc_period_bug env)).
      split; [exact (init_attributes_first env k ua pmu E Hf Hs Hn)|].
      split; [apply first_statics_constructed; now apply (init_attributes_of env ua pmu)|].
      split; [repeat constructor|]. split; [reflexivity|]. repeat constructor.
    + assert (Hb : bool_decide (ua = IntelMerom \/ ua = IntelPenryn) = true).
      { apply bool_decide_eq_true_2. subst ua. revert Hin Hs.
        unfold pmu_configs. cbn [In].
        intros [<-|[<-|[<-|[<-|[<-|[<-|[<-|[<-|[<-|[<-|[<-|[]]]]]]]]]]]]; cbn;
          intros Hs; try discriminate; tauto. }
      rewrite Hb, init_attributes_at_load, E, Hf, Hs. reflexivity.
Qed.

Lemma kernel_wf_closed k : kernel_wf k -> events k !! (-1) = None.
Proof.
  intros [_ H]. destruct (events k !! (-1)) as [e|] eqn:E; [|reflexivity].
  apply H in E. lia.
Qed.

Lemma kernel_wf_fresh k : kernel_wf k -> events k !! next_fd k = None.
Proof.
  intros [_ H]. destruct (events k !! next_fd k) as [e|] eqn:E; [|reflexivity].
  apply H in E. lia.
Qed.

Lemma read_counter_closed k :
  events k !! (-1) = None -> read_counter (-1) k = AssertFailed "nread == sizeof(val)".
Proof. intros H. unfold read_counter, sys_read. now rewrite H. Qed.

(** The body of the KVM probe, from the system call on, when the event is
    not granted: nothing is behind the descriptor, and read_counter fails. *)
Lemma kvm_probe_not_granted {B} env (F : Z -> Proc.PM B) st k :
  events k !! (-1) = None ->
  bind (Proc.lift (ioctl (-1) PERF_EVENT_IOC_DISABLE)) (fun _ =>
  bind (Proc.lift (ioctl (-1) PERF_EVENT_IOC_ENABLE)) (fun _ =>
  bind (Proc.lift (fun k => Done (tt, count_events (-1) (kvm_probe_count env) k))) (fun _ =>
  bind (Proc.lift (read_counter (-1))) F))) (st, k)
  = AssertFailed "nread == sizeof(val)".
Proof.
  intros Hc.
  assert (I : forall req, ioctl (-1) req k = Done (-1, k)).
  { intros req. unfold ioctl, sys_ioctl. now rewrite Hc. }
  rewrite (bind_run _ _ _ _ _ (lift_run _ st k _ _ (I _))).
  rewrite (bind_run _ _ _ _ _ (lift_run _ st k _ _ (I _))).
  erewrite bind_run; [|apply lift_run; reflexivity].
  unfold bind, Proc.lift. cbn [fst snd].
  rewrite read_counter_closed; [reflexivity|].
  unfold count_events, with_events. cbn [events].
  now rewrite lookup_alter_eq, Hc.
Qed.

(** The KVM probe at its first call, after the constructor. *)
Lemma has_kvm_in_txcp_bug_first env g st k :
  Proc.constructed env g st -> kernel_wf k ->
  Proc.has_kvm_in_txcp_bug env (st, k) =
    if running_under_rr env
    then Done (false,
               (Proc.set_kvm_bug_detected false (Proc.set_kvm_did_test true st), k))
    else
      match perf_open_errno k with
      | None =>
        if supports_in_txcp k then
          let bug := to_int64 (kvm_probe_count env) <? NUM_BRANCHES in
          Done (bug,
                (Proc.set_kvm_bug_detected bug (Proc.set_kvm_did_test true st),
                 Proc.probed k))
        else AssertFailed "nread == sizeof(val)"
      | Some _ => AssertFailed "nread == sizeof(val)"
      end.
Proof.
  intros (Hi & Hg & Hinit & _ & _ & Hk) Hwf.
  destruct (init_attributes_Done _ _ Hinit) as (_ & Tbit & _).
  unfold Proc.has_kvm_in_txcp_bug.
  rewrite get_statics_run, Hk.
  unfold bind at 1. cbn [Proc.modify_statics fst snd].
  destruct (running_under_rr env); [reflexivity|].
  erewrite bind_run; [|apply init_attributes_again; exact Hi].
  rewrite get_statics_run. cbn [Proc.attributes Proc.set_kvm_did_test]. rewrite Hg.
  set (attr := set_sample_period 0
                 (set_config (Z.lor (config (ticks_attr g)) IN_TXCP) (ticks_attr g))).
  set (st1 := Proc.set_kvm_did_test true st).
  assert (Hbit : Z.testbit (config attr) 33 = true).
  { unfold attr. cbn [config set_sample_period set_config]. apply testbit_lor_IN_TXCP. }
  pose proof (kernel_wf_closed k Hwf) as Hclosed.
  pose proof (kernel_wf_fresh k Hwf) as Hfresh.
  assert (Hn : 0 <= next_fd k) by (destruct Hwf; assumption).
  unfold bind at 1. unfold Proc.lift at 1. cbn [fst snd].
  unfold sys_perf_event_open.
  destruct (perf_open_errno k) as [e|] eqn:He.
  { now apply kvm_probe_not_granted. }
  rewrite Hbit. destruct (supports_in_txcp k) eqn:Hsup; cbn [negb andb].
  2:{ now apply kvm_probe_not_granted. }
  cbn [Z.eqb Pos.eqb negb andb].
  set (n := next_fd k).
  set (k1 := opened attr 0 (-1) k).
  assert (L1 : events k1 !! n = Some (new_event attr 0 (-1))).
  { unfold k1, n. rewrite lookup_opened. now rewrite bool_decide_eq_true_2. }
  erewrite bind_run; [|apply lift_run; apply ioctl_exact; rewrite L1; eauto].
  set (k2 := (sys_ioctl n PERF_EVENT_IOC_DISABLE k1).2).
  assert (L2 : events k2 !! n
               = Some (ioctl_event PERF_EVENT_IOC_DISABLE (new_event attr 0 (-1)))).
  { unfold k2. rewrite lookup_ioctl, bool_decide_eq_true_2 by reflexivity.
    now rewrite L1. }
  erewrite bind_run; [|apply lift_run; apply ioctl_exact; rewrite L2; eauto].
  set (k3 := (sys_ioctl n PERF_EVENT_IOC_ENABLE k2).2).
  assert (L3 : events k3 !! n = Some (new_event attr 0 (-1))).
  { unfold k3. rewrite lookup_ioctl, bool_decide_eq_true_2 by reflexivity.
    now rewrite L2. }
  erewrite bind_run; [|apply lift_run; reflexivity].
  set (k4 := count_events n (kvm_probe_count env) k3).
  assert (L4 : sys_read n k4 = Some (kvm_probe_count env)).
  { unfold sys_read, k4, count_events, with_events. cbn [events].
    rewrite lookup_alter_eq, L3. reflexivity. }
  erewrite bind_run.
  2:{ apply lift_run. unfold read_counter. rewrite L4. reflexivity. }
  unfold bind at 1. cbn [Proc.modify_statics fst snd].
  erewrite bind_run.
  2:{ apply lift_run. unfold ScopedFd_close. rewrite is_open_nonneg by exact Hn.
      reflexivity. }
  unfold ret. do 3 f_equal.
  unfold sys_close, with_events, Proc.probed, k4, count_events, with_events.
  cbn [events next_fd supports_in_txcp perf_open_errno].
  f_equal.
  - unfold k3, k2, sys_ioctl. fold n. rewrite L1. cbn [snd with_events events].
    rewrite lookup_insert_eq. cbn [snd with_events events].
    unfold k1, opened. cbn [events]. fold n.
    rewrite !insert_insert_eq, alter_insert_eq. apply delete_insert_eq.
  - unfold k3, k2. now rewrite !next_fd_ioctl.
  - unfold k3, k2, sys_ioctl. fold n. rewrite L1. cbn [snd with_events events
      supports_in_txcp]. rewrite lookup_insert_eq. reflexivity.
  - unfold k3, k2, sys_ioctl. fold n. rewrite L1. cbn [snd with_events events
      perf_open_errno]. rewrite lookup_insert_eq. reflexivity.
Qed.

Lemma to_int64_in_range v : - 2 ^ 63 <= v < 2 ^ 63 -> to_int64 v = v.
Proof. intros H. unfold to_int64. rewrite Z.mod_small by lia. lia. Qed.

Lemma probed_events k : kernel_wf k -> events (Proc.probed k) = events k.
Proof. intros H. unfold Proc.probed. cbn [events]. apply delete_id. now apply kernel_wf_fresh. Qed.

Lemma kernel_wf_opened attr t grp k : kernel_wf k -> kernel_wf (opened attr t grp k).
Proof.
  intros [Hn H]. split; cbn [next_fd opened]; [lia|].
  intros fd e. rewrite lookup_opened. case_bool_decide as Hfd.
  - intros _. subst. lia.
  - intros E. apply H in E. lia.
Qed.

(** X30: the KVM probe at its first call.  Where the process is itself
    recorded it makes no system call and says there is no bug.  Otherwise
    it opens the ticks event with IN_TXCP by the bare system call, without
    the retry of start_counter: on a kernel that grants the event the
    verdict is whether fewer than 500 branches were counted, the
    descriptor is closed again and the table of events is as it was; on a
    kernel that does not know IN_TXCP, or where perf events cannot be
    opened, nothing is behind the descriptor and the probe fails the
    assertion of read_counter.  A verdict is cached: the probe does not
    run twice. *)
Theorem has_kvm_in_txcp_bug_first_call env g st k :
  Proc.constructed env g st -> kernel_wf k ->
  (running_under_rr env = true ->
     exists st',
       Proc.has_kvm_in_txcp_bug env (st, k) = Done (false, (st', k)) /\
       Proc.settled env g st') /\
  (running_under_rr env = false ->
     (perf_usable k -> supports_in_txcp k = true ->
        let bug := to_int64 (kvm_probe_count env) <? NUM_BRANCHES in
        exists st' k',
          Proc.has_kvm_in_txcp_bug env (st, k) = Done (bug, (st', k')) /\
          events k' = events k /\ next_fd k' = next_fd k + 1 /\
          Proc.has_kvm_in_txcp_bug env (st', k') = Done (bug, (st', k')) /\
          (- 2 ^ 63 <= kvm_probe_count env < 2 ^ 63 -> Proc.settled env g st')) /\
     (perf_open_errno k <> None \/ supports_in_txcp k = false ->
        Proc.has_kvm_in_txcp_bug env (st, k) = AssertFailed "nread == sizeof(val)")).
Proof.
  intros Hc Hwf.
  pose proof (has_kvm_in_txcp_bug_first env g st k Hc Hwf) as E.
  destruct Hc as (Hi & Hg & Hinit & Hit & Hib & Hk).
  split; [|intros Hrr; split].
  - intros Hrr. rewrite Hrr in E. eexists. split; [exact E|].
    unfold Proc.settled, has_kvm_in_txcp_bug. rewrite Hrr. repeat split; assumption.
  - intros Hu Hsup bug. rewrite Hrr, Hu, Hsup in E. cbv zeta in E. fold bug in E.
    eexists _, _. split; [exact E|].
    split; [now apply probed_events|]. split; [reflexivity|].
    split; [now rewrite has_kvm_in_txcp_bug_again|].
    intros Hr. unfold Proc.settled, has_kvm_in_txcp_bug. rewrite Hrr.
    repeat split; try assumption.
    cbn. unfold bug. now rewrite to_int64_in_range.
  - intros Hbad. rewrite Hrr in E. rewrite E.
    destruct (perf_open_errno k) as [e|]; [reflexivity|].
    destruct Hbad as [Hbad|Hbad]; [now contradict Hbad|]. now rewrite Hbad.
Qed.

Lemma reset_recreate_unavailable env g p pc st k e :
  Proc.attributes st = g -> init_attributes env = Done g ->
  perf_open_errno k = Some e ->
  Proc.reset_recreate env p pc (st, k) = Fatal (Proc.start_counter_failure e).
Proof.
  intros Hg Hinit He.
  destruct (init_attributes_Done _ _ Hinit) as (_ & Tbit & _).
  unfold Proc.reset_recreate. rewrite get_statics_run, Hg.
  unfold bind at 1, Proc.lift at 1. cbn [fst snd].
  unfold ScopedFd_assign, bind at 1.
  rewrite (start_counter_unavailable _ _ _ k e He); [reflexivity|].
  right. exact Tbit.
Qed.

(** X4: where perf events cannot be opened.  Outside rr the process does
    not get past the constructor of its first counter: init_attributes
    runs the IOC_PERIOD probe, whose start_counter ends with a fatal error,
    its message chosen by the error (EACCES and ENOENT have messages of
    their own, any other error is a failure to initialize the counter).
    Where the process is itself recorded no probe makes a system call: the
    constructor returns, and it is the first reset that ends with that
    fatal error, at its first perf_event_open. *)
Theorem reset_perf_unavailable env g t p k e :
  init_attributes env = Done g -> 0 <= p -> kernel_wf k ->
  perf_open_errno k = Some e ->
  (running_under_rr env = false ->
     Proc.PerfCounters_ctor env t (Proc.at_load, k)
       = Fatal (Proc.start_counter_failure e)) /\
  (running_under_rr env = true ->
     exists st,
       Proc.PerfCounters_ctor env t (Proc.at_load, k) = Done (new t, (st, k)) /\
       Proc.reset env p (new t) (st, k) = Fatal (Proc.start_counter_failure e)).
Proof.
  intros Hinit Hp Hwf He.
  destruct (init_attributes_inv env g Hinit) as (ua & pmu & Eua & Ef & Hsup & ->).
  assert (Hn : 0 <= next_fd k) by (destruct Hwf; assumption).
  pose proof (init_attributes_first env k ua pmu Eua Ef Hsup Hn) as E.
  cbv zeta in E. rewrite He in E.
  set (g := Proc.attributes_of env pmu (has_ioc_period_bug env)) in *.
  split; intros Hrr; rewrite Hrr in E.
  - unfold Proc.PerfCounters_ctor, bind. now rewrite E.
  - exists (Proc.first_statics env g). split.
    { unfold Proc.PerfCounters_ctor. now rewrite (bind_run _ _ _ _ _ E). }
    unfold Proc.reset. apply Z.leb_le in Hp. rewrite Hp. cbn [negb].
    pose proof (first_statics_constructed env g Hinit) as Hc.
    assert (Hper : exists p' st',
              (if p =? 0
               then bind (Proc.always_recreate_counters env)
                      (fun always =>
                         ret (if negb always then to_int64 (to_uint64 (Z.shiftl 1 60))
                              else p))
               else ret p) (Proc.first_statics env g, k) = Done (p', (st', k)) /\
              Proc.attributes st' = g).
    { destruct (p =? 0); [|eexists _, _; split; reflexivity].
      assert (A : Proc.always_recreate_counters env (Proc.first_statics env g, k) =
                  Done (false,
                        (Proc.set_kvm_bug_detected false
                           (Proc.set_kvm_did_test true (Proc.first_statics env g)), k))).
      { unfold Proc.always_recreate_counters, Proc.has_ioc_period_bug.
        rewrite (bind_run _ _ _ _ _
                   (has_ioc_period_bug_again _ env (Proc.first_statics env g) k eq_refl)).
        cbn [Proc.ioc_bug_detected Proc.first_statics].
        unfold has_ioc_period_bug at 1. rewrite Hrr.
        now rewrite (has_kvm_in_txcp_bug_first env g _ k Hc Hwf), Hrr. }
      rewrite (bind_run _ _ _ _ _ A).
      eexists _, _. split; reflexivity. }
    destruct Hper as (p' & st' & Eper & Hg').
    rewrite (bind_run _ _ _ _ _ Eper). cbn [started new negb].
    unfold bind. now rewrite (reset_recreate_unavailable env g p' (new t) st' k e Hg' Hinit He).
Qed.

(** A first reset outside rr on a kernel that does not know IN_TXCP: the
    KVM probe is reached, at the top of reset or after the interrupt
    counter was opened, and fails the assertion of read_counter. *)
Lemma reset_first_rejected env g p pc st k :
  Proc.constructed env g st -> kernel_wf k -> perf_usable k -> 0 <= p ->
  started pc = false -> all_closed pc ->
  running_under_rr env = false -> supports_in_txcp k = false ->
  Proc.reset env p pc (st, k) = AssertFailed "nread == sizeof(val)".
Proof.
  intros Hc Hwf Hu Hp Hs Hcl Hrr Hsup.
  pose proof Hc as (Hi & Hg & Hinit & Hit & Hib & Hk).
  destruct (init_attributes_Done _ _ Hinit) as (Traw & Tbit & _).
  assert (Probe : forall k0, kernel_wf k0 -> perf_open_errno k0 = None ->
            supports_in_txcp k0 = false ->
            Proc.has_kvm_in_txcp_bug env (st, k0) = AssertFailed "nread == sizeof(val)").
  { intros k0 W0 U0 S0.
    rewrite (has_kvm_in_txcp_bug_first env g st k0 Hc W0), Hrr, U0, S0. reflexivity. }
  unfold Proc.reset. apply Z.leb_le in Hp. rewrite Hp. cbn [negb].
  assert (Hper :
    (if p =? 0
     then bind (Proc.always_recreate_counters env)
            (fun always =>
               ret (if negb always then to_int64 (to_uint64 (Z.shiftl 1 60)) else p))
     else ret p) (st, k) = AssertFailed "nread == sizeof(val)" \/
    exists p', (if p =? 0
     then bind (Proc.always_recreate_counters env)
            (fun always =>
               ret (if negb always then to_int64 (to_uint64 (Z.shiftl 1 60)) else p))
     else ret p) (st, k) = Done (p', (st, k))).
  { destruct (p =? 0); [|right; eexists; reflexivity].
    assert (A : Proc.always_recreate_counters env (st, k) =
                if Proc.ioc_bug_detected st then Done (true, (st, k))
                else Proc.has_kvm_in_txcp_bug env (st, k)).
    { unfold Proc.always_recreate_counters, Proc.has_ioc_period_bug.
      rewrite (bind_run _ _ _ _ _ (has_ioc_period_bug_again _ env st k Hit)).
      now destruct (Proc.ioc_bug_detected st). }
    unfold bind. rewrite A.
    destruct (Proc.ioc_bug_detected st).
    - right. eexists. reflexivity.
    - left. now rewrite (Probe k Hwf Hu Hsup). }
  destruct Hper as [Hper|[p' Hper]].
  { unfold bind at 1. now rewrite Hper. }
  rewrite (bind_run _ _ _ _ _ Hper). rewrite Hs. cbn [negb].
  unfold bind at 1. unfold Proc.reset_recreate.
  rewrite get_statics_run, Hg.
  destruct Hcl as (_ & _ & _ & C4 & _).
  erewrite bind_run.
  2:{ apply lift_run. apply assign_start_counter_exact;
        [exact C4 | exact Hu | left; reflexivity | left; exact Traw]. }
  unfold bind at 1. rewrite Probe; [reflexivity | | exact Hu | exact Hsup].
  now apply kernel_wf_opened.
Qed.

(** *** A first reset that returns *)

Lemma kernel_wf_probed k : kernel_wf k -> kernel_wf (Proc.probed k).
Proof.
  intros [Hn H]. split; cbn [next_fd Proc.probed]; [lia|].
  intros fd e. cbn [events Proc.probed]. intros E.
  apply lookup_delete_Some in E as [_ E]. apply H in E. lia.
Qed.

Ltac open_counter_at Hev :=
  erewrite bind_run;
  [| apply assign_start_counter_exact;
     [ assumption
     | unfold perf_usable in *; fd_lookup; assumption
     | first [ left; reflexivity
             | right; fd_lookup; rewrite Hev; cbn [fmap option_fmap option_map]; eauto ]
     | first [ left; assumption | right; assumption ] ] ];
  cbv beta; fd_lookup.

(** The branch of reset that opens the counters, given what the call of
    has_kvm_in_txcp_bug in its middle answers and leaves: the second
    counter sits behind the next descriptor the kernel has then. *)
Lemma reset_recreate_with_probe env g p pc st k b st' k2 :
  init_attributes env = Done g -> Proc.attributes st = g -> Proc.attributes st' = g ->
  all_closed pc -> perf_usable k -> 0 <= next_fd k ->
  Proc.has_kvm_in_txcp_bug env (st, opened (interrupt_attr g p) (tid pc) (-1) k)
    = Done (b, (st', k2)) ->
  perf_usable k2 -> next_fd k < next_fd k2 ->
  supports_in_txcp k2 = supports_in_txcp k ->
  events k2 !! next_fd k = Some (new_event (interrupt_attr g p) (tid pc) (-1)) ->
  exists pc' k',
    Proc.reset_recreate env p pc (st, k) = Done (pc', (st', k')) /\
    started pc' = started pc /\ counting pc' = counting pc /\ tid pc' = tid pc /\
    fd_ticks_interrupt pc' = next_fd k /\
    events k' !! next_fd k =
      Some (signalling (tid pc) (TIME_SLICE_SIGNAL env)
              (new_event (interrupt_attr g p) (tid pc) (-1))) /\
    (if b
     then fd_ticks_in_transaction pc' = next_fd k2 /\
          fd_ticks_measure pc' = fd_ticks_measure pc /\
          events k' !! next_fd k2 =
            Some (new_event (in_transaction_attr g) (tid pc) (next_fd k))
     else fd_ticks_measure pc' = next_fd k2 /\
          fd_ticks_in_transaction pc' = fd_ticks_in_transaction pc /\
          events k' !! next_fd k2 =
            Some (new_event (attr_granted k (measure_attr g)) (tid pc) (next_fd k))) /\
    (if activate_useless_counter g
     then fd_useless_counter pc' = next_fd k2 + 1 /\
          events k' !! (next_fd k2 + 1) = Some (new_event (cycles_attr g) (tid pc) (-1))
     else fd_useless_counter pc' = fd_useless_counter pc).
Proof.
  intros Hinit Hg Hg' (C1 & C2 & C3 & C4 & C5 & C6 & C7) Hu Hn Hprobe Hu2 Hlt Hsup Hev.
  destruct (init_attributes_Done _ _ Hinit) as (Traw & Tbit & Cbit & Hbit & Ibit & Pbit & Hact).
  assert (Traw' : attr_type (interrupt_attr g p) = PERF_TYPE_RAW) by exact Traw.
  assert (Hgr : forall ka, attr_granted ka (interrupt_attr g p) = interrupt_attr g p).
  { intros ka. apply attr_granted_id. exact Tbit. }
  assert (Hgt : forall ka, attr_granted ka (in_transaction_attr g) = in_transaction_attr g).
  { intros ka. apply attr_granted_id. unfold in_transaction_attr.
    cbn [config set_config]. now rewrite testbit_lor_IN_TX. }
  assert (Hgc : forall ka, attr_granted ka (cycles_attr g) = cycles_attr g).
  { intros ka. now apply attr_granted_id. }
  assert (Hgh : forall ka, attr_granted ka (hw_interrupts_attr g) = hw_interrupts_attr g).
  { intros ka. now apply attr_granted_id. }
  assert (Hgi : forall ka, attr_granted ka (instructions_retired_attr g)
                           = instructions_retired_attr g).
  { intros ka. now apply attr_granted_id. }
  assert (Hgp : forall ka, attr_granted ka (page_faults_attr g) = page_faults_attr g).
  { intros ka. now apply attr_granted_id. }
  assert (Hgm : attr_granted k2 (measure_attr g) = attr_granted k (measure_attr g)).
  { unfold attr_granted. now rewrite Hsup. }
  unfold Proc.reset_recreate. rewrite get_statics_run, Hg.
  fold (interrupt_attr g p).
  change (set_config (Z.lor (config (interrupt_attr g p)) IN_TX)
            (set_sample_period 0 (interrupt_attr g p))) with (in_transaction_attr g).
  change (set_config (Z.lor (config (interrupt_attr g p)) IN_TXCP)
            (set_sample_period 0 (interrupt_attr g p))) with (measure_attr g).
  erewrite bind_run.
  2:{ apply lift_run. apply assign_start_counter_exact;
        [exact C4 | exact Hu | left; reflexivity | left; exact Traw']. }
  rewrite Hgr. rewrite (bind_run _ _ _ _ _ Hprobe).
  assert (Hi2 : is_Some (events k2 !! next_fd k)) by (rewrite Hev; eauto).
  assert (Htx : Z.testbit (config (in_transaction_attr g)) 33 = false).
  { unfold in_transaction_attr. cbn [config set_config].
    now rewrite testbit_lor_IN_TX. }
  destruct b.
  all: erewrite bind_run;
    [| apply lift_run; erewrite bind_run;
       [| apply assign_start_counter_exact;
          [ assumption | exact Hu2 | right; exact Hi2
          | first [ right; exact Htx | left; exact Traw ] ] ];
       reflexivity ].
  all: rewrite ?Hgt, ?Hgm.
  all: rewrite get_statics_run, Hg', C7; cbn [negb]; rewrite andb_true_r.
  all: destruct (activate_useless_counter g) eqn:Hau.
  all: erewrite bind_run;
    [| apply lift_run;
       first [ apply assign_start_counter_exact;
                 [ exact C7 | unfold perf_usable in *; fd_lookup; assumption
                 | left; reflexivity | right; exact Cbit ]
             | reflexivity ] ].
  all: rewrite ?Hgc.
  all: erewrite bind_run;
    [| apply lift_run; apply fcntl_exact; fd_lookup; rewrite Hev; eauto ].
  all: cbn [Z.eqb negb].
  all: erewrite bind_run;
    [| apply lift_run; apply make_counter_async_exact; fd_lookup; rewrite Hev; eauto ].
  all: destruct (extra_perf_counters_enabled env) eqn:Hex.
  all: erewrite bind_run;
    [| apply lift_run;
       first [ open_counter_at Hev; rewrite ?Hgh; open_counter_at Hev; rewrite ?Hgi;
               open_counter_at Hev; rewrite ?Hgp; reflexivity
             | reflexivity ] ].
  all: eexists _, _; split; [reflexivity|].
  all: cbn [fst snd fd_hw_interrupts fd_instructions_retired fd_page_faults
            fd_ticks_interrupt fd_ticks_measure fd_ticks_in_transaction
            fd_useless_counter started counting tid].
  all: repeat apply conj; fd_lookup; rewrite ?Hev; try reflexivity; try lia.
Qed.

(** has_kvm_in_txcp_bug where it returns: the verdict, the statics
    settled, and the kernel as it was or with one descriptor used up. *)
Lemma has_kvm_in_txcp_bug_returns env g st k :
  Proc.probes_pass env g st k -> kernel_wf k -> perf_usable k ->
  - 2 ^ 63 <= kvm_probe_count env < 2 ^ 63 ->
  exists st' k2,
    Proc.has_kvm_in_txcp_bug env (st, k) = Done (has_kvm_in_txcp_bug env, (st', k2)) /\
    Proc.settled env g st' /\ (k2 = k \/ k2 = Proc.probed k).
Proof.
  intros [Hs|[Hc Hok]] Hwf Hu Hr.
  - exists st, k. split; [|split; [exact Hs | now left]].
    destruct Hs as (_ & _ & _ & _ & _ & Hk & Hkb).
    rewrite has_kvm_in_txcp_bug_again by exact Hk. now rewrite Hkb.
  - pose proof (has_kvm_in_txcp_bug_first env g st k Hc Hwf) as E.
    destruct Hc as (Hi & Hg & Hinit & Hit & Hib & Hk).
    unfold has_kvm_in_txcp_bug.
    destruct (running_under_rr env) eqn:Hrr.
    + eexists _, k. split; [exact E|]. split; [|now left].
      unfold Proc.settled, has_kvm_in_txcp_bug. rewrite Hrr. repeat split; assumption.
    + destruct Hok as [Hok|Hsup]; [discriminate|].
      rewrite Hu, Hsup in E. cbv zeta in E.
      rewrite to_int64_in_range in E by exact Hr.
      eexists _, _. split; [exact E|]. split; [|now right].
      unfold Proc.settled, has_kvm_in_txcp_bug. rewrite Hrr. repeat split; assumption.
Qed.

(** The branch of reset that opens the counters, where it returns. *)
Lemma reset_recreate_returns env g p pc st k :
  Proc.probes_pass env g st k -> kernel_wf k -> perf_usable k ->
  - 2 ^ 63 <= kvm_probe_count env < 2 ^ 63 -> all_closed pc ->
  exists pc' st' k' m,
    Proc.reset_recreate env p pc (st, k) = Done (pc', (st', k')) /\
    Proc.settled env g st' /\
    started pc' = started pc /\ counting pc' = counting pc /\
    next_fd k < m /\
    Proc.ticks_layout env g p k pc (next_fd k) m pc' k'.
Proof.
  intros Hpass Hwf Hu Hr Hcl.
  assert (Hn : 0 <= next_fd k) by (destruct Hwf; assumption).
  assert (Hinit : init_attributes env = Done g).
  { destruct Hpass as [(_ & _ & H & _)|[(_ & _ & H & _) _]]; exact H. }
  assert (Hg : Proc.attributes st = g).
  { destruct Hpass as [(_ & H & _)|[(_ & H & _) _]]; exact H. }
  set (k1 := opened (interrupt_attr g p) (tid pc) (-1) k).
  assert (Hwf1 : kernel_wf k1) by now apply kernel_wf_opened.
  assert (Hpass1 : Proc.probes_pass env g st k1).
  { destruct Hpass as [H|[H H']]; [now left|right]. split; [exact H|exact H']. }
  destruct (has_kvm_in_txcp_bug_returns env g st k1 Hpass1 Hwf1 Hu Hr)
    as (st' & k2 & E & Hst' & Hk2).
  assert (L1 : events k1 !! next_fd k = Some (new_event (interrupt_attr g p) (tid pc) (-1))).
  { unfold k1. rewrite lookup_opened. now rewrite bool_decide_eq_true_2. }
  assert (F : perf_usable k2 /\ next_fd k < next_fd k2 /\
              supports_in_txcp k2 = supports_in_txcp k /\
              events k2 !! next_fd k
                = Some (new_event (interrupt_attr g p) (tid pc) (-1))).
  { destruct Hk2 as [->| ->].
    - repeat split; [exact Hu | unfold k1; cbn [next_fd opened]; lia | exact L1].
    - repeat split; [exact Hu | unfold k1; cbn [next_fd opened Proc.probed]; lia|].
      now rewrite probed_events. }
  destruct F as (Hu2 & Hlt & Hsup & Hev).
  pose proof Hst' as (Hi' & Hg' & _).
  destruct (reset_recreate_with_probe env g p pc st k _ st' k2 Hinit Hg Hg' Hcl Hu Hn
              E Hu2 Hlt Hsup Hev)
    as (pc' & k' & Er & Hs & Hco & Ht & Hfi & Hei & H2 & Hul).
  exists pc', st', k', (next_fd k2).
  split; [exact Er|]. split; [exact Hst'|].
  split; [exact Hs|]. split; [exact Hco|]. split; [exact Hlt|].
  unfold Proc.ticks_layout. repeat split; assumption.
Qed.

(** reset of a counter that is not started, where it returns: at a first
    reset as at a later one.  [k0] is the kernel when the interrupt
    counter is opened: [k], or [k] with the descriptor of the probe used
    up. *)
Lemma reset_returns env g p pc st k :
  Proc.probes_pass env g st k -> kernel_wf k -> perf_usable k ->
  - 2 ^ 63 <= kvm_probe_count env < 2 ^ 63 ->
  0 <= p -> started pc = false -> all_closed pc ->
  exists pc' st' k' k0 m,
    Proc.reset env p pc (st, k) = Done (pc', (st', k')) /\
    Proc.settled env g st' /\
    started pc' = true /\ counting pc' = true /\
    0 <= next_fd k0 < m /\
    supports_in_txcp k0 = supports_in_txcp k /\
    Proc.ticks_layout env g (effective_period env p) k0 pc (next_fd k0) m pc' k'.
Proof.
  intros Hpass Hwf Hu Hr Hp Hs Hcl.
  assert (Hit : Proc.ioc_did_test st = true).
  { destruct Hpass as [(_ & _ & _ & H & _)|[(_ & _ & _ & H & _) _]]; exact H. }
  assert (Hib : Proc.ioc_bug_detected st = has_ioc_period_bug env).
  { destruct Hpass as [(_ & _ & _ & _ & H & _)|[(_ & _ & _ & _ & H & _) _]]; exact H. }
  unfold Proc.reset. apply Z.leb_le in Hp. rewrite Hp. cbn [negb].
  assert (Hper : exists st1 k0,
    (if p =? 0
     then bind (Proc.always_recreate_counters env)
            (fun always =>
               ret (if negb always then to_int64 (to_uint64 (Z.shiftl 1 60)) else p))
     else ret p) (st, k) = Done (effective_period env p, (st1, k0)) /\
    Proc.probes_pass env g st1 k0 /\ kernel_wf k0 /\ perf_usable k0 /\
    supports_in_txcp k0 = supports_in_txcp k).
  { unfold effective_period, always_recreate_counters.
    destruct (p =? 0).
    2:{ exists st, k. split; [reflexivity|].
        split; [exact Hpass|]. split; [exact Hwf|]. split; [exact Hu|reflexivity]. }
    assert (A : Proc.always_recreate_counters env (st, k) =
                if Proc.ioc_bug_detected st then Done (true, (st, k))
                else Proc.has_kvm_in_txcp_bug env (st, k)).
    { unfold Proc.always_recreate_counters, Proc.has_ioc_period_bug.
      rewrite (bind_run _ _ _ _ _ (has_ioc_period_bug_again _ env st k Hit)).
      now destruct (Proc.ioc_bug_detected st). }
    rewrite Hib in A. cbn [andb].
    destruct (has_ioc_period_bug env).
    - exists st, k. split; [now rewrite (bind_run _ _ _ _ _ A)|].
      split; [exact Hpass|]. split; [exact Hwf|]. split; [exact Hu|reflexivity].
    - destruct (has_kvm_in_txcp_bug_returns env g st k Hpass Hwf Hu Hr)
        as (st1 & k0 & E & Hst1 & Hk0).
      rewrite E in A. exists st1, k0.
      split; [now rewrite (bind_run _ _ _ _ _ A)|].
      split; [now left|].
      destruct Hk0 as [->| ->];
        [split; [exact Hwf|]; split; [exact Hu|reflexivity]|].
      split; [now apply kernel_wf_probed|]. split; [exact Hu | reflexivity]. }
  destruct Hper as (st1 & k0 & Eper & Hpass0 & Hwf0 & Hu0 & Hsup0).
  rewrite (bind_run _ _ _ _ _ Eper). rewrite Hs. cbn [negb].
  destruct (reset_recreate_returns env g (effective_period env p) pc st1 k0
              Hpass0 Hwf0 Hu0 Hr Hcl)
    as (pc1 & st' & k' & m & E & Hst' & _ & _ & Hlt & L).
  rewrite (bind_run _ _ _ _ _ E).
  eexists _, st', k', k0, m. split; [reflexivity|].
  split; [exact Hst'|]. split; [reflexivity|]. split; [reflexivity|].
  split; [destruct Hwf0; lia|]. split; [exact Hsup0|].
  exact L.
Qed.

(** The properties of the second counter, from the layout. *)
Lemma ticks_layout_second_counter env g p k0 pc n m pc' k' :
  init_attributes env = Done g -> all_closed pc -> 0 <= n < m ->
  Proc.ticks_layout env g p k0 pc n m pc' k' ->
  exists e,
    is_open (fd_ticks_measure pc') = negb (has_kvm_in_txcp_bug env) /\
    is_open (fd_ticks_in_transaction pc') = has_kvm_in_txcp_bug env /\
    events k' !! (if has_kvm_in_txcp_bug env then fd_ticks_in_transaction pc'
                  else fd_ticks_measure pc') = Some e /\
    pe_tid e = tid pc /\
    pe_group_fd e = fd_ticks_interrupt pc' /\
    sample_period (pe_attr e) = 0 /\
    Z.testbit (config (pe_attr e)) 32 = has_kvm_in_txcp_bug env /\
    Z.testbit (config (pe_attr e)) 33 =
      negb (has_kvm_in_txcp_bug env) && supports_in_txcp k0 /\
    (forall eu, is_open (fd_useless_counter pc') = true ->
       events k' !! fd_useless_counter pc' = Some eu -> pe_group_fd eu = -1).
Proof.
  intros Hg Hc Hnm (_ & Hi & _ & H2 & Hul).
  destruct Hc as (_ & _ & _ & _ & C5 & C6 & C7).
  destruct (init_attributes_ticks _ _ Hg) as [Ht _].
  destruct (ticks_config_bits g Ht k0) as [[T32 T33] [M32 M33]].
  assert (Huseless : forall eu, is_open (fd_useless_counter pc') = true ->
            events k' !! fd_useless_counter pc' = Some eu -> pe_group_fd eu = -1).
  { intros eu Ho He. destruct (activate_useless_counter g).
    - destruct Hul as [Hf Hev]. rewrite Hf, Hev in He. now injection He as <-.
    - rewrite Hul in Ho. congruence. }
  destruct (has_kvm_in_txcp_bug env).
  - destruct H2 as (F1 & F2 & Hev).
    eexists. rewrite F1, F2, Hi.
    split; [exact C5|]. split; [apply is_open_nonneg; lia|].
    split; [exact Hev|]. cbn [pe_tid pe_group_fd pe_attr new_event negb andb].
    repeat apply conj; try reflexivity; assumption.
  - destruct H2 as (F1 & F2 & Hev).
    eexists. rewrite F1, F2, Hi.
    split; [apply is_open_nonneg; lia|]. split; [exact C6|].
    split; [exact Hev|]. cbn [pe_tid pe_group_fd pe_attr new_event negb andb].
    repeat apply conj; try reflexivity; try assumption.
    unfold attr_granted. now destruct (_ && _).
Qed.

(** What is_ticks_attr says of the events of the layout. *)
Lemma ticks_layout_is_ticks_attr env g p k0 pc n m pc' k' :
  init_attributes env = Done g -> all_closed pc ->
  Proc.ticks_layout env g p k0 pc n m pc' k' ->
  exists ei e2,
    events k' !! fd_ticks_interrupt pc' = Some ei /\
    is_ticks_attr g (pe_attr ei) = true /\
    events k' !! (if has_kvm_in_txcp_bug env then fd_ticks_in_transaction pc'
                  else fd_ticks_measure pc') = Some e2 /\
    is_ticks_attr g (pe_attr e2) = negb (has_kvm_in_txcp_bug env) /\
    (forall eu, is_open (fd_useless_counter pc') = true ->
       events k' !! fd_useless_counter pc' = Some eu ->
       is_ticks_attr g (pe_attr eu) = false).
Proof.
  intros Hg (_ & _ & _ & _ & _ & _ & C7) (_ & Hi & Hev & H2 & Hul).
  destruct (init_attributes_ticks _ _ Hg) as [Ht Hcy].
  assert (Hint : is_ticks_attr g (interrupt_attr g p) = true).
  { unfold is_ticks_attr, interrupt_attr. cbn [config set_sample_period].
    destruct Ht as [-> | ->]; reflexivity. }
  assert (Htx : is_ticks_attr g (in_transaction_attr g) = false).
  { unfold is_ticks_attr, in_transaction_attr. destruct Ht as [-> | ->]; reflexivity. }
  assert (Hme : is_ticks_attr g (attr_granted k0 (measure_attr g)) = true).
  { unfold is_ticks_attr, measure_attr, attr_granted.
    destruct (supports_in_txcp k0); destruct Ht as [-> | ->]; reflexivity. }
  assert (Hus : is_ticks_attr g (cycles_attr g) = false).
  { unfold is_ticks_attr. rewrite Hcy. destruct Ht as [-> | ->]; reflexivity. }
  assert (Huseless : forall eu, is_open (fd_useless_counter pc') = true ->
            events k' !! fd_useless_counter pc' = Some eu ->
            is_ticks_attr g (pe_attr eu) = false).
  { intros eu Ho He. destruct (activate_useless_counter g).
    - destruct Hul as [Hf Hev']. rewrite Hf, Hev' in He. now injection He as <-.
    - rewrite Hul in Ho. congruence. }
  rewrite <- Hi in Hev.
  destruct (has_kvm_in_txcp_bug env); destruct H2 as (F1 & F2 & Hev2);
    rewrite <- F1 in Hev2;
    (eexists _, _; split; [exact Hev|];
     split; [exact Hint|]; split; [exact Hev2|]; split; [assumption|exact Huseless]).
Qed.

(** X6: beside the interrupt counter, a reset of a counter that is not
    started opens exactly one of the measure counter and the in-transaction
    counter.  The verdict of the KVM probe decides: the in-transaction
    counter (IN_TX set) on a host with the KVM IN_TXCP bug, the measure
    counter (IN_TXCP set, where the kernel knows the bit) on any other.
    That counter belongs to the group the interrupt counter leads and has
    no sample period; the useless counter, where it is opened, is in no
    group.  Once the probe has run the statics are left as they were.  A
    first reset, the probe not run yet, runs it: where the process is
    itself recorded or the kernel knows IN_TXCP the reset returns as
    described, with the statics settled; outside rr on a kernel that does
    not know IN_TXCP it does not return but fails the assertion of
    read_counter in the probe. *)
Theorem reset_second_counter env g p pc st k :
  kernel_wf k -> perf_usable k -> 0 <= p -> started pc = false -> all_closed pc ->
  (Proc.settled env g st ->
     exists pc' k' e,
       Proc.reset env p pc (st, k) = Done (pc', (st, k')) /\
       is_open (fd_ticks_measure pc') = negb (has_kvm_in_txcp_bug env) /\
       is_open (fd_ticks_in_transaction pc') = has_kvm_in_txcp_bug env /\
       events k' !! (if has_kvm_in_txcp_bug env then fd_ticks_in_transaction pc'
                     else fd_ticks_measure pc') = Some e /\
       pe_tid e = tid pc /\
       pe_group_fd e = fd_ticks_interrupt pc' /\
       sample_period (pe_attr e) = 0 /\
       Z.testbit (config (pe_attr e)) 32 = has_kvm_in_txcp_bug env /\
       Z.testbit (config (pe_attr e)) 33 =
         negb (has_kvm_in_txcp_bug env) && supports_in_txcp k /\
       (forall eu, is_open (fd_useless_counter pc') = true ->
          events k' !! fd_useless_counter pc' = Some eu -> pe_group_fd eu = -1)) /\
  (Proc.constructed env g st ->
   - 2 ^ 63 <= kvm_probe_count env < 2 ^ 63 ->
   running_under_rr env = true \/ supports_in_txcp k = true ->
     exists pc' st' k' e,
       Proc.reset env p pc (st, k) = Done (pc', (st', k')) /\
       Proc.settled env g st' /\
       is_open (fd_ticks_measure pc') = negb (has_kvm_in_txcp_bug env) /\
       is_open (fd_ticks_in_transaction pc') = has_kvm_in_txcp_bug env /\
       events k' !! (if has_kvm_in_txcp_bug env then fd_ticks_in_transaction pc'
                     else fd_ticks_measure pc') = Some e /\
       pe_tid e = tid pc /\
       pe_group_fd e = fd_ticks_interrupt pc' /\
       sample_period (pe_attr e) = 0 /\
       Z.testbit (config (pe_attr e)) 32 = has_kvm_in_txcp_bug env /\
       Z.testbit (config (pe_attr e)) 33 =
         negb (has_kvm_in_txcp_bug env) && supports_in_txcp k /\
       (forall eu, is_open (fd_useless_counter pc') = true ->
          events k' !! fd_useless_counter pc' = Some eu -> pe_group_fd eu = -1)) /\
  (Proc.constructed env g st -> running_under_rr env = false ->
   supports_in_txcp k = false ->
     Proc.reset env p pc (st, k) = AssertFailed "nread == sizeof(val)").
Proof.
  intros Hwf Hu Hp Hs Hc. split; [|split].
  - intros Hst. pose proof Hst as (_ & _ & Hinit & _).
    assert (Hn : 0 <= next_fd k) by (destruct Hwf; assumption).
    destruct (second_counter_with_verdict env g p pc k Hinit Hu Hn Hp Hs Hc)
      as (pc' & k' & e & E & H).
    exists pc', k', e. split; [|exact H].
    rewrite (reset_settled env g p pc st k Hst). now apply lift_run.
  - intros Hcon Hr Hok. pose proof Hcon as (_ & _ & Hinit & _).
    destruct (reset_returns env g p pc st k (or_intror (conj Hcon Hok)) Hwf Hu Hr Hp Hs Hc)
      as (pc' & st' & k' & k0 & m & E & Hst' & _ & _ & Hnm & Hsup & L).
    destruct (ticks_layout_second_counter env g _ k0 pc _ m pc' k' Hinit Hc Hnm L)
      as (e & H).
    exists pc', st', k', e. split; [exact E|]. split; [exact Hst'|].
    rewrite <- Hsup. exact H.
  - intros Hcon Hrr Hsup. now apply reset_first_rejected with (g := g).
Qed.

(** X7: is_ticks_attr recognises the events reset counts ticks with and
    no other of its events.  Of the events a reset of a counter that is
    not started has opened, at a first reset that returns as at a later
    one, is_ticks_attr says yes to the attributes of the interrupt counter
    (whatever the sample period) and of the measure counter (IN_TXCP set
    or, on a kernel that does not know the bit, cleared), and no to those
    of the in-transaction counter (IN_TX set) and of the useless cycles
    counter; it leaves the statics and the kernel as they are. *)
Theorem is_ticks_attr_of_reset env g p pc st k :
  Proc.probes_pass env g st k ->
  kernel_wf k -> perf_usable k -> - 2 ^ 63 <= kvm_probe_count env < 2 ^ 63 ->
  0 <= p -> started pc = false -> all_closed pc ->
  exists pc' st' k' ei e2,
    Proc.reset env p pc (st, k) = Done (pc', (st', k')) /\
    Proc.settled env g st' /\
    events k' !! fd_ticks_interrupt pc' = Some ei /\
    Proc.is_ticks_attr env (pe_attr ei) (st', k') = Done (true, (st', k')) /\
    events k' !! (if has_kvm_in_txcp_bug env then fd_ticks_in_transaction pc'
                  else fd_ticks_measure pc') = Some e2 /\
    Proc.is_ticks_attr env (pe_attr e2) (st', k')
      = Done (negb (has_kvm_in_txcp_bug env), (st', k')) /\
    (forall eu, is_open (fd_useless_counter pc') = true ->
       events k' !! fd_useless_counter pc' = Some eu ->
       Proc.is_ticks_attr env (pe_attr eu) (st', k') = Done (false, (st', k'))).
Proof.
  intros Hpass Hwf Hu Hr Hp Hs Hc.
  destruct (reset_returns env g p pc st k Hpass Hwf Hu Hr Hp Hs Hc)
    as (pc' & st' & k' & k0 & m & E & Hst' & _ & _ & Hnm & Hsup & L).
  pose proof Hst' as (_ & _ & Hinit & _).
  destruct (ticks_layout_is_ticks_attr env g _ k0 pc _ m pc' k' Hinit Hc L)
    as (ei & e2 & Hi & Ti & H2 & T2 & Tu).
  exists pc', st', k', ei, e2.
  split; [exact E|]. split; [exact Hst'|].
  split; [exact Hi|].
  split; [now rewrite (is_ticks_attr_settled env g _ st' k' Hst'), Ti|].
  split; [exact H2|].
  split; [now rewrite (is_ticks_attr_settled env g _ st' k' Hst'), T2|].
  intros eu Ho He. rewrite (is_ticks_attr_settled env g _ st' k' Hst').
  now rewrite (Tu eu Ho He).
Qed.

(** *** The sample machines *)

Lemma boot_kernel_wf : kernel_wf boot_kernel.
Proof. split; [cbn; lia|]. intros fd e H. cbv in H. discriminate. Qed.

Lemma old_kernel_wf : kernel_wf Proc.old_kernel.
Proof. split; [cbn; lia|]. intros fd e H. cbv in H. discriminate. Qed.

Lemma locked_kernel_wf : kernel_wf Proc.locked_kernel.
Proof. split; [cbn; lia|]. intros fd e H. cbv in H. discriminate. Qed.

(** A Skylake without bugs: the probe uses up descriptor 3.  The same
    host without the permission to open perf events, and a recorded
    process there. *)
Lemma init_attributes_outcome_witness :
  (exists g,
     Proc.init_attributes clean_env (Proc.at_load, boot_kernel) =
       Done (tt, (Proc.first_statics clean_env g, Proc.probed boot_kernel)) /\
     Proc.constructed clean_env g (Proc.first_statics clean_env g)) /\
  Proc.init_attributes clean_env (Proc.at_load, Proc.locked_kernel) =
    Fatal "Permission denied to use 'perf_event_open'; are perf events enabled? Try 'perf record'." /\
  (exists g,
     Proc.init_attributes Proc.recorded_env (Proc.at_load, Proc.locked_kernel) =
       Done (tt, (Proc.first_statics Proc.recorded_env g, Proc.locked_kernel))).
Proof.
  split; [|split].
  - destruct (init_attributes_outcome clean_env boot_kernel ltac:(cbn; lia))
      as (_ & _ & H).
    specialize (H IntelSkylake eq_refl).
    rewrite bool_decide_eq_false_2 in H by (intros [?|?]; discriminate).
    destruct H as (g & E & Hc & _). exists g. split; [exact E | exact Hc].
  - destruct (init_attributes_outcome clean_env Proc.locked_kernel ltac:(cbn; lia))
      as (_ & _ & H).
    specialize (H IntelSkylake eq_refl).
    rewrite bool_decide_eq_false_2 in H by (intros [?|?]; discriminate).
    destruct H as (g & E & _). exact E.
  - destruct (init_attributes_outcome Proc.recorded_env Proc.locked_kernel
                ltac:(cbn; lia)) as (_ & _ & H).
    specialize (H IntelSkylake eq_refl).
    rewrite bool_decide_eq_false_2 in H by (intros [?|?]; discriminate).
    destruct H as (g & E & _). exists g. exact E.
Defined.

(** Without the permission to open perf events: the constructor fails
    outside rr; in a recorded process the first reset does. *)
Lemma reset_perf_unavailable_witness :
  Proc.PerfCounters_ctor clean_env 1 (Proc.at_load, Proc.locked_kernel) =
    Fatal "Permission denied to use 'perf_event_open'; are perf events enabled? Try 'perf record'." /\
  (exists st,
     Proc.PerfCounters_ctor Proc.recorded_env 1 (Proc.at_load, Proc.locked_kernel)
       = Done (new 1, (st, Proc.locked_kernel)) /\
     Proc.reset Proc.recorded_env 0 (new 1) (st, Proc.locked_kernel) =
       Fatal "Permission denied to use 'perf_event_open'; are perf events enabled? Try 'perf record'.").
Proof.
  split.
  - destruct (reset_perf_unavailable clean_env (skylake_attrs clean_env) 1 0
                Proc.locked_kernel EACCES eq_refl ltac:(lia) locked_kernel_wf eq_refl)
      as [H _].
    exact (H eq_refl).
  - destruct (reset_perf_unavailable Proc.recorded_env (skylake_attrs Proc.recorded_env)
                1 0 Proc.locked_kernel EACCES eq_refl ltac:(lia) locked_kernel_wf eq_refl)
      as [_ H].
    exact (H eq_refl).
Defined.

(** A host with the KVM bug, the probe run; a host without bugs at its
    first reset; and that host with a kernel that does not know IN_TXCP,
    at the first reset. *)
Lemma reset_second_counter_witness :
  (exists pc' k' e,
     Proc.reset kvm_bug_env 0 (new 1)
       (Proc.warm kvm_bug_env (skylake_attrs kvm_bug_env), boot_kernel)
       = Done (pc', (Proc.warm kvm_bug_env (skylake_attrs kvm_bug_env), k')) /\
     is_open (fd_ticks_measure pc') = false /\
     is_open (fd_ticks_in_transaction pc') = true /\
     events k' !! fd_ticks_in_transaction pc' = Some e /\
     pe_tid e = 1 /\
     pe_group_fd e = fd_ticks_interrupt pc' /\
     sample_period (pe_attr e) = 0 /\
     Z.testbit (config (pe_attr e)) 32 = true /\
     Z.testbit (config (pe_attr e)) 33 = false /\
     (forall eu, is_open (fd_useless_counter pc') = true ->
        events k' !! fd_useless_counter pc' = Some eu -> pe_group_fd eu = -1)) /\
  (exists pc' st' k' e,
     Proc.reset clean_env 0 (new 1)
       (Proc.first_statics clean_env (skylake_attrs clean_env), boot_kernel)
       = Done (pc', (st', k')) /\
     Proc.settled clean_env (skylake_attrs clean_env) st' /\
     is_open (fd_ticks_measure pc') = true /\
     is_open (fd_ticks_in_transaction pc') = false /\
     events k' !! fd_ticks_measure pc' = Some e /\
     pe_tid e = 1 /\
     pe_group_fd e = fd_ticks_interrupt pc' /\
     sample_period (pe_attr e) = 0 /\
     Z.testbit (config (pe_attr e)) 32 = false /\
     Z.testbit (config (pe_attr e)) 33 = true /\
     (forall eu, is_open (fd_useless_counter pc') = true ->
        events k' !! fd_useless_counter pc' = Some eu -> pe_group_fd eu = -1)) /\
  Proc.reset clean_env 0 (new 1)
    (Proc.first_statics clean_env (skylake_attrs clean_env), Proc.old_kernel)
    = AssertFailed "nread == sizeof(val)".
Proof.
  split; [|split].
  - destruct (reset_second_counter kvm_bug_env (skylake_attrs kvm_bug_env) 0 (new 1)
                (Proc.warm kvm_bug_env (skylake_attrs kvm_bug_env)) boot_kernel
                boot_kernel_wf eq_refl ltac:(lia) eq_refl ltac:(repeat split))
      as (H & _ & _).
    exact (H (warm_settled kvm_bug_env (skylake_attrs kvm_bug_env) eq_refl)).
  - destruct (reset_second_counter clean_env (skylake_attrs clean_env) 0 (new 1)
                (Proc.first_statics clean_env (skylake_attrs clean_env)) boot_kernel
                boot_kernel_wf eq_refl ltac:(lia) eq_refl ltac:(repeat split))
      as (_ & H & _).
    exact (H (first_statics_constructed clean_env (skylake_attrs clean_env) eq_refl)
             ltac:(cbn; lia) (or_intror eq_refl)).
  - destruct (reset_second_counter clean_env (skylake_attrs clean_env) 0 (new 1)
                (Proc.first_statics clean_env (skylake_attrs clean_env)) Proc.old_kernel
                old_kernel_wf eq_refl ltac:(lia) eq_refl ltac:(repeat split))
      as (_ & _ & H).
    exact (H (first_statics_constructed clean_env (skylake_attrs clean_env) eq_refl)
             eq_refl eq_refl).
Defined.

(** A Skylake without bugs at a later reset, and one with the KVM bug at
    its first. *)
Lemma is_ticks_attr_of_reset_witness :
  (exists pc' st' k' ei e2,
     Proc.reset clean_env 0 (new 1)
       (Proc.warm clean_env (skylake_attrs clean_env), boot_kernel)
       = Done (pc', (st', k')) /\
     Proc.settled clean_env (skylake_attrs clean_env) st' /\
     events k' !! fd_ticks_interrupt pc' = Some ei /\
     Proc.is_ticks_attr clean_env (pe_attr ei) (st', k') = Done (true, (st', k')) /\
     events k' !! fd_ticks_measure pc' = Some e2 /\
     Proc.is_ticks_attr clean_env (pe_attr e2) (st', k') = Done (true, (st', k')) /\
     (forall eu, is_open (fd_useless_counter pc') = true ->
        events k' !! fd_useless_counter pc' = Some eu ->
        Proc.is_ticks_attr clean_env (pe_attr eu) (st', k') = Done (false, (st', k')))) /\
  (exists pc' st' k' ei e2,
     Proc.reset kvm_bug_env 0 (new 1)
       (Proc.first_statics kvm_bug_env (skylake_attrs kvm_bug_env), boot_kernel)
       = Done (pc', (st', k')) /\
     Proc.settled kvm_bug_env (skylake_attrs kvm_bug_env) st' /\
     events k' !! fd_ticks_interrupt pc' = Some ei /\
     Proc.is_ticks_attr kvm_bug_env (pe_attr ei) (st', k') = Done (true, (st', k')) /\
     events k' !! fd_ticks_in_transaction pc' = Some e2 /\
     Proc.is_ticks_attr kvm_bug_env (pe_attr e2) (st', k') = Done (false, (st', k')) /\
     (forall eu, is_open (fd_useless_counter pc') = true ->
        events k' !! fd_useless_counter pc' = Some eu ->
        Proc.is_ticks_attr kvm_bug_env (pe_attr eu) (st', k') = Done (false, (st', k')))).
Proof.
  split.
  - apply (is_ticks_attr_of_reset clean_env (skylake_attrs clean_env) 0 (new 1)
             (Proc.warm clean_env (skylake_attrs clean_env)) boot_kernel);
      [left; apply warm_settled; reflexivity | exact boot_kernel_wf | reflexivity
      | cbn; lia | lia | reflexivity | repeat split].
  - apply (is_ticks_attr_of_reset kvm_bug_env (skylake_attrs kvm_bug_env) 0 (new 1)
             (Proc.first_statics kvm_bug_env (skylake_attrs kvm_bug_env)) boot_kernel);
      [right; split; [apply first_statics_constructed; reflexivity | right; reflexivity]
      | exact boot_kernel_wf | reflexivity | cbn; lia | lia | reflexivity | repeat split].
Defined.

(** The statics of a Skylake without bugs, settled. *)
Lemma settled_statics_are_read_only_witness :
  (forall p pc,
     Proc.reset clean_env p pc (Proc.warm clean_env (skylake_attrs clean_env), boot_kernel)
     = Proc.lift (reset clean_env (skylake_attrs clean_env) p pc)
         (Proc.warm clean_env (skylake_attrs clean_env), boot_kernel)) /\
  Proc.always_recreate_counters clean_env
    (Proc.warm clean_env (skylake_attrs clean_env), boot_kernel)
    = Done (false, (Proc.warm clean_env (skylake_attrs clean_env), boot_kernel)) /\
  Proc.init_attributes clean_env
    (Proc.warm clean_env (skylake_attrs clean_env), boot_kernel)
    = Done (tt, (Proc.warm clean_env (skylake_attrs clean_env), boot_kernel)).
Proof.
  destruct (settled_statics_are_read_only clean_env (skylake_attrs clean_env)
              (Proc.warm clean_env (skylake_attrs clean_env)) boot_kernel
              (warm_settled clean_env (skylake_attrs clean_env) eq_refl))
    as (Hr & _ & Ha & _ & _ & _ & Hi).
  split; [exact Hr|]. split; [exact Ha | exact Hi].
Defined.

(** After the constructor on a Skylake where the probe counts all its
    branches: on a kernel that knows IN_TXCP, and on one that does not. *)
Lemma has_kvm_in_txcp_bug_first_call_witness :
  (exists st' k',
     Proc.has_kvm_in_txcp_bug clean_env
       (Proc.first_statics clean_env (skylake_attrs clean_env), boot_kernel)
       = Done (false, (st', k')) /\
     events k' = events boot_kernel /\ next_fd k' = 4 /\
     Proc.settled clean_env (skylake_attrs clean_env) st') /\
  Proc.has_kvm_in_txcp_bug clean_env
    (Proc.first_statics clean_env (skylake_attrs clean_env), Proc.old_kernel)
    = AssertFailed "nread == sizeof(val)".
Proof.
  split.
  - destruct (has_kvm_in_txcp_bug_first_call clean_env (skylake_attrs clean_env)
                (Proc.first_statics clean_env (skylake_attrs clean_env)) boot_kernel
                (first_statics_constructed clean_env (skylake_attrs clean_env) eq_refl)
                boot_kernel_wf) as [_ H].
    destruct (H eq_refl) as [Hok _].
    destruct (Hok eq_refl eq_refl) as (st' & k' & E & He & Hn & _ & Hs).
    exists st', k'. split; [exact E|]. split; [exact He|]. split; [exact Hn|].
    apply Hs. cbn. lia.
  - destruct (has_kvm_in_txcp_bug_first_call clean_env (skylake_attrs clean_env)
                (Proc.first_statics clean_env (skylake_attrs clean_env)) Proc.old_kernel
                (first_statics_constructed clean_env (skylake_attrs clean_env) eq_refl)
                old_kernel_wf) as [_ H].
    destruct (H eq_refl) as [_ Hbad].
    apply Hbad. right. reflexivity.
Defined.

End PerfCounters_facts.


(** ** The diversion controller *)

Module diverter_facts.
Import diverter_cc.

Lemma to_int_small z : - 2 ^ 31 <= z <= INT_MAX -> to_int z = z.
Proof.
  unfold to_int, INT_MAX. intros H.
  rewrite Z.mod_small by lia. lia.
Qed.

Lemma divert_end_dying st : diversion_refcount st = 0 -> divert_end st = Done (ended st).
Proof. intros H. unfold divert_end, ended. now rewrite H. Qed.

Lemma divert_end_Done st st' :
  divert_end st = Done st' -> diversion_refcount st' = 0 /\ session st' = None.
Proof.
  unfold divert_end. destruct (diversion_refcount st =? 0) eqn:E; [|discriminate].
  intros [= <-]. apply Z.eqb_eq in E. now split.
Qed.

Section Debugger.

Variable dbg_is_resume_request : dbg_request -> bool.

Abbreviation process_debugger_requests := (process_debugger_requests dbg_is_resume_request).
Abbreviation divert_loop := (divert_loop dbg_is_resume_request).
Abbreviation divert := (divert dbg_is_resume_request).

(** READ_SIGINFO and WRITE_SIGINFO do not resume execution. *)
Definition siginfo_not_resume : Prop :=
  forall req, type req = DREQ_READ_SIGINFO \/ type req = DREQ_WRITE_SIGINFO ->
              dbg_is_resume_request req = false.

Lemma read_siginfo_step t req rest st :
  siginfo_not_resume -> is_read_siginfo req -> diversion_refcount st < INT_MAX ->
  - 2 ^ 31 <= diversion_refcount st ->
  process_debugger_requests t (req :: rest) st =
    process_debugger_requests t rest
      (emit (dbg_reply_read_siginfo (mem_len req))
            (set_refcount (diversion_refcount st + 1) st)).
Proof.
  intros Hnr Hr Hlt Hge. cbn [diverter_cc.process_debugger_requests].
  rewrite (Hnr req (or_introl Hr)). unfold is_read_siginfo in Hr. rewrite Hr.
  rewrite to_int_small by lia. reflexivity.
Qed.

Lemma write_siginfo_step t req rest st :
  siginfo_not_resume -> is_write_siginfo req -> 0 < diversion_refcount st <= INT_MAX ->
  process_debugger_requests t (req :: rest) st =
    process_debugger_requests t rest
      (emit dbg_reply_write_siginfo (set_refcount (diversion_refcount st - 1) st)).
Proof.
  intros Hnr Hw Hc. cbn [diverter_cc.process_debugger_requests].
  rewrite (Hnr req (or_intror Hw)). unfold is_write_siginfo in Hw. rewrite Hw.
  assert (E : (0 <? diversion_refcount st) = true) by (apply Z.ltb_lt; lia).
  rewrite E. cbn [negb]. rewrite to_int_small by (unfold INT_MAX in *; lia). reflexivity.
Qed.

Lemma read_siginfo_run t reads rest : forall st,
  siginfo_not_resume -> Forall is_read_siginfo reads ->
  0 <= diversion_refcount st ->
  diversion_refcount st + Z.of_nat (length reads) <= INT_MAX ->
  exists st',
    process_debugger_requests t (reads ++ rest) st = process_debugger_requests t rest st' /\
    diversion_refcount st' = diversion_refcount st + Z.of_nat (length reads) /\
    session st' = session st.
Proof.
  induction reads as [|req reads IH]; intros st Hnr Hall Hge Hle.
  - exists st. cbn. repeat split. lia.
  - apply Forall_cons in Hall as [Hr Hall]. cbn [length] in Hle.
    cbn [app]. rewrite read_siginfo_step by (assumption || lia).
    destruct (IH (emit (dbg_reply_read_siginfo (mem_len req))
                       (set_refcount (diversion_refcount st + 1) st)) Hnr Hall)
      as (st' & E & Hc & Hs); cbn; try lia.
    exists st'. split; [exact E|]. cbn in Hc, Hs. split; [lia | exact Hs].
Qed.

Lemma write_siginfo_run t writes rest : forall st,
  siginfo_not_resume -> Forall is_write_siginfo writes ->
  Z.of_nat (length writes) <= diversion_refcount st <= INT_MAX ->
  exists st',
    process_debugger_requests t (writes ++ rest) st = process_debugger_requests t rest st' /\
    diversion_refcount st' = diversion_refcount st - Z.of_nat (length writes) /\
    session st' = session st.
Proof.
  induction writes as [|req writes IH]; intros st Hnr Hall Hc.
  - exists st. cbn. repeat split. lia.
  - apply Forall_cons in Hall as [Hw Hall]. cbn [length] in Hc.
    cbn [app]. rewrite write_siginfo_step by (assumption || lia).
    destruct (IH (emit dbg_reply_write_siginfo
                       (set_refcount (diversion_refcount st - 1) st)) Hnr Hall)
      as (st' & E & Hc' & Hs); cbn; try lia.
    exists st'. split; [exact E|]. cbn in Hc', Hs. split; [lia | exact Hs].
Qed.

(** In the dying state a resume request makes process_debugger_requests
    return nullptr, and so does a request to set or remove a breakpoint. *)
Lemma dying_returns_null t req rest st :
  diversion_refcount st = 0 ->
  dbg_is_resume_request req = true \/ is_break_request (type req) = true ->
  process_debugger_requests t (req :: rest) st = Done (None, req, rest, st).
Proof.
  intros Hz H. cbn [diverter_cc.process_debugger_requests]. rewrite Hz. cbn [Z.eqb].
  destruct (dbg_is_resume_request req); [reflexivity|].
  destruct H as [H|H]; [discriminate|].
  destruct (type req); try discriminate; reflexivity.
Qed.

(** Requests that are dispatched leave the count as it is. *)
Lemma dispatched_run t pre rest : forall st,
  Forall (fun r => dbg_is_resume_request r = false /\ passes_through (type r) = true) pre ->
  process_debugger_requests t (pre ++ rest) st =
    process_debugger_requests t rest (dispatched t pre st).
Proof.
  induction pre as [|r pre IH]; intros st Hall; [reflexivity|].
  apply Forall_cons in Hall as [[Hnr Hp] Hall].
  cbn [app diverter_cc.process_debugger_requests]. rewrite Hnr.
  destruct (type r) eqn:Ety; try discriminate; cbn [is_break_request andb];
    rewrite (IH _ Hall); reflexivity.
Qed.

Lemma dispatched_refcount t pre : forall st,
  diversion_refcount (dispatched t pre st) = diversion_refcount st.
Proof.
  induction pre as [|r pre IH]; intros st; [reflexivity|].
  change (dispatched t (r :: pre) st)
    with (dispatched t pre (emit (dispatch_debugger_request t r) st)).
  now rewrite IH.
Qed.

(** C2: the reference count of a diversion.  divert starts the diversion
    with one reference; a READ_SIGINFO request adds one and a
    WRITE_SIGINFO request (on a count above 0) takes one away, so n
    READ_SIGINFO requests followed by n WRITE_SIGINFO requests leave the
    count where it was.  A request that is read while the count is 0 ends
    the diversion if it is a resume request or sets or removes a
    breakpoint: the tasks are killed and the global handle is cleared;
    and the requests that are merely dispatched leave the count at 0, so
    after any number of them the next such request still ends the
    diversion.  The count having reached 0 is not final, though:
    READ_SIGINFO has no check of the dying state, so read while the count
    is 0 it makes the count 1 again, and the resume request after it
    hands back the task to resume instead of ending the diversion. *)
Theorem diversion_refcount_protocol :
  siginfo_not_resume ->
  (forall replay st, session st = None -> diversion_refcount st = 0 ->
     exists st', divert_begin replay st = Done st' /\ diversion_refcount st' = 1) /\
  (forall t req rest st, is_read_siginfo req -> 0 <= diversion_refcount st < INT_MAX ->
     process_debugger_requests t (req :: rest) st =
       process_debugger_requests t rest
         (emit (dbg_reply_read_siginfo (mem_len req))
               (set_refcount (diversion_refcount st + 1) st))) /\
  (forall t req rest st, is_write_siginfo req -> 0 < diversion_refcount st <= INT_MAX ->
     process_debugger_requests t (req :: rest) st =
       process_debugger_requests t rest
         (emit dbg_reply_write_siginfo (set_refcount (diversion_refcount st - 1) st))) /\
  (forall t reads writes rest st,
     Forall is_read_siginfo reads -> Forall is_write_siginfo writes ->
     length reads = length writes ->
     0 <= diversion_refcount st ->
     diversion_refcount st + Z.of_nat (length reads) <= INT_MAX ->
     exists st',
       process_debugger_requests t (reads ++ writes ++ rest) st =
         process_debugger_requests t rest st' /\
       diversion_refcount st' = diversion_refcount st /\
       session st' = session st) /\
  (forall fuel t req rest steps st,
     diversion_refcount st = 0 ->
     dbg_is_resume_request req = true \/ is_break_request (type req) = true ->
     divert_loop (S fuel) t (req :: rest) steps st = Done (ended st)) /\
  (forall fuel t pre req rest steps st,
     diversion_refcount st = 0 ->
     Forall (fun r => dbg_is_resume_request r = false /\ passes_through (type r) = true)
            pre ->
     dbg_is_resume_request req = true \/ is_break_request (type req) = true ->
     divert_loop (S fuel) t (pre ++ req :: rest) steps st =
       Done (ended (dispatched t pre st))) /\
  (forall t read req rest st,
     is_read_siginfo read -> diversion_refcount st = 0 ->
     dbg_is_resume_request req = true ->
     process_debugger_requests t (read :: req :: rest) st =
       Done (t, req, rest,
             emit (dbg_reply_read_siginfo (mem_len read)) (set_refcount 1 st))).
Proof.
  intros Hnr. split; [|split; [|split; [|split; [|split; [|split]]]]].
  - intros replay st Hs Hc. unfold divert_begin. rewrite Hs, Hc. cbn. eauto.
  - intros t req rest st Hr Hc. apply read_siginfo_step; try assumption; lia.
  - intros t req rest st Hw Hc. now apply write_siginfo_step.
  - intros t reads writes rest st Hreads Hwrites Hlen Hge Hle.
    destruct (read_siginfo_run t reads (writes ++ rest) st Hnr Hreads Hge Hle)
      as (st1 & E1 & C1 & S1).
    destruct (write_siginfo_run t writes rest st1 Hnr Hwrites) as (st2 & E2 & C2 & S2).
    { rewrite C1, <- Hlen. lia. }
    exists st2. split; [congruence|]. split; [|congruence].
    rewrite C2, C1, Hlen. lia.
  - intros fuel t req rest steps st Hz H. cbn [diverter_cc.divert_loop].
    rewrite (dying_returns_null t req rest st Hz H). now apply divert_end_dying.
  - intros fuel t pre req rest steps st Hz Hpre H. cbn [diverter_cc.divert_loop].
    rewrite (dispatched_run t pre (req :: rest) st Hpre).
    assert (Hz' : diversion_refcount (dispatched t pre st) = 0)
      by now rewrite dispatched_refcount.
    rewrite (dying_returns_null t req rest _ Hz' H). now apply divert_end_dying.
  - intros t read req rest st Hr Hz Hres.
    rewrite read_siginfo_step by (try assumption; rewrite Hz; unfold INT_MAX; lia).
    rewrite Hz. cbn [diverter_cc.process_debugger_requests]. rewrite Hres.
    reflexivity.
Qed.

(** C8: a DREQ_RESTART request makes process_debugger_requests return
    nullptr whatever the reference count; received first, while the count
    is still 1, it takes divert to its final assertion with the count
    above 0. *)
Theorem divert_restart_fails_assertion replay task req rest steps st :
  session st = None -> diversion_refcount st = 0 ->
  type req = DREQ_RESTART -> dbg_is_resume_request req = false ->
  divert replay task (req :: rest) steps st = AssertFailed "diversion_refcount == 0".
Proof.
  intros Hs Hc Hty Hnr. unfold divert, divert_begin. rewrite Hs, Hc.
  cbn -[diverter_cc.divert_loop]. cbn [diverter_cc.divert_loop diverter_cc.process_debugger_requests].
  rewrite Hnr, Hty. reflexivity.
Qed.

(** Every return of process_debugger_requests has read a request. *)
Lemma process_debugger_requests_reads t reqs : forall st t' req reqs' st',
  process_debugger_requests t reqs st = Done (t', req, reqs', st') ->
  (length reqs' < length reqs)%nat.
Proof.
  revert t. induction reqs as [|r reqs IH]; intros t st t' req reqs' st'; [discriminate|].
  cbn [diverter_cc.process_debugger_requests length].
  assert (Hrec : forall t1 st1,
            process_debugger_requests t1 reqs st1 = Done (t', req, reqs', st') ->
            (length reqs' < S (length reqs))%nat).
  { intros t1 st1 E. apply IH in E. lia. }
  assert (Hret : forall (t1 : option Task) st1,
            Done (t1, r, reqs, st1) = Done (t', req, reqs', st') ->
            (length reqs' < S (length reqs))%nat).
  { intros t1 st1 [= _ _ <- _]. lia. }
  destruct (dbg_is_resume_request r).
  - destruct (diversion_refcount st =? 0); apply Hret.
  - destruct (type r); cbn [is_break_request andb];
      try apply Hret; try (intros E; exact (Hrec _ _ E));
      try (destruct (diversion_refcount st =? 0);
           [apply Hret | intros E; exact (Hrec _ _ E)]).
    + destruct t as [tk|]; [destruct (session st) as [s|]|];
        [intros E; exact (Hrec _ _ E) | intros [=] | intros [=]].
    + destruct (negb (0 <? diversion_refcount st)); [intros [=] | apply Hrec].
Qed.

(** The fuel divert gives its loop is never used up: more of it changes
    nothing. *)
Lemma divert_loop_fuel fuel1 : forall fuel2 t reqs steps st,
  (length reqs < fuel1)%nat -> (length reqs < fuel2)%nat ->
  divert_loop fuel1 t reqs steps st = divert_loop fuel2 t reqs steps st.
Proof.
  induction fuel1 as [|fuel1 IH]; intros fuel2 t reqs steps st H1 H2; [lia|].
  destruct fuel2 as [|fuel2]; [lia|].
  cbn [diverter_cc.divert_loop].
  destruct (process_debugger_requests t reqs st) as [[[[[tk|] req] reqs'] st1]| | | |] eqn:E;
    try reflexivity.
  apply process_debugger_requests_reads in E.
  destruct steps as [|result steps]; [reflexivity|].
  destruct (status result); try reflexivity.
  destruct (reason (break_status result)); apply IH; lia.
Qed.

(** Whenever divert returns, the count is 0 and the handle is cleared. *)
Lemma divert_loop_Done fuel : forall t reqs steps st st',
  divert_loop fuel t reqs steps st = Done st' ->
  diversion_refcount st' = 0 /\ session st' = None.
Proof.
  induction fuel as [|fuel IH]; intros t reqs steps st st'; [discriminate|].
  cbn [diverter_cc.divert_loop].
  destruct (process_debugger_requests t reqs st) as [[[[[tk|] req] reqs'] st1]| | | |];
    try discriminate; [|apply divert_end_Done].
  destruct steps as [|result steps]; [discriminate|].
  destruct (status result); [|apply divert_end_Done|discriminate].
  destruct (reason (break_status result)); apply IH.
Qed.

End Debugger.

Lemma gdb_siginfo_not_resume : siginfo_not_resume gdb_is_resume_request.
Proof. intros req [H|H]; unfold gdb_is_resume_request; now rewrite H. Qed.

(** From one reference: two READ_SIGINFO, then two WRITE_SIGINFO.  From
    no reference: a READ_SIGINFO, then a request to continue; and some
    other request, then a request to continue. *)
Lemma diversion_refcount_protocol_witness :
  (exists st',
     process_debugger_requests gdb_is_resume_request None
       ([request DREQ_READ_SIGINFO; request DREQ_READ_SIGINFO] ++
        [request DREQ_WRITE_SIGINFO; request DREQ_WRITE_SIGINFO] ++
        [request DREQ_CONTINUE])
       (set_refcount 1 idle) =
     process_debugger_requests gdb_is_resume_request None [request DREQ_CONTINUE] st' /\
     diversion_refcount st' = 1 /\ session st' = None) /\
  process_debugger_requests gdb_is_resume_request (Some {| tgid := 100; rec_tid := 100 |})
    [request DREQ_READ_SIGINFO; request DREQ_CONTINUE] idle =
    Done (Some {| tgid := 100; rec_tid := 100 |}, request DREQ_CONTINUE, [],
          emit (dbg_reply_read_siginfo 128) (set_refcount 1 idle)) /\
  divert_loop gdb_is_resume_request 1 None
    ([request (DREQ_OTHER 7)] ++ request DREQ_CONTINUE :: []) [] idle =
    Done (ended (dispatched None [request (DREQ_OTHER 7)] idle)).
Proof.
  destruct (diversion_refcount_protocol gdb_is_resume_request gdb_siginfo_not_resume)
    as (_ & _ & _ & Hbal & _ & Hdis & Hrev).
  split; [|split].
  3:{ apply Hdis; [reflexivity | repeat constructor | left; reflexivity]. }
  - apply Hbal.
    + repeat constructor.
    + repeat constructor.
    + reflexivity.
    + cbn. lia.
    + cbn. unfold INT_MAX. lia.
  - apply Hrev; reflexivity.
Defined.

(** C2 as stated fails: the first request, a WRITE_SIGINFO, takes the
    count of the diversion from 1 to 0; a READ_SIGINFO follows, and the
    resume request after it does not end the diversion: the task is
    resumed (diversion_step), and the diversion goes on to answer another
    WRITE_SIGINFO before the next resume request ends it. *)
Lemma diversion_revived_counterexample :
  divert_begin one_task idle =
    Done {| session := Some one_task; diversion_refcount := 1; trace := [] |} /\
  (exists st1,
     process_debugger_requests gdb_is_resume_request (Some {| tgid := 100; rec_tid := 100 |})
       [request DREQ_WRITE_SIGINFO; request DREQ_READ_SIGINFO; request DREQ_CONTINUE;
        request DREQ_WRITE_SIGINFO; request DREQ_CONTINUE]
       {| session := Some one_task; diversion_refcount := 1; trace := [] |} =
     process_debugger_requests gdb_is_resume_request (Some {| tgid := 100; rec_tid := 100 |})
       [request DREQ_READ_SIGINFO; request DREQ_CONTINUE;
        request DREQ_WRITE_SIGINFO; request DREQ_CONTINUE] st1 /\
     diversion_refcount st1 = 0) /\
  divert gdb_is_resume_request one_task 100
    [request DREQ_WRITE_SIGINFO; request DREQ_READ_SIGINFO; request DREQ_CONTINUE;
     request DREQ_WRITE_SIGINFO; request DREQ_CONTINUE]
    [step_result DIVERSION_CONTINUE BREAK_NONE] idle =
    Done {| session := None; diversion_refcount := 0;
            trace := [dbg_reply_write_siginfo; dbg_reply_read_siginfo 128;
                      diversion_step {| tgid := 100; rec_tid := 100 |} RUN_CONTINUE;
                      dbg_reply_write_siginfo; kill_all_tasks] |}.
Proof.
  split; [reflexivity|]. split; [|vm_compute; reflexivity].
  eexists. split; [reflexivity|]. reflexivity.
Qed.

(** The debugger asks for a restart as soon as the diversion has begun. *)
Lemma divert_restart_fails_assertion_witness :
  divert gdb_is_resume_request one_task 100 [request DREQ_RESTART] [] idle =
    AssertFailed "diversion_refcount == 0".
Proof.
  apply (divert_restart_fails_assertion gdb_is_resume_request); reflexivity.
Defined.

(** ** More of the diversion *)

Section Diversion.

Variable dbg_is_resume_request : dbg_request -> bool.

Abbreviation process_debugger_requests := (process_debugger_requests dbg_is_resume_request).
Abbreviation divert_loop := (divert_loop dbg_is_resume_request).
Abbreviation divert := (divert dbg_is_resume_request).

Lemma count_type_cons ty r l :
  count_type ty (r :: l) = (if bool_decide (type r = ty) then 1 else 0) + count_type ty l.
Proof.
  unfold count_type. rewrite filter_cons.
  case_bool_decide as H.
  - rewrite decide_True by exact H. cbn [length]. lia.
  - rewrite decide_False by exact H. lia.
Qed.

Lemma count_type_bounds ty l : 0 <= count_type ty l <= Z.of_nat (length l).
Proof.
  unfold count_type. pose proof (length_filter (fun r => type r = ty) l). lia.
Qed.

(** What process_debugger_requests has done when it returns: the requests
    it answered, the session it kept, the count it leaves. *)
Lemma process_debugger_requests_Done reqs : forall t st t' req rest st',
  0 <= diversion_refcount st ->
  diversion_refcount st + Z.of_nat (length reqs) <= INT_MAX ->
  process_debugger_requests t reqs st = Done (t', req, rest, st') ->
  exists answered,
    reqs = answered ++ req :: rest /\
    Forall (fun r => dbg_is_resume_request r = false) answered /\
    session st' = session st /\
    diversion_refcount st' =
      diversion_refcount st + count_type DREQ_READ_SIGINFO answered
                            - count_type DREQ_WRITE_SIGINFO answered /\
    0 <= diversion_refcount st' /\
    (exists out, trace st' = trace st ++ out).
Proof.
  induction reqs as [|r reqs IH]; intros t st t' req rest st' Hge Hle; [discriminate|].
  cbn [diverter_cc.process_debugger_requests length] in *.
  assert (Hret : forall (t1 : option Task),
            Done (t1, r, reqs, st) = Done (t', req, rest, st') ->
            exists answered,
              r :: reqs = answered ++ req :: rest /\
              Forall (fun r => dbg_is_resume_request r = false) answered /\
              session st' = session st /\
              diversion_refcount st' =
                diversion_refcount st + count_type DREQ_READ_SIGINFO answered
                                      - count_type DREQ_WRITE_SIGINFO answered /\
              0 <= diversion_refcount st' /\
              (exists out, trace st' = trace st ++ out)).
  { intros t1 [= _ <- <- <-]. exists []. cbn.
    split; [reflexivity|]. split; [constructor|]. split; [reflexivity|].
    split; [unfold count_type; cbn; lia|]. split; [lia|].
    exists []. now rewrite app_nil_r. }
  destruct (dbg_is_resume_request r) eqn:Hr.
  { destruct (diversion_refcount st =? 0); apply Hret. }
  assert (Hrec : forall t1 st1 (d : Z),
            session st1 = session st ->
            diversion_refcount st1 = diversion_refcount st + d ->
            0 <= diversion_refcount st + d ->
            d = (if bool_decide (type r = DREQ_READ_SIGINFO) then 1 else 0)
                - (if bool_decide (type r = DREQ_WRITE_SIGINFO) then 1 else 0) ->
            (exists e, trace st1 = trace st ++ [e]) ->
            process_debugger_requests t1 reqs st1 = Done (t', req, rest, st') ->
            exists answered,
              r :: reqs = answered ++ req :: rest /\
              Forall (fun r => dbg_is_resume_request r = false) answered /\
              session st' = session st /\
              diversion_refcount st' =
                diversion_refcount st + count_type DREQ_READ_SIGINFO answered
                                      - count_type DREQ_WRITE_SIGINFO answered /\
              0 <= diversion_refcount st' /\
              (exists out, trace st' = trace st ++ out)).
  { intros t1 st1 d Hs Hc Hd0 Hd [e He] E.
    assert (Hd1 : d <= 1) by (rewrite Hd; repeat case_bool_decide; lia).
    assert (A1 : 0 <= diversion_refcount st1) by lia.
    assert (A2 : diversion_refcount st1 + Z.of_nat (length reqs) <= INT_MAX) by lia.
    destruct (IH _ _ _ _ _ _ A1 A2 E)
      as (answered & -> & Hall & Hs' & Hc' & Hge' & (out & Ho)).
    exists (r :: answered). split; [reflexivity|].
    split; [now constructor|]. split; [congruence|].
    rewrite !count_type_cons. split; [lia|]. split; [exact Hge'|].
    exists (e :: out). rewrite Ho, He, <- app_assoc. reflexivity. }
  destruct (type r) eqn:Hty; cbn [is_break_request andb];
    try (apply Hret);
    try (apply (Hrec _ _ 0); cbn; first [reflexivity | lia | solve [eauto]]);
    try (destruct (diversion_refcount st =? 0);
         [apply Hret | apply (Hrec _ _ 0); cbn; first [reflexivity | lia | solve [eauto]]]).
  - apply (Hrec _ _ 1); cbn; try reflexivity; try lia; [|eauto].
    apply to_int_small. unfold INT_MAX in *. lia.
  - destruct t as [tk|]; [destruct (session st) as [s|] eqn:Hs|]; try discriminate.
    apply (Hrec _ _ 0); cbn; first [reflexivity | lia | solve [eauto]].
  - destruct (0 <? diversion_refcount st) eqn:Hpos; [|discriminate]. cbn [negb].
    apply Z.ltb_lt in Hpos.
    apply (Hrec _ _ (-1)); cbn; try reflexivity; try lia; [|eauto].
    rewrite to_int_small; [lia|]. unfold INT_MAX in *. lia.
Qed.


(** X13: the reference count, request by request.  When
    process_debugger_requests returns it has answered a run of requests,
    none of them a resume request, and stopped at the request it hands
    back; the count it leaves is the count it found plus the READ_SIGINFO
    requests of that run minus its WRITE_SIGINFO requests, it is never
    negative, and the session is the one it found. *)
Theorem refcount_accounting t reqs st t' req rest st' :
  0 <= diversion_refcount st ->
  diversion_refcount st + Z.of_nat (length reqs) <= INT_MAX ->
  process_debugger_requests t reqs st = Done (t', req, rest, st') ->
  exists answered,
    reqs = answered ++ req :: rest /\
    Forall (fun r => dbg_is_resume_request r = false) answered /\
    diversion_refcount st' =
      diversion_refcount st + count_type DREQ_READ_SIGINFO answered
                            - count_type DREQ_WRITE_SIGINFO answered /\
    0 <= diversion_refcount st' /\
    session st' = session st.
Proof.
  intros Hge Hle E.
  destruct (process_debugger_requests_Done reqs t st t' req rest st' Hge Hle E)
    as (answered & Hreqs & Hall & Hs & Hc & Hge' & _).
  exists answered. repeat split; assumption.
Qed.

Lemma find_task_In s n tk : find_task s n = Some tk -> In tk (tasks s).
Proof. unfold find_task. intros H. now apply find_some in H as [H _]. Qed.

Lemma returned_task reqs : forall t st t' req rest st',
  process_debugger_requests t reqs st = Done (Some t', req, rest, st') ->
  dbg_is_resume_request req = true /\ diversion_refcount st' <> 0 /\
  (t = Some t' \/ exists s, session st = Some s /\ In t' (tasks s)).
Proof.
  induction reqs as [|r reqs IH]; intros t st t' req rest st'; [discriminate|].
  cbn [diverter_cc.process_debugger_requests].
  destruct (dbg_is_resume_request r) eqn:Hr.
  { destruct (diversion_refcount st =? 0) eqn:Hz; [discriminate|].
    intros [= -> <- <- <-]. apply Z.eqb_neq in Hz. auto. }
  assert (Hrec : forall st1, session st1 = session st ->
            process_debugger_requests t reqs st1 = Done (Some t', req, rest, st') ->
            dbg_is_resume_request req = true /\ diversion_refcount st' <> 0 /\
            (t = Some t' \/ exists s, session st = Some s /\ In t' (tasks s))).
  { intros st1 Hs E. apply IH in E. now rewrite Hs in E. }
  destruct (type r); cbn [is_break_request andb];
    try discriminate;
    try (apply Hrec; reflexivity);
    try (destruct (diversion_refcount st =? 0);
         [discriminate | apply Hrec; reflexivity]).
  - destruct t as [tk|]; [destruct (session st) as [s|] eqn:Hs|]; try discriminate.
    intros E. apply IH in E as (A & B & C). cbn [session emit] in C.
    split; [exact A|]. split; [exact B|].
    destruct (find_task s (tid (target r))) as [n|] eqn:Hf.
    + destruct C as [[= <-]|C]; [|rewrite Hs in C; now right].
      right. exists s. split; [reflexivity|]. eapply find_task_In, Hf.
    + destruct C as [C|C]; [now left | rewrite Hs in C; now right].
  - destruct (negb (0 <? diversion_refcount st)); [discriminate|].
    apply Hrec. reflexivity.
Qed.

(** X14: process_debugger_requests hands back a task only for a resume
    request received while the diversion is referenced (the count it
    leaves is not 0), and the task is the one it was given or, after a
    SET_QUERY_THREAD request, a task of the diversion session; a
    SET_QUERY_THREAD for a thread the session does not know leaves the
    task as it was. *)
Theorem returned_task_of_session t reqs st t' req rest st' :
  process_debugger_requests t reqs st = Done (Some t', req, rest, st') ->
  dbg_is_resume_request req = true /\ diversion_refcount st' <> 0 /\
  (t = Some t' \/ exists s, session st = Some s /\ In t' (tasks s)) /\
  ((forall r s, In r reqs -> type r = DREQ_SET_QUERY_THREAD -> session st = Some s ->
      find_task s (tid (target r)) = None) -> t = Some t').
Proof.
  intros E. destruct (returned_task reqs t st t' req rest st' E) as (A & B & C).
  split; [exact A|]. split; [exact B|]. split; [exact C|].
  clear A B C. revert t st E.
  induction reqs as [|r reqs IH]; intros t st; [discriminate|].
  cbn [diverter_cc.process_debugger_requests]. intros E Hunknown.
  assert (Hin : forall r0 s, In r0 reqs -> type r0 = DREQ_SET_QUERY_THREAD ->
                  session st = Some s -> find_task s (tid (target r0)) = None).
  { intros r0 s H0. apply Hunknown. now right. }
  destruct (dbg_is_resume_request r).
  { destruct (diversion_refcount st =? 0); [discriminate|]. now injection E as ->. }
  destruct (type r) eqn:Hty; cbn [is_break_request andb] in E;
    try discriminate;
    try (apply IH in E; [exact E | exact Hin]);
    try (destruct (diversion_refcount st =? 0);
         [discriminate | apply IH in E; [exact E | exact Hin]]).
  - destruct t as [tk|]; [destruct (session st) as [s|] eqn:Hs|]; try discriminate.
    rewrite (Hunknown r s (or_introl eq_refl) Hty eq_refl) in E.
    apply IH in E; [exact E|]. cbn [session emit]. rewrite Hs. exact Hin.
  - destruct (negb (0 <? diversion_refcount st)); [discriminate|].
    apply IH in E; [exact E | exact Hin].
Qed.

Lemma divert_end_trace st st' :
  divert_end st = Done st' -> trace st' = trace st ++ [kill_all_tasks].
Proof.
  unfold divert_end. destruct (negb (diversion_refcount st =? 0)); [discriminate|].
  now intros [= <-].
Qed.

Lemma divert_loop_kills fuel : forall t reqs steps st st',
  divert_loop fuel t reqs steps st = Done st' ->
  exists pre, trace st' = pre ++ [kill_all_tasks].
Proof.
  induction fuel as [|fuel IH]; intros t reqs steps st st'; [discriminate|].
  cbn [diverter_cc.divert_loop].
  destruct (process_debugger_requests t reqs st) as [[[[[tk|] req] reqs'] st1]| | | |];
    try discriminate; [|intros E; apply divert_end_trace in E; eauto].
  destruct steps as [|result steps]; [discriminate|].
  destruct (status result);
    [|intros E; apply divert_end_trace in E; eauto|discriminate].
  destruct (reason (break_status result)); apply IH.
Qed.

(** X15: divert returns only as it was entered, with no diversion under
    way: when it returns it was entered with no session and no reference,
    it leaves no session and no reference, the last thing it did was to
    kill the tasks of the diversion, and a next divert passes its entry
    assertion and starts again with one reference. *)
Theorem divert_returns_idle replay task reqs steps st st' :
  divert replay task reqs steps st = Done st' ->
  (session st = None /\ diversion_refcount st = 0) /\
  (session st' = None /\ diversion_refcount st' = 0) /\
  (exists pre, trace st' = pre ++ [kill_all_tasks]) /\
  (forall replay', exists st2,
     divert_begin replay' st' = Done st2 /\
     diversion_refcount st2 = 1 /\ session st2 = Some (clone_diversion replay')).
Proof.
  unfold divert. intros E.
  destruct (divert_begin replay st) as [st1| | | |] eqn:Eb; try discriminate.
  assert (Hidle : session st = None /\ diversion_refcount st = 0).
  { revert Eb. unfold divert_begin.
    destruct (bool_decide (session st = None)) eqn:Hs; [|discriminate].
    destruct (diversion_refcount st =? 0) eqn:Hc; [|discriminate].
    intros _. apply bool_decide_eq_true in Hs. apply Z.eqb_eq in Hc. now split. }
  destruct (divert_loop_Done dbg_is_resume_request _ _ _ _ _ _ E) as [Hc' Hs'].
  split; [exact Hidle|]. split; [now split|].
  split; [exact (divert_loop_kills _ _ _ _ _ _ E)|].
  intros replay'. unfold divert_begin. rewrite Hs', Hc'. cbn. eauto.
Qed.

(** divert entered with no diversion under way. *)
Lemma divert_idle replay task reqs steps st :
  session st = None -> diversion_refcount st = 0 ->
  divert replay task reqs steps st =
    divert_loop (S (length reqs)) (find_task replay task) reqs steps
      {| session := Some replay; diversion_refcount := 1; trace := trace st |}.
Proof.
  intros Hs Hc. unfold divert, divert_begin. rewrite Hs, Hc. reflexivity.
Qed.

(** A run of READ_SIGINFO requests, answered one by one. *)
Lemma read_siginfo_run_exact t reads rest : forall st,
  siginfo_not_resume dbg_is_resume_request -> Forall is_read_siginfo reads ->
  0 <= diversion_refcount st ->
  diversion_refcount st + Z.of_nat (length reads) <= INT_MAX ->
  process_debugger_requests t (reads ++ rest) st =
    process_debugger_requests t rest (after_reads reads st).
Proof.
  induction reads as [|r reads IH]; intros st Hnr Hall Hge Hle.
  - cbn [app]. f_equal. unfold after_reads. destruct st. cbn.
    f_equal; [lia | now rewrite app_nil_r].
  - apply Forall_cons in Hall as [Hr Hall]. cbn [length] in Hle. cbn [app].
    rewrite (read_siginfo_step dbg_is_resume_request) by (assumption || lia).
    rewrite IH by (cbn; assumption || lia).
    f_equal. unfold after_reads. cbn. f_equal; [lia | now rewrite <- app_assoc].
Qed.

(** X16: a task that exits ends the diversion whatever the reference
    count.  After any number of READ_SIGINFO requests (each one a
    reference more), a resume request steps the task (single-stepping for
    a step request that targets it); when that step reports
    DIVERSION_EXITED, divert sets the count to 0, notifies the debugger of
    the exit code 0, kills the tasks and returns with the handle cleared. *)
Theorem divert_task_exits replay task t reads req rest result steps st :
  siginfo_not_resume dbg_is_resume_request ->
  session st = None -> diversion_refcount st = 0 ->
  find_task replay task = Some t ->
  Forall is_read_siginfo reads -> 1 + Z.of_nat (length reads) <= INT_MAX ->
  dbg_is_resume_request req = true ->
  status result = DIVERSION_EXITED ->
  divert replay task (reads ++ req :: rest) (result :: steps) st =
    Done {| session := None; diversion_refcount := 0;
            trace := trace st
                     ++ map (fun r => dbg_reply_read_siginfo (mem_len r)) reads
                     ++ [diversion_step t
                           (if bool_decide (type req = DREQ_STEP)
                               && bool_decide (get_threadid t = target req)
                            then RUN_SINGLESTEP else RUN_CONTINUE);
                         dbg_notify_exit_code 0; kill_all_tasks] |}.
Proof.
  intros Hnr Hs Hc Hf Hreads Hle Hres Hex.
  rewrite (divert_idle _ _ _ _ _ Hs Hc), Hf. cbn [diverter_cc.divert_loop].
  rewrite read_siginfo_run_exact by (cbn; assumption || lia).
  cbn [diverter_cc.process_debugger_requests]. rewrite Hres.
  cbn [after_reads diversion_refcount].
  destruct (1 + Z.of_nat (length reads) =? 0) eqn:Hz; [apply Z.eqb_eq in Hz; lia|].
  rewrite Hex. unfold divert_end. cbn. rewrite <- !app_assoc. reflexivity.
Qed.

(** X17: a WRITE_SIGINFO request with no reference left to give back
    aborts the diversion.  After as many READ_SIGINFO requests as you
    like, and one WRITE_SIGINFO request more than that (the last of them
    gives back the reference the diversion started with), the next
    WRITE_SIGINFO request fails the assertion that the count is above 0. *)
Theorem divert_unbalanced_write replay task reads writes w rest steps st :
  siginfo_not_resume dbg_is_resume_request ->
  session st = None -> diversion_refcount st = 0 ->
  Forall is_read_siginfo reads -> Forall is_write_siginfo writes ->
  length writes = S (length reads) -> 1 + Z.of_nat (length reads) <= INT_MAX ->
  is_write_siginfo w ->
  divert replay task (reads ++ writes ++ w :: rest) steps st =
    AssertFailed "diversion_refcount > 0".
Proof.
  intros Hnr Hs Hc Hreads Hwrites Hlen Hle Hw.
  rewrite (divert_idle _ _ _ _ _ Hs Hc). cbn [diverter_cc.divert_loop].
  rewrite read_siginfo_run_exact by (cbn; assumption || lia).
  match goal with
  | |- context [diverter_cc.process_debugger_requests _ ?t (writes ++ _) ?s] =>
    destruct (write_siginfo_run dbg_is_resume_request t writes (w :: rest) s Hnr Hwrites)
      as (st2 & E2 & C2 & _)
  end.
  { cbn. lia. }
  rewrite E2. cbn [diverter_cc.process_debugger_requests].
  rewrite (Hnr w (or_intror Hw)). unfold is_write_siginfo in Hw. rewrite Hw.
  cbn [after_reads diversion_refcount] in C2.
  replace (diversion_refcount st2) with 0 by lia. reflexivity.
Qed.

End Diversion.

Lemma refcount_accounting_witness :
  exists answered,
    [request DREQ_READ_SIGINFO; request DREQ_READ_SIGINFO; request DREQ_WRITE_SIGINFO;
     request DREQ_CONTINUE] = answered ++ [request DREQ_CONTINUE] /\
    Forall (fun r => gdb_is_resume_request r = false) answered /\
    2 = 1 + count_type DREQ_READ_SIGINFO answered
          - count_type DREQ_WRITE_SIGINFO answered /\
    0 <= 2 /\
    Some one_task = Some one_task.
Proof.
  apply (refcount_accounting gdb_is_resume_request (Some {| tgid := 100; rec_tid := 100 |})
           [request DREQ_READ_SIGINFO; request DREQ_READ_SIGINFO;
            request DREQ_WRITE_SIGINFO; request DREQ_CONTINUE]
           {| session := Some one_task; diversion_refcount := 1; trace := [] |}
           (Some {| tgid := 100; rec_tid := 100 |}) (request DREQ_CONTINUE) []
           {| session := Some one_task; diversion_refcount := 2;
              trace := [dbg_reply_read_siginfo 128; dbg_reply_read_siginfo 128;
                        dbg_reply_write_siginfo] |});
    [cbn; lia | cbn; unfold INT_MAX; lia | reflexivity].
Defined.


(** The debugger selects thread 100 of the session, then continues. *)
Lemma returned_task_of_session_witness :
  gdb_is_resume_request (request DREQ_CONTINUE) = true /\
  1 <> 0 /\
  (Some {| tgid := 7; rec_tid := 7 |} = Some {| tgid := 100; rec_tid := 100 |} \/
   exists s, Some one_task = Some s /\ In {| tgid := 100; rec_tid := 100 |} (tasks s)) /\
  ((forall r s,
      In r [request DREQ_SET_QUERY_THREAD; request DREQ_CONTINUE] ->
      type r = DREQ_SET_QUERY_THREAD -> Some one_task = Some s ->
      find_task s (tid (target r)) = None) ->
   Some {| tgid := 7; rec_tid := 7 |} = Some {| tgid := 100; rec_tid := 100 |}).
Proof.
  apply (returned_task_of_session gdb_is_resume_request
           (Some {| tgid := 7; rec_tid := 7 |})
           [request DREQ_SET_QUERY_THREAD; request DREQ_CONTINUE]
           {| session := Some one_task; diversion_refcount := 1; trace := [] |}
           {| tgid := 100; rec_tid := 100 |} (request DREQ_CONTINUE) []
           {| session := Some one_task; diversion_refcount := 1;
              trace := [dispatch_debugger_request (Some {| tgid := 100; rec_tid := 100 |})
                          (request DREQ_SET_QUERY_THREAD)] |}).
  reflexivity.
Defined.

(** The debugger gives back the only reference, then continues. *)
Lemma divert_returns_idle_witness :
  (session idle = None /\ diversion_refcount idle = 0) /\
  (@None Session = None /\ 0 = 0) /\
  (exists pre, [dbg_reply_write_siginfo; kill_all_tasks] = pre ++ [kill_all_tasks]) /\
  (forall replay', exists st2,
     divert_begin replay'
       {| session := None; diversion_refcount := 0;
          trace := [dbg_reply_write_siginfo; kill_all_tasks] |} = Done st2 /\
     diversion_refcount st2 = 1 /\ session st2 = Some (clone_diversion replay')).
Proof.
  apply (divert_returns_idle gdb_is_resume_request one_task 100
           [request DREQ_WRITE_SIGINFO; request DREQ_CONTINUE] [] idle
           {| session := None; diversion_refcount := 0;
              trace := [dbg_reply_write_siginfo; kill_all_tasks] |}).
  reflexivity.
Defined.

(** Two more references are taken, then the task exits at the first step. *)
Lemma divert_task_exits_witness :
  divert gdb_is_resume_request one_task 100
    ([request DREQ_READ_SIGINFO; request DREQ_READ_SIGINFO] ++ request DREQ_STEP :: [])
    [step_result DIVERSION_EXITED BREAK_NONE] idle =
  Done {| session := None; diversion_refcount := 0;
          trace := [dbg_reply_read_siginfo 128; dbg_reply_read_siginfo 128;
                    diversion_step {| tgid := 100; rec_tid := 100 |} RUN_SINGLESTEP;
                    dbg_notify_exit_code 0; kill_all_tasks] |}.
Proof.
  apply (divert_task_exits gdb_is_resume_request one_task 100
           {| tgid := 100; rec_tid := 100 |}
           [request DREQ_READ_SIGINFO; request DREQ_READ_SIGINFO] (request DREQ_STEP) []
           (step_result DIVERSION_EXITED BREAK_NONE) [] idle gdb_siginfo_not_resume);
    [reflexivity | reflexivity | reflexivity | repeat constructor
    | cbn; unfold INT_MAX; lia | reflexivity | reflexivity].
Defined.

(** One WRITE_SIGINFO gives back the reference of the start; the second
    has none to give back. *)
Lemma divert_unbalanced_write_witness :
  divert gdb_is_resume_request one_task 100
    ([] ++ [request DREQ_WRITE_SIGINFO] ++ request DREQ_WRITE_SIGINFO :: [])
    [] idle =
  AssertFailed "diversion_refcount > 0".
Proof.
  apply (divert_unbalanced_write gdb_is_resume_request one_task 100 []
           [request DREQ_WRITE_SIGINFO] (request DREQ_WRITE_SIGINFO) [] [] idle
           gdb_siginfo_not_resume);
    [reflexivity | reflexivity | constructor | repeat constructor | reflexivity
    | cbn; unfold INT_MAX; lia | reflexivity].
Defined.

End diverter_facts.

(** ** The replayer *)

Module replayer_facts.
Import replayer_c.

(** *** The breakpoint table *)

Lemma find_breakpoint_Some table a i :
  length table = MAX_NUM_BREAKPOINTS ->
  find_breakpoint table a = Some i <->
  exists bp, table !! i = Some bp /\ addr bp = a /\
             forall j bj, table !! j = Some bj -> (j < i)%nat -> addr bj <> a.
Proof.
  intros Hlen. unfold find_breakpoint.
  rewrite firstn_all2 by lia. split.
  - intros E. apply fmap_Some in E as ([i' bp] & E & ->).
    apply list_find_Some in E as (Hi & Ha & Hfirst).
    exists bp. split; [exact Hi|]. split; [now symmetry|].
    intros j bj Hj Hlt Heq. apply (Hfirst j bj Hj Hlt). now symmetry.
  - intros (bp & Hi & Ha & Hfirst). apply fmap_Some. exists (i, bp). split; [|reflexivity].
    apply list_find_Some. split; [exact Hi|]. split; [now symmetry|].
    intros j bj Hj Hlt Heq. apply (Hfirst j bj Hj Hlt). now symmetry.
Qed.

Lemma find_breakpoint_None table a :
  length table = MAX_NUM_BREAKPOINTS ->
  find_breakpoint table a = None <-> absent a table.
Proof.
  intros Hlen. unfold find_breakpoint, absent.
  rewrite firstn_all2 by lia. rewrite fmap_None, list_find_None.
  apply Forall_proper; [|reflexivity]. intros bp. split; intros Hne Heq; now apply Hne.
Qed.

Lemma absent_find_breakpoint table a :
  absent a table -> find_breakpoint table a = None.
Proof.
  intros Habs. unfold find_breakpoint.
  apply fmap_None, list_find_None.
  apply Forall_lookup. intros i bp Hi Heq.
  apply lookup_take_Some in Hi as [Hi _].
  unfold absent in Habs. rewrite Forall_lookup in Habs.
  apply (Habs i bp Hi). now symmetry.
Qed.

Lemma unique_addrs_empty : unique_addrs empty_table.
Proof.
  intros i j bi bj Hi Hj _ Hnn. exfalso. apply Hnn.
  unfold empty_table in Hi. apply lookup_replicate in Hi as [-> _]. reflexivity.
Qed.

(** Filling a free slot with an address the table does not hold keeps the
    addresses unique. *)
Lemma unique_addrs_insert_new table i bp :
  unique_addrs table -> absent (addr bp) table ->
  unique_addrs (<[i := bp]> table).
Proof.
  intros Hu Habs i1 i2 b1 b2 H1 H2 Heq Hnn.
  unfold absent in Habs. rewrite Forall_lookup in Habs.
  apply list_lookup_insert_Some in H1 as [(-> & <- & L1)|(N1 & H1)];
    apply list_lookup_insert_Some in H2 as [(E2 & <- & L2)|(N2 & H2)].
  - exact E2.
  - exfalso. apply (Habs i2 b2 H2). now symmetry.
  - subst i2. exfalso. apply (Habs i1 b1 H1). exact Heq.
  - exact (Hu i1 i2 b1 b2 H1 H2 Heq Hnn).
Qed.

(** Zeroing an entry keeps the addresses unique. *)
Lemma unique_addrs_insert_zeroed table i :
  unique_addrs table -> unique_addrs (<[i := zeroed]> table).
Proof.
  intros Hu i1 i2 b1 b2 H1 H2 Heq Hnn.
  apply list_lookup_insert_Some in H1 as [(-> & <- & L1)|(N1 & H1)].
  { exfalso. now apply Hnn. }
  apply list_lookup_insert_Some in H2 as [(E2 & <- & L2)|(N2 & H2)].
  { exfalso. apply Hnn. rewrite Heq. reflexivity. }
  exact (Hu i1 i2 b1 b2 H1 H2 Heq Hnn).
Qed.

Lemma set_sw_breakpoint_Done ctx req w u w' :
  set_sw_breakpoint ctx req w = Done (u, w') ->
  exists i, find_breakpoint (breakpoint_table w) NULL = Some i /\
    breakpoint_table w' =
      <[i := {| addr := mem_addr req;
                overwritten_data := child_mem w (child_tid ctx) (mem_addr req) |}]>
        (breakpoint_table w).
Proof.
  unfold set_sw_breakpoint.
  destruct (negb (sizeof_int_3_insn =? mem_len req)); [discriminate|].
  destruct (find_breakpoint (breakpoint_table w) NULL) as [i|]; [|discriminate].
  intros [= <- <-]. exists i. split; reflexivity.
Qed.

Lemma remove_sw_breakpoint_Done ctx req w u w' :
  remove_sw_breakpoint ctx req w = Done (u, w') ->
  match find_breakpoint (breakpoint_table w) (mem_addr req) with
  | Some i => breakpoint_table w' = <[i := zeroed]> (breakpoint_table w)
  | None => breakpoint_table w' = breakpoint_table w
  end.
Proof.
  unfold remove_sw_breakpoint.
  destruct (negb (sizeof_int_3_insn =? mem_len req)); [discriminate|].
  destruct (find_breakpoint (breakpoint_table w) (mem_addr req)) as [i|].
  - destruct (breakpoint_table w !! i); [|discriminate]. now intros [= <- <-].
  - now intros [= <- <-].
Qed.

(** C5 (amended): the empty table holds at most one entry per non-null
    address.  set_sw_breakpoint does not look for an entry of the address
    it is given: it keeps the addresses unique when the address is not in
    the table yet.  remove_sw_breakpoint always keeps them unique, and it
    zeroes the entry it removes, after which a non-null address that was
    unique is in the table no more. *)
Theorem breakpoint_table_unique :
  unique_addrs empty_table /\
  (forall ctx req w u w',
     unique_addrs (breakpoint_table w) ->
     absent (mem_addr req) (breakpoint_table w) ->
     set_sw_breakpoint ctx req w = Done (u, w') ->
     unique_addrs (breakpoint_table w')) /\
  (forall ctx req w u w',
     unique_addrs (breakpoint_table w) ->
     remove_sw_breakpoint ctx req w = Done (u, w') ->
     unique_addrs (breakpoint_table w')) /\
  (forall ctx req w i,
     mem_len req = sizeof_int_3_insn ->
     length (breakpoint_table w) = MAX_NUM_BREAKPOINTS ->
     find_breakpoint (breakpoint_table w) (mem_addr req) = Some i ->
     exists w',
       remove_sw_breakpoint ctx req w = Done (tt, w') /\
       breakpoint_table w' = <[i := zeroed]> (breakpoint_table w) /\
       breakpoint_table w' !! i = Some zeroed /\
       (unique_addrs (breakpoint_table w) -> mem_addr req <> NULL ->
        absent (mem_addr req) (breakpoint_table w'))).
Proof.
  split; [exact unique_addrs_empty|]. split; [|split].
  - intros ctx req w u w' Hu Habs E.
    apply set_sw_breakpoint_Done in E as (i & _ & ->).
    now apply unique_addrs_insert_new.
  - intros ctx req w u w' Hu E. apply remove_sw_breakpoint_Done in E.
    destruct (find_breakpoint (breakpoint_table w) (mem_addr req)) as [i|]; rewrite E.
    + now apply unique_addrs_insert_zeroed.
    + exact Hu.
  - intros ctx req w i Hlen Htab Hfind.
    pose proof Hfind as Hfind'.
    apply (find_breakpoint_Some _ _ _ Htab) in Hfind' as (bp & Hi & Ha & _).
    unfold remove_sw_breakpoint. rewrite Hlen, Z.eqb_refl, Hfind, Hi. cbn [negb].
    eexists. split; [reflexivity|]. cbn. split; [reflexivity|].
    split; [apply list_lookup_insert_eq; apply lookup_lt_Some in Hi; exact Hi|].
    intros Hu Hnn. unfold absent. apply Forall_lookup. intros j bj Hj Heq.
    apply list_lookup_insert_Some in Hj as [(-> & <- & _)|(Hne & Hj)].
    + apply Hnn. now rewrite <- Heq.
    + apply Hne. apply (Hu i j bp bj Hi Hj); congruence.
Qed.

(** The table after SetSwBreak(0x400500) then RemoveSwBreak(0x400500): the
    entry is zeroed and the address is gone. *)
Lemma breakpoint_table_unique_witness :
  exists w1 w2,
    set_sw_breakpoint (task_at 0) (request DREQ_SET_SW_BREAK 0x400500) (fresh_world [])
      = Done (tt, w1) /\
    remove_sw_breakpoint (task_at 0) (request DREQ_REMOVE_SW_BREAK 0x400500) w1
      = Done (tt, w2) /\
    unique_addrs (breakpoint_table w1) /\
    breakpoint_table w2 !! 0%nat = Some zeroed /\
    absent 0x400500 (breakpoint_table w2).
Proof.
  destruct breakpoint_table_unique as (Hempty & Hset & Hrem & Hzero).
  set (w1 := write_child_byte 100 0x400500 int_3_insn
               (set_breakpoint_table
                  (<[0%nat := {| addr := 0x400500; overwritten_data := 0x55 |}]> empty_table)
                  (fresh_world []))).
  assert (E1 : set_sw_breakpoint (task_at 0) (request DREQ_SET_SW_BREAK 0x400500)
                 (fresh_world []) = Done (tt, w1)) by reflexivity.
  assert (Hu1 : unique_addrs (breakpoint_table w1)).
  { apply (Hset (task_at 0) (request DREQ_SET_SW_BREAK 0x400500) (fresh_world []) tt w1
                  Hempty); [|exact E1].
    change (breakpoint_table (fresh_world [])) with empty_table.
    apply Forall_replicate. discriminate. }
  destruct (Hzero (task_at 0) (request DREQ_REMOVE_SW_BREAK 0x400500) w1 0%nat)
    as (w2 & E2 & _ & Hz & Habs); [reflexivity | reflexivity | reflexivity |].
  exists w1, w2. split; [exact E1|]. split; [exact E2|].
  split; [exact Hu1|]. split; [exact Hz|].
  apply Habs; [exact Hu1 | discriminate].
Defined.

Section Replayer.

Context {hdr : Headers}.

(** C5 as stated fails: the debugger sets a breakpoint at 0x400500 twice,
    then continues; the table holds two entries for the address, the
    second with the trap byte as the byte it overwrote. *)
Lemma set_twice_counterexample :
  exists req dbg w,
    process_debugger_requests (hdr := sample_headers)
      (Some [request DREQ_SET_SW_BREAK 0x400500; request DREQ_SET_SW_BREAK 0x400500;
             request DREQ_CONTINUE 0])
      (task_at 0) (fresh_world []) = Done ((req, dbg), w) /\
    breakpoint_table w !! 0%nat = Some {| addr := 0x400500; overwritten_data := 0x55 |} /\
    breakpoint_table w !! 1%nat = Some {| addr := 0x400500; overwritten_data := 0xCC |} /\
    ~ unique_addrs (breakpoint_table w).
Proof.
  eexists _, _, _. split; [reflexivity|]. split; [reflexivity|]. split; [reflexivity|].
  intros Hu. specialize (Hu 0%nat 1%nat _ _ eq_refl eq_refl eq_refl). cbn in Hu.
  assert (0%nat = 1%nat) by (apply Hu; discriminate). discriminate.
Qed.

(** C9: with every entry of the table occupied, set_sw_breakpoint fails
    an assertion (the one on the free slot, for a request of the size of
    the trap instruction), and so does the request loop that received the
    SetSwBreak request: the process aborts and no reply is sent. *)
Theorem set_sw_breakpoint_table_full ctx req reqs w :
  table_full (breakpoint_table w) ->
  type req = DREQ_SET_SW_BREAK ->
  dbg_is_resume_request req = false ->
  (exists cond,
     set_sw_breakpoint ctx req w = AssertFailed cond /\
     (mem_len req = sizeof_int_3_insn -> cond = "bp && 'Sorry, ran out of breakpoints'"%string)) /\
  (exists cond, process_debugger_requests (Some (req :: reqs)) ctx w = AssertFailed cond).
Proof.
  intros [Hlen Hfull] Hty Hnr.
  assert (Hnone : find_breakpoint (breakpoint_table w) NULL = None).
  { apply absent_find_breakpoint. exact Hfull. }
  assert (Hset : exists cond,
     set_sw_breakpoint ctx req w = AssertFailed cond /\
     (mem_len req = sizeof_int_3_insn -> cond = "bp && 'Sorry, ran out of breakpoints'"%string)).
  { unfold set_sw_breakpoint. rewrite Hnone.
    destruct (sizeof_int_3_insn =? mem_len req) eqn:E; cbn [negb].
    - eexists. split; [reflexivity | reflexivity].
    - eexists. split; [reflexivity|]. intros Hl. rewrite Hl, Z.eqb_refl in E. discriminate. }
  split; [exact Hset|].
  destruct Hset as (cond & Hset & _). exists cond.
  unfold process_debugger_requests. cbn [serve_requests].
  rewrite Hnr, Hty. unfold bind. rewrite Hset. reflexivity.
Qed.

(** C10: remove_sw_breakpoint on an address no entry holds (the request
    being of the size of the trap instruction, as the function asserts)
    emits a warning and returns; the table and the tracee's memory are as
    they were. *)
Theorem remove_sw_breakpoint_no_match ctx req w :
  mem_len req = sizeof_int_3_insn ->
  absent (mem_addr req) (breakpoint_table w) ->
  exists w',
    remove_sw_breakpoint ctx req w = Done (tt, w') /\
    out w' = out w ++ [warn "Couldn't find breakpoint to remove" (mem_addr req)] /\
    breakpoint_table w' = breakpoint_table w /\
    child_mem w' = child_mem w /\
    child_regs w' = child_regs w /\ validate w' = validate w.
Proof.
  intros Hlen Habs. unfold remove_sw_breakpoint.
  rewrite Hlen, Z.eqb_refl, (absent_find_breakpoint _ _ Habs). cbn [negb].
  eexists. split; [reflexivity|]. repeat split.
Qed.

(** *** cont_syscall_boundary *)

(** C7: after the ptrace advance and the wait, the pending signal decides:
    0, the boundary was reached and the function returns 0; SIGCHLD, the
    signal is swallowed and the advance is tried again; SIGTRAP, the
    function returns 1; any other signal, the replay has diverged and the
    function ends in emergency_debug, which never returns. *)
Theorem cont_syscall_boundary_dispatch ctx emu stepi w s rest :
  replay_sig ctx = 0 ->
  stops w = s :: rest ->
  let sig := signal_pending (stop_status s) in
  let ctx1 := set_child_sig sig (set_status (stop_status s) ctx) in
  let w1 := write_child_registers (child_tid ctx) (stop_regs s)
              (set_stops rest (emit (ptrace_request ctx emu stepi) w)) in
  (sig = 0 ->
     cont_syscall_boundary ctx emu stepi w =
       Done ((0, ctx1), emit (rep_child_buffer0 (child_tid ctx)) w1)) /\
  (sig = SIGCHLD ->
     cont_syscall_boundary ctx emu stepi w = cont_syscall_boundary ctx1 emu stepi w1) /\
  (sig = SIGTRAP ->
     cont_syscall_boundary ctx emu stepi w = Done ((1, ctx1), w1)) /\
  (sig <> 0 -> sig <> SIGCHLD -> sig <> SIGTRAP ->
     cont_syscall_boundary ctx emu stepi w =
       no_return (emergency_debug ctx1
                    (emit (log_err "Replay got unrecorded signal" sig) w1)) /\
     returned (cont_syscall_boundary ctx emu stepi w) = false).
Proof.
  intros Hrs Hstops sig ctx1 w1.
  assert (E : cont_syscall_boundary ctx emu stepi w =
    if sig =? 0 then Done ((0, ctx1), emit (rep_child_buffer0 (child_tid ctx)) w1)
    else if sig =? SIGCHLD then cont_syscall_boundary_from rest ctx1 emu stepi w1
    else if sig =? SIGTRAP then Done ((1, ctx1), w1)
    else no_return (emergency_debug ctx1
                      (emit (log_err "Replay got unrecorded signal" sig) w1))).
  { unfold cont_syscall_boundary. rewrite Hstops.
    cbn [cont_syscall_boundary_from]. rewrite Hrs. cbn [Z.eqb negb].
    cbn [child_sig set_child_sig status set_status child_tid].
    fold sig. destruct (sig =? 0); reflexivity. }
  rewrite E. split; [|split; [|split]].
  - intros ->. reflexivity.
  - intros Hs. rewrite Hs. reflexivity.
  - intros Hs. rewrite Hs. reflexivity.
  - intros N0 N1 N2.
    apply Z.eqb_neq in N0, N1, N2. rewrite N0, N1, N2. split; [reflexivity|].
    destruct (emergency_debug ctx1 _) as [[[] ?]| | | |]; reflexivity.
Qed.

(** *** replay_one_trace_frame *)

Variable rr_flags : flags.

Lemma bind_Done {S A B} (m : StateM S A) (f : A -> StateM S B) s r :
  bind m f s = Done r -> exists a s1, m s = Done (a, s1) /\ f a s1 = Done r.
Proof.
  unfold bind. destruct (m s) as [[a s1]| | | |]; try discriminate. eauto.
Qed.

Lemma bind_agree {S A B} (m : StateM S A) (f g : A -> StateM S B) s :
  (forall a s1, m s = Done (a, s1) -> f a s1 = g a s1) -> bind m f s = bind m g s.
Proof.
  intros H. unfold bind. destruct (m s) as [[a s1]| | | |]; try reflexivity.
  now apply H.
Qed.

Lemma bind_ret_l' {S A B} (a : A) (f : A -> StateM S B) s : bind (ret a) f s = f a s.
Proof. reflexivity. Qed.

Lemma same_task_refl ctx : same_task ctx ctx.
Proof. repeat split. Qed.

Lemma same_task_trans c1 c2 c3 : same_task c1 c2 -> same_task c2 c3 -> same_task c1 c3.
Proof. unfold same_task. intros (A1 & B1 & C1) (A2 & B2 & C2). repeat split; congruence. Qed.

Lemma cont_syscall_boundary_from_same_task pending : forall ctx emu stepi w r w',
  cont_syscall_boundary_from pending ctx emu stepi w = Done (r, w') ->
  same_task ctx r.2.
Proof.
  induction pending as [|s rest IH]; intros ctx emu stepi w r w';
    cbn [cont_syscall_boundary_from];
    destruct (negb (replay_sig ctx =? 0)); try discriminate.
  cbn [child_sig set_child_sig status set_status child_tid].
  destruct (signal_pending (stop_status s) =? 0).
  { cbn [negb]. intros [= <- _]. repeat split. }
  destruct (signal_pending (stop_status s) =? SIGCHLD).
  { intros E. apply IH in E. eapply same_task_trans; [|exact E]. repeat split. }
  destruct (signal_pending (stop_status s) =? SIGTRAP).
  { intros [= <- _]. repeat split. }
  destruct (emergency_debug _ _) as [[[] ?]| | | |]; discriminate.
Qed.

Lemma validate_args_Done no st ctx w u w' :
  validate_args no st ctx w = Done (u, w') -> w' = w.
Proof.
  unfold validate_args. destruct (negb (validate w)); [now intros [= _ <-]|].
  destruct (compare_register_files _ _); [discriminate | now intros [= _ <-]].
Qed.

Lemma try_one_trace_step_same_task ctx step req w r w' :
  try_one_trace_step ctx step req w = Done (r, w') -> same_task ctx r.2.
Proof.
  unfold try_one_trace_step. destruct (action step).
  - intros [= <- _]. apply same_task_refl.
  - unfold enter_syscall. intros E.
    apply bind_Done in E as (r1 & w1 & E1 & E).
    apply cont_syscall_boundary_from_same_task in E1.
    destruct (negb (r1.1 =? 0)).
    + injection E as <- _. exact E1.
    + apply bind_Done in E as (u & w2 & _ & E). injection E as <- _. exact E1.
  - unfold exit_syscall. intros E.
    apply bind_Done in E as (r1 & w1 & E1 & E).
    assert (S1 : same_task ctx r1.2).
    { destruct (negb (syscall_emu step)).
      - now apply cont_syscall_boundary_from_same_task in E1.
      - injection E1 as <- _. apply same_task_refl. }
    destruct (negb (r1.1 =? 0)).
    + injection E as <- _. exact S1.
    + apply bind_Done in E as (u1 & w2 & _ & E).
      apply bind_Done in E as (u2 & w3 & _ & E).
      apply bind_Done in E as (u3 & w4 & _ & E).
      apply bind_Done in E as (c4 & w5 & E4 & E).
      injection E as <- _. cbn [snd].
      destruct (syscall_emu step).
      * unfold step_exit_syscall_emu in E4.
        destruct (negb (replay_sig r1.2 =? 0)); [discriminate|].
        unfold sys_waitpid in E4. cbn [stops emit] in E4.
        destruct (stops w4); [discriminate|].
        injection E4 as <- _. eapply same_task_trans; [exact S1|]. repeat split.
      * injection E4 as <- _. exact S1.
  - discriminate.
Qed.

Lemma advance_same_task fuel : forall dbg ctx step req w r w',
  advance fuel dbg ctx step req w = Done (r, w') -> same_task ctx r.2.
Proof.
  induction fuel as [|fuel IH]; intros dbg ctx step req w r w'; [discriminate|].
  cbn [advance]. intros E.
  apply bind_Done in E as (r1 & w1 & E1 & E).
  apply try_one_trace_step_same_task in E1.
  destruct (r1.1 =? 0).
  { injection E as <- _. exact E1. }
  destruct (negb (SIGTRAP =? child_sig r1.2)); [discriminate|].
  apply bind_Done in E as (ok & w2 & _ & E).
  destruct (negb ok); [discriminate|].
  apply bind_Done in E as (u & w3 & _ & E).
  apply bind_Done in E as (r2 & w4 & _ & E).
  destruct (negb (dbg_is_resume_request r2.1)); [discriminate|].
  apply IH in E. eapply same_task_trans; eassumption.
Qed.

(** debug_memory always returns, and leaves only memory checks. *)
Lemma debug_memory_out ctx w :
  exists dm, Forall is_memory_check dm /\
    debug_memory rr_flags ctx w = Done (tt, {|
      validate := validate w; breakpoint_table := breakpoint_table w;
      child_mem := child_mem w; child_regs := child_regs w; sched := sched w;
      stops := stops w; emergency_client := emergency_client w;
      out := out w ++ dm |}).
Proof.
  unfold debug_memory, bind, call, ret.
  destruct ((dump_on rr_flags =? stop_reason (trace ctx))
            || (dump_on rr_flags =? DUMP_ON_ALL)
            || (to_uint32 (dump_at rr_flags) =? global_time (trace ctx)));
    cbn [validate emit];
    destruct (validate w
              && ((checksum rr_flags =? CHECKSUM_ALL)
                  || ((checksum rr_flags =? CHECKSUM_SYSCALL)
                      && (state (trace ctx) =? STATE_SYSCALL_EXIT))
                  || (to_uint32 (checksum rr_flags) <=? global_time (trace ctx)))).
  - exists [print_process_memory (child_tid ctx) (global_time (trace ctx));
            validate_process_memory (child_tid ctx)].
    split; [repeat constructor|].
    unfold emit. cbn. now rewrite <- app_assoc.
  - exists [print_process_memory (child_tid ctx) (global_time (trace ctx))].
    split; [repeat constructor|]. reflexivity.
  - exists [validate_process_memory (child_tid ctx)].
    split; [repeat constructor|]. reflexivity.
  - exists []. split; [constructor|]. destruct w. cbn. now rewrite app_nil_r.
Qed.

(** What retire_frame leaves when it returns. *)
Lemma retire_frame_Done dbg ctx step req w dbg' fe w' :
  retire_frame rr_flags dbg ctx step req w = Done ((dbg', fe), w') ->
  exists ctx' pre dm,
    fe = Retired ctx' /\ same_task ctx ctx' /\ Forall is_memory_check dm /\
    out w' = pre ++ (if stop_reason (trace ctx) =? USR_FLUSH then []
                     else [reset_hpc (child_tid ctx) 0]) ++ dm.
Proof.
  unfold retire_frame. intros E.
  apply bind_Done in E as ([dbg1 ctx1] & w1 & E1 & E).
  apply advance_same_task in E1. cbn [fst snd] in E, E1.
  pose proof E1 as (Htr & Htid & _).
  apply bind_Done in E as (u & w2 & E2 & E).
  apply bind_Done in E as (u' & w3 & E3 & E).
  injection E as <- <- <-.
  destruct (debug_memory_out ctx1 w2) as (dm & Hdm & E3').
  rewrite E3' in E3. injection E3 as E3.
  exists ctx1, (out w1), dm. split; [reflexivity|]. split; [exact E1|].
  split; [exact Hdm|]. subst w3. cbn [out]. rewrite Htr, Htid in E2.
  destruct (negb (stop_reason (trace ctx) =? USR_FLUSH)) eqn:Ef.
  - apply negb_true_iff in Ef. rewrite Ef. injection E2 as E2. subst w2.
    cbn. now rewrite <- app_assoc.
  - apply negb_false_iff in Ef. rewrite Ef. injection E2 as E2. subst w2. reflexivity.
Qed.

(** **** The fuel of the advance loop *)

Lemma cont_syscall_boundary_from_waits pending : forall ctx emu stepi w r w',
  cont_syscall_boundary_from pending ctx emu stepi w = Done (r, w') ->
  (length (stops w') < length pending)%nat.
Proof.
  induction pending as [|s rest IH]; intros ctx emu stepi w r w';
    cbn [cont_syscall_boundary_from];
    destruct (negb (replay_sig ctx =? 0)); try discriminate.
  cbn [child_sig set_child_sig status set_status child_tid length].
  destruct (signal_pending (stop_status s) =? 0).
  { cbn [negb]. intros [= _ <-]. cbn. lia. }
  destruct (signal_pending (stop_status s) =? SIGCHLD).
  { intros E. apply IH in E. lia. }
  destruct (signal_pending (stop_status s) =? SIGTRAP).
  { intros [= _ <-]. cbn. lia. }
  destruct (emergency_debug _ _) as [[[] ?]| | | |]; discriminate.
Qed.

Lemma call_stops e w u w' : call e w = Done (u, w') -> stops w' = stops w.
Proof. now intros [= _ <-]. Qed.

Lemma set_sw_breakpoint_stops ctx req w u w' :
  set_sw_breakpoint ctx req w = Done (u, w') -> stops w' = stops w.
Proof.
  unfold set_sw_breakpoint.
  destruct (negb (sizeof_int_3_insn =? mem_len req)); [discriminate|].
  destruct (find_breakpoint (breakpoint_table w) NULL); [|discriminate].
  now intros [= _ <-].
Qed.

Lemma remove_sw_breakpoint_stops ctx req w u w' :
  remove_sw_breakpoint ctx req w = Done (u, w') -> stops w' = stops w.
Proof.
  unfold remove_sw_breakpoint.
  destruct (negb (sizeof_int_3_insn =? mem_len req)); [discriminate|].
  destruct (find_breakpoint (breakpoint_table w) (mem_addr req)) as [i|].
  - destruct (breakpoint_table w !! i); [|discriminate]. now intros [= _ <-].
  - now intros [= _ <-].
Qed.

(** Serving the debugger waits for no tracee. *)
Lemma serve_requests_stops reqs : forall ctx w r w',
  serve_requests reqs ctx w = Done (r, w') -> stops w' = stops w.
Proof.
  induction reqs as [|req reqs IH]; intros ctx w r w'; [discriminate|].
  cbn [serve_requests].
  destruct (dbg_is_resume_request req); [now intros [= _ <-]|].
  assert (Hcall' : forall (m : WM unit) w0,
            (forall wa u wb, m wa = Done (u, wb) -> stops wb = stops wa) ->
            bind m (fun _ => serve_requests reqs ctx) w0 = Done (r, w') ->
            stops w' = stops w0).
  { intros m w0 Hm E. apply bind_Done in E as (u & w1 & E1 & E).
    apply Hm in E1. apply IH in E. congruence. }
  destruct (type req); try discriminate;
    try (apply Hcall'; intros wa u wb; apply call_stops).
  - intros E. apply bind_Done in E as (u1 & w1 & E1 & E).
    apply set_sw_breakpoint_stops in E1. rewrite <- E1. revert E.
    apply Hcall'. intros wa u wb. apply call_stops.
  - intros E. apply bind_Done in E as (u1 & w1 & E1 & E).
    apply remove_sw_breakpoint_stops in E1. rewrite <- E1. revert E.
    apply Hcall'. intros wa u wb. apply call_stops.
Qed.

Lemma process_debugger_requests_stops dbg ctx w r w' :
  process_debugger_requests dbg ctx w = Done (r, w') -> stops w' = stops w.
Proof.
  unfold process_debugger_requests. destruct dbg as [reqs|]; [|now intros [= _ <-]].
  intros E. apply bind_Done in E as (r1 & w1 & E1 & E).
  apply serve_requests_stops in E1. injection E as _ <-. exact E1.
Qed.

(** A step that did not succeed has waited for the tracee. *)
Lemma try_one_trace_step_waits ctx step req w r w' :
  try_one_trace_step ctx step req w = Done (r, w') ->
  r.1 <> 0 -> (length (stops w') < length (stops w))%nat.
Proof.
  unfold try_one_trace_step. destruct (action step).
  - intros [= <- _] Hn. now contradict Hn.
  - unfold enter_syscall. intros E Hn.
    apply bind_Done in E as (r1 & w1 & E1 & E).
    apply cont_syscall_boundary_from_waits in E1.
    destruct (negb (r1.1 =? 0)) eqn:Ez.
    + now injection E as _ <-.
    + apply bind_Done in E as (u & w2 & _ & E). injection E as <- _.
      apply negb_false_iff, Z.eqb_eq in Ez. contradiction.
  - unfold exit_syscall. intros E Hn.
    apply bind_Done in E as (r1 & w1 & E1 & E).
    destruct (negb (r1.1 =? 0)) eqn:Ez.
    + injection E as <- <-.
      destruct (negb (syscall_emu step)).
      * now apply cont_syscall_boundary_from_waits in E1.
      * injection E1 as <- _. now contradict Hn.
    + apply bind_Done in E as (u1 & w2 & _ & E).
      apply bind_Done in E as (u2 & w3 & _ & E).
      apply bind_Done in E as (u3 & w4 & _ & E).
      apply bind_Done in E as (c4 & w5 & _ & E).
      injection E as <- _. now contradict Hn.
  - discriminate.
Qed.

(** The fuel replay_one_trace_frame gives the loop is never used up: more
    of it changes nothing. *)
Lemma advance_fuel fuel1 : forall fuel2 dbg ctx step req w,
  (length (stops w) < fuel1)%nat -> (length (stops w) < fuel2)%nat ->
  advance fuel1 dbg ctx step req w = advance fuel2 dbg ctx step req w.
Proof.
  induction fuel1 as [|fuel1 IH]; intros fuel2 dbg ctx step req w H1 H2; [lia|].
  destruct fuel2 as [|fuel2]; [lia|].
  cbn [advance]. apply bind_agree. intros r w1 E1.
  destruct (r.1 =? 0) eqn:Ez; [reflexivity|].
  apply Z.eqb_neq in Ez. apply (try_one_trace_step_waits _ _ _ _ _ _ E1) in Ez.
  destruct (negb (SIGTRAP =? child_sig r.2)); [reflexivity|].
  apply bind_agree. intros ok w2 [= _ <-].
  destruct (negb ok); [reflexivity|].
  apply bind_agree. intros u w3 E3. apply call_stops in E3.
  apply bind_agree. intros r2 w4 E4. apply process_debugger_requests_stops in E4.
  destruct (negb (dbg_is_resume_request r2.1)); [reflexivity|].
  apply IH; rewrite E4, E3; lia.
Qed.

(** What replay_one_trace_frame leaves when it returns: either the task
    exited and the last thing done was to deregister it, or the frame was
    retired. *)
Lemma replay_one_trace_frame_Done dbg ctx stack_req w dbg' fe w' :
  replay_one_trace_frame rr_flags dbg ctx stack_req w = Done ((dbg', fe), w') ->
  (fe = TaskExited /\ stop_reason (trace ctx) = USR_EXIT /\
   exists pre, out w' = pre ++ [rep_sched_deregister_thread (rec_tid ctx)]) \/
  (exists ctx' pre dm,
     fe = Retired ctx' /\ same_task ctx ctx' /\ Forall is_memory_check dm /\
     out w' = pre ++ (if stop_reason (trace ctx) =? USR_FLUSH then []
                      else [reset_hpc (child_tid ctx) 0]) ++ dm).
Proof.
  unfold replay_one_trace_frame. intros E.
  apply bind_Done in E as ([req dbg1] & w1 & _ & E). cbn [fst snd] in E.
  apply bind_Done in E as (u & w2 & _ & E).
  destruct (negb (child_sig ctx =? 0) && negb (stop_reason (trace ctx) =? - child_sig ctx));
    [discriminate|].
  set (ctx0 := if negb (child_sig ctx =? 0) then set_child_sig 0 ctx else ctx) in E.
  assert (S0 : same_task ctx ctx0).
  { subst ctx0. destruct (negb (child_sig ctx =? 0)); repeat split. }
  pose proof S0 as (Htr & Htid & Hrec).
  assert (Hretire : forall step wa,
    retire_frame rr_flags dbg1 ctx0 step req wa = Done ((dbg', fe), w') ->
    exists ctx' pre dm,
      fe = Retired ctx' /\ same_task ctx ctx' /\ Forall is_memory_check dm /\
      out w' = pre ++ (if stop_reason (trace ctx) =? USR_FLUSH then []
                       else [reset_hpc (child_tid ctx) 0]) ++ dm).
  { intros step wa Er.
    apply retire_frame_Done in Er as (ctx' & pre & dm & Hfe & Hs & Hdm & Hout).
    exists ctx', pre, dm. split; [exact Hfe|].
    split; [eapply same_task_trans; eassumption|]. split; [exact Hdm|].
    now rewrite <- Htr, <- Htid. }
  rewrite Htr in E.
  destruct (stop_reason (trace ctx) =? USR_INIT_SCRATCH_MEM).
  { right. apply bind_Done in E as (u1 & w3 & _ & E).
    apply bind_Done in E as (u2 & w4 & _ & E). eapply Hretire, E. }
  destruct (stop_reason (trace ctx) =? USR_EXIT) eqn:Eexit.
  { left. apply bind_Done in E as (u1 & w3 & E1 & E).
    apply bind_Done in E as (u2 & w4 & E2 & E).
    injection E as <- <- <-. injection E1 as <- <-. injection E2 as <- <-.
    split; [reflexivity|]. split; [now apply Z.eqb_eq|].
    exists (out w2). cbn. now rewrite Hrec. }
  right.
  destruct (stop_reason (trace ctx) =? USR_FLUSH).
  { apply bind_Done in E as (u1 & w3 & _ & E). eapply Hretire, E. }
  destruct (stop_reason (trace ctx) <? 0).
  { apply bind_Done in E as (u1 & w3 & _ & E). eapply Hretire, E. }
  apply bind_Done in E as (u1 & w3 & _ & E).
  apply bind_Done in E as (u2 & w4 & _ & E). eapply Hretire, E.
Qed.

(** Before the first exec, with no signal carried over, a frame that
    needs no step is processed without waiting for anything. *)
Lemma replay_one_trace_frame_early dbg ctx stack_req w :
  validate w = false -> child_sig ctx = 0 ->
  stop_reason (trace ctx) <> USR_INIT_SCRATCH_MEM ->
  (stop_reason (trace ctx) = USR_EXIT ->
     exists w', replay_one_trace_frame rr_flags dbg ctx stack_req w
                = Done ((dbg, TaskExited), w')) /\
  (stop_reason (trace ctx) <> USR_EXIT -> stop_reason (trace ctx) <> USR_FLUSH ->
   stop_reason (trace ctx) < 0 ->
     exists w', replay_one_trace_frame rr_flags dbg ctx stack_req w
                = Done ((dbg, Retired ctx), w')).
Proof.
  intros Hv Hsig Hinit.
  apply Z.eqb_neq in Hinit.
  split.
  - intros Hexit. unfold replay_one_trace_frame.
    unfold bind at 1. rewrite Hv. unfold ret at 1. cbn [fst snd].
    unfold bind at 1.
    destruct ((if global_time (trace ctx) mod 10000 =? 0
               then call (progress (global_time (trace ctx))) else ret ()) w)
      as [[u w1]| | | |] eqn:Ep;
      [|destruct (global_time (trace ctx) mod 10000 =? 0); discriminate..].
    rewrite Hsig. cbn [Z.eqb negb andb]. rewrite Hinit.
    rewrite Hexit, Z.eqb_refl. eexists. reflexivity.
  - intros Hexit Hflush Hneg. unfold replay_one_trace_frame.
    apply Z.eqb_neq in Hexit, Hflush. apply Z.ltb_lt in Hneg.
    unfold bind at 1. rewrite Hv. unfold ret at 1. cbn [fst snd].
    unfold bind at 1.
    destruct ((if global_time (trace ctx) mod 10000 =? 0
               then call (progress (global_time (trace ctx))) else ret ()) w)
      as [[u w1]| | | |] eqn:Ep;
      [|destruct (global_time (trace ctx) mod 10000 =? 0); discriminate..].
    rewrite Hsig. cbn [Z.eqb negb andb]. rewrite Hinit, Hexit, Hflush, Hneg.
    unfold bind at 1. unfold call at 1.
    unfold retire_frame. unfold bind at 1.
    cbn [advance try_one_trace_step retire action]. rewrite bind_ret_l'.
    cbn [fst snd Z.eqb]. unfold ret at 1. cbn [fst snd].
    rewrite Hflush. cbn [negb]. unfold bind at 1, call at 1.
    unfold bind at 1.
    destruct (debug_memory_out ctx
                (emit (reset_hpc (child_tid ctx) 0)
                   (emit (rep_process_signal (child_tid ctx) (validate w1)) w1)))
      as (dm & _ & ->).
    eexists. reflexivity.
Qed.

(** C6 (amended): a frame that is processed to its end and whose stop
    reason is not USR_FLUSH has the ticks counter reset with period 0
    after its step is fulfilled, followed only by the memory checks of
    debug_memory (for USR_FLUSH there is no reset).  A frame with the stop
    reason USR_EXIT is not processed to its end: the function returns
    right after deregistering the task, without a reset.  Before the first
    exec both kinds of frame return without waiting for anything. *)
Theorem reset_hpc_after_frame dbg ctx stack_req w :
  (forall dbg' ctx' w',
     replay_one_trace_frame rr_flags dbg ctx stack_req w = Done ((dbg', Retired ctx'), w') ->
     same_task ctx ctx' /\
     exists pre dm,
       Forall is_memory_check dm /\
       out w' = pre ++ (if stop_reason (trace ctx) =? USR_FLUSH then []
                        else [reset_hpc (child_tid ctx) 0]) ++ dm) /\
  (forall dbg' w',
     replay_one_trace_frame rr_flags dbg ctx stack_req w = Done ((dbg', TaskExited), w') ->
     stop_reason (trace ctx) = USR_EXIT /\
     exists pre, out w' = pre ++ [rep_sched_deregister_thread (rec_tid ctx)]) /\
  (validate w = false -> child_sig ctx = 0 ->
   stop_reason (trace ctx) <> USR_INIT_SCRATCH_MEM ->
   (stop_reason (trace ctx) = USR_EXIT ->
      exists w', replay_one_trace_frame rr_flags dbg ctx stack_req w
                 = Done ((dbg, TaskExited), w')) /\
   (stop_reason (trace ctx) <> USR_EXIT -> stop_reason (trace ctx) <> USR_FLUSH ->
    stop_reason (trace ctx) < 0 ->
      exists w', replay_one_trace_frame rr_flags dbg ctx stack_req w
                 = Done ((dbg, Retired ctx), w'))).
Proof.
  split; [|split].
  - intros dbg' ctx' w' E.
    apply replay_one_trace_frame_Done in E
      as [(Hfe & _)|(ctx1 & pre & dm & Hfe & Hs & Hdm & Hout)]; [discriminate|].
    injection Hfe as ->. split; [exact Hs|]. exists pre, dm. now split.
  - intros dbg' w' E.
    apply replay_one_trace_frame_Done in E
      as [(_ & Hexit & Hout)|(ctx1 & pre & dm & Hfe & _)]; [|discriminate].
    now split.
  - apply replay_one_trace_frame_early.
Qed.

End Replayer.

(** A frame of signal 11 before the first exec, in autopilot: the signal
    is replayed, the ticks counter reset, and that is all. *)
Lemma reset_hpc_after_frame_witness :
  exists w',
    replay_one_trace_frame (hdr := sample_headers) no_flags None (task_at (-11))
      continue_all_tasks (fresh_world []) = Done ((None, Retired (task_at (-11))), w') /\
    out w' = [rep_process_signal 100 false; reset_hpc 100 0].
Proof.
  destruct (reset_hpc_after_frame (hdr := sample_headers) no_flags None (task_at (-11))
              continue_all_tasks (fresh_world [])) as (_ & _ & Hearly).
  destruct Hearly as (_ & Hsig); [reflexivity | reflexivity | discriminate |].
  destruct Hsig as (w' & E); [discriminate | discriminate | reflexivity |].
  exists w'. split; [exact E|].
  vm_compute in E. injection E as <-. reflexivity.
Defined.

(** C6 as stated fails: the stop reason USR_EXIT is not USR_FLUSH, yet
    the frame ends, without a reset of the ticks counter, as soon as the
    task is deregistered. *)
Lemma exit_frame_counterexample :
  USR_EXIT (Headers := sample_headers) <> USR_FLUSH (Headers := sample_headers) /\
  exists w',
    replay_one_trace_frame (hdr := sample_headers) no_flags None
      (task_at (USR_EXIT (Headers := sample_headers)))
      continue_all_tasks (fresh_world []) = Done ((None, TaskExited), w') /\
    out w' = [rep_sched_deregister_thread 100] /\
    ~ In (reset_hpc 100 0) (out w').
Proof.
  split; [discriminate|]. eexists. split; [vm_compute; reflexivity|].
  split; [reflexivity|]. cbn. intros [E|[]]. discriminate.
Qed.

(** Every entry is taken and the debugger asks for one more breakpoint. *)
Lemma set_sw_breakpoint_table_full_witness :
  exists cond,
    process_debugger_requests (hdr := sample_headers)
      (Some [request DREQ_SET_SW_BREAK 0x400500; request DREQ_CONTINUE 0])
      (task_at 0) (set_breakpoint_table full_table (fresh_world [])) = AssertFailed cond.
Proof.
  apply (set_sw_breakpoint_table_full (hdr := sample_headers) (task_at 0)
           (request DREQ_SET_SW_BREAK 0x400500) [request DREQ_CONTINUE 0]
           (set_breakpoint_table full_table (fresh_world []))).
  - split; [reflexivity|]. unfold full_table. cbn [breakpoint_table set_breakpoint_table].
    apply Forall_fmap, Forall_forall. intros i _. cbn. unfold NULL. lia.
  - reflexivity.
  - reflexivity.
Defined.

(** The debugger removes a breakpoint it never set. *)
Lemma remove_sw_breakpoint_no_match_witness :
  exists w',
    remove_sw_breakpoint (task_at 0) (request DREQ_REMOVE_SW_BREAK 0x400500) (fresh_world [])
      = Done (tt, w') /\
    out w' = [warn "Couldn't find breakpoint to remove" 0x400500] /\
    breakpoint_table w' = empty_table /\
    child_mem w' = child_mem (fresh_world []) /\
    child_regs w' = child_regs (fresh_world []) /\ validate w' = false.
Proof.
  apply (remove_sw_breakpoint_no_match (task_at 0) (request DREQ_REMOVE_SW_BREAK 0x400500)
           (fresh_world [])).
  - reflexivity.
  - change (breakpoint_table (fresh_world [])) with empty_table.
    apply Forall_replicate. discriminate.
Defined.

(** A SIGCHLD arrives on the way to the syscall; the second wait finds the
    syscall stop. *)
Lemma cont_syscall_boundary_dispatch_witness :
  exists ctx' w',
    cont_syscall_boundary (hdr := sample_headers) (task_at 5) false false
      (fresh_world [stopped_with SIGCHLD; stopped_with (Z.lor SIGTRAP 0x80)])
      = Done ((0, ctx'), w') /\
    out w' = [sys_ptrace_syscall_sig 100 0; sys_ptrace_syscall_sig 100 0;
              rep_child_buffer0 100].
Proof.
  destruct (cont_syscall_boundary_dispatch (hdr := sample_headers) (task_at 5) false false
              (fresh_world [stopped_with SIGCHLD; stopped_with (Z.lor SIGTRAP 0x80)])
              (stopped_with SIGCHLD) [stopped_with (Z.lor SIGTRAP 0x80)]
              eq_refl eq_refl) as (_ & Hchld & _).
  rewrite (Hchld eq_refl).
  eexists _, _. split; reflexivity.
Defined.

(** ** More of the breakpoint table *)

Lemma first_free_entry table :
  length table = MAX_NUM_BREAKPOINTS -> has_free_entry table ->
  exists i bp,
    find_breakpoint table NULL = Some i /\ table !! i = Some bp /\ addr bp = NULL /\
    forall j bj, table !! j = Some bj -> (j < i)%nat -> addr bj <> NULL.
Proof.
  intros Hlen Hfree.
  destruct (find_breakpoint table NULL) as [i|] eqn:E.
  - pose proof E as E'. apply (find_breakpoint_Some _ _ _ Hlen) in E' as (bp & Hi & Ha & Hmin).
    exists i, bp. auto.
  - exfalso. apply (find_breakpoint_None _ _ Hlen) in E.
    unfold has_free_entry in Hfree. apply Exists_exists in Hfree as (bp & Hin & Hz).
    unfold absent in E. rewrite Forall_forall in E. exact (E bp Hin Hz).
Qed.

(** The entry set_sw_breakpoint fills is the one find_breakpoint finds for
    the address afterwards, when no entry had the address before. *)
Lemma find_breakpoint_inserted table i bp :
  length table = MAX_NUM_BREAKPOINTS -> (i < length table)%nat ->
  absent (addr bp) table ->
  find_breakpoint (<[i := bp]> table) (addr bp) = Some i.
Proof.
  intros Hlen Hi Habs.
  apply find_breakpoint_Some; [now rewrite length_insert|].
  exists bp. split; [now apply list_lookup_insert_eq|]. split; [reflexivity|].
  intros j bj Hj Hlt. rewrite list_lookup_insert_ne in Hj by lia.
  unfold absent in Habs. rewrite Forall_lookup in Habs. exact (Habs j bj Hj).
Qed.

Lemma set_sw_breakpoint_exact ctx req w i :
  mem_len req = sizeof_int_3_insn ->
  find_breakpoint (breakpoint_table w) NULL = Some i ->
  set_sw_breakpoint ctx req w =
    Done (tt,
          write_child_byte (child_tid ctx) (mem_addr req) int_3_insn
            (set_breakpoint_table
               (<[i := {| addr := mem_addr req;
                          overwritten_data := child_mem w (child_tid ctx) (mem_addr req) |}]>
                  (breakpoint_table w)) w)).
Proof.
  intros Hlen Hf. unfold set_sw_breakpoint. now rewrite Hlen, Z.eqb_refl, Hf.
Qed.

Lemma remove_sw_breakpoint_exact ctx req w i bp :
  mem_len req = sizeof_int_3_insn ->
  find_breakpoint (breakpoint_table w) (mem_addr req) = Some i ->
  breakpoint_table w !! i = Some bp ->
  remove_sw_breakpoint ctx req w =
    Done (tt,
          set_breakpoint_table (<[i := zeroed]> (breakpoint_table w))
            (write_child_byte (child_tid ctx) (addr bp) (overwritten_data bp) w)).
Proof.
  intros Hlen Hf Hi. unfold remove_sw_breakpoint. now rewrite Hlen, Z.eqb_refl, Hf, Hi.
Qed.

Lemma eip_after_trap a : 0 <= a < 2 ^ 32 -> (a + 1 - sizeof_int_3_insn) mod 2 ^ 32 = a.
Proof. intros H. unfold sizeof_int_3_insn. rewrite Z.mod_small; lia. Qed.

(** X18: a breakpoint set and removed again leaves no trace.  For an
    address (a 32-bit, non-null one) the table does not hold, on a table
    with a free entry: set_sw_breakpoint returns, the tracee has the trap
    instruction at the address and a trap right after it is recognised as
    a breakpoint; remove_sw_breakpoint for the address then returns with
    no warning, every byte of every tracee is what it was before the
    breakpoint was set, the entries of the table have the addresses they
    had, and a trap after the address is a breakpoint no more. *)
Theorem set_remove_round_trip ctx req w :
  mem_len req = sizeof_int_3_insn ->
  0 < mem_addr req < 2 ^ 32 ->
  length (breakpoint_table w) = MAX_NUM_BREAKPOINTS ->
  has_free_entry (breakpoint_table w) ->
  absent (mem_addr req) (breakpoint_table w) ->
  exists w1 w2,
    set_sw_breakpoint ctx req w = Done (tt, w1) /\
    child_mem w1 (child_tid ctx) (mem_addr req) = int_3_insn /\
    eip_is_breakpoint (mem_addr req + 1) w1 = true /\
    remove_sw_breakpoint ctx req w1 = Done (tt, w2) /\
    (forall t x, child_mem w2 t x = child_mem w t x) /\
    map addr (breakpoint_table w2) = map addr (breakpoint_table w) /\
    eip_is_breakpoint (mem_addr req + 1) w2 = false /\
    out w2 = out w.
Proof.
  intros Hlen Ha Htab Hfree Habs.
  destruct (first_free_entry _ Htab Hfree) as (i & b0 & Hf & Hi & Hz & _).
  pose proof (lookup_lt_Some _ _ _ Hi) as Hlt.
  set (bp := {| addr := mem_addr req;
                overwritten_data := child_mem w (child_tid ctx) (mem_addr req) |}).
  set (w1 := write_child_byte (child_tid ctx) (mem_addr req) int_3_insn
               (set_breakpoint_table (<[i := bp]> (breakpoint_table w)) w)).
  assert (F1 : find_breakpoint (breakpoint_table w1) (mem_addr req) = Some i).
  { exact (find_breakpoint_inserted (breakpoint_table w) i bp Htab Hlt Habs). }
  assert (L1 : breakpoint_table w1 !! i = Some bp).
  { now apply list_lookup_insert_eq. }
  set (w2 := set_breakpoint_table (<[i := zeroed]> (breakpoint_table w1))
               (write_child_byte (child_tid ctx) (addr bp) (overwritten_data bp) w1)).
  assert (T2 : breakpoint_table w2 = <[i := zeroed]> (breakpoint_table w)).
  { unfold w2, w1. cbn. apply list_insert_insert_eq. }
  assert (A2 : absent (mem_addr req) (breakpoint_table w2)).
  { rewrite T2. unfold absent. apply Forall_insert; [exact Habs|].
    cbn. unfold NULL. lia. }
  exists w1, w2.
  split; [exact (set_sw_breakpoint_exact ctx req w i Hlen Hf)|].
  split.
  { unfold w1. cbn. now rewrite !Z.eqb_refl. }
  split.
  { unfold eip_is_breakpoint. rewrite eip_after_trap by lia. rewrite F1.
    apply bool_decide_eq_true_2. eauto. }
  split; [exact (remove_sw_breakpoint_exact ctx req w1 i bp Hlen F1 L1)|].
  split.
  { intros t x. unfold w2, w1. cbn.
    destruct ((t =? child_tid ctx) && (x =? mem_addr req)) eqn:E; [|reflexivity].
    apply andb_true_iff in E as [Et Ex].
    apply Z.eqb_eq in Et, Ex. now subst. }
  split.
  { rewrite T2. change (map addr ?l) with (addr <$> l).
    rewrite list_fmap_insert. apply list_insert_id.
    rewrite list_lookup_fmap, Hi. cbn. now rewrite Hz. }
  split.
  { unfold eip_is_breakpoint. rewrite eip_after_trap by lia.
    rewrite (absent_find_breakpoint _ _ A2). apply bool_decide_eq_false_2.
    intros [? [=]]. }
  reflexivity.
Qed.

Lemma set_remove_round_trip_witness :
  exists w1 w2,
    set_sw_breakpoint (task_at 0) (request DREQ_SET_SW_BREAK 0x400500) (fresh_world [])
      = Done (tt, w1) /\
    child_mem w1 100 0x400500 = int_3_insn /\
    eip_is_breakpoint (0x400500 + 1) w1 = true /\
    remove_sw_breakpoint (task_at 0) (request DREQ_SET_SW_BREAK 0x400500) w1
      = Done (tt, w2) /\
    (forall t x, child_mem w2 t x = child_mem (fresh_world []) t x) /\
    map addr (breakpoint_table w2) = map addr (breakpoint_table (fresh_world [])) /\
    eip_is_breakpoint (0x400500 + 1) w2 = false /\
    out w2 = out (fresh_world []).
Proof.
  apply (set_remove_round_trip (task_at 0) (request DREQ_SET_SW_BREAK 0x400500)
           (fresh_world []));
    [reflexivity | cbn; lia | reflexivity | now left
    | apply Forall_replicate; discriminate].
Defined.


(** X19: the null address is the mark of a free entry, and a request
    about it is taken for one.  On a table with a free entry,
    remove_sw_breakpoint for the address 0 finds the first free entry: it
    does not warn, and writes the byte that entry holds to the address 0
    of the tracee; and a trap with the instruction pointer at 1 passes for
    a breakpoint. *)
Theorem null_address_matches_free_entry ctx req w :
  mem_len req = sizeof_int_3_insn -> mem_addr req = NULL ->
  length (breakpoint_table w) = MAX_NUM_BREAKPOINTS ->
  has_free_entry (breakpoint_table w) ->
  exists i bp w',
    breakpoint_table w !! i = Some bp /\ addr bp = NULL /\
    remove_sw_breakpoint ctx req w = Done (tt, w') /\
    out w' = out w /\
    child_mem w' (child_tid ctx) NULL = overwritten_data bp /\
    eip_is_breakpoint 1 w = true.
Proof.
  intros Hlen Ha Htab Hfree.
  destruct (first_free_entry _ Htab Hfree) as (i & bp & Hf & Hi & Hz & _).
  exists i, bp. eexists. split; [exact Hi|]. split; [exact Hz|].
  split.
  { apply (remove_sw_breakpoint_exact ctx req w i bp Hlen); [|exact Hi].
    now rewrite Ha. }
  split; [reflexivity|]. split.
  { cbn. rewrite Hz. now rewrite !Z.eqb_refl. }
  unfold eip_is_breakpoint.
  change ((1 - sizeof_int_3_insn) mod 2 ^ 32) with NULL. rewrite Hf.
  apply bool_decide_eq_true_2. eauto.
Qed.

Lemma null_address_matches_free_entry_witness :
  exists i bp w',
    breakpoint_table (fresh_world []) !! i = Some bp /\ addr bp = NULL /\
    remove_sw_breakpoint (task_at 0) (request DREQ_REMOVE_SW_BREAK 0) (fresh_world [])
      = Done (tt, w') /\
    out w' = out (fresh_world []) /\
    child_mem w' 100 NULL = overwritten_data bp /\
    eip_is_breakpoint 1 (fresh_world []) = true.
Proof.
  apply (null_address_matches_free_entry (task_at 0) (request DREQ_REMOVE_SW_BREAK 0)
           (fresh_world []));
    [reflexivity | reflexivity | reflexivity | now left].
Defined.

Lemma has_free_entry_lookup table i bp :
  table !! i = Some bp -> addr bp = NULL -> has_free_entry table.
Proof.
  intros Hi Hz. unfold has_free_entry. apply Exists_exists.
  exists bp. split; [|exact Hz]. eapply list_elem_of_lookup_2, Hi.
Qed.

(** X20: set twice and removed twice, a breakpoint stays in the tracee.
    For an address the table does not hold, on a table with two free
    entries: two set_sw_breakpoint and then two remove_sw_breakpoint for
    the address all return; the table holds the address no more, but the
    byte of the tracee at the address is the trap instruction, not the
    byte that was there: the second entry had recorded the trap of the
    first as the data it overwrote.  Every other byte is as it was. *)
Theorem set_twice_remove_twice ctx req w :
  mem_len req = sizeof_int_3_insn ->
  mem_addr req <> NULL ->
  length (breakpoint_table w) = MAX_NUM_BREAKPOINTS ->
  two_free_entries (breakpoint_table w) ->
  absent (mem_addr req) (breakpoint_table w) ->
  exists w4,
    (run _ <- set_sw_breakpoint ctx req;
     run _ <- set_sw_breakpoint ctx req;
     run _ <- remove_sw_breakpoint ctx req;
     remove_sw_breakpoint ctx req) w = Done (tt, w4) /\
    absent (mem_addr req) (breakpoint_table w4) /\
    child_mem w4 (child_tid ctx) (mem_addr req) = int_3_insn /\
    (forall t x, t <> child_tid ctx \/ x <> mem_addr req ->
       child_mem w4 t x = child_mem w t x) /\
    out w4 = out w.
Proof.
  intros Hlen Hnn Htab (i & j & bi & bj & Hij & Hi & Hzi & Hj & Hzj) Habs.
  pose proof Habs as Habs'. unfold absent in Habs'. rewrite Forall_lookup in Habs'.
  (* the first set *)
  destruct (first_free_entry _ Htab (has_free_entry_lookup _ _ _ Hi Hzi))
    as (i0 & b0 & Hf0 & Hi0 & Hz0 & Hmin0).
  pose proof (lookup_lt_Some _ _ _ Hi0) as Hlt0.
  set (bp1 := {| addr := mem_addr req;
                 overwritten_data := child_mem w (child_tid ctx) (mem_addr req) |}).
  set (t1 := <[i0 := bp1]> (breakpoint_table w)).
  set (w1 := write_child_byte (child_tid ctx) (mem_addr req) int_3_insn
               (set_breakpoint_table t1 w)).
  assert (E1 : set_sw_breakpoint ctx req w = Done (tt, w1))
    by exact (set_sw_breakpoint_exact ctx req w i0 Hlen Hf0).
  assert (Hlen1 : length t1 = MAX_NUM_BREAKPOINTS) by (unfold t1; now rewrite length_insert).
  (* the second set *)
  assert (Hfree1 : has_free_entry t1).
  { destruct (decide (i = i0)) as [->|Hne].
    - apply (has_free_entry_lookup _ j bj); [|exact Hzj].
      unfold t1. rewrite list_lookup_insert_ne by congruence. exact Hj.
    - apply (has_free_entry_lookup _ i bi); [|exact Hzi].
      unfold t1. rewrite list_lookup_insert_ne by congruence. exact Hi. }
  destruct (first_free_entry t1 Hlen1 Hfree1) as (j0 & b1 & Hf1 & Hj0 & Hz1 & Hmin1).
  assert (Hne01 : i0 <> j0).
  { intros <-. unfold t1 in Hj0. rewrite list_lookup_insert_eq in Hj0 by exact Hlt0.
    injection Hj0 as <-. now apply Hnn. }
  assert (Hlt01 : (i0 < j0)%nat).
  { destruct (Nat.lt_ge_cases i0 j0) as [H|H]; [exact H|]. exfalso.
    unfold t1 in Hj0. rewrite list_lookup_insert_ne in Hj0 by exact Hne01.
    apply (Hmin0 j0 b1 Hj0); [lia | exact Hz1]. }
  pose proof (lookup_lt_Some _ _ _ Hj0) as Hltj.
  assert (Hltj' : (j0 < length (breakpoint_table w))%nat).
  { unfold t1 in Hltj. now rewrite length_insert in Hltj. }
  set (bp2 := {| addr := mem_addr req;
                 overwritten_data := child_mem w1 (child_tid ctx) (mem_addr req) |}).
  set (t2 := <[j0 := bp2]> t1).
  set (w2 := write_child_byte (child_tid ctx) (mem_addr req) int_3_insn
               (set_breakpoint_table t2 w1)).
  assert (E2 : set_sw_breakpoint ctx req w1 = Done (tt, w2))
    by exact (set_sw_breakpoint_exact ctx req w1 j0 Hlen Hf1).
  assert (Hlen2 : length t2 = MAX_NUM_BREAKPOINTS) by (unfold t2; now rewrite length_insert).
  (* the first remove finds the first entry *)
  assert (L2 : t2 !! i0 = Some bp1).
  { unfold t2, t1. rewrite list_lookup_insert_ne by congruence.
    now apply list_lookup_insert_eq. }
  assert (F2 : find_breakpoint t2 (mem_addr req) = Some i0).
  { apply (find_breakpoint_Some _ _ _ Hlen2). exists bp1.
    split; [exact L2|]. split; [reflexivity|].
    intros k bk Hk Hlt. unfold t2, t1 in Hk.
    rewrite !list_lookup_insert_ne in Hk by lia. exact (Habs' k bk Hk). }
  set (t3 := <[i0 := zeroed]> t2).
  set (w3 := set_breakpoint_table t3
               (write_child_byte (child_tid ctx) (addr bp1) (overwritten_data bp1) w2)).
  assert (E3 : remove_sw_breakpoint ctx req w2 = Done (tt, w3))
    by exact (remove_sw_breakpoint_exact ctx req w2 i0 bp1 Hlen F2 L2).
  assert (Hlen3 : length t3 = MAX_NUM_BREAKPOINTS) by (unfold t3; now rewrite length_insert).
  (* the second remove finds the second entry *)
  assert (L3 : t3 !! j0 = Some bp2).
  { unfold t3, t2. rewrite list_lookup_insert_ne by congruence.
    apply list_lookup_insert_eq. exact Hltj. }
  assert (F3 : find_breakpoint t3 (mem_addr req) = Some j0).
  { apply (find_breakpoint_Some _ _ _ Hlen3). exists bp2.
    split; [exact L3|]. split; [reflexivity|].
    intros k bk Hk Hlt. unfold t3 in Hk.
    destruct (decide (k = i0)) as [->|Hki].
    - rewrite list_lookup_insert_eq in Hk by (rewrite Hlen2, <- Htab; exact Hlt0).
      injection Hk as <-. cbn. congruence.
    - unfold t2, t1 in Hk. rewrite !list_lookup_insert_ne in Hk by lia.
      exact (Habs' k bk Hk). }
  set (t4 := <[j0 := zeroed]> t3).
  set (w4 := set_breakpoint_table t4
               (write_child_byte (child_tid ctx) (addr bp2) (overwritten_data bp2) w3)).
  assert (E4 : remove_sw_breakpoint ctx req w3 = Done (tt, w4))
    by exact (remove_sw_breakpoint_exact ctx req w3 j0 bp2 Hlen F3 L3).
  exists w4. split.
  { rewrite (PerfCounters_facts.bind_run _ _ _ _ _ E1).
    rewrite (PerfCounters_facts.bind_run _ _ _ _ _ E2).
    rewrite (PerfCounters_facts.bind_run _ _ _ _ _ E3). exact E4. }
  split.
  { unfold absent. apply Forall_lookup. intros k bk Hk.
    change (breakpoint_table w4) with t4 in Hk. unfold t4, t3, t2, t1 in Hk.
    destruct (decide (k = j0)) as [->|Hkj].
    - rewrite list_lookup_insert_eq in Hk
        by (rewrite !length_insert; exact Hltj').
      injection Hk as <-. cbn. congruence.
    - rewrite list_lookup_insert_ne in Hk by congruence.
      destruct (decide (k = i0)) as [->|Hki].
      + rewrite list_lookup_insert_eq in Hk by (rewrite !length_insert; exact Hlt0).
        injection Hk as <-. cbn. congruence.
      + rewrite !list_lookup_insert_ne in Hk by congruence. exact (Habs' k bk Hk). }
  split.
  { unfold w4, w3, w2, w1. cbn. now rewrite !Z.eqb_refl. }
  split; [|reflexivity].
  intros t x Hother. unfold w4, w3, w2, w1. cbn.
  assert (E : (t =? child_tid ctx) && (x =? mem_addr req) = false).
  { apply andb_false_iff. destruct Hother as [H|H]; [left | right]; now apply Z.eqb_neq. }
  now rewrite E.
Qed.

Lemma set_twice_remove_twice_witness :
  exists w4,
    (run _ <- set_sw_breakpoint (task_at 0) (request DREQ_SET_SW_BREAK 0x400500);
     run _ <- set_sw_breakpoint (task_at 0) (request DREQ_SET_SW_BREAK 0x400500);
     run _ <- remove_sw_breakpoint (task_at 0) (request DREQ_SET_SW_BREAK 0x400500);
     remove_sw_breakpoint (task_at 0) (request DREQ_SET_SW_BREAK 0x400500))
      (fresh_world []) = Done (tt, w4) /\
    absent 0x400500 (breakpoint_table w4) /\
    child_mem w4 100 0x400500 = int_3_insn /\
    (forall t x, t <> 100 \/ x <> 0x400500 ->
       child_mem w4 t x = child_mem (fresh_world []) t x) /\
    out w4 = out (fresh_world []).
Proof.
  apply (set_twice_remove_twice (task_at 0) (request DREQ_SET_SW_BREAK 0x400500)
           (fresh_world []));
    [reflexivity | discriminate | reflexivity
    | exists 0%nat, 1%nat, zeroed, zeroed; repeat split; discriminate
    | apply Forall_replicate; discriminate].
Defined.


(** ** More of the replay *)

Section Frames.

Context {hdr : Headers}.
Variable rr_flags : flags.

(** *** What only the frame itself changes

    [f] is something of the world that no write to the tracee, to the
    table, to the queue of stops or to the trace of events changes. *)

Section Kept.

Context {X : Type} (f : World -> X).
Hypothesis f_emit : forall e w, f (emit e w) = f w.
Hypothesis f_table : forall t w, f (set_breakpoint_table t w) = f w.
Hypothesis f_mem : forall m w, f (set_child_mem m w) = f w.
Hypothesis f_regs : forall r w, f (set_child_regs r w) = f w.
Hypothesis f_stops : forall s w, f (set_stops s w) = f w.

Lemma call_kept e w u w' : call e w = Done (u, w') -> f w' = f w.
Proof. intros [= _ <-]. apply f_emit. Qed.

Lemma set_sw_breakpoint_kept ctx req w u w' :
  set_sw_breakpoint ctx req w = Done (u, w') -> f w' = f w.
Proof.
  unfold set_sw_breakpoint.
  destruct (negb (sizeof_int_3_insn =? mem_len req)); [discriminate|].
  destruct (find_breakpoint (breakpoint_table w) NULL); [|discriminate].
  intros [= _ <-]. unfold write_child_byte. now rewrite f_mem, f_table.
Qed.

Lemma remove_sw_breakpoint_kept ctx req w u w' :
  remove_sw_breakpoint ctx req w = Done (u, w') -> f w' = f w.
Proof.
  unfold remove_sw_breakpoint.
  destruct (negb (sizeof_int_3_insn =? mem_len req)); [discriminate|].
  destruct (find_breakpoint (breakpoint_table w) (mem_addr req)) as [i|].
  - destruct (breakpoint_table w !! i); [|discriminate].
    intros [= _ <-]. unfold write_child_byte. now rewrite f_table, f_mem.
  - intros [= _ <-]. apply f_emit.
Qed.

Lemma serve_requests_kept reqs : forall ctx w r w',
  serve_requests reqs ctx w = Done (r, w') -> f w' = f w.
Proof.
  induction reqs as [|req reqs IH]; intros ctx w r w'; [discriminate|].
  cbn [serve_requests].
  destruct (dbg_is_resume_request req); [now intros [= _ <-]|].
  assert (Hcall : forall (m : WM unit) w0,
            (forall wa u wb, m wa = Done (u, wb) -> f wb = f wa) ->
            bind m (fun _ => serve_requests reqs ctx) w0 = Done (r, w') ->
            f w' = f w0).
  { intros m w0 Hm E. apply bind_Done in E as (u & w1 & E1 & E).
    apply Hm in E1. apply IH in E. congruence. }
  destruct (type req); try discriminate;
    try (apply Hcall; intros wa u wb; apply call_kept).
  - intros E. apply bind_Done in E as (u1 & w1 & E1 & E).
    apply set_sw_breakpoint_kept in E1. rewrite <- E1. revert E.
    apply Hcall. intros wa u wb. apply call_kept.
  - intros E. apply bind_Done in E as (u1 & w1 & E1 & E).
    apply remove_sw_breakpoint_kept in E1. rewrite <- E1. revert E.
    apply Hcall. intros wa u wb. apply call_kept.
Qed.

Lemma process_debugger_requests_kept dbg ctx w r w' :
  process_debugger_requests dbg ctx w = Done (r, w') -> f w' = f w.
Proof.
  unfold process_debugger_requests. destruct dbg as [reqs|]; [|now intros [= _ <-]].
  intros E. apply bind_Done in E as (r1 & w1 & E1 & E).
  apply serve_requests_kept in E1. injection E as _ <-. exact E1.
Qed.

Lemma cont_syscall_boundary_from_kept pending : forall ctx emu stepi w r w',
  cont_syscall_boundary_from pending ctx emu stepi w = Done (r, w') -> f w' = f w.
Proof.
  induction pending as [|s rest IH]; intros ctx emu stepi w r w';
    cbn [cont_syscall_boundary_from];
    destruct (negb (replay_sig ctx =? 0)); try discriminate.
  cbn [child_sig set_child_sig status set_status child_tid].
  assert (Hw : f (write_child_registers (child_tid ctx) (stop_regs s)
                    (set_stops rest (emit (ptrace_request ctx emu stepi) w))) = f w).
  { unfold write_child_registers. now rewrite f_regs, f_stops, f_emit. }
  destruct (signal_pending (stop_status s) =? 0).
  { cbn [negb]. intros [= _ <-]. now rewrite f_emit. }
  destruct (signal_pending (stop_status s) =? SIGCHLD).
  { intros E. apply IH in E. congruence. }
  destruct (signal_pending (stop_status s) =? SIGTRAP).
  { now intros [= _ <-]. }
  destruct (emergency_debug _ _) as [[[] ?]| | | |]; discriminate.
Qed.

Lemma set_child_data_kept ctx i w u w' :
  set_child_data ctx i w = Done (u, w') -> f w' = f w.
Proof. intros [= _ <-]. now rewrite f_mem, f_emit. Qed.

Lemma set_return_value_kept ctx w u w' :
  set_return_value ctx w = Done (u, w') -> f w' = f w.
Proof. intros [= _ <-]. unfold write_child_registers. now rewrite f_regs, f_emit. Qed.

Lemma set_child_data_loop_kept ctx n : forall from w u w',
  set_child_data_loop ctx from n w = Done (u, w') -> f w' = f w.
Proof.
  induction n as [|n IH]; intros from w u w'; cbn [set_child_data_loop].
  - now intros [= _ <-].
  - intros E. apply bind_Done in E as (u1 & w1 & E1 & E).
    apply set_child_data_kept in E1. apply IH in E. congruence.
Qed.

Lemma step_exit_syscall_emu_kept ctx w ctx' w' :
  step_exit_syscall_emu ctx w = Done (ctx', w') -> f w' = f w.
Proof.
  unfold step_exit_syscall_emu.
  destruct (negb (replay_sig ctx =? 0)); [discriminate|].
  unfold sys_waitpid. cbn [stops emit].
  destruct (stops w) as [|s rest]; [discriminate|].
  intros [= _ <-]. unfold write_child_registers.
  now rewrite !f_regs, f_stops, f_emit.
Qed.

Lemma try_one_trace_step_kept ctx step req w r w' :
  try_one_trace_step ctx step req w = Done (r, w') -> f w' = f w.
Proof.
  unfold try_one_trace_step. destruct (action step).
  - now intros [= _ <-].
  - unfold enter_syscall. intros E.
    apply bind_Done in E as (r1 & w1 & E1 & E).
    apply cont_syscall_boundary_from_kept in E1.
    destruct (negb (r1.1 =? 0)).
    + injection E as _ <-. exact E1.
    + apply bind_Done in E as (u & w2 & E2 & E). injection E as _ <-.
      apply validate_args_Done in E2. congruence.
  - unfold exit_syscall. intros E.
    apply bind_Done in E as (r1 & w1 & E1 & E).
    assert (K1 : f w1 = f w).
    { destruct (negb (syscall_emu step)).
      - now apply cont_syscall_boundary_from_kept in E1.
      - now injection E1 as _ <-. }
    destruct (negb (r1.1 =? 0)).
    + injection E as _ <-. exact K1.
    + apply bind_Done in E as (u1 & w2 & E2 & E).
      apply bind_Done in E as (u2 & w3 & E3 & E).
      apply bind_Done in E as (u3 & w4 & E4 & E).
      apply bind_Done in E as (c4 & w5 & E5 & E).
      injection E as _ <-.
      apply set_child_data_loop_kept in E2. apply validate_args_Done in E4. subst w4.
      assert (K3 : f w3 = f w2).
      { destruct (syscall_emu_ret step); [now apply set_return_value_kept in E3|].
        now injection E3 as _ <-. }
      assert (K5 : f w5 = f w3).
      { destruct (syscall_emu step); [now apply step_exit_syscall_emu_kept in E5|].
        now injection E5 as _ <-. }
      congruence.
  - discriminate.
Qed.

Lemma advance_kept fuel : forall dbg ctx step req w r w',
  advance fuel dbg ctx step req w = Done (r, w') -> f w' = f w.
Proof.
  induction fuel as [|fuel IH]; intros dbg ctx step req w r w'; [discriminate|].
  cbn [advance]. intros E.
  apply bind_Done in E as (r1 & w1 & E1 & E).
  apply try_one_trace_step_kept in E1.
  destruct (r1.1 =? 0).
  { injection E as _ <-. exact E1. }
  destruct (negb (SIGTRAP =? child_sig r1.2)); [discriminate|].
  apply bind_Done in E as (ok & w2 & E2 & E). injection E2 as _ <-.
  destruct (negb ok); [discriminate|].
  apply bind_Done in E as (u & w3 & E3 & E). apply call_kept in E3.
  apply bind_Done in E as (r2 & w4 & E4 & E).
  apply process_debugger_requests_kept in E4.
  destruct (negb (dbg_is_resume_request r2.1)); [discriminate|].
  apply IH in E. congruence.
Qed.

Lemma debug_memory_kept ctx w u w' :
  debug_memory rr_flags ctx w = Done (u, w') -> f w' = f w.
Proof.
  unfold debug_memory. intros E.
  apply bind_Done in E as (u1 & w1 & E1 & E).
  assert (K1 : f w1 = f w).
  { destruct (_ || _ || _) in E1; [now apply call_kept in E1|].
    now injection E1 as _ <-. }
  destruct (validate w1 && _) in E; [apply call_kept in E | injection E as _ <-];
    congruence.
Qed.

Lemma replay_init_scratch_memory_kept ctx file w u w' :
  replay_init_scratch_memory ctx file w = Done (u, w') -> f w' = f w.
Proof.
  unfold replay_init_scratch_memory. intros [= _ <-].
  unfold write_child_registers. now rewrite f_regs, f_emit.
Qed.

Lemma retire_frame_kept dbg ctx step req w r w' :
  retire_frame rr_flags dbg ctx step req w = Done (r, w') -> f w' = f w.
Proof.
  unfold retire_frame. intros E.
  apply bind_Done in E as (r1 & w1 & E1 & E). apply advance_kept in E1.
  apply bind_Done in E as (u & w2 & E2 & E).
  apply bind_Done in E as (u' & w3 & E3 & E). apply debug_memory_kept in E3.
  injection E as _ <-.
  assert (K2 : f w2 = f w1).
  { destruct (negb _) in E2; [now apply call_kept in E2|]. now injection E2 as _ <-. }
  congruence.
Qed.

End Kept.


Lemma process_debugger_requests_validate dbg ctx w r w' :
  process_debugger_requests dbg ctx w = Done (r, w') -> validate w' = validate w.
Proof. apply (process_debugger_requests_kept validate); intros; reflexivity. Qed.

Lemma retire_frame_validate dbg ctx step req w r w' :
  retire_frame rr_flags dbg ctx step req w = Done (r, w') -> validate w' = validate w.
Proof. apply (retire_frame_kept validate); intros; reflexivity. Qed.

(** X24: when the replay starts to validate.  A frame that
    replay_one_trace_frame has processed leaves [validate] as it found it,
    but for the frame of the exit of an execve system call (a frame with a
    stop reason that is none of the USR_ reasons tested before it and not
    a signal, in the state STATE_SYSCALL_EXIT): that frame sets it.  So
    validate, once set, stays set, and neither the debugger nor the trace
    steps touch it. *)
Theorem validate_after_frame dbg ctx stack_req w r w' :
  replay_one_trace_frame rr_flags dbg ctx stack_req w = Done (r, w') ->
  let reason := stop_reason (trace ctx) in
  validate w' =
    validate w
    || (negb (reason =? USR_INIT_SCRATCH_MEM) && negb (reason =? USR_EXIT)
        && negb (reason =? USR_FLUSH) && negb (reason <? 0)
        && (state (trace ctx) =? STATE_SYSCALL_EXIT) && (reason =? SYS_execve)).
Proof.
  intros E reason. unfold replay_one_trace_frame in E.
  apply bind_Done in E as ([req dbg1] & w1 & E1 & E).
  assert (V1 : validate w1 = validate w).
  { destruct (validate w) eqn:Hv.
    - apply bind_Done in E1 as (r1 & wa & Ea & E1).
      apply process_debugger_requests_validate in Ea.
      destruct (negb (dbg_is_resume_request r1.1)); [discriminate|].
      injection E1 as _ <-. congruence.
    - injection E1 as _ _ <-. exact Hv. }
  apply bind_Done in E as (u & w2 & E2 & E).
  assert (V2 : validate w2 = validate w).
  { destruct (_ =? 0) in E2; [apply call_kept with (f := validate) in E2
                             | injection E2 as _ <-]; try congruence.
    intros; reflexivity. }
  cbn [fst snd] in E.
  destruct (negb (child_sig ctx =? 0) && _) in E; [discriminate|].
  set (ctx0 := if negb (child_sig ctx =? 0) then set_child_sig 0 ctx else ctx) in E.
  assert (Htr : trace ctx0 = trace ctx).
  { unfold ctx0. now destruct (negb (child_sig ctx =? 0)). }
  rewrite Htr in E. fold reason in E.
  destruct (reason =? USR_INIT_SCRATCH_MEM).
  { apply bind_Done in E as (u1 & w3 & E3 & E).
    apply bind_Done in E as (u2 & w4 & E4 & E).
    apply (replay_init_scratch_memory_kept validate) in E3; [|intros; reflexivity..].
    apply (call_kept validate) in E4; [|intros; reflexivity].
    apply retire_frame_validate in E. cbn [negb andb]. rewrite orb_false_r. congruence. }
  destruct (reason =? USR_EXIT).
  { apply bind_Done in E as (u1 & w3 & E3 & E).
    apply bind_Done in E as (u2 & w4 & E4 & E).
    apply (call_kept validate) in E3; [|intros; reflexivity].
    injection E4 as _ <-. injection E as _ <-.
    cbn [negb andb validate set_sched]. rewrite orb_false_r. congruence. }
  destruct (reason =? USR_FLUSH).
  { apply bind_Done in E as (u1 & w3 & E3 & E).
    apply (call_kept validate) in E3; [|intros; reflexivity].
    apply retire_frame_validate in E. cbn [negb andb]. rewrite orb_false_r. congruence. }
  destruct (reason <? 0).
  { apply bind_Done in E as (u1 & w3 & E3 & E).
    apply (call_kept validate) in E3; [|intros; reflexivity].
    apply retire_frame_validate in E. cbn [negb andb]. rewrite orb_false_r. congruence. }
  apply bind_Done in E as (u1 & w3 & E3 & E).
  apply bind_Done in E as (u2 & w4 & E4 & E).
  injection E3 as _ <-.
  apply (call_kept validate) in E4; [|intros; reflexivity].
  apply retire_frame_validate in E. cbn [negb andb].
  rewrite E, E4. cbn [validate set_validate]. now rewrite V2.
Qed.


(** *** Waiting for the tracee *)

Lemma cont_syscall_boundary_from_skips chld : forall ctx emu stepi w s rest,
  replay_sig ctx = 0 ->
  Forall (fun c => signal_pending (stop_status c) = SIGCHLD) chld ->
  signal_pending (stop_status s) = 0 \/ signal_pending (stop_status s) = SIGTRAP ->
  exists w',
    cont_syscall_boundary_from (chld ++ s :: rest) ctx emu stepi w =
      Done ((if signal_pending (stop_status s) =? 0 then 0 else 1,
             set_child_sig (signal_pending (stop_status s))
               (set_status (stop_status s) ctx)), w') /\
    stops w' = rest /\ child_regs w' (child_tid ctx) = stop_regs s /\
    out w' = out w ++ replicate (S (length chld)) (ptrace_request ctx emu stepi)
                   ++ (if signal_pending (stop_status s) =? 0
                       then [rep_child_buffer0 (child_tid ctx)] else []).
Proof.
  induction chld as [|c chld IH]; intros ctx emu stepi w s rest Hrs Hall Hs.
  - cbn [app cont_syscall_boundary_from]. rewrite Hrs. cbn [Z.eqb negb].
    cbn [child_sig set_child_sig status set_status child_tid].
    destruct Hs as [Hs|Hs]; rewrite Hs.
    + cbn [Z.eqb negb]. eexists. split; [reflexivity|]. cbn.
      rewrite ?Z.eqb_refl, <- ?app_assoc. repeat split.
    + change (SIGTRAP =? 0) with false. change (SIGTRAP =? SIGCHLD) with false.
      rewrite Z.eqb_refl. eexists. split; [reflexivity|]. cbn.
      rewrite ?Z.eqb_refl, ?app_nil_r. repeat split.
  - apply Forall_cons in Hall as [Hc Hall].
    cbn [app cont_syscall_boundary_from]. rewrite Hrs. cbn [Z.eqb negb].
    cbn [child_sig set_child_sig status set_status child_tid].
    rewrite Hc. change (SIGCHLD =? 0) with false. rewrite Z.eqb_refl.
    destruct (IH (set_child_sig SIGCHLD (set_status (stop_status c) ctx)) emu stepi
                (write_child_registers (child_tid ctx) (stop_regs c)
                   (set_stops (chld ++ s :: rest) (emit (ptrace_request ctx emu stepi) w)))
                s rest Hrs Hall Hs) as (w' & E & Hst & Hregs & Hout).
    exists w'. split; [exact E|]. split; [exact Hst|]. split; [exact Hregs|].
    rewrite Hout. cbn [out write_child_registers set_child_regs set_stops emit length
                       replicate].
    rewrite <- !app_assoc. reflexivity.
Qed.

(** X22: cont_syscall_boundary swallows any number of SIGCHLD stops.
    With the stops to come being SIGCHLD stops followed by a stop at the
    boundary (no signal pending) or at a trap, the function advances the
    tracee once per stop, with the same ptrace request each time, and
    returns 0 at the boundary (after rep_child_buffer0) and 1 at the trap,
    the context holding the status and the signal of that last stop and
    the tracee's registers being those of that stop. *)
Theorem cont_syscall_boundary_skips_sigchld ctx emu stepi w chld s rest :
  replay_sig ctx = 0 ->
  stops w = chld ++ s :: rest ->
  Forall (fun c => signal_pending (stop_status c) = SIGCHLD) chld ->
  signal_pending (stop_status s) = 0 \/ signal_pending (stop_status s) = SIGTRAP ->
  exists w',
    cont_syscall_boundary ctx emu stepi w =
      Done ((if signal_pending (stop_status s) =? 0 then 0 else 1,
             set_child_sig (signal_pending (stop_status s))
               (set_status (stop_status s) ctx)), w') /\
    stops w' = rest /\ child_regs w' (child_tid ctx) = stop_regs s /\
    out w' = out w ++ replicate (S (length chld)) (ptrace_request ctx emu stepi)
                   ++ (if signal_pending (stop_status s) =? 0
                       then [rep_child_buffer0 (child_tid ctx)] else []).
Proof.
  intros Hrs Hstops Hall Hs. unfold cont_syscall_boundary. rewrite Hstops.
  exact (cont_syscall_boundary_from_skips chld ctx emu stepi w s rest Hrs Hall Hs).
Qed.


(** *** Leaving an emulated system call *)

Lemma replied_emit e l w : replied l (emit e w) = replied (e :: l) w.
Proof. unfold replied, emit. cbn. now rewrite <- app_assoc. Qed.

Lemma replied_nil w : replied [] w = w.
Proof. unfold replied. destruct w. cbn. now rewrite app_nil_r. Qed.

Lemma replied_app l1 l2 w : replied l2 (replied l1 w) = replied (l1 ++ l2) w.
Proof. unfold replied. cbn. now rewrite app_assoc. Qed.

(** The loop over the emulated memory arguments: one write per argument,
    to the memory of this tracee only, and only where the trace holds a
    byte for one of the arguments. *)
Lemma set_child_data_loop_exact ctx n : forall from w,
  exists w1,
    set_child_data_loop ctx from n w = Done (tt, w1) /\
    out w1 = out w ++ replicate n (wrote_child_data (child_tid ctx)) /\
    child_regs w1 = child_regs w /\ stops w1 = stops w /\ validate w1 = validate w /\
    (forall t x, t <> child_tid ctx -> child_mem w1 t x = child_mem w t x) /\
    (forall x, (forall i, (from <= i < from + n)%nat -> child_data (trace ctx) i x = None) ->
               child_mem w1 (child_tid ctx) x = child_mem w (child_tid ctx) x).
Proof.
  induction n as [|n IH]; intros from w; cbn [set_child_data_loop replicate].
  - exists w. rewrite app_nil_r. repeat split.
  - unfold bind at 1. unfold set_child_data at 1.
    match goal with
    | |- context [set_child_data_loop ctx (S from) n ?wa] =>
      destruct (IH (S from) wa) as (w1 & E & Ho & Hr & Hs & Hv & Hm & Hd)
    end.
    exists w1. split; [exact E|]. cbn in Ho, Hr, Hs, Hv, Hm, Hd.
    split; [rewrite Ho, <- app_assoc; reflexivity|].
    split; [exact Hr|]. split; [exact Hs|]. split; [exact Hv|]. split.
    + intros t x Ht. rewrite (Hm t x Ht).
      destruct (t =? child_tid ctx) eqn:Et; [apply Z.eqb_eq in Et; contradiction|].
      reflexivity.
    + intros x Hx. rewrite Hd by (intros i Hi; apply Hx; lia).
      rewrite Z.eqb_refl, (Hx from) by lia. reflexivity.
Qed.

(** X23: the exit of an emulated system call.  exit_syscall for a step
    that is emulated does not advance to a boundary.  It pushes the
    recorded data of each emulated memory argument into the tracee and, if
    the return is emulated, injects the recorded return value into eax;
    then it validates: with [validate] on, registers that differ from the
    recorded ones are a fatal error.  Otherwise it steps once over the
    system call instruction, whatever the debugger asked, and writes back
    the registers from before that step: the tracee ends with its
    registers from before the call but for the injected eax, the memory
    of the other tracees and every byte no argument holds untouched, and
    the context has neither status nor signal to replay. *)
Theorem exit_syscall_emulated ctx step stepi w s rest :
  syscall_emu step = true -> replay_sig ctx = 0 -> stops w = s :: rest ->
  let tid := child_tid ctx in
  let regs := if syscall_emu_ret step
              then set_eax (eax (recorded_regs (trace ctx))) (child_regs w tid)
              else child_regs w tid in
  (validate w = false \/ regs = recorded_regs (trace ctx) ->
     exists w',
       exit_syscall ctx step stepi w =
         Done ((0, set_status 0 (set_replay_sig 0 ctx)), w') /\
       stops w' = rest /\
       child_regs w' tid = regs /\
       (forall t, t <> tid -> child_regs w' t = child_regs w t) /\
       (forall t x, t <> tid -> child_mem w' t x = child_mem w t x) /\
       (forall x, (forall i, (i < syscall_num_emu_args step)%nat ->
                             child_data (trace ctx) i x = None) ->
                  child_mem w' tid x = child_mem w tid x) /\
       out w' = out w
                ++ replicate (syscall_num_emu_args step) (wrote_child_data tid)
                ++ (if syscall_emu_ret step then [wrote_return_value tid] else [])
                ++ [sys_ptrace_sysemu_singlestep tid 0]) /\
  (validate w = true -> regs <> recorded_regs (trace ctx) ->
     exit_syscall ctx step stepi w = Fatal "[syscall number, state, trace file line]").
Proof.
  intros Hemu Hrs Hstops tid regs.
  destruct (set_child_data_loop_exact ctx (syscall_num_emu_args step) 0%nat w)
    as (w1 & E1 & Ho1 & Hr1 & Hs1 & Hv1 & Hm1 & Hd1).
  set (w2 := if syscall_emu_ret step
             then write_child_registers tid regs (emit (wrote_return_value tid) w1)
             else w1).
  assert (E2 : (if syscall_emu_ret step then set_return_value ctx else ret tt) w1
               = Done (tt, w2)).
  { unfold w2, regs. destruct (syscall_emu_ret step); [|reflexivity].
    unfold set_return_value. fold tid. now rewrite Hr1. }
  assert (Hv2 : validate w2 = validate w).
  { unfold w2. destruct (syscall_emu_ret step); exact Hv1. }
  assert (Hs2 : stops w2 = s :: rest).
  { unfold w2. destruct (syscall_emu_ret step); cbn; congruence. }
  assert (Hr2 : child_regs w2 tid = regs).
  { unfold w2, regs. destruct (syscall_emu_ret step).
    - cbn. now rewrite Z.eqb_refl.
    - now rewrite Hr1. }
  assert (Hr2' : forall t, t <> tid -> child_regs w2 t = child_regs w t).
  { intros t Ht. unfold w2. destruct (syscall_emu_ret step).
    - cbn. apply Z.eqb_neq in Ht. now rewrite Ht, Hr1.
    - now rewrite Hr1. }
  assert (Hm2 : child_mem w2 = child_mem w1).
  { unfold w2. now destruct (syscall_emu_ret step). }
  assert (Ho2 : out w2 = out w1 ++ (if syscall_emu_ret step
                                     then [wrote_return_value tid] else [])).
  { unfold w2. destruct (syscall_emu_ret step); cbn; [reflexivity|].
    now rewrite app_nil_r. }
  assert (Start : exit_syscall ctx step stepi w =
            bind (validate_args (syscall_no step) STATE_SYSCALL_EXIT ctx)
                 (fun _ => bind (step_exit_syscall_emu ctx) (fun c => ret (0, c))) w2).
  { unfold exit_syscall. rewrite Hemu. cbn [negb].
    rewrite bind_ret_l'. cbn [fst snd Z.eqb negb].
    rewrite (PerfCounters_facts.bind_run _ _ _ _ _ E1).
    rewrite (PerfCounters_facts.bind_run _ _ _ _ _ E2). reflexivity. }
  assert (Val : validate_args (syscall_no step) STATE_SYSCALL_EXIT ctx w2 =
            if negb (validate w) then Done (tt, w2)
            else if negb (bool_decide (regs = recorded_regs (trace ctx)))
                 then Fatal "[syscall number, state, trace file line]"
                 else Done (tt, w2)).
  { unfold validate_args, compare_register_files. fold tid. now rewrite Hv2, Hr2. }
  rewrite Start. split.
  - intros Hok.
    assert (Hpass : validate_args (syscall_no step) STATE_SYSCALL_EXIT ctx w2
                    = Done (tt, w2)).
    { rewrite Val. destruct (validate w); [|reflexivity]. cbn [negb].
      destruct Hok as [Hok|Hok]; [discriminate|].
      now rewrite bool_decide_eq_true_2. }
    rewrite (PerfCounters_facts.bind_run _ _ _ _ _ Hpass).
    unfold bind, step_exit_syscall_emu. rewrite Hrs. cbn [Z.eqb negb].
    unfold sys_waitpid. cbn [stops emit]. rewrite Hs2. fold tid. rewrite Hr2.
    eexists. split; [reflexivity|].
    cbn [stops out child_regs child_mem write_child_registers set_child_regs set_stops
         emit child_tid set_status].
    fold tid. split; [reflexivity|].
    split; [now rewrite Z.eqb_refl|].
    split; [intros t Ht; apply Z.eqb_neq in Ht; rewrite !Ht; apply Hr2';
            now apply Z.eqb_neq|].
    split; [intros t x Ht; rewrite Hm2; now apply Hm1|].
    split; [intros x Hx; rewrite Hm2; apply Hd1; intros i Hi; apply Hx; lia|].
    rewrite Ho2, Ho1, <- !app_assoc. reflexivity.
  - intros Hv Hne. unfold bind at 1. rewrite Val, Hv. cbn [negb].
    now rewrite bool_decide_eq_false_2.
Qed.

(** *** Requests that only ask *)

Lemma serve_queries reqs : forall ctx w r w',
  Forall is_query reqs ->
  serve_requests reqs ctx w = Done (r, w') ->
  exists replies,
    w' = replied replies w /\
    (length replies + length r.2 + 1 = length reqs)%nat.
Proof.
  induction reqs as [|req reqs IH]; intros ctx w r w' Hall; [discriminate|].
  apply Forall_cons in Hall as [[Hns Hnr] Hall].
  cbn [serve_requests].
  destruct (dbg_is_resume_request req).
  { intros [= <- <-]. exists []. rewrite replied_nil. cbn. split; [reflexivity | lia]. }
  assert (Hcall : forall e (m : WM unit),
            (forall wa, m wa = call (e wa) wa) ->
            bind m (fun _ => serve_requests reqs ctx) w = Done (r, w') ->
            exists replies,
              w' = replied replies w /\
              (length replies + length r.2 + 1 = length (req :: reqs))%nat).
  { intros e m Hm E. apply bind_Done in E as (u & w1 & E1 & E).
    rewrite Hm in E1. injection E1 as _ <-.
    apply (IH _ _ _ _ Hall) in E as (replies & -> & Hlen).
    exists (e w :: replies). rewrite replied_emit. cbn [length]. split; [reflexivity | lia]. }
  destruct (type req); try discriminate; try congruence;
    first [ apply (Hcall (fun _ => _)); reflexivity
          | eapply (Hcall (fun wa => _)); intros wa; reflexivity ].
Qed.

(** X25: a debugger that only asks changes nothing.  When
    process_debugger_requests returns from requests none of which sets or
    removes a software breakpoint, the breakpoint table, the memory and
    the registers of the tracees, the stops to come and [validate] are
    what they were: all that happened is one reply for each request before
    the resume request. *)
Theorem queries_change_nothing reqs ctx w req rest w' :
  Forall is_query reqs ->
  process_debugger_requests (Some reqs) ctx w = Done ((req, Some rest), w') ->
  exists replies,
    w' = replied replies w /\
    (length replies + length rest + 1 = length reqs)%nat /\
    dbg_is_resume_request req = true.
Proof.
  intros Hall E. unfold process_debugger_requests in E.
  apply bind_Done in E as ([r1 rest1] & w1 & E1 & E).
  injection E as <- <- <-.
  assert (Hres : dbg_is_resume_request r1 = true).
  { clear Hall. revert w E1. induction reqs as [|q reqs IH]; intros w; [discriminate|].
    cbn [serve_requests]. destruct (dbg_is_resume_request q) eqn:Hq.
    { now intros [= <- _ _]. }
    assert (Hrec : forall (m : WM unit) w0,
              bind m (fun _ => serve_requests reqs ctx) w0 = Done ((r1, rest1), w1) ->
              dbg_is_resume_request r1 = true).
    { intros m w0 E. apply bind_Done in E as (u & w2 & _ & E). exact (IH _ E). }
    destruct (type q); try discriminate; try apply Hrec.
    - intros E. apply bind_Done in E as (u & w2 & _ & E). revert E. apply Hrec.
    - intros E. apply bind_Done in E as (u & w2 & _ & E). revert E. apply Hrec. }
  destruct (serve_queries reqs ctx w _ _ Hall E1) as (replies & -> & Hlen).
  exists replies. auto.
Qed.


(** *** How many breakpoints the table takes *)

Lemma find_free_after filled m :
  Forall (fun bp => addr bp <> NULL) filled ->
  (length filled + S m = MAX_NUM_BREAKPOINTS)%nat ->
  find_breakpoint (filled ++ replicate (S m) zeroed) NULL = Some (length filled).
Proof.
  intros Hfilled Hlen.
  apply find_breakpoint_Some.
  { rewrite length_app, length_replicate. exact Hlen. }
  exists zeroed. split.
  { rewrite lookup_app_r by lia. now rewrite Nat.sub_diag. }
  split; [reflexivity|].
  intros j bj Hj Hlt. rewrite lookup_app_l in Hj by exact Hlt.
  rewrite Forall_lookup in Hfilled. exact (Hfilled j bj Hj).
Qed.

Lemma insert_after filled m (bp : breakpoint) :
  <[length filled := bp]> (filled ++ replicate (S m) zeroed)
  = (filled ++ [bp]) ++ replicate m zeroed.
Proof.
  rewrite insert_app_r_alt by lia. rewrite Nat.sub_diag. cbn.
  now rewrite <- app_assoc.
Qed.

Lemma serve_sets sets : forall ctx filled m w resume rest,
  breakpoint_table w = filled ++ replicate m zeroed ->
  Forall (fun bp => addr bp <> NULL) filled ->
  (length filled + m = MAX_NUM_BREAKPOINTS)%nat ->
  Forall sets_breakpoint sets ->
  Forall (fun r => dbg_is_resume_request r = false) sets ->
  dbg_is_resume_request resume = true ->
  ((length sets <= m)%nat ->
     exists w',
       serve_requests (sets ++ resume :: rest) ctx w = Done ((resume, rest), w') /\
       map addr (breakpoint_table w') =
         map addr filled ++ map mem_addr sets ++ replicate (m - length sets) NULL /\
       out w' = out w ++ replicate (length sets) (dbg_reply_watchpoint_request 0)) /\
  ((m < length sets)%nat ->
     serve_requests (sets ++ resume :: rest) ctx w =
       AssertFailed "bp && 'Sorry, ran out of breakpoints'").
Proof.
  induction sets as [|r sets IH]; intros ctx filled m w resume rest Htab Hfilled Hlen
                                         Hsets Hnr Hres.
  - cbn [app length serve_requests]. rewrite Hres. split; [|lia].
    intros _. eexists. split; [reflexivity|].
    rewrite Htab. change (map addr ?l) with (addr <$> l).
    rewrite fmap_app, fmap_replicate, Nat.sub_0_r. cbn.
    split; [reflexivity|]. now rewrite app_nil_r.
  - apply Forall_cons in Hsets as [(Hty & Hl & Hnn) Hsets].
    apply Forall_cons in Hnr as [Hr Hnr].
    cbn [app length serve_requests]. rewrite Hr, Hty.
    destruct m as [|m].
    + split; [lia|]. intros _.
      assert (Hnone : find_breakpoint (breakpoint_table w) NULL = None).
      { apply absent_find_breakpoint. rewrite Htab. cbn. now rewrite app_nil_r. }
      unfold bind, set_sw_breakpoint. now rewrite Hl, Z.eqb_refl, Hnone.
    + assert (Hf : find_breakpoint (breakpoint_table w) NULL = Some (length filled)).
      { rewrite Htab. now apply find_free_after. }
      rewrite (PerfCounters_facts.bind_run _ _ _ _ _
                 (set_sw_breakpoint_exact ctx r w (length filled) Hl Hf)).
      unfold bind at 1. unfold call at 1.
      set (bp := {| addr := mem_addr r;
                    overwritten_data := child_mem w (child_tid ctx) (mem_addr r) |}).
      match goal with
      | |- context [serve_requests _ ctx ?w2] =>
        destruct (IH ctx (filled ++ [bp]) m w2 resume rest) as [Hfit Hover];
          [ cbn; rewrite Htab; apply insert_after
          | apply Forall_app; split; [exact Hfilled | repeat constructor; exact Hnn]
          | rewrite length_app; cbn; lia
          | exact Hsets | exact Hnr | exact Hres | ]
      end.
      split.
      * intros Hle. destruct Hfit as (w' & E & Ht & Ho); [lia|].
        exists w'. split; [exact E|]. split.
        -- rewrite Ht. change (map addr ?l) with (addr <$> l).
           rewrite fmap_app. cbn. now rewrite <- app_assoc.
        -- rewrite Ho. cbn. now rewrite <- app_assoc.
      * intros Hlt. apply Hover. lia.
Qed.

(** X21: the table takes 128 breakpoints and no more.  Starting from the
    empty table, requests to set software breakpoints at non-null
    addresses are all granted, each with a reply of 0, as long as there are
    at most 128 of them: the entries are taken in order, the i-th request
    filling the i-th entry.  With more than 128 the request loop does not
    reach the resume request: the 129th request fails the assertion that a
    free entry was found. *)
Theorem breakpoint_table_capacity ctx sets resume rest w :
  breakpoint_table w = empty_table ->
  Forall sets_breakpoint sets ->
  Forall (fun r => dbg_is_resume_request r = false) sets ->
  dbg_is_resume_request resume = true ->
  ((length sets <= MAX_NUM_BREAKPOINTS)%nat ->
     exists w',
       process_debugger_requests (Some (sets ++ resume :: rest)) ctx w
         = Done ((resume, Some rest), w') /\
       map addr (breakpoint_table w') =
         map mem_addr sets ++ replicate (MAX_NUM_BREAKPOINTS - length sets) NULL /\
       out w' = out w ++ replicate (length sets) (dbg_reply_watchpoint_request 0)) /\
  ((MAX_NUM_BREAKPOINTS < length sets)%nat ->
     process_debugger_requests (Some (sets ++ resume :: rest)) ctx w =
       AssertFailed "bp && 'Sorry, ran out of breakpoints'").
Proof.
  intros Htab Hsets Hnr Hres.
  destruct (serve_sets sets ctx [] MAX_NUM_BREAKPOINTS w resume rest)
    as [Hfit Hover]; try assumption; [constructor | reflexivity |].
  unfold process_debugger_requests. split.
  - intros Hle. destruct (Hfit Hle) as (w' & E & Ht & Ho).
    exists w'. now rewrite (PerfCounters_facts.bind_run _ _ _ _ _ E).
  - intros Hlt. unfold bind. now rewrite (Hover Hlt).
Qed.


(** *** Entering a system call *)

(** One wait at a syscall boundary or at a trap. *)
Lemma cont_syscall_boundary_one ctx emu stepi w s rest :
  replay_sig ctx = 0 -> stops w = s :: rest ->
  let sig := signal_pending (stop_status s) in
  let ctx1 := set_child_sig sig (set_status (stop_status s) ctx) in
  let w1 := write_child_registers (child_tid ctx) (stop_regs s)
              (set_stops rest (emit (ptrace_request ctx emu stepi) w)) in
  (sig = 0 ->
     cont_syscall_boundary ctx emu stepi w =
       Done ((0, ctx1), emit (rep_child_buffer0 (child_tid ctx)) w1)) /\
  (sig = SIGTRAP -> cont_syscall_boundary ctx emu stepi w = Done ((1, ctx1), w1)).
Proof.
  intros Hrs Hstops sig ctx1 w1.
  assert (E : cont_syscall_boundary ctx emu stepi w =
    if sig =? 0 then Done ((0, ctx1), emit (rep_child_buffer0 (child_tid ctx)) w1)
    else if sig =? SIGCHLD then cont_syscall_boundary_from rest ctx1 emu stepi w1
    else if sig =? SIGTRAP then Done ((1, ctx1), w1)
    else no_return (emergency_debug ctx1
                      (emit (log_err "Replay got unrecorded signal" sig) w1))).
  { unfold cont_syscall_boundary. rewrite Hstops.
    cbn [cont_syscall_boundary_from]. rewrite Hrs. cbn [Z.eqb negb].
    cbn [child_sig set_child_sig status set_status child_tid].
    fold sig. destruct (sig =? 0); reflexivity. }
  rewrite E. split; intros Hs; rewrite Hs; reflexivity.
Qed.

(** X26: the registers are checked at the entry of a system call.  When
    the tracee stops at the boundary, enter_syscall returns 0 if nothing
    is validated yet (no exec seen) or if the registers the tracee stopped
    with are the recorded ones; once validation is on, registers that
    differ from the recorded ones are a fatal error. *)
Theorem enter_syscall_validates ctx step stepi w s rest :
  replay_sig ctx = 0 -> stops w = s :: rest -> signal_pending (stop_status s) = 0 ->
  (validate w = false \/ stop_regs s = recorded_regs (trace ctx) ->
     exists w',
       enter_syscall ctx step stepi w =
         Done ((0, set_child_sig 0 (set_status (stop_status s) ctx)), w') /\
       stops w' = rest /\
       out w' = out w ++ [ptrace_request ctx (syscall_emu step) stepi;
                          rep_child_buffer0 (child_tid ctx)]) /\
  (validate w = true -> stop_regs s <> recorded_regs (trace ctx) ->
     enter_syscall ctx step stepi w = Fatal "[syscall number, state, trace file line]").
Proof.
  intros Hrs Hstops Hsig.
  destruct (cont_syscall_boundary_one ctx (syscall_emu step) stepi w s rest Hrs Hstops)
    as [H0 _].
  specialize (H0 Hsig). rewrite Hsig in H0.
  unfold enter_syscall. rewrite (PerfCounters_facts.bind_run _ _ _ _ _ H0).
  cbn [fst snd Z.eqb negb]. unfold bind, validate_args.
  cbn [validate emit write_child_registers set_child_regs set_stops child_regs
       child_tid set_child_sig set_status trace].
  rewrite Z.eqb_refl. unfold compare_register_files.
  split.
  - intros Hok. destruct (validate w) eqn:Hv; cbn [negb].
    + destruct Hok as [Hok|Hok]; [discriminate|].
      rewrite bool_decide_eq_true_2 by exact Hok. cbn [negb].
      eexists. split; [reflexivity|]. cbn. split; [reflexivity|].
      now rewrite <- app_assoc.
    + eexists. split; [reflexivity|]. cbn. split; [reflexivity|].
      now rewrite <- app_assoc.
  - intros Hv Hne. rewrite Hv. cbn [negb].
    now rewrite bool_decide_eq_false_2 by exact Hne.
Qed.

(** *** A trap on the way *)

(** Serving the debugger only adds to what was said to it. *)
Lemma serve_requests_appends reqs : forall ctx w r w',
  serve_requests reqs ctx w = Done (r, w') -> exists l, out w' = out w ++ l.
Proof.
  induction reqs as [|req reqs IH]; intros ctx w r w'; [discriminate|].
  cbn [serve_requests].
  destruct (dbg_is_resume_request req).
  { intros [= _ <-]. exists []. now rewrite app_nil_r. }
  assert (Hcall : forall (m : WM unit) w0,
            (forall wa u wb, m wa = Done (u, wb) -> exists l, out wb = out wa ++ l) ->
            bind m (fun _ => serve_requests reqs ctx) w0 = Done (r, w') ->
            exists l, out w' = out w0 ++ l).
  { intros m w0 Hm E. apply bind_Done in E as (u & w1 & E1 & E).
    apply Hm in E1 as [l1 E1]. apply IH in E as [l2 E].
    exists (l1 ++ l2). now rewrite E, E1, app_assoc. }
  assert (Hemit : forall e wa u wb, call e wa = Done (u, wb) -> exists l, out wb = out wa ++ l).
  { intros e wa u wb [= _ <-]. now exists [e]. }
  destruct (type req); try discriminate;
    try (apply Hcall; intros wa u wb; apply Hemit).
  - intros E. apply bind_Done in E as (u1 & w1 & E1 & E).
    assert (O1 : out w1 = out w).
    { revert E1. unfold set_sw_breakpoint.
      destruct (negb (sizeof_int_3_insn =? mem_len req)); [discriminate|].
      destruct (find_breakpoint (breakpoint_table w) NULL); [|discriminate].
      now intros [= _ <-]. }
    rewrite <- O1. revert E. apply Hcall. intros wa u wb. apply Hemit.
  - intros E. apply bind_Done in E as (u1 & w1 & E1 & E).
    assert (O1 : exists l, out w1 = out w ++ l).
    { revert E1. unfold remove_sw_breakpoint.
      destruct (negb (sizeof_int_3_insn =? mem_len req)); [discriminate|].
      destruct (find_breakpoint (breakpoint_table w) (mem_addr req)) as [i|].
      - destruct (breakpoint_table w !! i); [|discriminate].
        intros [= _ <-]. exists []. cbn. now rewrite app_nil_r.
      - intros [= _ <-]. eexists. reflexivity. }
    destruct O1 as [l1 O1].
    assert (E' : exists l, out w' = out w1 ++ l).
    { revert E. apply Hcall. intros wa u wb. apply Hemit. }
    destruct E' as [l2 E']. exists (l1 ++ l2). now rewrite E', O1, app_assoc.
Qed.

Lemma process_debugger_requests_appends dbg ctx w r w' :
  process_debugger_requests dbg ctx w = Done (r, w') -> exists l, out w' = out w ++ l.
Proof.
  unfold process_debugger_requests. destruct dbg as [reqs|].
  - intros E. apply bind_Done in E as (r1 & w1 & E1 & E).
    apply serve_requests_appends in E1. now injection E as _ <-.
  - intros [= _ <-]. exists []. now rewrite app_nil_r.
Qed.

(** enter_syscall when the next stop is at the boundary. *)
Lemma enter_syscall_at_boundary ctx step stepi w s rest :
  replay_sig ctx = 0 -> stops w = s :: rest -> signal_pending (stop_status s) = 0 ->
  enter_syscall ctx step stepi w =
    if validate w && negb (bool_decide (stop_regs s = recorded_regs (trace ctx)))
    then Fatal "[syscall number, state, trace file line]"
    else Done ((0, set_child_sig 0 (set_status (stop_status s) ctx)),
               emit (rep_child_buffer0 (child_tid ctx))
                 (write_child_registers (child_tid ctx) (stop_regs s)
                    (set_stops rest
                       (emit (ptrace_request ctx (syscall_emu step) stepi) w)))).
Proof.
  intros Hrs Hstops Hsig.
  destruct (cont_syscall_boundary_one ctx (syscall_emu step) stepi w s rest Hrs Hstops)
    as [H0 _].
  specialize (H0 Hsig). rewrite Hsig in H0.
  unfold enter_syscall. rewrite (PerfCounters_facts.bind_run _ _ _ _ _ H0).
  cbn [fst snd Z.eqb negb]. unfold bind, validate_args.
  cbn [validate emit write_child_registers set_child_regs set_stops child_regs
       child_tid set_child_sig set_status trace].
  rewrite Z.eqb_refl. unfold compare_register_files.
  destruct (validate w); cbn [negb andb]; [|reflexivity].
  now destruct (bool_decide (stop_regs s = recorded_regs (trace ctx))).
Qed.

(** X27: a trap while a frame is replayed.  On the way to the entry of a
    system call the tracee stops with SIGTRAP.  Unless the instruction
    before its instruction pointer is a breakpoint of the table or the
    debugger had asked to step this thread, the loop of
    replay_one_trace_frame fails its assertion on the trap.  Otherwise it
    notifies the debugger of a stop with signal 5 and serves its requests;
    what these return must be a resume request (the loop asserts it), and
    the step is tried again with it: at the boundary the registers are
    validated as at any entry, and the loop ends with the connection as
    the debugger left it.  Between the two requests to the tracee there is
    the notification and whatever the debugger was answered. *)
Theorem advance_reports_trap fuel dbg ctx step req w trap s rest :
  action step = TSTEP_ENTER_SYSCALL -> replay_sig ctx = 0 ->
  stops w = trap :: s :: rest ->
  signal_pending (stop_status trap) = SIGTRAP ->
  signal_pending (stop_status s) = 0 ->
  let stepi := fun r : dbg_request =>
    bool_decide (type r = DREQ_STEP) && (get_threadid ctx =? target r) in
  let trapped := set_child_sig SIGTRAP (set_status (stop_status trap) ctx) in
  let notified :=
    emit (dbg_notify_stop (get_threadid ctx) 5)
      (write_child_registers (child_tid ctx) (stop_regs trap)
         (set_stops (s :: rest)
            (emit (ptrace_request ctx (syscall_emu step) (stepi req)) w))) in
  let expected :=
    eip_is_breakpoint (eip (stop_regs trap)) w
    || (bool_decide (type req = DREQ_STEP) && (target req =? get_threadid ctx)) in
  (expected = false ->
     advance (S (S fuel)) dbg ctx step req w =
       AssertFailed "eip_is_breakpoint(read_child_eip(tid)) || stepi was requested") /\
  (expected = true ->
     forall resume dbg' w2,
       process_debugger_requests dbg trapped notified = Done ((resume, dbg'), w2) ->
       (dbg_is_resume_request resume = false ->
          advance (S (S fuel)) dbg ctx step req w =
            AssertFailed "dbg_is_resume_request(&req)") /\
       (dbg_is_resume_request resume = true ->
          (validate w = false \/ stop_regs s = recorded_regs (trace ctx) ->
             exists w' replies,
               advance (S (S fuel)) dbg ctx step req w =
                 Done ((dbg', set_child_sig 0 (set_status (stop_status s) ctx)), w') /\
               stops w' = rest /\
               child_regs w' (child_tid ctx) = stop_regs s /\
               out w' = out w
                        ++ [ptrace_request ctx (syscall_emu step) (stepi req);
                            dbg_notify_stop (get_threadid ctx) 5]
                        ++ replies
                        ++ [ptrace_request ctx (syscall_emu step) (stepi resume);
                            rep_child_buffer0 (child_tid ctx)]) /\
          (validate w = true -> stop_regs s <> recorded_regs (trace ctx) ->
             advance (S (S fuel)) dbg ctx step req w =
               Fatal "[syscall number, state, trace file line]"))).
Proof.
  intros Hact Hrs Hstops Htrap Hsig stepi trapped notified expected.
  destruct (cont_syscall_boundary_one ctx (syscall_emu step) (stepi req) w trap (s :: rest)
              Hrs Hstops) as [_ H1].
  specialize (H1 Htrap). rewrite Htrap in H1. fold trapped in H1.
  set (w1 := write_child_registers (child_tid ctx) (stop_regs trap)
               (set_stops (s :: rest)
                  (emit (ptrace_request ctx (syscall_emu step) (stepi req)) w))) in *.
  assert (T1 : try_one_trace_step ctx step req w = Done ((1, trapped), w1)).
  { unfold try_one_trace_step. rewrite Hact. unfold enter_syscall.
    fold (stepi req). now rewrite (PerfCounters_facts.bind_run _ _ _ _ _ H1). }
  assert (Hok : (eip_is_breakpoint (eip (child_regs w1 (child_tid trapped))) w1
                 || (bool_decide (type req = DREQ_STEP)
                     && (target req =? get_threadid trapped))) = expected).
  { unfold expected, w1, trapped. cbn. now rewrite Z.eqb_refl. }
  assert (Turn : forall k,
    advance (S k) dbg ctx step req w =
      if expected
      then bind (process_debugger_requests dbg trapped)
             (fun r => if negb (dbg_is_resume_request r.1)
                       then assert_failed "dbg_is_resume_request(&req)"
                       else advance k r.2 trapped step r.1) notified
      else AssertFailed "eip_is_breakpoint(read_child_eip(tid)) || stepi was requested").
  { intros k. cbn [advance]. rewrite (PerfCounters_facts.bind_run _ _ _ _ _ T1).
    cbn [fst snd]. change (1 =? 0) with false. cbv iota.
    change (child_sig trapped) with SIGTRAP. rewrite Z.eqb_refl. cbn [negb].
    unfold bind at 1. unfold ret at 1. cbv beta iota. rewrite Hok.
    destruct expected; cbn [negb]; reflexivity. }
  rewrite Turn.
  split; intros He; rewrite He; [reflexivity|].
  intros resume dbg' w2 Hp.
  rewrite (PerfCounters_facts.bind_run _ _ _ _ _ Hp). cbn [fst snd].
  split; intros Hres; rewrite Hres; cbn [negb]; [reflexivity|].
  (* the step is tried again *)
  assert (Hs2 : stops w2 = s :: rest).
  { now rewrite (process_debugger_requests_stops _ _ _ _ _ Hp). }
  assert (Hv2 : validate w2 = validate w).
  { now rewrite (process_debugger_requests_validate _ _ _ _ _ Hp). }
  destruct (process_debugger_requests_appends _ _ _ _ _ Hp) as [replies Ho2].
  assert (T2 : try_one_trace_step trapped step resume w2 =
            if validate w && negb (bool_decide (stop_regs s = recorded_regs (trace ctx)))
            then Fatal "[syscall number, state, trace file line]"
            else Done ((0, set_child_sig 0 (set_status (stop_status s) ctx)),
                       emit (rep_child_buffer0 (child_tid ctx))
                         (write_child_registers (child_tid ctx) (stop_regs s)
                            (set_stops rest
                               (emit (ptrace_request ctx (syscall_emu step) (stepi resume))
                                     w2))))).
  { unfold try_one_trace_step. rewrite Hact.
    rewrite (enter_syscall_at_boundary trapped step _ w2 s rest Hrs Hs2 Hsig).
    rewrite Hv2. reflexivity. }
  assert (A2 : advance (S fuel) dbg' trapped step resume w2 =
            if validate w && negb (bool_decide (stop_regs s = recorded_regs (trace ctx)))
            then Fatal "[syscall number, state, trace file line]"
            else Done ((dbg', set_child_sig 0 (set_status (stop_status s) ctx)),
                       emit (rep_child_buffer0 (child_tid ctx))
                         (write_child_registers (child_tid ctx) (stop_regs s)
                            (set_stops rest
                               (emit (ptrace_request ctx (syscall_emu step) (stepi resume))
                                     w2))))).
  { cbn [advance]. unfold bind at 1. rewrite T2.
    now destruct (validate w && _). }
  rewrite A2. clear A2 T2.
  split.
  - intros Hok2.
    assert (Hc : validate w && negb (bool_decide (stop_regs s = recorded_regs (trace ctx)))
                 = false).
    { destruct Hok2 as [->| ->]; [reflexivity|].
      rewrite bool_decide_eq_true_2 by reflexivity. apply andb_false_r. }
    rewrite Hc. cbn [fst snd Z.eqb].
    eexists _, replies. split; [reflexivity|].
    cbn [stops out child_regs emit write_child_registers set_child_regs set_stops].
    split; [reflexivity|]. split; [now rewrite Z.eqb_refl|].
    rewrite Ho2. unfold notified, w1.
    cbn [out emit write_child_registers set_child_regs set_stops].
    rewrite <- !app_assoc. reflexivity.
  - intros Hv Hne. rewrite Hv. rewrite bool_decide_eq_false_2 by exact Hne. reflexivity.
Qed.

(** *** The frame that reserves the scratch memory *)

(** X28: a USR_INIT_SCRATCH_MEM frame.  Before the first exec, with no
    signal carried over, replay_one_trace_frame has the tracee map the
    scratch region of the trace with an injected mmap2: at the recorded
    start, of the recorded length, PROT_NONE, private and anonymous, with
    no file.  It writes back the registers the tracee had, notes the
    region as scratch, retires the frame without waiting for the tracee and
    resets the ticks counter (the stop reason not being USR_FLUSH). *)
Theorem scratch_memory_frame dbg ctx stack_req w :
  validate w = false -> child_sig ctx = 0 ->
  stop_reason (trace ctx) = USR_INIT_SCRATCH_MEM ->
  USR_INIT_SCRATCH_MEM <> USR_FLUSH ->
  exists mmap_call dm w',
    replay_one_trace_frame rr_flags dbg ctx stack_req w = Done ((dbg, Retired ctx), w') /\
    out w' = out w
             ++ (if global_time (trace ctx) mod 10000 =? 0
                 then [progress (global_time (trace ctx))] else [])
             ++ [inject_and_execute_syscall (child_tid ctx) mmap_call;
                 add_scratch (eax (recorded_regs (trace ctx)))
                   (file_end (scratch_file (trace ctx))
                    - file_start (scratch_file (trace ctx)));
                 reset_hpc (child_tid ctx) 0]
             ++ dm /\
    Forall is_memory_check dm /\
    (eax mmap_call = SYS_mmap2 /\
     ebx mmap_call = file_start (scratch_file (trace ctx)) /\
     ecx mmap_call = file_end (scratch_file (trace ctx))
                     - file_start (scratch_file (trace ctx)) /\
     edx mmap_call = PROT_NONE /\ esi mmap_call = 34 /\ edi mmap_call = -1 /\
     ebp mmap_call = 0 /\
     eip mmap_call = eip (child_regs w (child_tid ctx)) /\
     esp mmap_call = esp (child_regs w (child_tid ctx))) /\
    (forall t, child_regs w' t = child_regs w t) /\
    stops w' = stops w /\ validate w' = false.
Proof.
  intros Hv Hsig Hinit Hnf.
  unfold replay_one_trace_frame.
  unfold bind at 1. rewrite Hv. unfold ret at 1. cbn [fst snd].
  set (pre := if global_time (trace ctx) mod 10000 =? 0
              then [progress (global_time (trace ctx))] else []).
  assert (Ep : (if global_time (trace ctx) mod 10000 =? 0
                then call (progress (global_time (trace ctx))) else ret tt) w
               = Done (tt, replied pre w)).
  { unfold pre. destruct (_ =? 0).
    - unfold call. now rewrite <- replied_emit, replied_nil.
    - now rewrite replied_nil. }
  rewrite (PerfCounters_facts.bind_run _ _ _ _ _ Ep).
  rewrite Hsig. cbn [Z.eqb negb andb]. rewrite Hinit, Z.eqb_refl.
  unfold bind at 1, replay_init_scratch_memory.
  unfold bind at 1, call at 1.
  unfold retire_frame. unfold bind at 1.
  cbn [advance try_one_trace_step retire action]. rewrite bind_ret_l'.
  cbn [fst snd Z.eqb]. unfold ret at 1. cbn [fst snd].
  rewrite Hinit. apply Z.eqb_neq in Hnf. rewrite Hnf. cbn [negb].
  unfold bind at 1, call at 1. unfold bind at 1.
  match goal with
  | |- context [debug_memory rr_flags ctx ?wa] =>
    destruct (debug_memory_out rr_flags ctx wa) as (dm & Hdm & ->)
  end.
  eexists _, dm, _. split; [reflexivity|].
  cbn [out emit write_child_registers set_child_regs replied child_regs validate stops].
  split; [rewrite <- !app_assoc; reflexivity|].
  split; [exact Hdm|].
  split; [repeat split|].
  split; [|split; [reflexivity | exact Hv]].
  intros t. destruct (t =? child_tid ctx) eqn:Et; [|reflexivity].
  apply Z.eqb_eq in Et. now subst.
Qed.

End Frames.

Lemma breakpoints_at_set n :
  Forall sets_breakpoint (breakpoints_at n) /\
  Forall (fun r => dbg_is_resume_request (Headers := sample_headers) r = false)
         (breakpoints_at n).
Proof.
  unfold breakpoints_at. split; apply Forall_fmap, Forall_forall; intros i _.
  - repeat split. cbn. unfold NULL. lia.
  - reflexivity.
Qed.

(** 128 breakpoints are granted; of 129, the last aborts the replayer. *)
Lemma breakpoint_table_capacity_witness :
  (exists w',
     process_debugger_requests (hdr := sample_headers)
       (Some (breakpoints_at 128 ++ request DREQ_CONTINUE 0 :: [])) (task_at 0)
       (fresh_world []) = Done ((request DREQ_CONTINUE 0, Some []), w') /\
     map addr (breakpoint_table w') =
       map mem_addr (breakpoints_at 128)
       ++ replicate (MAX_NUM_BREAKPOINTS - length (breakpoints_at 128)) NULL /\
     out w' = out (fresh_world [])
              ++ replicate (length (breakpoints_at 128)) (dbg_reply_watchpoint_request 0)) /\
  process_debugger_requests (hdr := sample_headers)
    (Some (breakpoints_at 129 ++ request DREQ_CONTINUE 0 :: [])) (task_at 0)
    (fresh_world []) = AssertFailed "bp && 'Sorry, ran out of breakpoints'".
Proof.
  split.
  - apply (breakpoint_table_capacity (hdr := sample_headers) (task_at 0)
             (breakpoints_at 128) (request DREQ_CONTINUE 0) [] (fresh_world []));
      [reflexivity | apply breakpoints_at_set | apply breakpoints_at_set | reflexivity
      | unfold breakpoints_at; rewrite length_map, length_seq; reflexivity].
  - apply (breakpoint_table_capacity (hdr := sample_headers) (task_at 0)
             (breakpoints_at 129) (request DREQ_CONTINUE 0) [] (fresh_world []));
      [reflexivity | apply breakpoints_at_set | apply breakpoints_at_set | reflexivity
      | unfold breakpoints_at; rewrite length_map, length_seq;
        unfold MAX_NUM_BREAKPOINTS; lia].
Defined.

(** Two SIGCHLD stops, then the stop at the system call. *)
Lemma cont_syscall_boundary_skips_sigchld_witness :
  exists w',
    cont_syscall_boundary (hdr := sample_headers) (task_at 0) false false
      (fresh_world [stopped_with SIGCHLD; stopped_with SIGCHLD;
                    stopped_with (Z.lor SIGTRAP 0x80)]) =
      Done ((0, set_child_sig 0
                  (set_status (stop_status (stopped_with (Z.lor SIGTRAP 0x80))) (task_at 0))),
            w') /\
    stops w' = [] /\ child_regs w' 100 = zero_regs /\
    out w' = [sys_ptrace_syscall_sig 100 0; sys_ptrace_syscall_sig 100 0;
              sys_ptrace_syscall_sig 100 0; rep_child_buffer0 100].
Proof.
  apply (cont_syscall_boundary_skips_sigchld (hdr := sample_headers) (task_at 0) false false
           (fresh_world [stopped_with SIGCHLD; stopped_with SIGCHLD;
                         stopped_with (Z.lor SIGTRAP 0x80)])
           [stopped_with SIGCHLD; stopped_with SIGCHLD]
           (stopped_with (Z.lor SIGTRAP 0x80)) []);
    [reflexivity | reflexivity | repeat constructor | left; reflexivity].
Defined.

(** The exit of an emulated read that returned 42, once registers are
    validated: with the return value injected the registers are the
    recorded ones; without it they are not. *)
Lemma exit_syscall_emulated_witness :
  (exists w',
     exit_syscall (hdr := sample_headers) read_exit emulated_exit true
       (validating_world [stopped_with SIGTRAP]) =
       Done ((0, set_status 0 (set_replay_sig 0 read_exit)), w') /\
     stops w' = [] /\
     child_regs w' 100 = set_eax 42 zero_regs /\
     child_mem w' 100 0x2000 = 7 /\
     out w' = [wrote_child_data 100; wrote_child_data 100; wrote_return_value 100;
               sys_ptrace_sysemu_singlestep 100 0]) /\
  exit_syscall (hdr := sample_headers) read_exit
    {| action := TSTEP_EXIT_SYSCALL; syscall_no := 3; syscall_emu := true;
       syscall_emu_ret := false; syscall_num_emu_args := 2 |} true
    (validating_world [stopped_with SIGTRAP]) =
    Fatal "[syscall number, state, trace file line]".
Proof.
  split.
  - destruct (exit_syscall_emulated (hdr := sample_headers) read_exit emulated_exit true
                (validating_world [stopped_with SIGTRAP]) (stopped_with SIGTRAP) []
                eq_refl eq_refl eq_refl) as [Hok _].
    destruct (Hok (or_intror eq_refl)) as (w' & E & Hs & Hr & _ & _ & _ & Ho).
    exists w'. split; [exact E|]. split; [exact Hs|]. split; [exact Hr|].
    split; [|exact Ho].
    revert E. vm_compute. intros [= <-]. reflexivity.
  - destruct (exit_syscall_emulated (hdr := sample_headers) read_exit
                {| action := TSTEP_EXIT_SYSCALL; syscall_no := 3; syscall_emu := true;
                   syscall_emu_ret := false; syscall_num_emu_args := 2 |} true
                (validating_world [stopped_with SIGTRAP]) (stopped_with SIGTRAP) []
                eq_refl eq_refl eq_refl) as [_ Hbad].
    apply Hbad; [reflexivity | discriminate].
Defined.

(** The frame of the exit of execve, before which nothing was validated. *)
Lemma validate_after_frame_witness :
  exists r w',
    replay_one_trace_frame (hdr := sample_headers) no_flags None execve_exit
      continue_all_tasks (fresh_world []) = Done (r, w') /\
    validate (fresh_world []) = false /\ validate w' = true.
Proof.
  evar (r : (option (list dbg_request) * frame_end)%type). evar (w' : World).
  assert (E : replay_one_trace_frame (hdr := sample_headers) no_flags None execve_exit
                continue_all_tasks (fresh_world []) = Done (r, w'))
    by (unfold r, w'; vm_compute; reflexivity).
  exists r, w'. split; [exact E|]. split; [reflexivity|].
  exact (validate_after_frame (hdr := sample_headers) no_flags None execve_exit
           continue_all_tasks (fresh_world []) r w' E).
Defined.

(** The debugger reads the registers and a byte of memory, then continues. *)
Lemma queries_change_nothing_witness :
  exists w' replies,
    process_debugger_requests (hdr := sample_headers)
      (Some [request DREQ_GET_REGS 0; request DREQ_GET_MEM 0x1000; request DREQ_CONTINUE 0])
      (task_at 0) (fresh_world []) = Done ((request DREQ_CONTINUE 0, Some []), w') /\
    w' = replied replies (fresh_world []) /\
    length replies = 2%nat.
Proof.
  evar (w' : World).
  assert (E : process_debugger_requests (hdr := sample_headers)
                (Some [request DREQ_GET_REGS 0; request DREQ_GET_MEM 0x1000;
                       request DREQ_CONTINUE 0])
                (task_at 0) (fresh_world []) = Done ((request DREQ_CONTINUE 0, Some []), w'))
    by (unfold w'; vm_compute; reflexivity).
  assert (Hall : Forall is_query
                   [request DREQ_GET_REGS 0; request DREQ_GET_MEM 0x1000;
                    request DREQ_CONTINUE 0])
    by (repeat constructor; discriminate).
  destruct (queries_change_nothing (hdr := sample_headers) _ _ _ _ _ _ Hall E)
    as (replies & H1 & H2 & _).
  exists w', replies. split; [exact E|]. split; [exact H1|]. cbn in H2. lia.
Defined.

(** A syscall stop before the first exec, and one with registers that
    are not the recorded ones once registers are validated. *)
Lemma enter_syscall_validates_witness :
  (exists w',
     enter_syscall (hdr := sample_headers) (task_at 3) emulated_entry false
       (fresh_world [stopped_at (Z.lor SIGTRAP 0x80) 0x2000]) =
       Done ((0, set_child_sig 0
                   (set_status (stop_status (stopped_at (Z.lor SIGTRAP 0x80) 0x2000))
                      (task_at 3))), w') /\
     stops w' = [] /\
     out w' = [sys_ptrace_sysemu 100; rep_child_buffer0 100]) /\
  enter_syscall (hdr := sample_headers) (task_at 3) emulated_entry false
    (validating_world [stopped_at (Z.lor SIGTRAP 0x80) 0x2000]) =
    Fatal "[syscall number, state, trace file line]".
Proof.
  split.
  - destruct (enter_syscall_validates (hdr := sample_headers) (task_at 3) emulated_entry
                false (fresh_world [stopped_at (Z.lor SIGTRAP 0x80) 0x2000])
                (stopped_at (Z.lor SIGTRAP 0x80) 0x2000) [] eq_refl eq_refl eq_refl)
      as [Hok _].
    exact (Hok (or_introl eq_refl)).
  - destruct (enter_syscall_validates (hdr := sample_headers) (task_at 3) emulated_entry
                false (validating_world [stopped_at (Z.lor SIGTRAP 0x80) 0x2000])
                (stopped_at (Z.lor SIGTRAP 0x80) 0x2000) [] eq_refl eq_refl eq_refl)
      as [_ Hbad].
    apply Hbad; [reflexivity | discriminate].
Defined.

(** After the exec, the tracee traps after the breakpoint at 0x1000; the
    debugger reads the registers and continues.  Without the breakpoint
    the trap fails the assertion. *)
Lemma advance_reports_trap_witness :
  (exists w' replies,
     advance (hdr := sample_headers) 2
       (Some [request DREQ_GET_REGS 0; request DREQ_CONTINUE 0]) (task_at 3)
       emulated_entry continue_all_tasks
       (set_validate true
          (world_with_breakpoint 0x1000
             [stopped_at SIGTRAP 0x1001; stopped_with (Z.lor SIGTRAP 0x80)])) =
       Done ((Some [],
              set_child_sig 0
                (set_status (stop_status (stopped_with (Z.lor SIGTRAP 0x80))) (task_at 3))),
             w') /\
     stops w' = [] /\
     child_regs w' 100 = zero_regs /\
     out w' = [sys_ptrace_sysemu 100; dbg_notify_stop 100 5] ++ replies
              ++ [sys_ptrace_sysemu 100; rep_child_buffer0 100]) /\
  advance (hdr := sample_headers) 2
    (Some [request DREQ_GET_REGS 0; request DREQ_CONTINUE 0]) (task_at 3)
    emulated_entry continue_all_tasks
    (validating_world [stopped_at SIGTRAP 0x1001; stopped_with (Z.lor SIGTRAP 0x80)]) =
    AssertFailed "eip_is_breakpoint(read_child_eip(tid)) || stepi was requested".
Proof.
  split.
  - destruct (advance_reports_trap (hdr := sample_headers) 0
                (Some [request DREQ_GET_REGS 0; request DREQ_CONTINUE 0])
                (task_at 3) emulated_entry continue_all_tasks
                (set_validate true
                   (world_with_breakpoint 0x1000
                      [stopped_at SIGTRAP 0x1001; stopped_with (Z.lor SIGTRAP 0x80)]))
                (stopped_at SIGTRAP 0x1001) (stopped_with (Z.lor SIGTRAP 0x80)) []
                eq_refl eq_refl eq_refl eq_refl eq_refl) as [_ Hhit].
    specialize (Hhit eq_refl).
    evar (w2 : World).
    assert (Hp : process_debugger_requests (hdr := sample_headers)
                   (Some [request DREQ_GET_REGS 0; request DREQ_CONTINUE 0])
                   (set_child_sig SIGTRAP
                      (set_status (stop_status (stopped_at SIGTRAP 0x1001)) (task_at 3)))
                   (emit (dbg_notify_stop 100 5)
                      (write_child_registers 100 (stop_regs (stopped_at SIGTRAP 0x1001))
                         (set_stops [stopped_with (Z.lor SIGTRAP 0x80)]
                            (emit (sys_ptrace_sysemu 100)
                               (set_validate true
                                  (world_with_breakpoint 0x1000
                                     [stopped_at SIGTRAP 0x1001;
                                      stopped_with (Z.lor SIGTRAP 0x80)]))))))
                 = Done ((request DREQ_CONTINUE 0, Some []), w2))
      by (unfold w2; vm_compute; reflexivity).
    destruct (Hhit _ _ _ Hp) as [_ Hres].
    destruct (Hres eq_refl) as [Hok _].
    exact (Hok (or_intror eq_refl)).
  - destruct (advance_reports_trap (hdr := sample_headers) 0
                (Some [request DREQ_GET_REGS 0; request DREQ_CONTINUE 0])
                (task_at 3) emulated_entry continue_all_tasks
                (validating_world
                   [stopped_at SIGTRAP 0x1001; stopped_with (Z.lor SIGTRAP 0x80)])
                (stopped_at SIGTRAP 0x1001) (stopped_with (Z.lor SIGTRAP 0x80)) []
                eq_refl eq_refl eq_refl eq_refl eq_refl) as [Hmiss _].
    exact (Hmiss eq_refl).
Defined.

(** The frame that reserves the scratch memory, in a fresh world. *)
Lemma scratch_memory_frame_witness :
  exists mmap_call dm w',
    replay_one_trace_frame (hdr := sample_headers) no_flags None
      (task_at USR_INIT_SCRATCH_MEM) continue_all_tasks (fresh_world []) =
      Done ((None, Retired (task_at USR_INIT_SCRATCH_MEM)), w') /\
    out w' = [inject_and_execute_syscall 100 mmap_call; add_scratch 0 0; reset_hpc 100 0]
             ++ dm /\
    eax mmap_call = 192 /\ edx mmap_call = 0 /\ esi mmap_call = 34 /\ edi mmap_call = -1.
Proof.
  destruct (scratch_memory_frame (hdr := sample_headers) no_flags None
              (task_at USR_INIT_SCRATCH_MEM) continue_all_tasks (fresh_world [])
              ltac:(reflexivity) ltac:(reflexivity) ltac:(reflexivity) ltac:(discriminate))
    as (c & dm & w' & E & Hout & _ & (Ha & _ & _ & Hd & Hs & Hi & _) & _).
  exists c, dm, w'. split; [exact E|]. split; [exact Hout|].
  split; [exact Ha|]. split; [exact Hd|]. split; [exact Hs | exact Hi].
Defined.

End replayer_facts.
